(** * Shallow embedding of the V3DV meta-copy command-list encoder
      (src/broadcom/vulkan/v3dv_meta_copy.c) and of the Bifrost packing
      test helpers, with the properties stated about them. *)

From Stdlib Require Import ZArith List Bool Lia.
Import ListNotations.
Local Open Scope Z_scope.

(** ** Machine integers

    [uint32_t] and [uint64_t] values are integers in [0, 2^32) and
    [0, 2^64); every C operation that can leave the range is followed by
    the reduction the hardware performs. *)

Definition to_uint32 (z : Z) : Z := z mod 2 ^ 32.
Definition to_uint64 (z : Z) : Z := z mod 2 ^ 64.
Definition INT_MAX : Z := 2 ^ 31 - 1.

(** ** Outcomes of a C function

    A function either returns, trips an [assert], leaves defined
    behaviour (signed overflow, division by zero, a read past an array),
    fails to obtain a job, or spends the loop budget it was given. *)

Inductive outcome (A : Type) : Type :=
| Done (a : A)
| Assert_failure
| Undefined_behaviour
| No_job
| Out_of_fuel.

Arguments Done {A} a.
Arguments Assert_failure {A}.
Arguments Undefined_behaviour {A}.
Arguments No_job {A}.
Arguments Out_of_fuel {A}.

Definition bind {A B : Type} (m : outcome A) (k : A -> outcome B) : outcome B :=
  match m with
  | Done a => k a
  | Assert_failure => Assert_failure
  | Undefined_behaviour => Undefined_behaviour
  | No_job => No_job
  | Out_of_fuel => Out_of_fuel
  end.

Definition c_assert (b : bool) : outcome unit :=
  if b then Done tt else Assert_failure.

Declare Scope outcome_scope.
Delimit Scope outcome_scope with outcome.
Notation "x <- m ;; k" := (bind m (fun x => k))
  (at level 61, m at next level, right associativity) : outcome_scope.
Notation "m ;;; k" := (bind m (fun _ => k))
  (at level 61, right associativity) : outcome_scope.
Local Open Scope outcome_scope.

(** ** Tiling geometry: [framebuffer_size_for_pixel_count] *)

Definition max_dim_pixels : Z := 4096.
Definition max_pixels : Z := to_uint32 (max_dim_pixels * max_dim_pixels).

(** The guard of the [while] loop:
    [w > max_dim_pixels || ((w % 2) == 0 && w > 2 * h)]. *)
Definition size_loop_cond (w h : Z) : bool :=
  (max_dim_pixels <? w) || ((w mod 2 =? 0) && (to_uint32 (2 * h) <? w)).

(** The [while] loop; each turn shifts the 32-bit [w] right, so at most 32
    turns can happen before the guard fails. *)
Fixpoint size_loop (fuel : nat) (w h : Z) : outcome (Z * Z) :=
  if size_loop_cond w h then
    match fuel with
    | O => Out_of_fuel
    | S fuel' => size_loop fuel' (Z.shiftr w 1) (to_uint32 (Z.shiftl h 1))
    end
  else Done (w, h).

Definition framebuffer_size_for_pixel_count (num_pixels : Z) : outcome (Z * Z) :=
  c_assert (0 <? num_pixels) ;;;
  wh <- (if max_pixels <? num_pixels
         then Done (max_dim_pixels, max_dim_pixels)
         else size_loop 32 num_pixels 1) ;;
  let '(w, h) := wh in
  c_assert ((w <=? max_dim_pixels) && (h <=? max_dim_pixels)) ;;;
  c_assert (to_uint32 (w * h) <=? num_pixels) ;;;
  c_assert ((0 <? w) && (0 <? h)) ;;;
  Done (w, h).

(** ** Vulkan and hardware enumerations used by the encoder *)

(** [VkFormat] codes, [VkImageAspectFlagBits] and [VK_WHOLE_SIZE].  The
    Vulkan header is not among the sources; these are the values the
    Vulkan API assigns.  The encoder only tells the formats apart and
    tests the aspect bits. *)
Definition VkFormat := Z.
Definition VK_FORMAT_UNDEFINED : VkFormat := 0.
Definition VK_FORMAT_R8_UINT : VkFormat := 13.
Definition VK_FORMAT_R8G8_UINT : VkFormat := 20.
Definition VK_FORMAT_R8G8B8A8_UINT : VkFormat := 41.
Definition VK_FORMAT_D16_UNORM : VkFormat := 124.
Definition VK_FORMAT_X8_D24_UNORM_PACK32 : VkFormat := 125.
Definition VK_FORMAT_D32_SFLOAT : VkFormat := 126.
Definition VK_FORMAT_S8_UINT : VkFormat := 127.
Definition VK_FORMAT_D16_UNORM_S8_UINT : VkFormat := 128.
Definition VK_FORMAT_D24_UNORM_S8_UINT : VkFormat := 129.
Definition VK_FORMAT_D32_SFLOAT_S8_UINT : VkFormat := 130.

Definition VkImageAspectFlags := Z.
Definition VK_IMAGE_ASPECT_COLOR_BIT : VkImageAspectFlags := 1.
Definition VK_IMAGE_ASPECT_DEPTH_BIT : VkImageAspectFlags := 2.
Definition VK_IMAGE_ASPECT_STENCIL_BIT : VkImageAspectFlags := 4.

Definition VK_SAMPLE_COUNT_1_BIT : Z := 1.
Definition VK_WHOLE_SIZE : Z := 2 ^ 64 - 1.

Inductive VkImageType := VK_IMAGE_TYPE_1D | VK_IMAGE_TYPE_2D | VK_IMAGE_TYPE_3D.

(** [aspect & BIT] used as a C truth value. *)
Definition has_aspect (aspect bit : VkImageAspectFlags) : bool :=
  negb (Z.land aspect bit =? 0).

(** The formats that carry depth or stencil; every other format is a colour
    format, the only kind an image with a colour aspect can have. *)
Definition vk_format_is_depth_or_stencil (f : VkFormat) : bool :=
  (f =? VK_FORMAT_D16_UNORM) || (f =? VK_FORMAT_X8_D24_UNORM_PACK32)
  || (f =? VK_FORMAT_D32_SFLOAT) || (f =? VK_FORMAT_S8_UINT)
  || (f =? VK_FORMAT_D16_UNORM_S8_UINT) || (f =? VK_FORMAT_D24_UNORM_S8_UINT)
  || (f =? VK_FORMAT_D32_SFLOAT_S8_UINT).

(** Members of the hardware's output-image-format enumeration that the
    encoder names; a format table may also hold the others, kept by code. *)
Inductive output_image_format :=
| V3D_OUTPUT_IMAGE_FORMAT_R16UI
| V3D_OUTPUT_IMAGE_FORMAT_R32F
| V3D_OUTPUT_IMAGE_FORMAT_RGBA8UI
| V3D_OUTPUT_IMAGE_FORMAT_RG8UI
| V3D_OUTPUT_IMAGE_FORMAT_R8UI
| V3D_OUTPUT_IMAGE_FORMAT_NO
| V3D_OUTPUT_IMAGE_FORMAT_unnamed (code : Z).

Inductive internal_type :=
| V3D_INTERNAL_TYPE_8UI
| V3D_INTERNAL_TYPE_16UI
| V3D_INTERNAL_TYPE_32F
| V3D_INTERNAL_TYPE_unnamed (code : Z).

(** Modelled from the spec: the header that numbers the internal
    bits-per-pixel classes is missing.  The prologue compares them with
    [>=], and the spec orders them 32 < 64 < 128 (the second and third
    clear-colour records are emitted when the internal bpp reaches the
    64-bit and the 128-bit threshold); the codes keep that order. *)
Definition V3D_INTERNAL_BPP_32 : Z := 0.
Definition V3D_INTERNAL_BPP_64 : Z := 1.
Definition V3D_INTERNAL_BPP_128 : Z := 2.

Inductive v3d_tiling_mode :=
| VC5_TILING_RASTER
| VC5_TILING_LINEARTILE
| VC5_TILING_UBLINEAR_1_COLUMN
| VC5_TILING_UBLINEAR_2_COLUMN
| VC5_TILING_UIF_NO_XOR
| VC5_TILING_UIF_XOR.

Definition is_uif (t : v3d_tiling_mode) : bool :=
  match t with
  | VC5_TILING_UIF_NO_XOR | VC5_TILING_UIF_XOR => true
  | _ => false
  end.

Inductive pipe_swizzle :=
| PIPE_SWIZZLE_X | PIPE_SWIZZLE_Y | PIPE_SWIZZLE_Z | PIPE_SWIZZLE_W
| PIPE_SWIZZLE_0 | PIPE_SWIZZLE_1 | PIPE_SWIZZLE_NONE.

Definition pipe_swizzle_eqb (a b : pipe_swizzle) : bool :=
  match a, b with
  | PIPE_SWIZZLE_X, PIPE_SWIZZLE_X | PIPE_SWIZZLE_Y, PIPE_SWIZZLE_Y
  | PIPE_SWIZZLE_Z, PIPE_SWIZZLE_Z | PIPE_SWIZZLE_W, PIPE_SWIZZLE_W
  | PIPE_SWIZZLE_0, PIPE_SWIZZLE_0 | PIPE_SWIZZLE_1, PIPE_SWIZZLE_1
  | PIPE_SWIZZLE_NONE, PIPE_SWIZZLE_NONE => true
  | _, _ => false
  end.

(** Tile-buffer selectors of the general load and store packets. *)
Inductive tlb_buffer :=
| RENDER_TARGET_0 | NONE | Z_BUFFER | STENCIL_BUFFER | ZSTENCIL_BUFFER.

Inductive decimate_mode :=
| V3D_DECIMATE_MODE_SAMPLE_0 | V3D_DECIMATE_MODE_ALL_SAMPLES.

(** ** Driver objects *)

Record v3d_resource_slice := {
  slice_tiling : v3d_tiling_mode;
  slice_stride : Z;
  padded_height_of_output_image_in_uif_blocks : Z
}.

Record v3dv_format := {
  rt_type : output_image_format
}.

Record v3dv_bo := {
  bo_handle : Z;
  bo_size : Z
}.

Record v3dv_image := {
  image_type : VkImageType;
  image_vk_format : VkFormat;
  image_extent_depth : Z;
  image_cpp : Z;
  image_samples : Z;
  image_slices : list v3d_resource_slice;
  image_bo : v3dv_bo
}.

Record v3dv_buffer := {
  buffer_size : Z;
  buffer_bo : v3dv_bo
}.

Record v3dv_frame_tiling := {
  width : Z;
  height : Z;
  layers : Z;
  internal_bpp : Z;
  tile_width : Z;
  tile_height : Z;
  supertile_width : Z;
  supertile_height : Z
}.

Record framebuffer_data := {
  fb_internal_type : internal_type;
  min_x_supertile : Z;
  min_y_supertile : Z;
  max_x_supertile : Z;
  max_y_supertile : Z;
  vk_format : VkFormat;
  format : v3dv_format
}.

Record VkImageSubresourceLayers := {
  aspectMask : VkImageAspectFlags;
  mipLevel : Z;
  baseArrayLayer : Z;
  layerCount : Z
}.

Record VkExtent3D := {
  extent_width : Z;
  extent_height : Z;
  extent_depth : Z
}.

Record VkBufferImageCopy := {
  bufferOffset : Z;
  bufferRowLength : Z;
  bufferImageHeight : Z;
  imageSubresource : VkImageSubresourceLayers;
  imageExtent : VkExtent3D
}.

(** [union v3dv_clear_value]: four colour words; the depth/stencil view
    reads [z] from the bits of word 0 and [s] from the low byte of word 1. *)
Record v3dv_clear_value := {
  color0 : Z; color1 : Z; color2 : Z; color3 : Z
}.

Definition clear_value_z (v : v3dv_clear_value) : Z := color0 v.
Definition clear_value_s (v : v3dv_clear_value) : Z := color1 v mod 256.

(** Bit pattern of the [float] constant [1.0f]. *)
Definition float_one_bits : Z := 0x3f800000.

Record rcl_clear_info := {
  clear_value : v3dv_clear_value;
  clear_image : option v3dv_image;
  clear_aspects : VkImageAspectFlags;
  clear_layer : Z;
  clear_level : Z
}.

(** ** Control-list packets

    A control list is the sequence of packets appended to it; an address
    inside a list is the number of packets that precede it. *)

Record cl_address := { addr_bo : v3dv_bo; addr_offset : Z }.

Record load_tile_buffer_general := {
  buffer_to_load : tlb_buffer;
  load_address : cl_address;
  input_image_format : output_image_format;
  load_memory_format : v3d_tiling_mode;
  load_height_in_ub_or_stride : Z;
  load_decimate_mode : decimate_mode;
  load_r_b_swap : bool;
  load_channel_reverse : bool
}.

Record store_tile_buffer_general := {
  buffer_to_store : tlb_buffer;
  store_address : cl_address;
  clear_buffer_being_stored : bool;
  output_image_format_ : output_image_format;
  store_memory_format : v3d_tiling_mode;
  store_height_in_ub_or_stride : Z;
  store_decimate_mode : decimate_mode;
  store_r_b_swap : bool;
  store_channel_reverse : bool
}.

Inductive render_target_clamp := V3D_RENDER_TARGET_CLAMP_NONE.
Inductive tile_allocation_block_size := TILE_ALLOCATION_BLOCK_SIZE_64B.

Inductive cl_packet :=
| TILE_RENDERING_MODE_CFG_COMMON
    (early_z_disable : bool) (image_width_pixels image_height_pixels : Z)
    (number_of_render_targets : Z) (multisample_mode_4x : bool)
    (maximum_bpp_of_all_render_targets : Z)
| TILE_RENDERING_MODE_CFG_CLEAR_COLORS_PART1
    (clear_color_low_32_bits clear_color_next_24_bits render_target_number : Z)
| TILE_RENDERING_MODE_CFG_CLEAR_COLORS_PART2
    (clear_color_mid_low_32_bits clear_color_mid_high_24_bits
     render_target_number : Z)
| TILE_RENDERING_MODE_CFG_CLEAR_COLORS_PART3
    (uif_padded_height_in_uif_blocks clear_color_high_16_bits
     render_target_number : Z)
| TILE_RENDERING_MODE_CFG_COLOR
    (render_target_0_internal_bpp : Z)
    (render_target_0_internal_type : internal_type)
    (render_target_0_clamp : render_target_clamp)
| TILE_RENDERING_MODE_CFG_ZS_CLEAR_VALUES (z_clear_value stencil_clear_value : Z)
| TILE_LIST_INITIAL_BLOCK_SIZE
    (use_auto_chained_tile_lists : bool)
    (size_of_first_block_in_chained_tile_lists : tile_allocation_block_size)
| SUPERTILE_COORDINATES (column_number_in_supertiles row_number_in_supertiles : Z)
| TILE_COORDINATES_IMPLICIT
| END_OF_LOADS
| BRANCH_TO_IMPLICIT_TILE_LIST
| END_OF_TILE_MARKER
| RETURN_FROM_SUB_LIST
| LOAD_TILE_BUFFER_GENERAL (load : load_tile_buffer_general)
| STORE_TILE_BUFFER_GENERAL (store : store_tile_buffer_general)
| START_ADDRESS_OF_GENERIC_TILE_LIST (branch_start branch_end : nat).

Definition v3dv_cl := list cl_packet.

Definition cl_emit (cl : v3dv_cl) (p : cl_packet) : v3dv_cl := cl ++ [p].
Definition v3dv_cl_get_address (cl : v3dv_cl) : nat := length cl.

Record v3dv_job := {
  frame_tiling : v3dv_frame_tiling;
  rcl : v3dv_cl;
  indirect : v3dv_cl
}.

Definition set_rcl (job : v3dv_job) (cl : v3dv_cl) : v3dv_job :=
  {| frame_tiling := frame_tiling job; rcl := cl; indirect := indirect job |}.

Definition set_indirect (job : v3dv_job) (cl : v3dv_cl) : v3dv_job :=
  {| frame_tiling := frame_tiling job; rcl := rcl job; indirect := cl |}.

(** Conversion of a [uint32_t] to [int] (two's complement). *)
Definition to_int (z : Z) : Z := if z <? 2 ^ 31 then z else z - 2 ^ 32.

(** ** Supertile coverage and iteration *)

Definition supertile_w_in_pixels (t : v3dv_frame_tiling) : Z :=
  to_uint32 (tile_width t * supertile_width t).
Definition supertile_h_in_pixels (t : v3dv_frame_tiling) : Z :=
  to_uint32 (tile_height t * supertile_height t).

(** Inner loop [for (int x = min_x; x <= max_x; x++)]: the [int] counter is
    compared as unsigned with the [uint32_t] bound, and incrementing it
    past [INT_MAX] is undefined. *)
Fixpoint supertile_row (fuel : nat) (x max_x y : Z) (cl : v3dv_cl)
  : outcome v3dv_cl :=
  if to_uint32 x <=? max_x then
    match fuel with
    | O => Out_of_fuel
    | S fuel' =>
        let cl' := cl_emit cl (SUPERTILE_COORDINATES (to_uint32 x) (to_uint32 y)) in
        if x =? INT_MAX then Undefined_behaviour
        else supertile_row fuel' (x + 1) max_x y cl'
    end
  else Done cl.

(** Outer loop [for (int y = min_y; y <= max_y; y++)]. *)
Fixpoint supertile_rows (fuel : nat) (fuel_x : nat) (y min_x max_x max_y : Z)
  (cl : v3dv_cl) : outcome v3dv_cl :=
  if to_uint32 y <=? max_y then
    match fuel with
    | O => Out_of_fuel
    | S fuel' =>
        cl' <- supertile_row fuel_x (to_int min_x) max_x y cl ;;
        if y =? INT_MAX then Undefined_behaviour
        else supertile_rows fuel' fuel_x (y + 1) min_x max_x max_y cl'
    end
  else Done cl.

(** [fuel] bounds the number of turns of each of the two loops. *)
Definition emit_supertile_coordinates (fuel : nat) (job : v3dv_job)
  (framebuffer : framebuffer_data) : outcome v3dv_job :=
  let min_y := min_y_supertile framebuffer in
  let max_y := max_y_supertile framebuffer in
  let min_x := min_x_supertile framebuffer in
  let max_x := max_x_supertile framebuffer in
  cl <- supertile_rows fuel fuel (to_int min_y) min_x max_x max_y (rcl job) ;;
  Done (set_rcl job cl).

(** The integers [start, start+1, ...], [len] of them. *)
Fixpoint Zseq (start : Z) (len : nat) : list Z :=
  match len with
  | O => []
  | S len' => start :: Zseq (start + 1) len'
  end.

(** Row-major enumeration of a supertile rectangle: [y] outer, [x] inner. *)
Definition row_major_coordinates (min_x max_x min_y max_y : Z) : list cl_packet :=
  flat_map
    (fun y => map (fun x => SUPERTILE_COORDINATES x y)
                  (Zseq min_x (Z.to_nat (max_x - min_x + 1))))
    (Zseq min_y (Z.to_nat (max_y - min_y + 1))).

(** [ceil(a / b)] for positive [b]. *)
Definition ceil_div (a b : Z) : Z := (a + b - 1) / b.

(** ** TLB format selection *)

Definition choose_tlb_format (framebuffer : framebuffer_data)
  (aspect : VkImageAspectFlags)
  (for_store is_copy_to_buffer is_copy_from_buffer : bool)
  : outcome output_image_format :=
  if is_copy_to_buffer || is_copy_from_buffer then
    if vk_format framebuffer =? VK_FORMAT_D16_UNORM then
      Done V3D_OUTPUT_IMAGE_FORMAT_R16UI
    else if vk_format framebuffer =? VK_FORMAT_D32_SFLOAT then
      Done V3D_OUTPUT_IMAGE_FORMAT_R32F
    else if vk_format framebuffer =? VK_FORMAT_X8_D24_UNORM_PACK32 then
      Done V3D_OUTPUT_IMAGE_FORMAT_RGBA8UI
    else if vk_format framebuffer =? VK_FORMAT_D24_UNORM_S8_UINT then
      if has_aspect aspect VK_IMAGE_ASPECT_DEPTH_BIT then
        Done V3D_OUTPUT_IMAGE_FORMAT_RGBA8UI
      else
        c_assert (has_aspect aspect VK_IMAGE_ASPECT_STENCIL_BIT) ;;;
        if is_copy_to_buffer then
          Done (if for_store then V3D_OUTPUT_IMAGE_FORMAT_R8UI
                else V3D_OUTPUT_IMAGE_FORMAT_RGBA8UI)
        else
          c_assert is_copy_from_buffer ;;;
          Done (if for_store then V3D_OUTPUT_IMAGE_FORMAT_RGBA8UI
                else V3D_OUTPUT_IMAGE_FORMAT_R8UI)
    else Done (rt_type (format framebuffer))
  else Done (rt_type (format framebuffer)).

(** ** Instruction packing tests: the sweep helpers *)

Inductive bi_class :=
| BI_ADD | BI_FMA | BI_LOAD_UNIFORM | BI_LOAD_VAR_ADDRESS | BI_STORE_VAR.

(** Operand indices: [BIR_INDEX_REGISTER | n], [BIR_INDEX_CONSTANT],
    [BIR_INDEX_ZERO], and the zero of an initialiser that names no operand. *)
Inductive bir_index :=
| BIR_INDEX_REGISTER (n : Z)
| BIR_INDEX_CONSTANT
| BIR_INDEX_ZERO
| BIR_INDEX_unset.

(** [nir_type_float | size]; operands an initialiser leaves out are zero. *)
Inductive nir_alu_type :=
| nir_type_float_sized (size : Z)
| nir_type_invalid.

Record bi_instruction := {
  ins_type : bi_class;
  ins_src : list bir_index;
  ins_src_types : list nir_alu_type;
  ins_dest : bir_index;
  ins_dest_type : nir_alu_type;
  outmod : Z;
  src_abs : list bool;
  src_neg : list bool
}.

(** [a[i] = v] on an array held as a list. *)
Fixpoint array_set {A : Type} (a : list A) (i : nat) (v : A) : list A :=
  match a, i with
  | [], _ => []
  | _ :: t, O => v :: t
  | h :: t, S i' => h :: array_set t i' v
  end.

Definition set_outmod (ins : bi_instruction) (m : Z) : bi_instruction :=
  {| ins_type := ins_type ins; ins_src := ins_src ins;
     ins_src_types := ins_src_types ins; ins_dest := ins_dest ins;
     ins_dest_type := ins_dest_type ins; outmod := m;
     src_abs := src_abs ins; src_neg := src_neg ins |}.

Definition set_src_abs (ins : bi_instruction) (i : nat) (v : bool) : bi_instruction :=
  {| ins_type := ins_type ins; ins_src := ins_src ins;
     ins_src_types := ins_src_types ins; ins_dest := ins_dest ins;
     ins_dest_type := ins_dest_type ins; outmod := outmod ins;
     src_abs := array_set (src_abs ins) i v; src_neg := src_neg ins |}.

Definition set_src_neg (ins : bi_instruction) (i : nat) (v : bool) : bi_instruction :=
  {| ins_type := ins_type ins; ins_src := ins_src ins;
     ins_src_types := ins_src_types ins; ins_dest := ins_dest ins;
     ins_dest_type := ins_dest_type ins; outmod := outmod ins;
     src_abs := src_abs ins; src_neg := array_set (src_neg ins) i v |}.

(** [inmod & mask] stored into a [bool]. *)
Definition mask_set (inmod mask : Z) : bool := negb (Z.land inmod mask =? 0).

(** What a helper does that can be observed: the instructions it hands to
    [bit_test_single] (with the [fma] flag), and the failures it reports. *)
Inductive sweep_event :=
| Tested (ins : bi_instruction) (fma : bool)
| Failed (outmod inmod : Z).

(** [for (unsigned i = 0; i < n; ++i)] over a state [S]. *)
Fixpoint for_upto {S : Type} (n : nat) (i : Z) (body : Z -> S -> S) (s : S) : S :=
  match n with
  | O => s
  | S n' => for_upto n' (i + 1) body (body i s)
  end.

Section Sweep.

(** The verdict of [bit_test_single] on an instruction and a slot; the
    device, the input vector and the debug level are the same in every
    call of a sweep. *)
Variable bit_test_single : bi_instruction -> bool -> bool.

Definition fmod_initial_ins (c : bi_class) (size : Z) : bi_instruction :=
  let T := nir_type_float_sized size in
  {| ins_type := c;
     ins_src := [BIR_INDEX_REGISTER 0; BIR_INDEX_REGISTER 1;
                 BIR_INDEX_unset; BIR_INDEX_unset];
     ins_src_types := [T; T; nir_type_invalid; nir_type_invalid];
     ins_dest := BIR_INDEX_REGISTER 2;
     ins_dest_type := T;
     outmod := 0;
     src_abs := [false; false; false; false];
     src_neg := [false; false; false; false] |}.

Definition fmod_body (size : Z) (fma : bool) (outmod inmod : Z)
  (st : bi_instruction * list sweep_event) : bi_instruction * list sweep_event :=
  let '(ins, log) := st in
  let ins := set_outmod ins outmod in
  let ins := set_src_abs ins 0 (mask_set inmod 1) in
  let ins := set_src_abs ins 1 (mask_set inmod 2) in
  let ins := set_src_neg ins 0 (mask_set inmod 4) in
  let ins := set_src_neg ins 1 (mask_set inmod 8) in
  if fma && (size =? 16) && nth 0 (src_abs ins) false && nth 1 (src_abs ins) false
  then (ins, log)
  else if negb (bit_test_single ins fma)
       then (ins, log ++ [Tested ins fma; Failed outmod inmod])
       else (ins, log ++ [Tested ins fma]).

Definition bit_fmod_helper (c : bi_class) (size : Z) (fma : bool)
  : list sweep_event :=
  snd (for_upto 4 0
         (fun outmod st => for_upto 16 0 (fmod_body size fma outmod) st)
         (fmod_initial_ins c size, [])).

Definition fma_initial_ins (size : Z) : bi_instruction :=
  let T := nir_type_float_sized size in
  {| ins_type := BI_FMA;
     ins_src := [BIR_INDEX_REGISTER 0; BIR_INDEX_REGISTER 1;
                 BIR_INDEX_REGISTER 2; BIR_INDEX_unset];
     ins_src_types := [T; T; T; nir_type_invalid];
     ins_dest := BIR_INDEX_REGISTER 3;
     ins_dest_type := T;
     outmod := 0;
     src_abs := [false; false; false; false];
     src_neg := [false; false; false; false] |}.

Definition fma_body (outmod inmod : Z)
  (st : bi_instruction * list sweep_event) : bi_instruction * list sweep_event :=
  let '(ins, log) := st in
  let ins := set_outmod ins outmod in
  let ins := set_src_neg ins 0 (mask_set inmod 1) in
  let ins := set_src_neg ins 1 (mask_set inmod 2) in
  let ins := set_src_neg ins 2 (mask_set inmod 4) in
  if negb (bit_test_single ins true)
  then (ins, log ++ [Tested ins true; Failed outmod inmod])
  else (ins, log ++ [Tested ins true]).

Definition bit_fma_helper (size : Z) : list sweep_event :=
  snd (for_upto 4 0
         (fun outmod st => for_upto 8 0 (fma_body outmod) st)
         (fma_initial_ins size, [])).

End Sweep.

(** The instructions a sweep handed to [bit_test_single], in order. *)
Definition tested (log : list sweep_event) : list (bi_instruction * bool) :=
  flat_map (fun e => match e with
                     | Tested i f => [(i, f)]
                     | Failed _ _ => []
                     end) log.

(** ** The encoder proper

    The format table, the image layout helpers and the alignment helpers
    live in other files of the driver; the encoder is given them. *)

Section Encoder.

Set Default Proof Using "Type".

Variable v3dv_get_format : VkFormat -> v3dv_format.
Variable v3dv_get_format_swizzle : VkFormat -> nat -> pipe_swizzle.
Variable v3dv_layer_offset : v3dv_image -> Z -> Z -> Z.
Variable v3dv_zs_buffer_from_aspect_bits : VkImageAspectFlags -> tlb_buffer.
Variable v3d_utile_height : Z -> Z.
Variable align : Z -> Z -> Z.

Definition setup_framebuffer_data (vk_format : VkFormat)
  (internal_type : internal_type) (tiling : v3dv_frame_tiling)
  : outcome framebuffer_data :=
  let supertile_w := supertile_w_in_pixels tiling in
  let supertile_h := supertile_h_in_pixels tiling in
  if (supertile_w =? 0) || (supertile_h =? 0) then Undefined_behaviour
  else
    Done {| fb_internal_type := internal_type;
            min_x_supertile := 0;
            min_y_supertile := 0;
            max_x_supertile := to_uint32 (width tiling - 1) / supertile_w;
            max_y_supertile := to_uint32 (height tiling - 1) / supertile_h;
            vk_format := vk_format;
            format := v3dv_get_format vk_format |}.

Definition format_needs_rb_swap (format : VkFormat) : bool :=
  let swizzle := v3dv_get_format_swizzle format in
  pipe_swizzle_eqb (swizzle 0%nat) PIPE_SWIZZLE_Z.

(** [image->slices[level]]; reading past the array is undefined. *)
Definition slice_at (image : v3dv_image) (level : Z) : outcome v3d_resource_slice :=
  match nth_error (image_slices image) (Z.to_nat level) with
  | Some s => Done s
  | None => Undefined_behaviour
  end.

(** [align(tiling->height, uif_block_height) / uif_block_height] with
    [int uif_block_height = v3d_utile_height(image->cpp) * 2]. *)
Definition implicit_padded_height (tiling : v3dv_frame_tiling)
  (image : v3dv_image) : outcome Z :=
  let uif_block_height := to_int (to_uint32 (v3d_utile_height (image_cpp image) * 2)) in
  if uif_block_height =? 0 then Undefined_behaviour
  else Done (to_uint32 (Z.quot (align (to_int (height tiling)) uif_block_height)
                               uif_block_height)).

Definition compute_clear_pad (tiling : v3dv_frame_tiling)
  (clear_info : rcl_clear_info) : outcome Z :=
  match clear_image clear_info with
  | Some image =>
      slice <- slice_at image (clear_level clear_info) ;;
      if is_uif (slice_tiling slice) then
        implicit <- implicit_padded_height tiling image ;;
        if 15 <=? to_uint32 (padded_height_of_output_image_in_uif_blocks slice
                             - implicit)
        then Done (padded_height_of_output_image_in_uif_blocks slice)
        else Done 0
      else Done 0
  | None => Done 0
  end.

Definition emit_clear_colors (tiling : v3dv_frame_tiling)
  (clear_info : rcl_clear_info) (cl : v3dv_cl) : outcome v3dv_cl :=
  clear_pad <- compute_clear_pad tiling clear_info ;;
  let color := clear_value clear_info in
  let cl := cl_emit cl
    (TILE_RENDERING_MODE_CFG_CLEAR_COLORS_PART1
       (color0 color) (Z.land (color1 color) 0x00ffffff) 0) in
  let cl :=
    if V3D_INTERNAL_BPP_64 <=? internal_bpp tiling then
      cl_emit cl
        (TILE_RENDERING_MODE_CFG_CLEAR_COLORS_PART2
           (Z.lor (Z.shiftr (color1 color) 24)
                  (to_uint32 (Z.shiftl (color2 color) 8)))
           (Z.lor (Z.shiftr (color2 color) 24)
                  (to_uint32 (Z.shiftl (Z.land (color3 color) 0xffff) 8)))
           0)
    else cl in
  let cl :=
    if (V3D_INTERNAL_BPP_128 <=? internal_bpp tiling) || negb (clear_pad =? 0) then
      cl_emit cl
        (TILE_RENDERING_MODE_CFG_CLEAR_COLORS_PART3
           clear_pad (Z.shiftr (color3 color) 16) 0)
    else cl in
  Done cl.

Definition emit_rcl_prologue (job : v3dv_job) (rt_internal_type : internal_type)
  (clear_info : option rcl_clear_info) : outcome v3dv_job :=
  let tiling := frame_tiling job in
  let cl := cl_emit (rcl job)
    (TILE_RENDERING_MODE_CFG_COMMON true (width tiling) (height tiling) 1 false
       (internal_bpp tiling)) in
  cl <- match clear_info with
        | Some info =>
            if has_aspect (clear_aspects info) VK_IMAGE_ASPECT_COLOR_BIT
            then emit_clear_colors tiling info cl
            else Done cl
        | None => Done cl
        end ;;
  let cl := cl_emit cl
    (TILE_RENDERING_MODE_CFG_COLOR (internal_bpp tiling) rt_internal_type
       V3D_RENDER_TARGET_CLAMP_NONE) in
  let cl := cl_emit cl
    (TILE_RENDERING_MODE_CFG_ZS_CLEAR_VALUES
       (match clear_info with
        | Some info => clear_value_z (clear_value info)
        | None => float_one_bits
        end)
       (match clear_info with
        | Some info => clear_value_s (clear_value info)
        | None => 0
        end)) in
  let cl := cl_emit cl
    (TILE_LIST_INITIAL_BLOCK_SIZE true TILE_ALLOCATION_BLOCK_SIZE_64B) in
  Done (set_rcl job cl).

(** The third clear-colour records of a control list, in order. *)
Definition part3_records (cl : v3dv_cl) : list cl_packet :=
  filter (fun p => match p with
                   | TILE_RENDERING_MODE_CFG_CLEAR_COLORS_PART3 _ _ _ => true
                   | _ => false
                   end) cl.

(** *** Tile-buffer loads and stores

    Fields a packet body does not assign keep the packet's defaults:
    no swap, no reversal, zero stride. *)

Definition emit_linear_load (cl : v3dv_cl) (buffer : tlb_buffer) (bo : v3dv_bo)
  (offset stride : Z) (format : output_image_format) : v3dv_cl :=
  cl_emit cl (LOAD_TILE_BUFFER_GENERAL
    {| buffer_to_load := buffer;
       load_address := {| addr_bo := bo; addr_offset := offset |};
       input_image_format := format;
       load_memory_format := VC5_TILING_RASTER;
       load_height_in_ub_or_stride := stride;
       load_decimate_mode := V3D_DECIMATE_MODE_SAMPLE_0;
       load_r_b_swap := false;
       load_channel_reverse := false |}).

Definition emit_linear_store (cl : v3dv_cl) (buffer : tlb_buffer) (bo : v3dv_bo)
  (offset stride : Z) (msaa : bool) (format : output_image_format) : v3dv_cl :=
  cl_emit cl (STORE_TILE_BUFFER_GENERAL
    {| buffer_to_store := RENDER_TARGET_0;
       store_address := {| addr_bo := bo; addr_offset := offset |};
       clear_buffer_being_stored := false;
       output_image_format_ := format;
       store_memory_format := VC5_TILING_RASTER;
       store_height_in_ub_or_stride := stride;
       store_decimate_mode := if msaa then V3D_DECIMATE_MODE_ALL_SAMPLES
                              else V3D_DECIMATE_MODE_SAMPLE_0;
       store_r_b_swap := false;
       store_channel_reverse := false |}).

(** The test both [emit_image_load] and [emit_image_store] apply to the
    format and aspect of a buffer copy. *)
Definition is_d24_depth_copy (framebuffer : framebuffer_data)
  (aspect : VkImageAspectFlags) : bool :=
  (vk_format framebuffer =? VK_FORMAT_X8_D24_UNORM_PACK32)
  || ((vk_format framebuffer =? VK_FORMAT_D24_UNORM_S8_UINT)
      && has_aspect aspect VK_IMAGE_ASPECT_DEPTH_BIT).

Definition height_or_stride (slice : v3d_resource_slice) : Z :=
  if is_uif (slice_tiling slice) then
    padded_height_of_output_image_in_uif_blocks slice
  else match slice_tiling slice with
       | VC5_TILING_RASTER => slice_stride slice
       | _ => 0
       end.

Definition decimate_for (image : v3dv_image) : decimate_mode :=
  if VK_SAMPLE_COUNT_1_BIT <? image_samples image
  then V3D_DECIMATE_MODE_ALL_SAMPLES
  else V3D_DECIMATE_MODE_SAMPLE_0.

Definition emit_image_load (cl : v3dv_cl) (framebuffer : framebuffer_data)
  (image : v3dv_image) (aspect : VkImageAspectFlags) (layer mip_level : Z)
  (is_copy_to_buffer is_copy_from_buffer : bool) : outcome v3dv_cl :=
  let layer_offset := v3dv_layer_offset image mip_level layer in
  let load_to_color_tlb :=
    is_copy_to_buffer || is_copy_from_buffer
    || (aspect =? VK_IMAGE_ASPECT_COLOR_BIT) in
  slice <- slice_at image mip_level ;;
  fmt <- choose_tlb_format framebuffer aspect false
           is_copy_to_buffer is_copy_from_buffer ;;
  let '(needs_rb_swap, needs_chan_reverse) :=
    if is_copy_to_buffer && is_d24_depth_copy framebuffer aspect then
      (true, true)
    else if negb is_copy_from_buffer && negb is_copy_to_buffer
            && has_aspect aspect VK_IMAGE_ASPECT_COLOR_BIT then
      (format_needs_rb_swap (vk_format framebuffer), false)
    else (false, false) in
  Done (cl_emit cl (LOAD_TILE_BUFFER_GENERAL
    {| buffer_to_load := if load_to_color_tlb then RENDER_TARGET_0
                         else v3dv_zs_buffer_from_aspect_bits aspect;
       load_address := {| addr_bo := image_bo image; addr_offset := layer_offset |};
       input_image_format := fmt;
       load_memory_format := slice_tiling slice;
       load_height_in_ub_or_stride := height_or_stride slice;
       load_decimate_mode := decimate_for image;
       load_r_b_swap := needs_rb_swap;
       load_channel_reverse := needs_chan_reverse |})).

Definition emit_image_store (cl : v3dv_cl) (framebuffer : framebuffer_data)
  (image : v3dv_image) (aspect : VkImageAspectFlags) (layer mip_level : Z)
  (is_copy_to_buffer is_copy_from_buffer : bool) : outcome v3dv_cl :=
  let layer_offset := v3dv_layer_offset image mip_level layer in
  let store_from_color_tlb :=
    is_copy_to_buffer || is_copy_from_buffer
    || (aspect =? VK_IMAGE_ASPECT_COLOR_BIT) in
  slice <- slice_at image mip_level ;;
  let '(needs_rb_swap, needs_chan_reverse) :=
    if is_copy_from_buffer && is_d24_depth_copy framebuffer aspect then
      (true, true)
    else if negb is_copy_from_buffer && negb is_copy_to_buffer
            && has_aspect aspect VK_IMAGE_ASPECT_COLOR_BIT then
      (format_needs_rb_swap (vk_format framebuffer), false)
    else (false, false) in
  fmt <- choose_tlb_format framebuffer aspect true
           is_copy_to_buffer is_copy_from_buffer ;;
  Done (cl_emit cl (STORE_TILE_BUFFER_GENERAL
    {| buffer_to_store := if store_from_color_tlb then RENDER_TARGET_0
                          else v3dv_zs_buffer_from_aspect_bits aspect;
       store_address := {| addr_bo := image_bo image; addr_offset := layer_offset |};
       clear_buffer_being_stored := false;
       output_image_format_ := fmt;
       store_memory_format := slice_tiling slice;
       store_height_in_ub_or_stride := height_or_stride slice;
       store_decimate_mode := decimate_for image;
       store_r_b_swap := needs_rb_swap;
       store_channel_reverse := needs_chan_reverse |})).

(** *** Per-tile-list bodies of the image/buffer copies *)

(** [assert((image->type != VK_IMAGE_TYPE_3D && layer < layerCount) ||
    layer < image->extent.depth)]. *)
Definition layer_in_range (image : v3dv_image)
  (imgrsc : VkImageSubresourceLayers) (layer : Z) : bool :=
  (match image_type image with
   | VK_IMAGE_TYPE_3D => false
   | _ => layer <? layerCount imgrsc
   end)
  || (layer <? image_extent_depth image).

Definition region_width (region : VkBufferImageCopy) : Z :=
  if bufferRowLength region =? 0 then extent_width (imageExtent region)
  else bufferRowLength region.

Definition region_height (region : VkBufferImageCopy) : Z :=
  if bufferImageHeight region =? 0 then extent_height (imageExtent region)
  else bufferImageHeight region.

Definition region_cpp (image : v3dv_image) (region : VkBufferImageCopy) : Z :=
  if has_aspect (aspectMask (imageSubresource region)) VK_IMAGE_ASPECT_STENCIL_BIT
  then 1 else image_cpp image.

Definition region_buffer_stride (image : v3dv_image)
  (region : VkBufferImageCopy) : Z :=
  to_uint32 (region_width region * region_cpp image region).

Definition region_buffer_offset (image : v3dv_image)
  (region : VkBufferImageCopy) (layer : Z) : Z :=
  to_uint32 (bufferOffset region
             + to_uint32 (region_height region
                          * region_buffer_stride image region * layer)).

Definition emit_copy_layer_to_buffer_per_tile_list (job : v3dv_job)
  (framebuffer : framebuffer_data) (buffer : v3dv_buffer) (image : v3dv_image)
  (layer : Z) (region : VkBufferImageCopy) : outcome v3dv_job :=
  let cl := indirect job in
  let tile_list_start := v3dv_cl_get_address cl in
  let cl := cl_emit cl TILE_COORDINATES_IMPLICIT in
  let imgrsc := imageSubresource region in
  c_assert (layer_in_range image imgrsc layer) ;;;
  cl <- emit_image_load cl framebuffer image (aspectMask imgrsc)
          (to_uint32 (baseArrayLayer imgrsc + layer)) (mipLevel imgrsc)
          true false ;;
  let cl := cl_emit cl END_OF_LOADS in
  let cl := cl_emit cl BRANCH_TO_IMPLICIT_TILE_LIST in
  let buffer_stride := region_buffer_stride image region in
  let buffer_offset := region_buffer_offset image region layer in
  format <- choose_tlb_format framebuffer (aspectMask imgrsc) true true false ;;
  let msaa := VK_SAMPLE_COUNT_1_BIT <? image_samples image in
  let cl := emit_linear_store cl RENDER_TARGET_0 (buffer_bo buffer)
              buffer_offset buffer_stride msaa format in
  let cl := cl_emit cl END_OF_TILE_MARKER in
  let cl := cl_emit cl RETURN_FROM_SUB_LIST in
  Done {| frame_tiling := frame_tiling job;
          rcl := cl_emit (rcl job)
                   (START_ADDRESS_OF_GENERIC_TILE_LIST tile_list_start
                      (v3dv_cl_get_address cl));
          indirect := cl |}.

Definition emit_copy_buffer_to_layer_per_tile_list (job : v3dv_job)
  (framebuffer : framebuffer_data) (image : v3dv_image) (buffer : v3dv_buffer)
  (layer : Z) (region : VkBufferImageCopy) : outcome v3dv_job :=
  let cl := indirect job in
  let tile_list_start := v3dv_cl_get_address cl in
  let cl := cl_emit cl TILE_COORDINATES_IMPLICIT in
  let imgrsc := imageSubresource region in
  c_assert (layer_in_range image imgrsc layer) ;;;
  let buffer_stride := region_buffer_stride image region in
  let buffer_offset := region_buffer_offset image region layer in
  format <- choose_tlb_format framebuffer (aspectMask imgrsc) false false true ;;
  let cl := emit_linear_load cl RENDER_TARGET_0 (buffer_bo buffer)
              buffer_offset buffer_stride format in
  cl <- (if vk_format framebuffer =? VK_FORMAT_D24_UNORM_S8_UINT then
           if has_aspect (aspectMask imgrsc) VK_IMAGE_ASPECT_DEPTH_BIT then
             emit_image_load cl framebuffer image VK_IMAGE_ASPECT_STENCIL_BIT
               (to_uint32 (baseArrayLayer imgrsc + layer)) (mipLevel imgrsc)
               false false
           else
             c_assert (has_aspect (aspectMask imgrsc) VK_IMAGE_ASPECT_STENCIL_BIT) ;;;
             emit_image_load cl framebuffer image VK_IMAGE_ASPECT_DEPTH_BIT
               (to_uint32 (baseArrayLayer imgrsc + layer)) (mipLevel imgrsc)
               false false
         else Done cl) ;;
  let cl := cl_emit cl END_OF_LOADS in
  let cl := cl_emit cl BRANCH_TO_IMPLICIT_TILE_LIST in
  cl <- emit_image_store cl framebuffer image (aspectMask imgrsc)
          (to_uint32 (baseArrayLayer imgrsc + layer)) (mipLevel imgrsc)
          false true ;;
  cl <- (if vk_format framebuffer =? VK_FORMAT_D24_UNORM_S8_UINT then
           if has_aspect (aspectMask imgrsc) VK_IMAGE_ASPECT_DEPTH_BIT then
             emit_image_store cl framebuffer image VK_IMAGE_ASPECT_STENCIL_BIT
               (to_uint32 (baseArrayLayer imgrsc + layer)) (mipLevel imgrsc)
               false false
           else
             c_assert (has_aspect (aspectMask imgrsc) VK_IMAGE_ASPECT_STENCIL_BIT) ;;;
             emit_image_store cl framebuffer image VK_IMAGE_ASPECT_DEPTH_BIT
               (to_uint32 (baseArrayLayer imgrsc + layer)) (mipLevel imgrsc)
               false false
         else Done cl) ;;
  let cl := cl_emit cl END_OF_TILE_MARKER in
  let cl := cl_emit cl RETURN_FROM_SUB_LIST in
  Done {| frame_tiling := frame_tiling job;
          rcl := cl_emit (rcl job)
                   (START_ADDRESS_OF_GENERIC_TILE_LIST tile_list_start
                      (v3dv_cl_get_address cl));
          indirect := cl |}.

(** The loads and stores of a tile list, in order, without the markers
    between them. *)
Definition tile_buffer_operations (cl : v3dv_cl) : list cl_packet :=
  filter (fun p => match p with
                   | LOAD_TILE_BUFFER_GENERAL _ | STORE_TILE_BUFFER_GENERAL _ => true
                   | _ => false
                   end) cl.

Definition r_b_swap_of (p : cl_packet) : bool :=
  match p with
  | LOAD_TILE_BUFFER_GENERAL l => load_r_b_swap l
  | STORE_TILE_BUFFER_GENERAL s => store_r_b_swap s
  | _ => false
  end.

Definition channel_reverse_of (p : cl_packet) : bool :=
  match p with
  | LOAD_TILE_BUFFER_GENERAL l => load_channel_reverse l
  | STORE_TILE_BUFFER_GENERAL s => store_channel_reverse s
  | _ => false
  end.

(** *** Buffer copies and fills

    A job of these loops is recorded by what the loop hands to
    [v3dv_job_start_frame], [setup_framebuffer_data] and the [emit_*_rcl]
    call that writes its control lists; none of them changes a variable
    of the loop.  [job_ok n] tells whether [v3dv_cmd_buffer_start_job]
    yields the job with index [n] of this call. *)

Record VkBufferCopy := {
  srcOffset : Z;
  dstOffset : Z;
  size : Z
}.

Record copy_job := {
  copy_width : Z;
  copy_height : Z;
  copy_internal_bpp : Z;
  copy_vk_format : VkFormat;
  copy_internal_type : internal_type;
  copy_dst_offset : Z;
  copy_src_offset : Z;
  copy_format : output_image_format
}.

(** The [switch (region->size % 4)], which has no [default]. *)
Definition copy_item_choice (remainder : Z)
  : outcome (Z * output_image_format * VkFormat) :=
  if remainder =? 0 then
    Done (4, V3D_OUTPUT_IMAGE_FORMAT_RGBA8UI, VK_FORMAT_R8G8B8A8_UINT)
  else if remainder =? 2 then
    Done (2, V3D_OUTPUT_IMAGE_FORMAT_RG8UI, VK_FORMAT_R8G8_UINT)
  else if (remainder =? 1) || (remainder =? 3) then
    Done (1, V3D_OUTPUT_IMAGE_FORMAT_R8UI, VK_FORMAT_R8_UINT)
  else Undefined_behaviour.

Fixpoint copy_buffer_loop (fuel : nat) (job_ok : nat -> bool) (n : nat)
  (item_size : Z) (format : output_image_format) (vk_format : VkFormat)
  (num_items src_offset dst_offset : Z) (jobs : list copy_job)
  : outcome (list copy_job * Z * Z) :=
  if 0 <? num_items then
    match fuel with
    | O => Out_of_fuel
    | S fuel' =>
        if negb (job_ok n) then No_job
        else
          wh <- framebuffer_size_for_pixel_count num_items ;;
          let '(width, height) := wh in
          let job := {| copy_width := width; copy_height := height;
                        copy_internal_bpp := V3D_INTERNAL_BPP_32;
                        copy_vk_format := vk_format;
                        copy_internal_type := V3D_INTERNAL_TYPE_8UI;
                        copy_dst_offset := dst_offset;
                        copy_src_offset := src_offset;
                        copy_format := format |} in
          let items_copied := to_uint32 (width * height) in
          let bytes_copied := to_uint32 (items_copied * item_size) in
          copy_buffer_loop fuel' job_ok (S n) item_size format vk_format
            (to_uint32 (num_items - items_copied))
            (to_uint32 (src_offset + bytes_copied))
            (to_uint32 (dst_offset + bytes_copied))
            (jobs ++ [job])
    end
  else Done (jobs, src_offset, dst_offset).

(** The result holds the jobs in order (the C function returns the last)
    and the final source and destination offsets. *)
Definition copy_buffer (fuel : nat) (job_ok : nat -> bool) (region : VkBufferCopy)
  : outcome (list copy_job * Z * Z) :=
  choice <- copy_item_choice (size region mod 4) ;;
  let '(item_size, format, vk_format) := choice in
  c_assert (size region mod item_size =? 0) ;;;
  let num_items := to_uint32 (size region / item_size) in
  c_assert (0 <? num_items) ;;;
  copy_buffer_loop fuel job_ok 0 item_size format vk_format num_items
    (to_uint32 (srcOffset region)) (to_uint32 (dstOffset region)) [].

Record fill_job := {
  fill_width : Z;
  fill_height : Z;
  fill_offset : Z;
  fill_data : Z
}.

Fixpoint fill_buffer_loop (fuel : nat) (job_ok : nat -> bool) (n : nat)
  (data num_items offset : Z) (jobs : list fill_job) : outcome (list fill_job) :=
  if 0 <? num_items then
    match fuel with
    | O => Out_of_fuel
    | S fuel' =>
        if negb (job_ok n) then No_job
        else
          wh <- framebuffer_size_for_pixel_count num_items ;;
          let '(width, height) := wh in
          let job := {| fill_width := width; fill_height := height;
                        fill_offset := offset; fill_data := data |} in
          let items_copied := to_uint32 (width * height) in
          let bytes_copied := to_uint32 (items_copied * 4) in
          fill_buffer_loop fuel' job_ok (S n) data
            (to_uint32 (num_items - items_copied))
            (to_uint32 (offset + bytes_copied))
            (jobs ++ [job])
    end
  else Done jobs.

Definition fill_buffer (fuel : nat) (job_ok : nat -> bool) (bo : v3dv_bo)
  (offset size data : Z) : outcome (list fill_job) :=
  c_assert ((0 <? size) && (size mod 4 =? 0)) ;;;
  c_assert (to_uint32 (offset + size) <=? bo_size bo) ;;;
  let num_items := size / 4 in
  fill_buffer_loop fuel job_ok 0 data num_items offset [].

(** The value of [size] when [v3dv_CmdFillBuffer] calls [fill_buffer]. *)
Definition fill_size (dst_buffer : v3dv_buffer) (dstOffset size : Z) : Z :=
  if size =? VK_WHOLE_SIZE then
    let size := to_uint64 (buffer_size dst_buffer - dstOffset) in
    to_uint64 (size - size mod 4)
  else size.

(** [fill_buffer] takes [uint32_t offset, uint32_t size]: the 64-bit
    arguments are narrowed at the call. *)
Definition v3dv_CmdFillBuffer (fuel : nat) (job_ok : nat -> bool)
  (dst_buffer : v3dv_buffer) (dstOffset size data : Z) : outcome (list fill_job) :=
  let bo := buffer_bo dst_buffer in
  fill_buffer fuel job_ok bo (to_uint32 dstOffset)
    (to_uint32 (fill_size dst_buffer dstOffset size)) data.

(** The guard of the loop, in plain arithmetic. *)
Definition keeps_halving (w h : Z) : Prop :=
  4096 < w \/ (w mod 2 = 0 /\ 2 * h < w).

(** The tile buffer a load fills or a store reads. *)
Definition tlb_buffer_of (p : cl_packet) : option tlb_buffer :=
  match p with
  | LOAD_TILE_BUFFER_GENERAL l => Some (buffer_to_load l)
  | STORE_TILE_BUFFER_GENERAL s => Some (buffer_to_store s)
  | _ => None
  end.

(** The format field of a load or a store. *)
Definition image_format_of (p : cl_packet) : option output_image_format :=
  match p with
  | LOAD_TILE_BUFFER_GENERAL l => Some (input_image_format l)
  | STORE_TILE_BUFFER_GENERAL s => Some (output_image_format_ s)
  | _ => None
  end.

(** The aspect of a combined depth/stencil image that a single-aspect
    upload does not write. *)
Definition other_aspect (aspect : VkImageAspectFlags) : VkImageAspectFlags :=
  if has_aspect aspect VK_IMAGE_ASPECT_DEPTH_BIT
  then VK_IMAGE_ASPECT_STENCIL_BIT else VK_IMAGE_ASPECT_DEPTH_BIT.

(** The two channel fix-up flags of a load or a store: red-blue swap and
    channel reverse. *)
Definition fixup_flags (p : cl_packet) : bool * bool :=
  (r_b_swap_of p, channel_reverse_of p).

(** Items the jobs of a buffer copy cover in all. *)
Definition items_covered (jobs : list copy_job) : Z :=
  fold_right (fun j acc => copy_width j * copy_height j + acc) 0 jobs.

(** Each job starts at the offsets the previous one left: the first at
    [src] and [dst], the next [items_copied * item_size] bytes further. *)
Fixpoint offsets_advance (item_size src dst : Z) (jobs : list copy_job) : Prop :=
  match jobs with
  | [] => True
  | j :: rest =>
      copy_src_offset j = src /\ copy_dst_offset j = dst
      /\ let items_copied := copy_width j * copy_height j in
         offsets_advance item_size
           (to_uint32 (src + items_copied * item_size))
           (to_uint32 (dst + items_copied * item_size)) rest
  end.

(** A job of a buffer copy fits the 4096 x 4096 frame limit and uses the
    format chosen for the region. *)
Definition copy_job_ok (format : output_image_format) (j : copy_job) : Prop :=
  copy_format j = format
  /\ 0 < copy_width j <= 4096 /\ 0 < copy_height j <= 4096.

(** *** The combinations a sweep is meant to cover *)

(** The two-source instruction with output modifier [outmod] and input
    modifiers [inmod]: bits 0 and 1 are the absolute-value flags of the two
    sources, bits 2 and 3 their negate flags. *)
Definition fmod_combination (c : bi_class) (size outmod inmod : Z)
  : bi_instruction :=
  let T := nir_type_float_sized size in
  {| ins_type := c;
     ins_src := [BIR_INDEX_REGISTER 0; BIR_INDEX_REGISTER 1;
                 BIR_INDEX_unset; BIR_INDEX_unset];
     ins_src_types := [T; T; nir_type_invalid; nir_type_invalid];
     ins_dest := BIR_INDEX_REGISTER 2;
     ins_dest_type := T;
     outmod := outmod;
     src_abs := [mask_set inmod 1; mask_set inmod 2; false; false];
     src_neg := [mask_set inmod 4; mask_set inmod 8; false; false] |}.

(** The combinations left out: 16-bit, on the FMA unit, absolute value on
    both sources. *)
Definition fmod_skipped (size : Z) (fma : bool) (inmod : Z) : bool :=
  fma && (size =? 16) && mask_set inmod 1 && mask_set inmod 2.

Definition fmod_sweep (c : bi_class) (size : Z) (fma : bool)
  : list (bi_instruction * bool) :=
  flat_map
    (fun outmod =>
       flat_map
         (fun inmod =>
            if fmod_skipped size fma inmod then []
            else [(fmod_combination c size outmod inmod, fma)])
         (Zseq 0 16))
    (Zseq 0 4).

(** The fused multiply-add with output modifier [outmod]; bits 0 to 2 of
    [inmod] are the negate flags of its three sources. *)
Definition fma_combination (size outmod inmod : Z) : bi_instruction :=
  let T := nir_type_float_sized size in
  {| ins_type := BI_FMA;
     ins_src := [BIR_INDEX_REGISTER 0; BIR_INDEX_REGISTER 1;
                 BIR_INDEX_REGISTER 2; BIR_INDEX_unset];
     ins_src_types := [T; T; T; nir_type_invalid];
     ins_dest := BIR_INDEX_REGISTER 3;
     ins_dest_type := T;
     outmod := outmod;
     src_abs := [false; false; false; false];
     src_neg := [mask_set inmod 1; mask_set inmod 2; mask_set inmod 4; false] |}.

Definition fma_sweep (size : Z) : list (bi_instruction * bool) :=
  flat_map
    (fun outmod =>
       map (fun inmod => (fma_combination size outmod inmod, true)) (Zseq 0 8))
    (Zseq 0 4).

(** *** Example inputs

    The helpers the encoder is given, written the way the driver's other
    files define them, and a few objects to evaluate the encoder on.  No
    property below depends on these choices. *)

Definition example_get_format (f : VkFormat) : v3dv_format :=
  {| rt_type :=
       if f =? VK_FORMAT_R8G8B8A8_UINT then V3D_OUTPUT_IMAGE_FORMAT_RGBA8UI
       else if f =? VK_FORMAT_R8G8_UINT then V3D_OUTPUT_IMAGE_FORMAT_RG8UI
       else if f =? VK_FORMAT_R8_UINT then V3D_OUTPUT_IMAGE_FORMAT_R8UI
       else V3D_OUTPUT_IMAGE_FORMAT_NO |}.

(** Format 44 is the blue-first B8G8R8A8_UNORM. *)
Definition example_get_format_swizzle (f : VkFormat) (i : nat) : pipe_swizzle :=
  nth i (if f =? 44
         then [PIPE_SWIZZLE_Z; PIPE_SWIZZLE_Y; PIPE_SWIZZLE_X; PIPE_SWIZZLE_W]
         else [PIPE_SWIZZLE_X; PIPE_SWIZZLE_Y; PIPE_SWIZZLE_Z; PIPE_SWIZZLE_W])
      PIPE_SWIZZLE_NONE.

Definition example_layer_offset (image : v3dv_image) (level layer : Z) : Z :=
  layer * 65536 + level * 4096.

Definition example_zs_buffer_from_aspect_bits (aspects : VkImageAspectFlags)
  : tlb_buffer :=
  if has_aspect aspects VK_IMAGE_ASPECT_DEPTH_BIT
     && has_aspect aspects VK_IMAGE_ASPECT_STENCIL_BIT then ZSTENCIL_BUFFER
  else if has_aspect aspects VK_IMAGE_ASPECT_DEPTH_BIT then Z_BUFFER
  else if has_aspect aspects VK_IMAGE_ASPECT_STENCIL_BIT then STENCIL_BUFFER
  else NONE.

Definition example_utile_height (cpp : Z) : Z :=
  if cpp =? 1 then 8 else if cpp =? 16 then 2 else 4.

Definition example_align (value alignment : Z) : Z :=
  Z.land (value + alignment - 1) (Z.lnot (alignment - 1)).

Definition example_tiling : v3dv_frame_tiling :=
  {| width := 100; height := 80; layers := 1;
     internal_bpp := V3D_INTERNAL_BPP_32;
     tile_width := 64; tile_height := 64;
     supertile_width := 1; supertile_height := 1 |}.

Definition example_job : v3dv_job :=
  {| frame_tiling := example_tiling; rcl := []; indirect := [] |}.

(** A UIF slice padded to 30 UIF blocks; the 80-pixel frame needs 10. *)
Definition example_slice : v3d_resource_slice :=
  {| slice_tiling := VC5_TILING_UIF_NO_XOR; slice_stride := 0;
     padded_height_of_output_image_in_uif_blocks := 30 |}.

Definition example_color_image : v3dv_image :=
  {| image_type := VK_IMAGE_TYPE_2D;
     image_vk_format := VK_FORMAT_R8G8B8A8_UINT;
     image_extent_depth := 1; image_cpp := 4; image_samples := 1;
     image_slices := [example_slice];
     image_bo := {| bo_handle := 7; bo_size := 65536 |} |}.

Definition example_clear_info : rcl_clear_info :=
  {| clear_value := {| color0 := 1; color1 := 2; color2 := 3; color3 := 0x50000 |};
     clear_image := Some example_color_image;
     clear_aspects := VK_IMAGE_ASPECT_COLOR_BIT;
     clear_layer := 0; clear_level := 0 |}.

Definition example_d24s8_image : v3dv_image :=
  {| image_type := VK_IMAGE_TYPE_2D;
     image_vk_format := VK_FORMAT_D24_UNORM_S8_UINT;
     image_extent_depth := 1; image_cpp := 4; image_samples := 1;
     image_slices := [example_slice];
     image_bo := {| bo_handle := 8; bo_size := 65536 |} |}.

Definition example_framebuffer (f : VkFormat) : framebuffer_data :=
  {| fb_internal_type := V3D_INTERNAL_TYPE_8UI;
     min_x_supertile := 0; min_y_supertile := 0;
     max_x_supertile := 1; max_y_supertile := 1;
     vk_format := f; format := example_get_format f |}.

Definition example_buffer : v3dv_buffer :=
  {| buffer_size := 4103; buffer_bo := {| bo_handle := 9; bo_size := 65536 |} |}.

Definition example_region (aspect : VkImageAspectFlags) : VkBufferImageCopy :=
  {| bufferOffset := 0; bufferRowLength := 0; bufferImageHeight := 0;
     imageSubresource := {| aspectMask := aspect; mipLevel := 0;
                            baseArrayLayer := 0; layerCount := 1 |};
     imageExtent := {| extent_width := 100; extent_height := 80;
                       extent_depth := 1 |} |}.

(** Every job is obtained. *)
Definition always_job (n : nat) : bool := true.

(** Every instruction under test passes. *)
Definition always_pass (ins : bi_instruction) (fma : bool) : bool := true.

(** *** Job counts and fill coverage *)

(** The number of jobs a buffer copy or fill of [N] items may take: one
    when the items fit a single row, otherwise one per started block of
    4096 x 4096 items and one more for what the last frame leaves over. *)
Definition jobs_bound (N : Z) : Z :=
  if N <=? 0 then 0
  else if N <=? 4096 then 1
  else (N - 1) / (4096 * 4096) + 2.

(** The item size the [switch] of [copy_buffer] picks for a region of
    [L] bytes. *)
Definition item_size_of (L : Z) : Z :=
  if L mod 4 =? 0 then 4 else if L mod 4 =? 2 then 2 else 1.

(** Items the jobs of a buffer fill cover in all. *)
Definition fill_items_covered (jobs : list fill_job) : Z :=
  fold_right (fun j acc => fill_width j * fill_height j + acc) 0 jobs.

(** Each fill job starts where the previous one stopped: the first at
    [offset], the next four bytes per item further. *)
Fixpoint fill_offsets_advance (offset : Z) (jobs : list fill_job) : Prop :=
  match jobs with
  | [] => True
  | j :: rest =>
      fill_offset j = offset
      /\ fill_offsets_advance
           (to_uint32 (offset + fill_width j * fill_height j * 4)) rest
  end.

(** A fill job fits the 4096 x 4096 frame limit and carries the fill word. *)
Definition fill_job_ok (data : Z) (j : fill_job) : Prop :=
  fill_data j = data
  /\ 0 < fill_width j <= 4096 /\ 0 < fill_height j <= 4096.

(** *** Internal type and TLB compatibility of a format *)

(** Further [VkFormat] codes, as the Vulkan API assigns them. *)
Definition VK_FORMAT_R8_SNORM : VkFormat := 10.
Definition VK_FORMAT_R8G8_SNORM : VkFormat := 17.
Definition VK_FORMAT_R8G8B8A8_SNORM : VkFormat := 38.
Definition VK_FORMAT_A8B8G8R8_SNORM_PACK32 : VkFormat := 52.
Definition VK_FORMAT_A8B8G8R8_UINT_PACK32 : VkFormat := 55.
Definition VK_FORMAT_R16_UNORM : VkFormat := 70.
Definition VK_FORMAT_R16_SNORM : VkFormat := 71.
Definition VK_FORMAT_R16_UINT : VkFormat := 74.
Definition VK_FORMAT_R16G16_UNORM : VkFormat := 77.
Definition VK_FORMAT_R16G16_SNORM : VkFormat := 78.
Definition VK_FORMAT_R16G16_UINT : VkFormat := 81.
Definition VK_FORMAT_R16G16B16A16_UNORM : VkFormat := 91.
Definition VK_FORMAT_R16G16B16A16_SNORM : VkFormat := 92.
Definition VK_FORMAT_R16G16B16A16_UINT : VkFormat := 95.
Definition VK_FORMAT_R32_SFLOAT : VkFormat := 100.
Definition VK_FORMAT_E5B9G9R9_UFLOAT_PACK32 : VkFormat := 123.

(** [v3dv_get_internal_type_bpp_for_output_format] lives in another file
    of the driver; the function is given it. *)
Definition get_internal_type_bpp_for_image_aspects
  (v3dv_get_internal_type_bpp_for_output_format
     : output_image_format -> internal_type * Z)
  (vk_format : VkFormat) (aspect_mask : VkImageAspectFlags)
  : outcome (internal_type * Z) :=
  let ds_aspects := Z.lor VK_IMAGE_ASPECT_DEPTH_BIT VK_IMAGE_ASPECT_STENCIL_BIT in
  if has_aspect aspect_mask ds_aspects then
    if vk_format =? VK_FORMAT_D16_UNORM then
      Done (V3D_INTERNAL_TYPE_16UI, V3D_INTERNAL_BPP_64)
    else if vk_format =? VK_FORMAT_D32_SFLOAT then
      Done (V3D_INTERNAL_TYPE_32F, V3D_INTERNAL_BPP_128)
    else if (vk_format =? VK_FORMAT_X8_D24_UNORM_PACK32)
            || (vk_format =? VK_FORMAT_D24_UNORM_S8_UINT) then
      Done (V3D_INTERNAL_TYPE_8UI, V3D_INTERNAL_BPP_32)
    else Assert_failure
  else
    let format := v3dv_get_format vk_format in
    Done (v3dv_get_internal_type_bpp_for_output_format (rt_type format)).

Definition get_compatible_tlb_format (format : VkFormat) : VkFormat :=
  if format =? VK_FORMAT_R8G8B8A8_SNORM then VK_FORMAT_R8G8B8A8_UINT
  else if format =? VK_FORMAT_R8G8_SNORM then VK_FORMAT_R8G8_UINT
  else if format =? VK_FORMAT_R8_SNORM then VK_FORMAT_R8_UINT
  else if format =? VK_FORMAT_A8B8G8R8_SNORM_PACK32
       then VK_FORMAT_A8B8G8R8_UINT_PACK32
  else if (format =? VK_FORMAT_R16_UNORM) || (format =? VK_FORMAT_R16_SNORM)
       then VK_FORMAT_R16_UINT
  else if (format =? VK_FORMAT_R16G16_UNORM) || (format =? VK_FORMAT_R16G16_SNORM)
       then VK_FORMAT_R16G16_UINT
  else if (format =? VK_FORMAT_R16G16B16A16_UNORM)
          || (format =? VK_FORMAT_R16G16B16A16_SNORM)
       then VK_FORMAT_R16G16B16A16_UINT
  else if format =? VK_FORMAT_E5B9G9R9_UFLOAT_PACK32 then VK_FORMAT_R32_SFLOAT
  else VK_FORMAT_UNDEFINED.

Record VkOffset3D := {
  offset_x : Z;
  offset_y : Z;
  offset_z : Z
}.

(** [rt_type != V3D_OUTPUT_IMAGE_FORMAT_NO]. *)
Definition is_tlb_supported (f : v3dv_format) : bool :=
  match rt_type f with
  | V3D_OUTPUT_IMAGE_FORMAT_NO => false
  | _ => true
  end.

(** [can_use_tlb] reads [image->format] and [image->vk_format]; the first
    is passed beside the image.  [compat_format] tells whether the caller
    passes a pointer; the result pairs the returned flag with the format
    written through the pointer, if one is written. *)
Definition can_use_tlb (image : v3dv_image) (image_format : v3dv_format)
  (offset : VkOffset3D) (compat_format : bool) : bool * option VkFormat :=
  if negb (offset_x offset =? 0) || negb (offset_y offset =? 0) then
    (false, None)
  else if is_tlb_supported image_format then
    (true, if compat_format then Some (image_vk_format image) else None)
  else if compat_format then
    let written := get_compatible_tlb_format (image_vk_format image) in
    if negb (written =? VK_FORMAT_UNDEFINED) then (true, Some written)
    else (false, Some written)
  else (false, None).

(** *** Per-tile-list bodies of image copies, clears, buffer copies and
    fills *)

Record VkImageCopy := {
  copy_srcSubresource : VkImageSubresourceLayers;
  copy_srcOffset : VkOffset3D;
  copy_dstSubresource : VkImageSubresourceLayers;
  copy_dstOffset : VkOffset3D;
  copy_extent : VkExtent3D
}.

Definition emit_copy_image_layer_per_tile_list (job : v3dv_job)
  (framebuffer : framebuffer_data) (dst src : v3dv_image)
  (layer : Z) (region : VkImageCopy) : outcome v3dv_job :=
  let cl := indirect job in
  let tile_list_start := v3dv_cl_get_address cl in
  let cl := cl_emit cl TILE_COORDINATES_IMPLICIT in
  let srcrsc := copy_srcSubresource region in
  c_assert (layer_in_range src srcrsc layer) ;;;
  cl <- emit_image_load cl framebuffer src (aspectMask srcrsc)
          (to_uint32 (baseArrayLayer srcrsc + layer)) (mipLevel srcrsc)
          false false ;;
  let cl := cl_emit cl END_OF_LOADS in
  let cl := cl_emit cl BRANCH_TO_IMPLICIT_TILE_LIST in
  let dstrsc := copy_dstSubresource region in
  c_assert (layer_in_range dst dstrsc layer) ;;;
  cl <- emit_image_store cl framebuffer dst (aspectMask dstrsc)
          (to_uint32 (baseArrayLayer dstrsc + layer)) (mipLevel dstrsc)
          false false ;;
  let cl := cl_emit cl END_OF_TILE_MARKER in
  let cl := cl_emit cl RETURN_FROM_SUB_LIST in
  Done {| frame_tiling := frame_tiling job;
          rcl := cl_emit (rcl job)
                   (START_ADDRESS_OF_GENERIC_TILE_LIST tile_list_start
                      (v3dv_cl_get_address cl));
          indirect := cl |}.

Definition emit_clear_image_per_tile_list (job : v3dv_job)
  (framebuffer : framebuffer_data) (image : v3dv_image)
  (aspects : VkImageAspectFlags) (layer level : Z) : outcome v3dv_job :=
  let cl := indirect job in
  let tile_list_start := v3dv_cl_get_address cl in
  let cl := cl_emit cl TILE_COORDINATES_IMPLICIT in
  let cl := cl_emit cl END_OF_LOADS in
  let cl := cl_emit cl BRANCH_TO_IMPLICIT_TILE_LIST in
  cl <- emit_image_store cl framebuffer image aspects layer level false false ;;
  let cl := cl_emit cl END_OF_TILE_MARKER in
  let cl := cl_emit cl RETURN_FROM_SUB_LIST in
  Done {| frame_tiling := frame_tiling job;
          rcl := cl_emit (rcl job)
                   (START_ADDRESS_OF_GENERIC_TILE_LIST tile_list_start
                      (v3dv_cl_get_address cl));
          indirect := cl |}.

Definition emit_clear_image (fuel : nat) (job : v3dv_job) (image : v3dv_image)
  (framebuffer : framebuffer_data) (aspects : VkImageAspectFlags)
  (layer level : Z) : outcome v3dv_job :=
  job <- emit_clear_image_per_tile_list job framebuffer image aspects layer level ;;
  emit_supertile_coordinates fuel job framebuffer.

Definition emit_copy_buffer_per_tile_list (job : v3dv_job) (dst src : v3dv_bo)
  (dst_offset src_offset stride : Z) (format : output_image_format) : v3dv_job :=
  let cl := indirect job in
  let tile_list_start := v3dv_cl_get_address cl in
  let cl := cl_emit cl TILE_COORDINATES_IMPLICIT in
  let cl := emit_linear_load cl RENDER_TARGET_0 src src_offset stride format in
  let cl := cl_emit cl END_OF_LOADS in
  let cl := cl_emit cl BRANCH_TO_IMPLICIT_TILE_LIST in
  let cl := emit_linear_store cl RENDER_TARGET_0 dst dst_offset stride false
              format in
  let cl := cl_emit cl END_OF_TILE_MARKER in
  let cl := cl_emit cl RETURN_FROM_SUB_LIST in
  {| frame_tiling := frame_tiling job;
     rcl := cl_emit (rcl job)
              (START_ADDRESS_OF_GENERIC_TILE_LIST tile_list_start
                 (v3dv_cl_get_address cl));
     indirect := cl |}.

Definition emit_copy_buffer (fuel : nat) (job : v3dv_job) (dst src : v3dv_bo)
  (dst_offset src_offset : Z) (framebuffer : framebuffer_data)
  (format : output_image_format) : outcome v3dv_job :=
  let stride := to_uint32 (width (frame_tiling job) * 4) in
  let job := emit_copy_buffer_per_tile_list job dst src dst_offset src_offset
               stride format in
  emit_supertile_coordinates fuel job framebuffer.

Definition emit_fill_buffer_per_tile_list (job : v3dv_job) (bo : v3dv_bo)
  (offset stride : Z) : v3dv_job :=
  let cl := indirect job in
  let tile_list_start := v3dv_cl_get_address cl in
  let cl := cl_emit cl TILE_COORDINATES_IMPLICIT in
  let cl := cl_emit cl END_OF_LOADS in
  let cl := cl_emit cl BRANCH_TO_IMPLICIT_TILE_LIST in
  let cl := emit_linear_store cl RENDER_TARGET_0 bo offset stride false
              V3D_OUTPUT_IMAGE_FORMAT_RGBA8UI in
  let cl := cl_emit cl END_OF_TILE_MARKER in
  let cl := cl_emit cl RETURN_FROM_SUB_LIST in
  {| frame_tiling := frame_tiling job;
     rcl := cl_emit (rcl job)
              (START_ADDRESS_OF_GENERIC_TILE_LIST tile_list_start
                 (v3dv_cl_get_address cl));
     indirect := cl |}.

Definition emit_fill_buffer (fuel : nat) (job : v3dv_job) (bo : v3dv_bo)
  (offset : Z) (framebuffer : framebuffer_data) : outcome v3dv_job :=
  let stride := to_uint32 (width (frame_tiling job) * 4) in
  let job := emit_fill_buffer_per_tile_list job bo offset stride in
  emit_supertile_coordinates fuel job framebuffer.

(** *** The shape of a tile list *)

Definition is_load (p : cl_packet) : bool :=
  match p with LOAD_TILE_BUFFER_GENERAL _ => true | _ => false end.

Definition is_store (p : cl_packet) : bool :=
  match p with STORE_TILE_BUFFER_GENERAL _ => true | _ => false end.

(** A generic tile list: the implicit coordinates, the loads, the end of
    loads and the branch to the binned list, at least one store, the end
    of the tile and the return. *)
Definition tile_list_well_formed (body : list cl_packet) : Prop :=
  exists loads stores,
    body = TILE_COORDINATES_IMPLICIT :: loads
           ++ END_OF_LOADS :: BRANCH_TO_IMPLICIT_TILE_LIST :: stores
           ++ [END_OF_TILE_MARKER; RETURN_FROM_SUB_LIST]
    /\ forallb is_load loads = true
    /\ forallb is_store stores = true
    /\ stores <> [].

(** What an emitter of a tile list has done to a job: the body lies at
    the end of the indirect list, and one branch record, whose bounds are
    the positions just before and just after the body, is appended to the
    render list. *)
Definition tile_list_appended (job job' : v3dv_job) (body : list cl_packet) : Prop :=
  frame_tiling job' = frame_tiling job
  /\ indirect job' = indirect job ++ body
  /\ rcl job' = rcl job
                ++ [START_ADDRESS_OF_GENERIC_TILE_LIST
                      (length (indirect job)) (length (indirect job'))]
  /\ tile_list_well_formed body.

(** *** Whole render control lists

    Besides the packets of [cl_packet], the render control list of a job
    holds the frame setup and the end of rendering.  [emit_frame_setup]
    also reads four fields of the frame tiling and the tile allocation
    object of the job that the functions above do not use. *)

Record v3dv_frame_tiling_draw := {
  draw_tiles_x : Z;
  draw_tiles_y : Z;
  frame_width_in_supertiles : Z;
  frame_height_in_supertiles : Z
}.

Inductive rcl_packet :=
| CL (p : cl_packet)
| MULTICORE_RENDERING_TILE_LIST_SET_BASE (address : cl_address)
| MULTICORE_RENDERING_SUPERTILE_CFG
    (number_of_bin_tile_lists : Z)
    (total_frame_width_in_tiles total_frame_height_in_tiles : Z)
    (supertile_width_in_tiles supertile_height_in_tiles : Z)
    (total_frame_width_in_supertiles total_frame_height_in_supertiles : Z)
| TILE_COORDINATES (tile_column_number tile_row_number : Z)
| CLEAR_TILE_BUFFERS (clear_z_stencil_buffer clear_all_render_targets : bool)
| FLUSH_VCD_CACHE
| END_OF_RENDERING.

Record v3dv_render_job := {
  render_frame_tiling : v3dv_frame_tiling;
  render_frame_draw : v3dv_frame_tiling_draw;
  tile_alloc : v3dv_bo;
  render_rcl : list rcl_packet;
  render_indirect : v3dv_cl
}.

Definition rcl_emit (job : v3dv_render_job) (ps : list rcl_packet)
  : v3dv_render_job :=
  {| render_frame_tiling := render_frame_tiling job;
     render_frame_draw := render_frame_draw job;
     tile_alloc := tile_alloc job;
     render_rcl := render_rcl job ++ ps;
     render_indirect := render_indirect job |}.

(** Runs one of the emitters above on the job.  An emitter only appends
    to the render list, so it is run on an empty one and what it appended
    is added to the job's. *)
Definition with_encoder (job : v3dv_render_job)
  (emit : v3dv_job -> outcome v3dv_job) : outcome v3dv_render_job :=
  job' <- emit {| frame_tiling := render_frame_tiling job;
                  rcl := [];
                  indirect := render_indirect job |} ;;
  Done {| render_frame_tiling := frame_tiling job';
          render_frame_draw := render_frame_draw job;
          tile_alloc := tile_alloc job;
          render_rcl := render_rcl job ++ map CL (rcl job');
          render_indirect := indirect job' |}.

(** A [STORE_TILE_BUFFER_GENERAL] whose body only names the buffer
    [NONE]; the other fields keep the zero defaults of the packet. *)
Definition store_none : store_tile_buffer_general :=
  {| buffer_to_store := NONE;
     store_address := {| addr_bo := {| bo_handle := 0; bo_size := 0 |};
                         addr_offset := 0 |};
     clear_buffer_being_stored := false;
     output_image_format_ := V3D_OUTPUT_IMAGE_FORMAT_unnamed 0;
     store_memory_format := VC5_TILING_RASTER;
     store_height_in_ub_or_stride := 0;
     store_decimate_mode := V3D_DECIMATE_MODE_SAMPLE_0;
     store_r_b_swap := false;
     store_channel_reverse := false |}.

(** One turn of the loop [for (int i = 0; i < 2; i++)] of
    [emit_frame_setup]. *)
Definition frame_setup_round (clear_value : option v3dv_clear_value) (i : Z)
  (rcl : list rcl_packet) : list rcl_packet :=
  let rcl := rcl ++ [TILE_COORDINATES 0 0] in
  let rcl := rcl ++ [CL END_OF_LOADS] in
  let rcl := rcl ++ [CL (STORE_TILE_BUFFER_GENERAL store_none)] in
  let rcl :=
    match clear_value with
    | Some _ => if i =? 0 then rcl ++ [CLEAR_TILE_BUFFERS true true] else rcl
    | None => rcl
    end in
  rcl ++ [CL END_OF_TILE_MARKER].

Definition emit_frame_setup (job : v3dv_render_job) (layer : Z)
  (clear_value : option v3dv_clear_value) : v3dv_render_job :=
  let draw := render_frame_draw job in
  let tiling := render_frame_tiling job in
  let tile_alloc_offset :=
    to_uint32 (64 * layer * draw_tiles_x draw * draw_tiles_y draw) in
  let rcl := render_rcl job
    ++ [MULTICORE_RENDERING_TILE_LIST_SET_BASE
          {| addr_bo := tile_alloc job; addr_offset := tile_alloc_offset |}] in
  let rcl := rcl
    ++ [MULTICORE_RENDERING_SUPERTILE_CFG 1
          (draw_tiles_x draw) (draw_tiles_y draw)
          (supertile_width tiling) (supertile_height tiling)
          (frame_width_in_supertiles draw) (frame_height_in_supertiles draw)] in
  let rcl := for_upto 2 0 (frame_setup_round clear_value) rcl in
  let rcl := rcl ++ [FLUSH_VCD_CACHE] in
  {| render_frame_tiling := render_frame_tiling job;
     render_frame_draw := render_frame_draw job;
     tile_alloc := tile_alloc job;
     render_rcl := rcl;
     render_indirect := render_indirect job |}.

(** [for (int layer = 0; layer < job->frame_tiling.layers; layer++)]: the
    [int] counter is compared as unsigned with the [uint32_t] bound and
    handed to the body as a [uint32_t]. *)
Fixpoint layers_loop (fuel : nat) (layer : Z)
  (body : Z -> v3dv_render_job -> outcome v3dv_render_job)
  (job : v3dv_render_job) : outcome v3dv_render_job :=
  if to_uint32 layer <? layers (render_frame_tiling job) then
    match fuel with
    | O => Out_of_fuel
    | S fuel' =>
        job' <- body (to_uint32 layer) job ;;
        if layer =? INT_MAX then Undefined_behaviour
        else layers_loop fuel' (layer + 1) body job'
    end
  else Done job.

Definition emit_copy_layer_to_buffer (fuel : nat) (job : v3dv_render_job)
  (buffer : v3dv_buffer) (image : v3dv_image) (framebuffer : framebuffer_data)
  (layer : Z) (region : VkBufferImageCopy) : outcome v3dv_render_job :=
  let job := emit_frame_setup job layer None in
  job <- with_encoder job (fun j =>
           emit_copy_layer_to_buffer_per_tile_list j framebuffer buffer image
             layer region) ;;
  with_encoder job (fun j => emit_supertile_coordinates fuel j framebuffer).

Definition emit_copy_image_to_buffer_rcl (fuel : nat) (job : v3dv_render_job)
  (buffer : v3dv_buffer) (image : v3dv_image) (framebuffer : framebuffer_data)
  (region : VkBufferImageCopy) : outcome v3dv_render_job :=
  job <- with_encoder job (fun j =>
           emit_rcl_prologue j (fb_internal_type framebuffer) None) ;;
  job <- layers_loop fuel 0
           (fun layer job =>
              emit_copy_layer_to_buffer fuel job buffer image framebuffer
                layer region) job ;;
  Done (rcl_emit job [END_OF_RENDERING]).

Definition emit_copy_buffer_to_layer (fuel : nat) (job : v3dv_render_job)
  (image : v3dv_image) (buffer : v3dv_buffer) (framebuffer : framebuffer_data)
  (layer : Z) (region : VkBufferImageCopy) : outcome v3dv_render_job :=
  let job := emit_frame_setup job layer None in
  job <- with_encoder job (fun j =>
           emit_copy_buffer_to_layer_per_tile_list j framebuffer image buffer
             layer region) ;;
  with_encoder job (fun j => emit_supertile_coordinates fuel j framebuffer).

Definition emit_copy_buffer_to_image_rcl (fuel : nat) (job : v3dv_render_job)
  (image : v3dv_image) (buffer : v3dv_buffer) (framebuffer : framebuffer_data)
  (region : VkBufferImageCopy) : outcome v3dv_render_job :=
  job <- with_encoder job (fun j =>
           emit_rcl_prologue j (fb_internal_type framebuffer) None) ;;
  job <- layers_loop fuel 0
           (fun layer job =>
              emit_copy_buffer_to_layer fuel job image buffer framebuffer
                layer region) job ;;
  Done (rcl_emit job [END_OF_RENDERING]).

Definition emit_copy_image_layer (fuel : nat) (job : v3dv_render_job)
  (dst src : v3dv_image) (framebuffer : framebuffer_data)
  (layer : Z) (region : VkImageCopy) : outcome v3dv_render_job :=
  let job := emit_frame_setup job layer None in
  job <- with_encoder job (fun j =>
           emit_copy_image_layer_per_tile_list j framebuffer dst src layer
             region) ;;
  with_encoder job (fun j => emit_supertile_coordinates fuel j framebuffer).

Definition emit_copy_image_rcl (fuel : nat) (job : v3dv_render_job)
  (dst src : v3dv_image) (framebuffer : framebuffer_data)
  (region : VkImageCopy) : outcome v3dv_render_job :=
  job <- with_encoder job (fun j =>
           emit_rcl_prologue j (fb_internal_type framebuffer) None) ;;
  job <- layers_loop fuel 0
           (fun layer job =>
              emit_copy_image_layer fuel job dst src framebuffer layer region)
           job ;;
  Done (rcl_emit job [END_OF_RENDERING]).

Definition emit_clear_image_rcl (fuel : nat) (job : v3dv_render_job)
  (image : v3dv_image) (framebuffer : framebuffer_data)
  (clear_value : v3dv_clear_value) (aspects : VkImageAspectFlags)
  (layer level : Z) : outcome v3dv_render_job :=
  let clear_info :=
    {| clear_value := clear_value;
       clear_image := Some image;
       clear_aspects := aspects;
       clear_layer := layer;
       clear_level := level |} in
  job <- with_encoder job (fun j =>
           emit_rcl_prologue j (fb_internal_type framebuffer)
             (Some clear_info)) ;;
  let job := emit_frame_setup job 0 (Some clear_value) in
  job <- with_encoder job (fun j =>
           emit_clear_image fuel j image framebuffer aspects layer level) ;;
  Done (rcl_emit job [END_OF_RENDERING]).

Definition emit_copy_buffer_rcl (fuel : nat) (job : v3dv_render_job)
  (dst src : v3dv_bo) (dst_offset src_offset : Z)
  (framebuffer : framebuffer_data) (format : output_image_format)
  : outcome v3dv_render_job :=
  job <- with_encoder job (fun j =>
           emit_rcl_prologue j (fb_internal_type framebuffer) None) ;;
  let job := emit_frame_setup job 0 None in
  job <- with_encoder job (fun j =>
           emit_copy_buffer fuel j dst src dst_offset src_offset framebuffer
             format) ;;
  Done (rcl_emit job [END_OF_RENDERING]).

Definition emit_fill_buffer_rcl (fuel : nat) (job : v3dv_render_job)
  (bo : v3dv_bo) (offset : Z) (framebuffer : framebuffer_data) (data : Z)
  : outcome v3dv_render_job :=
  let clear_value :=
    {| color0 := data; color1 := 0; color2 := 0; color3 := 0 |} in
  let clear_info :=
    {| clear_value := clear_value;
       clear_image := None;
       clear_aspects := VK_IMAGE_ASPECT_COLOR_BIT;
       clear_layer := 0;
       clear_level := 0 |} in
  job <- with_encoder job (fun j =>
           emit_rcl_prologue j (fb_internal_type framebuffer)
             (Some clear_info)) ;;
  let job := emit_frame_setup job 0 (Some clear_value) in
  job <- with_encoder job (fun j =>
           emit_fill_buffer fuel j bo offset framebuffer) ;;
  Done (rcl_emit job [END_OF_RENDERING]).

(** *** What a whole render list is expected to hold *)

(** The packets [emit_frame_setup] writes for a layer of a job with the
    given frame tiling and tile allocation object; [clears] tells whether
    a clear value is passed. *)
Definition frame_setup_packets (tiling : v3dv_frame_tiling)
  (draw : v3dv_frame_tiling_draw) (alloc : v3dv_bo) (layer : Z)
  (clears : bool) : list rcl_packet :=
  let dummy_tile (clear : bool) : list rcl_packet :=
    [TILE_COORDINATES 0 0; CL END_OF_LOADS;
     CL (STORE_TILE_BUFFER_GENERAL store_none)]
    ++ (if clear then [CLEAR_TILE_BUFFERS true true] else [])
    ++ [CL END_OF_TILE_MARKER] in
  [MULTICORE_RENDERING_TILE_LIST_SET_BASE
     {| addr_bo := alloc;
        addr_offset := to_uint32 (64 * layer * draw_tiles_x draw
                                  * draw_tiles_y draw) |};
   MULTICORE_RENDERING_SUPERTILE_CFG 1
     (draw_tiles_x draw) (draw_tiles_y draw)
     (supertile_width tiling) (supertile_height tiling)
     (frame_width_in_supertiles draw) (frame_height_in_supertiles draw)]
  ++ dummy_tile clears ++ dummy_tile false ++ [FLUSH_VCD_CACHE].

(** An emitter appends to the render list without reading it: run on any
    job it does what it does on the same job with an empty render list,
    and leaves what the list held in front. *)
Definition appends_to_rcl (emit : v3dv_job -> outcome v3dv_job) : Prop :=
  forall job,
    emit job
    = (job' <- emit (set_rcl job []) ;;
       Done {| frame_tiling := frame_tiling job';
               rcl := rcl job ++ rcl job';
               indirect := indirect job' |}).

(** The four records of a prologue without a colour clear. *)
Definition prologue_packets (tiling : v3dv_frame_tiling) (it : internal_type)
  (z s : Z) : list cl_packet :=
  [TILE_RENDERING_MODE_CFG_COMMON true (width tiling) (height tiling) 1 false
     (internal_bpp tiling);
   TILE_RENDERING_MODE_CFG_COLOR (internal_bpp tiling) it
     V3D_RENDER_TARGET_CLAMP_NONE;
   TILE_RENDERING_MODE_CFG_ZS_CLEAR_VALUES z s;
   TILE_LIST_INITIAL_BLOCK_SIZE true TILE_ALLOCATION_BLOCK_SIZE_64B].

(** The tile list an emitter writes: what it leaves in the indirect list
    of a job that starts with empty lists. *)
Definition tile_list_body (emit : v3dv_job -> outcome v3dv_job)
  (tiling : v3dv_frame_tiling) : list cl_packet :=
  match emit {| frame_tiling := tiling; rcl := []; indirect := [] |} with
  | Done job => indirect job
  | _ => []
  end.

(** What the copy of one layer adds to the render list: the frame setup
    of the layer, the branch record of its tile list of [len] packets,
    which lies [len * layer] packets after position [start] of the
    indirect list, and the supertile coordinates of the frame. *)
Definition layer_packets (tiling : v3dv_frame_tiling)
  (draw : v3dv_frame_tiling_draw) (alloc : v3dv_bo) (fb : framebuffer_data)
  (start len : nat) (layer : Z) : list rcl_packet :=
  frame_setup_packets tiling draw alloc layer false
  ++ CL (START_ADDRESS_OF_GENERIC_TILE_LIST
           (start + len * Z.to_nat layer) (start + len * Z.to_nat layer + len))
     :: map CL (row_major_coordinates
                  (min_x_supertile fb) (max_x_supertile fb)
                  (min_y_supertile fb) (max_y_supertile fb)).

(** The supertile rectangle of a framebuffer can be walked by [int]
    counters within [fuel] turns per loop. *)
Definition rectangle_fits (fb : framebuffer_data) (fuel : nat) : Prop :=
  0 <= min_x_supertile fb <= INT_MAX /\ 0 <= min_y_supertile fb <= INT_MAX
  /\ 0 <= max_x_supertile fb < INT_MAX /\ 0 <= max_y_supertile fb < INT_MAX
  /\ max_x_supertile fb + 1 - min_x_supertile fb <= Z.of_nat fuel
  /\ max_y_supertile fb + 1 - min_y_supertile fb <= Z.of_nat fuel.

(** The clear-colour records of a prologue for a clear colour and a
    padded height [pad]. *)
Definition clear_color_packets (tiling : v3dv_frame_tiling)
  (color : v3dv_clear_value) (pad : Z) : list cl_packet :=
  [TILE_RENDERING_MODE_CFG_CLEAR_COLORS_PART1
     (color0 color) (Z.land (color1 color) 0x00ffffff) 0]
  ++ (if V3D_INTERNAL_BPP_64 <=? internal_bpp tiling then
        [TILE_RENDERING_MODE_CFG_CLEAR_COLORS_PART2
           (Z.lor (Z.shiftr (color1 color) 24)
                  (to_uint32 (Z.shiftl (color2 color) 8)))
           (Z.lor (Z.shiftr (color2 color) 24)
                  (to_uint32 (Z.shiftl (Z.land (color3 color) 0xffff) 8)))
           0]
      else [])
  ++ (if (V3D_INTERNAL_BPP_128 <=? internal_bpp tiling) || negb (pad =? 0) then
        [TILE_RENDERING_MODE_CFG_CLEAR_COLORS_PART3
           pad (Z.shiftr (color3 color) 16) 0]
      else []).

(** The render list of a job that clears: the prologue records [pro],
    the frame setup of layer 0 with its clear, the branch record of a
    tile list of six packets at position [start], the supertile
    coordinates and the end of rendering. *)
Definition clear_render_list (tiling : v3dv_frame_tiling)
  (draw : v3dv_frame_tiling_draw) (alloc : v3dv_bo) (fb : framebuffer_data)
  (start : nat) (pro : list cl_packet) : list rcl_packet :=
  map CL pro
  ++ frame_setup_packets tiling draw alloc 0 true
  ++ CL (START_ADDRESS_OF_GENERIC_TILE_LIST start (start + 6))
     :: map CL (row_major_coordinates
                  (min_x_supertile fb) (max_x_supertile fb)
                  (min_y_supertile fb) (max_y_supertile fb))
  ++ [END_OF_RENDERING].

(** *** The box of a blit *)

(** Conversion of a mathematical integer to [int]; a result out of range
    is a signed overflow. *)
Definition int_result (z : Z) : outcome Z :=
  if (- 2 ^ 31 <=? z) && (z <=? INT_MAX) then Done z else Undefined_behaviour.

Record blit_box := {
  box_x : Z;
  box_y : Z;
  box_w : Z;
  box_h : Z;
  box_mirror_x : bool;
  box_mirror_y : bool
}.

(** One axis of [compute_blit_box]: [near] and [far] are the [int32_t]
    coordinates of [offsets[0]] and [offsets[1]], [size] the [uint32_t]
    extent of the image.  Each [MIN2] compares an [int] with a
    [uint32_t], so both sides are taken as unsigned. *)
Definition compute_blit_axis (MIN2 : Z -> Z -> Z) (near far size : Z)
  : outcome (bool * Z * Z) :=
  if near <=? far then
    span <- int_result (far - near) ;;
    Done (false,
          MIN2 (to_uint32 near) (to_uint32 (size - 1)),
          MIN2 (to_uint32 span) (to_uint32 (size - to_uint32 near)))
  else
    span <- int_result (near - far) ;;
    Done (true,
          MIN2 (to_uint32 far) (to_uint32 (size - 1)),
          MIN2 (to_uint32 span) (to_uint32 (size - to_uint32 far))).

(** [compute_blit_box] reads [image->extent.width] and
    [image->extent.height] of the image; it is given the extent.  [MIN2]
    is the minimum macro of the utility headers, which are not among the
    sources. *)
Definition compute_blit_box (MIN2 : Z -> Z -> Z)
  (offsets : VkOffset3D * VkOffset3D) (extent : VkExtent3D) : outcome blit_box :=
  let '(o0, o1) := offsets in
  ax <- compute_blit_axis MIN2 (offset_x o0) (offset_x o1) (extent_width extent) ;;
  let '(mirror_x, x, w) := ax in
  ay <- compute_blit_axis MIN2 (offset_y o0) (offset_y o1) (extent_height extent) ;;
  let '(mirror_y, y, h) := ay in
  Done {| box_x := x; box_y := y; box_w := w; box_h := h;
          box_mirror_x := mirror_x; box_mirror_y := mirror_y |}.

(** What the minimum macro computes. *)
Definition is_minimum (MIN2 : Z -> Z -> Z) : Prop :=
  forall a b, MIN2 a b = if a <? b then a else b.

(** *** The shader blit and its objects

    [blit_shader] works through calls into the rest of the driver.  What
    it does is the sequence of those calls; an object it creates for a
    layer is known by its kind and the layer.  The texture coordinates it
    pushes are floating-point values and are not part of the calls
    recorded here. *)

Record VkImageBlit := {
  blit_srcSubresource : VkImageSubresourceLayers;
  blit_srcOffsets : VkOffset3D * VkOffset3D;
  blit_dstSubresource : VkImageSubresourceLayers;
  blit_dstOffsets : VkOffset3D * VkOffset3D
}.

Inductive blit_object :=
| blit_dst_image_view (layer : Z)
| blit_framebuffer (layer : Z)
| blit_descriptor_set (layer : Z)
| blit_sampler (layer : Z)
| blit_src_image_view (layer : Z).

(** The steps of an iteration that can fail. *)
Inductive blit_step :=
| create_dst_image_view
| create_framebuffer
| allocate_descriptor_set
| create_sampler
| create_src_image_view
| begin_render_pass.

(** [dirty_dynamic_state]: zero, or the viewport and scissor bits. *)
Inductive dirty_dynamic_state := dirty_nothing | dirty_viewport_scissor.

Inductive blit_call :=
| v3dv_cmd_buffer_meta_state_push
| v3dv_cmd_buffer_meta_state_pop (dirty : dirty_dynamic_state)
| v3dv_Create (object : blit_object) (success : bool)
| v3dv_Destroy (object : blit_object)
| v3dv_UpdateDescriptorSets (layer : Z)
| v3dv_CmdBeginRenderPass (x y w h : Z) (job : bool)
| v3dv_CmdPushConstants
| v3dv_CmdBindPipeline
| v3dv_CmdBindDescriptorSets (layer : Z)
| v3dv_CmdSetViewport (x y w h : Z)
| v3dv_CmdSetScissor (x y w h : Z)
| v3dv_CmdDraw (vertex_count instance_count first_vertex first_instance : Z)
| v3dv_CmdEndRenderPass.

(** How an iteration of the loop over the layers ends: it ran to its
    end, it failed after its destination view was created and the loop
    goes on, or the destination view could not be created and the loop is
    left. *)
Inductive layer_end := layer_drawn | layer_failed | loop_left.

(** The labels of the clean-up ladder, each falling through to the next. *)
Definition from_fail_framebuffer (i : Z) : list blit_call :=
  [v3dv_Destroy (blit_dst_image_view i)].
Definition from_fail_descriptor_set (i : Z) : list blit_call :=
  v3dv_Destroy (blit_framebuffer i) :: from_fail_framebuffer i.
Definition from_fail_sampler (i : Z) : list blit_call :=
  v3dv_Destroy (blit_descriptor_set i) :: from_fail_descriptor_set i.
Definition from_fail_src_image_view (i : Z) : list blit_call :=
  v3dv_Destroy (blit_src_image_view i) :: from_fail_sampler i.
Definition from_fail_job (i : Z) : list blit_call :=
  v3dv_Destroy (blit_sampler i) :: from_fail_src_image_view i.

(** The body of [for (uint32_t i = 0; i < layerCount; i++)].

    [VkImageView src_image_view] has no initialiser and is written only
    by a creation that succeeds.  When the creation fails the code jumps
    to [fail_src_image_view], which passes the variable to
    [v3dv_DestroyImageView]: the value read there is indeterminate. *)
Definition blit_layer (succeeds : blit_step -> Z -> bool) (box : blit_box)
  (i : Z) : outcome (list blit_call * layer_end) :=
  let x := box_x box in
  let y := box_y box in
  let w := box_w box in
  let h := box_h box in
  if negb (succeeds create_dst_image_view i) then
    Done ([v3dv_Create (blit_dst_image_view i) false], loop_left)
  else if negb (succeeds create_framebuffer i) then
    Done ([v3dv_Create (blit_dst_image_view i) true;
           v3dv_Create (blit_framebuffer i) false]
          ++ from_fail_framebuffer i, layer_failed)
  else if negb (succeeds allocate_descriptor_set i) then
    Done ([v3dv_Create (blit_dst_image_view i) true;
           v3dv_Create (blit_framebuffer i) true;
           v3dv_Create (blit_descriptor_set i) false]
          ++ from_fail_descriptor_set i, layer_failed)
  else if negb (succeeds create_sampler i) then
    Done ([v3dv_Create (blit_dst_image_view i) true;
           v3dv_Create (blit_framebuffer i) true;
           v3dv_Create (blit_descriptor_set i) true;
           v3dv_Create (blit_sampler i) false]
          ++ from_fail_sampler i, layer_failed)
  else if negb (succeeds create_src_image_view i) then
    Undefined_behaviour
  else if negb (succeeds begin_render_pass i) then
    Done ([v3dv_Create (blit_dst_image_view i) true;
           v3dv_Create (blit_framebuffer i) true;
           v3dv_Create (blit_descriptor_set i) true;
           v3dv_Create (blit_sampler i) true;
           v3dv_Create (blit_src_image_view i) true;
           v3dv_UpdateDescriptorSets i;
           v3dv_CmdBeginRenderPass x y w h false]
          ++ from_fail_job i, layer_failed)
  else
    Done ([v3dv_Create (blit_dst_image_view i) true;
           v3dv_Create (blit_framebuffer i) true;
           v3dv_Create (blit_descriptor_set i) true;
           v3dv_Create (blit_sampler i) true;
           v3dv_Create (blit_src_image_view i) true;
           v3dv_UpdateDescriptorSets i;
           v3dv_CmdBeginRenderPass x y w h true;
           v3dv_CmdPushConstants; v3dv_CmdBindPipeline;
           v3dv_CmdBindDescriptorSets i;
           v3dv_CmdSetViewport x y w h; v3dv_CmdSetScissor x y w h;
           v3dv_CmdDraw 4 1 0 0; v3dv_CmdEndRenderPass]
          ++ from_fail_job i, layer_drawn).

(** The loop over the layers [layers]; [ok] and [dirty] are the two
    variables it assigns. *)
Fixpoint blit_layers (succeeds : blit_step -> Z -> bool) (box : blit_box)
  (layers : list Z) (ok : bool) (dirty : dirty_dynamic_state)
  : outcome (list blit_call * bool * dirty_dynamic_state) :=
  match layers with
  | [] => Done ([], ok, dirty)
  | i :: rest =>
      r <- blit_layer succeeds box i ;;
      match r with
      | (calls, loop_left) => Done (calls, false, dirty)
      | (calls, layer_failed) =>
          more <- blit_layers succeeds box rest false dirty ;;
          let '(later, ok', dirty') := more in
          Done (calls ++ later, ok', dirty')
      | (calls, layer_drawn) =>
          more <- blit_layers succeeds box rest ok dirty_viewport_scissor ;;
          let '(later, ok', dirty') := more in
          Done (calls ++ later, ok', dirty')
      end
  end.

(** [get_blit_pipeline] is the result of the call of that name: whether
    it yields a pipeline.  The function reads the extents of the two
    images besides the images. *)
Definition blit_shader (MIN2 : Z -> Z -> Z) (get_blit_pipeline : bool)
  (succeeds : blit_step -> Z -> bool) (dst src : v3dv_image)
  (dst_extent src_extent : VkExtent3D) (region : VkImageBlit)
  : outcome (bool * list blit_call) :=
  if negb (aspectMask (blit_dstSubresource region) =? VK_IMAGE_ASPECT_COLOR_BIT)
  then Done (false, [])
  else if match image_type dst, image_type src with
          | VK_IMAGE_TYPE_2D, VK_IMAGE_TYPE_2D => false
          | _, _ => true
          end
  then Done (false, [])
  else
    dst_box <- compute_blit_box MIN2 (blit_dstOffsets region) dst_extent ;;
    src_box <- compute_blit_box MIN2 (blit_srcOffsets region) src_extent ;;
    if negb get_blit_pipeline then Done (false, [])
    else
      r <- blit_layers succeeds dst_box
             (Zseq 0 (Z.to_nat (layerCount (blit_dstSubresource region))))
             true dirty_nothing ;;
      let '(calls, ok, dirty) := r in
      Done (ok,
            v3dv_cmd_buffer_meta_state_push
            :: calls ++ [v3dv_cmd_buffer_meta_state_pop dirty]).

(** The objects the calls created and the objects they destroyed. *)
Definition created (calls : list blit_call) : list blit_object :=
  flat_map (fun c => match c with
                     | v3dv_Create o true => [o]
                     | _ => []
                     end) calls.

Definition destroyed (calls : list blit_call) : list blit_object :=
  flat_map (fun c => match c with
                     | v3dv_Destroy o => [o]
                     | _ => []
                     end) calls.

(** All the fallible steps of a layer succeed. *)
Definition layer_succeeds (succeeds : blit_step -> Z -> bool) (i : Z) : bool :=
  succeeds create_dst_image_view i && succeeds create_framebuffer i
  && succeeds allocate_descriptor_set i && succeeds create_sampler i
  && succeeds create_src_image_view i && succeeds begin_render_pass i.

(** The iteration of a layer gets as far as the creation of the source
    image view. *)
Definition reaches_src_image_view (succeeds : blit_step -> Z -> bool) (i : Z)
  : bool :=
  succeeds create_dst_image_view i && succeeds create_framebuffer i
  && succeeds allocate_descriptor_set i && succeeds create_sampler i.

(** *** The transfer-unit blit *)

Inductive VkFilter := VK_FILTER_NEAREST | VK_FILTER_LINEAR.

(** The arguments of a call of [emit_tfu_job]. *)
Record tfu_job := {
  tfu_dst_mip_level : Z;
  tfu_dst_layer : Z;
  tfu_src_mip_level : Z;
  tfu_src_layer : Z;
  tfu_width : Z;
  tfu_height : Z
}.

(** The layer of an image a transfer-unit job of turn [i] works on. *)
Definition tfu_layer (u_minify : Z -> Z -> Z) (image : v3dv_image)
  (rsc : VkImageSubresourceLayers) (layer_count i : Z) : outcome Z :=
  match image_type image with
  | VK_IMAGE_TYPE_3D =>
      c_assert (layer_count =? 1) ;;;
      Done (u_minify (image_extent_depth image) (mipLevel rsc))
  | _ => Done (to_uint32 (baseArrayLayer rsc + i))
  end.

(** The loop [for (uint32_t i = 0; i < layer_count; i++)] of [blit_tfu]
    over the turns [turns]. *)
Fixpoint blit_tfu_layers (u_minify : Z -> Z -> Z) (dst src : v3dv_image)
  (region : VkImageBlit) (layer_count dst_width dst_height : Z)
  (turns : list Z) (jobs : list tfu_job) : outcome (list tfu_job) :=
  match turns with
  | [] => Done jobs
  | i :: rest =>
      src_layer <- tfu_layer u_minify src (blit_srcSubresource region)
                     layer_count i ;;
      dst_layer <- tfu_layer u_minify dst (blit_dstSubresource region)
                     layer_count i ;;
      blit_tfu_layers u_minify dst src region layer_count dst_width dst_height
        rest
        (jobs ++ [{| tfu_dst_mip_level := mipLevel (blit_dstSubresource region);
                     tfu_dst_layer := dst_layer;
                     tfu_src_mip_level := mipLevel (blit_srcSubresource region);
                     tfu_src_layer := src_layer;
                     tfu_width := dst_width;
                     tfu_height := dst_height |}])
  end.

(** [v3dv_tfu_supports_tex_format] and [u_minify] live in other files;
    the function is given them, and the extent and the texture type of
    the format of the destination image, which it reads besides the
    images.  The result pairs the returned flag with the transfer-unit
    jobs handed to [emit_tfu_job], in order. *)
Definition blit_tfu (v3dv_tfu_supports_tex_format : Z -> bool)
  (u_minify : Z -> Z -> Z) (dst src : v3dv_image)
  (dst_extent : VkExtent3D) (dst_tex_type : Z)
  (region : VkImageBlit) (filter : VkFilter)
  : outcome (bool * list tfu_job) :=
  match filter with
  | VK_FILTER_LINEAR => Done (false, [])
  | VK_FILTER_NEAREST =>
    if negb (image_vk_format src =? image_vk_format dst) then Done (false, [])
    else if negb (v3dv_tfu_supports_tex_format dst_tex_type) then
      Done (false, [])
    else if vk_format_is_depth_or_stencil (image_vk_format dst) then
      Done (false, [])
    else
      let dst_mip_level := mipLevel (blit_dstSubresource region) in
      slice <- slice_at dst dst_mip_level ;;
      match slice_tiling slice with
      | VC5_TILING_RASTER => Done (false, [])
      | _ =>
        let src0 := fst (blit_srcOffsets region) in
        let src1 := snd (blit_srcOffsets region) in
        let dst0 := fst (blit_dstOffsets region) in
        let dst1 := snd (blit_dstOffsets region) in
        if negb (offset_x src0 =? 0) || negb (offset_y src0 =? 0) then
          Done (false, [])
        else if negb (offset_x dst0 =? 0) || negb (offset_y dst0 =? 0) then
          Done (false, [])
        else
          let dst_width := u_minify (extent_width dst_extent) dst_mip_level in
          let dst_height := u_minify (extent_height dst_extent) dst_mip_level in
          if (to_uint32 (offset_x dst1) <? to_uint32 (dst_width - 1))
             || (to_uint32 (offset_y dst1) <? to_uint32 (dst_height - 1)) then
            Done (false, [])
          else if negb (offset_x src1 =? offset_x dst1)
                  || negb (offset_y src1 =? offset_y dst1) then
            Done (false, [])
          else
            c_assert (layerCount (blit_dstSubresource region)
                      =? layerCount (blit_srcSubresource region)) ;;;
            let layer_count := layerCount (blit_dstSubresource region) in
            jobs <- blit_tfu_layers u_minify dst src region layer_count
                      dst_width dst_height
                      (Zseq 0 (Z.to_nat layer_count)) [] ;;
            Done (true, jobs)
      end
  end.

(** The conditions under which the transfer unit takes a blit. *)
Definition tfu_takes (v3dv_tfu_supports_tex_format : Z -> bool)
  (u_minify : Z -> Z -> Z) (dst src : v3dv_image)
  (dst_extent : VkExtent3D) (dst_tex_type : Z)
  (region : VkImageBlit) (filter : VkFilter) (slice : v3d_resource_slice)
  : Prop :=
  let level := mipLevel (blit_dstSubresource region) in
  filter = VK_FILTER_NEAREST
  /\ image_vk_format src = image_vk_format dst
  /\ v3dv_tfu_supports_tex_format dst_tex_type = true
  /\ vk_format_is_depth_or_stencil (image_vk_format dst) = false
  /\ slice_at dst level = Done slice
  /\ slice_tiling slice <> VC5_TILING_RASTER
  /\ offset_x (fst (blit_srcOffsets region)) = 0
  /\ offset_y (fst (blit_srcOffsets region)) = 0
  /\ offset_x (fst (blit_dstOffsets region)) = 0
  /\ offset_y (fst (blit_dstOffsets region)) = 0
  /\ to_uint32 (u_minify (extent_width dst_extent) level - 1)
     <= to_uint32 (offset_x (snd (blit_dstOffsets region)))
  /\ to_uint32 (u_minify (extent_height dst_extent) level - 1)
     <= to_uint32 (offset_y (snd (blit_dstOffsets region)))
  /\ offset_x (snd (blit_srcOffsets region))
     = offset_x (snd (blit_dstOffsets region))
  /\ offset_y (snd (blit_srcOffsets region))
     = offset_y (snd (blit_dstOffsets region)).

(** The job of turn [i] of a blit between images that are not 3D. *)
Definition tfu_job_of (u_minify : Z -> Z -> Z) (dst_extent : VkExtent3D)
  (region : VkImageBlit) (i : Z) : tfu_job :=
  let level := mipLevel (blit_dstSubresource region) in
  {| tfu_dst_mip_level := level;
     tfu_dst_layer :=
       to_uint32 (baseArrayLayer (blit_dstSubresource region) + i);
     tfu_src_mip_level := mipLevel (blit_srcSubresource region);
     tfu_src_layer :=
       to_uint32 (baseArrayLayer (blit_srcSubresource region) + i);
     tfu_width := u_minify (extent_width dst_extent) level;
     tfu_height := u_minify (extent_height dst_extent) level |}.

(** *** The two sweeps of the packing tests *)

(** [for (unsigned sz = 16; sz <= 32; sz *= 2)]: the log of the helper
    calls, one after the other. *)
Fixpoint sweep_sizes (fuel : nat) (sz : Z) (body : Z -> list sweep_event)
  (log : list sweep_event) : outcome (list sweep_event) :=
  if sz <=? 32 then
    match fuel with
    | O => Out_of_fuel
    | S fuel' => sweep_sizes fuel' (to_uint32 (sz * 2)) body (log ++ body sz)
    end
  else Done log.

(** [bit_test_single input ins fma] is the verdict of the test of an
    instruction on an input vector; [input16] and [input32] are the bit
    patterns of the two input vectors of floating-point constants. *)
Definition bit_fmod (fuel : nat)
  (bit_test_single : list Z -> bi_instruction -> bool -> bool)
  (input16 input32 : list Z) : outcome (list sweep_event) :=
  sweep_sizes fuel 16
    (fun sz =>
       let input := if sz =? 16 then input16 else input32 in
       bit_fmod_helper (bit_test_single input) BI_ADD sz true)
    [].

Definition bit_fma (fuel : nat)
  (bit_test_single : list Z -> bi_instruction -> bool -> bool)
  (input16 input32 : list Z) : outcome (list sweep_event) :=
  sweep_sizes fuel 16
    (fun sz =>
       let input := if sz =? 16 then input16 else input32 in
       bit_fma_helper (bit_test_single input) sz)
    [].

(** *** Image clears *)

Record VkImageSubresourceRange := {
  range_aspectMask : VkImageAspectFlags;
  range_baseMipLevel : Z;
  range_levelCount : Z;
  range_baseArrayLayer : Z;
  range_layerCount : Z
}.

(** [(~0U)]. *)
Definition VK_REMAINING_MIP_LEVELS : Z := 2 ^ 32 - 1.
Definition VK_REMAINING_ARRAY_LAYERS : Z := 2 ^ 32 - 1.

(** [union VkClearValue]: four words; the depth and stencil view reads
    [depth] from the bits of word 0 and [stencil] from word 1. *)
Record VkClearValue := {
  clear_word0 : Z; clear_word1 : Z; clear_word2 : Z; clear_word3 : Z
}.

(** The fields of [struct v3dv_image] that the clear reads besides those
    of [v3dv_image]. *)
Record v3dv_image_layout := {
  layout_extent : VkExtent3D;
  layout_levels : Z;
  layout_array_size : Z;
  layout_aspects : VkImageAspectFlags
}.

(** [v3dv_get_hw_clear_color] and the colour packing of the utility
    library ([util_pack_color] on [vk_format_to_pipe_format]) live
    elsewhere; the function is given them.  [memcpy] takes the first
    [internal_size] bytes of the packed colour; the clear value it writes
    to starts as zero. *)
Definition get_hw_clear_color
  (v3dv_get_hw_clear_color : VkClearValue -> internal_type -> Z -> v3dv_clear_value)
  (util_pack_color : VkClearValue -> VkFormat -> list Z)
  (color : VkClearValue) (fb_format image_format : VkFormat)
  (internal_type : internal_type) (internal_bpp : Z)
  : outcome v3dv_clear_value :=
  if (internal_bpp <? 0) || (31 <? internal_bpp) then Undefined_behaviour
  else
    let internal_size := to_uint32 (Z.shiftl 4 internal_bpp) in
    if fb_format =? image_format then
      Done (v3dv_get_hw_clear_color color internal_type internal_size)
    else if 16 <? internal_size then Undefined_behaviour
    else
      let uc := util_pack_color color image_format in
      let word (i : nat) :=
        if Z.of_nat i * 4 <? internal_size then nth i uc 0 else 0 in
      Done {| color0 := word 0%nat; color1 := word 1%nat;
              color2 := word 2%nat; color3 := word 3%nat |}.

(** A job of a clear, recorded by what the loop hands to
    [v3dv_job_start_frame] (the width and height; the frame has one
    layer and one render target), to [setup_framebuffer_data] and to
    [emit_clear_image_rcl]. *)
Record clear_job := {
  clear_job_width : Z;
  clear_job_height : Z;
  clear_job_internal_bpp : Z;
  clear_job_internal_type : internal_type;
  clear_job_fb_format : VkFormat;
  clear_job_value : v3dv_clear_value;
  clear_job_aspects : VkImageAspectFlags;
  clear_job_layer : Z;
  clear_job_level : Z
}.

(** [for (uint32_t layer = min_layer; layer < max_layer; layer++)];
    [job_of layer] is the job of a layer and [n] counts the jobs asked
    for so far. *)
Fixpoint clear_layers_loop (fuel : nat) (job_ok : nat -> bool)
  (aspects_present : bool) (job_of : Z -> clear_job)
  (layer max_layer : Z) (n : nat) (jobs : list clear_job)
  : outcome (list clear_job * nat) :=
  if layer <? max_layer then
    match fuel with
    | O => Out_of_fuel
    | S fuel' =>
        if negb (job_ok n) then No_job
        else
          c_assert aspects_present ;;;
          clear_layers_loop fuel' job_ok aspects_present job_of
            (to_uint32 (layer + 1)) max_layer (S n) (jobs ++ [job_of layer])
    end
  else Done (jobs, n).

(** [for (uint32_t level = min_level; level < max_level; level++)]. *)
Fixpoint clear_levels_loop (fuel fuel_layers : nat) (job_ok : nat -> bool)
  (aspects_present : bool) (job_of : Z -> Z -> clear_job)
  (min_layer : Z) (max_layer_of : Z -> Z)
  (level max_level : Z) (n : nat) (jobs : list clear_job)
  : outcome (list clear_job * nat) :=
  if level <? max_level then
    match fuel with
    | O => Out_of_fuel
    | S fuel' =>
        r <- clear_layers_loop fuel_layers job_ok aspects_present (job_of level)
               min_layer (max_layer_of level) n jobs ;;
        let '(jobs, n) := r in
        clear_levels_loop fuel' fuel_layers job_ok aspects_present job_of
          min_layer max_layer_of (to_uint32 (level + 1)) max_level n jobs
    end
  else Done (jobs, n).

(** The clear value that [clear_image_tlb] builds before its loops: from
    the colour for a range with the colour aspect, from the depth and the
    stencil otherwise. *)
Definition hw_clear_value_of_range
  (v3dv_get_hw_clear_color : VkClearValue -> internal_type -> Z -> v3dv_clear_value)
  (util_pack_color : VkClearValue -> VkFormat -> list Z)
  (image : v3dv_image) (fb_format : VkFormat) (clear_value : VkClearValue)
  (range : VkImageSubresourceRange)
  (internal_type : internal_type) (internal_bpp : Z)
  : outcome v3dv_clear_value :=
  if has_aspect (range_aspectMask range) VK_IMAGE_ASPECT_COLOR_BIT then
    get_hw_clear_color v3dv_get_hw_clear_color util_pack_color clear_value
      fb_format (image_vk_format image) internal_type internal_bpp
  else
    c_assert (has_aspect (range_aspectMask range) VK_IMAGE_ASPECT_DEPTH_BIT
              || has_aspect (range_aspectMask range)
                   VK_IMAGE_ASPECT_STENCIL_BIT) ;;;
    Done {| color0 := clear_word0 clear_value;
            color1 := clear_word1 clear_value mod 256;
            color2 := 0; color3 := 0 |}.

Definition clear_job_of (u_minify : Z -> Z -> Z) (layout : v3dv_image_layout)
  (fb_format : VkFormat) (range : VkImageSubresourceRange)
  (internal_type : internal_type) (internal_bpp : Z)
  (hw_clear_value : v3dv_clear_value) (level layer : Z) : clear_job :=
  {| clear_job_width := u_minify (extent_width (layout_extent layout)) level;
     clear_job_height := u_minify (extent_height (layout_extent layout)) level;
     clear_job_internal_bpp := internal_bpp;
     clear_job_internal_type := internal_type;
     clear_job_fb_format := fb_format;
     clear_job_value := hw_clear_value;
     clear_job_aspects := range_aspectMask range;
     clear_job_layer := layer;
     clear_job_level := level |}.

(** [u_minify] lives in the utility headers; the function is given it.
    [max_layer] is assigned before the loops for an image that is not 3D
    and at each level for one that is. *)
Definition clear_image_tlb
  (for_output_format : output_image_format -> internal_type * Z)
  (v3dv_get_hw_clear_color : VkClearValue -> internal_type -> Z -> v3dv_clear_value)
  (util_pack_color : VkClearValue -> VkFormat -> list Z)
  (u_minify : Z -> Z -> Z)
  (fuel : nat) (job_ok : nat -> bool)
  (image : v3dv_image) (layout : v3dv_image_layout) (fb_format : VkFormat)
  (clear_value : VkClearValue) (range : VkImageSubresourceRange)
  : outcome (list clear_job) :=
  tb <- get_internal_type_bpp_for_image_aspects for_output_format fb_format
          (range_aspectMask range) ;;
  let '(internal_type, internal_bpp) := tb in
  hw_clear_value <-
    hw_clear_value_of_range v3dv_get_hw_clear_color util_pack_color image
      fb_format clear_value range internal_type internal_bpp ;;
  let level_count :=
    if range_levelCount range =? VK_REMAINING_MIP_LEVELS
    then to_uint32 (layout_levels layout - range_baseMipLevel range)
    else range_levelCount range in
  let min_level := range_baseMipLevel range in
  let max_level := to_uint32 (range_baseMipLevel range + level_count) in
  let layer_count :=
    if range_layerCount range =? VK_REMAINING_ARRAY_LAYERS
    then to_uint32 (layout_array_size layout - range_baseArrayLayer range)
    else range_layerCount range in
  let min_layer :=
    match image_type image with
    | VK_IMAGE_TYPE_3D => 0
    | _ => range_baseArrayLayer range
    end in
  let max_layer_of (level : Z) :=
    match image_type image with
    | VK_IMAGE_TYPE_3D => u_minify (image_extent_depth image) level
    | _ => to_uint32 (range_baseArrayLayer range + layer_count)
    end in
  r <- clear_levels_loop fuel fuel job_ok
         (has_aspect (range_aspectMask range) (layout_aspects layout))
         (clear_job_of u_minify layout fb_format range internal_type
            internal_bpp hw_clear_value)
         min_layer max_layer_of min_level max_level 0%nat [] ;;
  Done (fst r).

(** The levels and the layers of each level that a clear covers. *)
Definition clear_level_count (layout : v3dv_image_layout)
  (range : VkImageSubresourceRange) : Z :=
  if range_levelCount range =? VK_REMAINING_MIP_LEVELS
  then layout_levels layout - range_baseMipLevel range
  else range_levelCount range.

Definition clear_layers_of (u_minify : Z -> Z -> Z) (image : v3dv_image)
  (layout : v3dv_image_layout) (range : VkImageSubresourceRange) (level : Z)
  : list Z :=
  match image_type image with
  | VK_IMAGE_TYPE_3D =>
      Zseq 0 (Z.to_nat (u_minify (image_extent_depth image) level))
  | _ =>
      Zseq (range_baseArrayLayer range)
        (Z.to_nat (if range_layerCount range =? VK_REMAINING_ARRAY_LAYERS
                   then layout_array_size layout - range_baseArrayLayer range
                   else range_layerCount range))
  end.

(** *** Further example inputs *)

(** The frame of [example_tiling] at 128 bits per pixel. *)
Definition example_tiling_128 : v3dv_frame_tiling :=
  {| width := 100; height := 80; layers := 1;
     internal_bpp := V3D_INTERNAL_BPP_128;
     tile_width := 64; tile_height := 64;
     supertile_width := 1; supertile_height := 1 |}.

Definition example_job_128 : v3dv_job :=
  {| frame_tiling := example_tiling_128; rcl := []; indirect := [] |}.

Definition example_render_job : v3dv_render_job :=
  {| render_frame_tiling := example_tiling;
     render_frame_draw :=
       {| draw_tiles_x := 2; draw_tiles_y := 2;
          frame_width_in_supertiles := 2; frame_height_in_supertiles := 2 |};
     tile_alloc := {| bo_handle := 3; bo_size := 4096 |};
     render_rcl := []; render_indirect := [] |}.

Definition example_image_copy : VkImageCopy :=
  {| copy_srcSubresource := {| aspectMask := VK_IMAGE_ASPECT_COLOR_BIT;
                               mipLevel := 0; baseArrayLayer := 0;
                               layerCount := 1 |};
     copy_srcOffset := {| offset_x := 0; offset_y := 0; offset_z := 0 |};
     copy_dstSubresource := {| aspectMask := VK_IMAGE_ASPECT_COLOR_BIT;
                               mipLevel := 0; baseArrayLayer := 0;
                               layerCount := 1 |};
     copy_dstOffset := {| offset_x := 0; offset_y := 0; offset_z := 0 |};
     copy_extent := {| extent_width := 100; extent_height := 80;
                       extent_depth := 1 |} |}.

Definition example_MIN2 (a b : Z) : Z := if a <? b then a else b.

Definition example_u_minify (value levels : Z) : Z :=
  Z.max 1 (Z.shiftr value levels).

Definition example_extent : VkExtent3D :=
  {| extent_width := 100; extent_height := 80; extent_depth := 1 |}.

(** A blit of the rectangle (10, 5)-(50, 20), mirrored in y at the
    destination. *)
Definition example_blit : VkImageBlit :=
  {| blit_srcSubresource := {| aspectMask := VK_IMAGE_ASPECT_COLOR_BIT;
                               mipLevel := 0; baseArrayLayer := 0;
                               layerCount := 2 |};
     blit_srcOffsets := ({| offset_x := 10; offset_y := 5; offset_z := 0 |},
                         {| offset_x := 50; offset_y := 20; offset_z := 1 |});
     blit_dstSubresource := {| aspectMask := VK_IMAGE_ASPECT_COLOR_BIT;
                               mipLevel := 0; baseArrayLayer := 0;
                               layerCount := 2 |};
     blit_dstOffsets := ({| offset_x := 10; offset_y := 20; offset_z := 0 |},
                         {| offset_x := 50; offset_y := 5; offset_z := 1 |}) |}.

(** Every call of the blit succeeds but the creation of the source view
    of layer 1. *)
Definition example_succeeds (step : blit_step) (layer : Z) : bool :=
  match step with
  | create_src_image_view => negb (layer =? 1)
  | _ => true
  end.

Definition example_image_layout : v3dv_image_layout :=
  {| layout_extent := example_extent; layout_levels := 3;
     layout_array_size := 2; layout_aspects := VK_IMAGE_ASPECT_COLOR_BIT |}.

(** All the levels from level 1 on, and both layers. *)
Definition example_range : VkImageSubresourceRange :=
  {| range_aspectMask := VK_IMAGE_ASPECT_COLOR_BIT;
     range_baseMipLevel := 1; range_levelCount := VK_REMAINING_MIP_LEVELS;
     range_baseArrayLayer := 0; range_layerCount := 2 |}.

Definition example_clear_color : VkClearValue :=
  {| clear_word0 := 1; clear_word1 := 2; clear_word2 := 3; clear_word3 := 4 |}.

Definition example_hw_clear_color (color : VkClearValue) (it : internal_type)
  (internal_size : Z) : v3dv_clear_value :=
  {| color0 := clear_word0 color; color1 := clear_word1 color;
     color2 := clear_word2 color; color3 := clear_word3 color |}.

Definition example_pack_color (color : VkClearValue) (f : VkFormat) : list Z :=
  [clear_word0 color; clear_word1 color; clear_word2 color; clear_word3 color].

Definition example_for_output_format (f : output_image_format)
  : internal_type * Z :=
  (V3D_INTERNAL_TYPE_8UI, V3D_INTERNAL_BPP_32).

(** A blit of the whole image, both layers. *)
Definition example_whole_blit : VkImageBlit :=
  {| blit_srcSubresource := {| aspectMask := VK_IMAGE_ASPECT_COLOR_BIT;
                               mipLevel := 0; baseArrayLayer := 0;
                               layerCount := 2 |};
     blit_srcOffsets := ({| offset_x := 0; offset_y := 0; offset_z := 0 |},
                         {| offset_x := 100; offset_y := 80; offset_z := 1 |});
     blit_dstSubresource := {| aspectMask := VK_IMAGE_ASPECT_COLOR_BIT;
                               mipLevel := 0; baseArrayLayer := 0;
                               layerCount := 2 |};
     blit_dstOffsets := ({| offset_x := 0; offset_y := 0; offset_z := 0 |},
                         {| offset_x := 100; offset_y := 80; offset_z := 1 |}) |}.

Definition example_tfu_supports (tex_type : Z) : bool := true.


(** *** The image copy command *)

(** The local [VkFormat compat_format] of the command after a call of
    [can_use_tlb] that was given its address: what the call wrote, or
    what the variable held. *)
Definition after_can_use_tlb (compat_format : option VkFormat)
  (r : bool * option VkFormat) : option VkFormat :=
  match snd r with
  | Some f => Some f
  | None => compat_format
  end.

(** The loop of [v3dv_CmdCopyImage] over [pRegions]; [compat_format] is
    the local variable, [None] while nothing was written to it.
    [copy_image_tlb] starts a job through the command buffer; the loop is
    given the outcome of each call, and the result lists the framebuffer
    format and the region of each call made. *)
Fixpoint v3dv_CmdCopyImage_regions
  (copy_image_tlb : VkFormat -> VkImageCopy -> outcome unit)
  (dst src : v3dv_image) (dst_format src_format : v3dv_format)
  (compat_format : option VkFormat) (pRegions : list VkImageCopy)
  : outcome (list (VkFormat * VkImageCopy)) :=
  match pRegions with
  | [] => Done []
  | region :: rest =>
      let from_src := can_use_tlb src src_format (copy_srcOffset region) true in
      let compat_format := after_can_use_tlb compat_format from_src in
      if fst from_src then
        let from_dst :=
          can_use_tlb dst dst_format (copy_dstOffset region) true in
        let compat_format := after_can_use_tlb compat_format from_dst in
        if fst from_dst then
          match compat_format with
          | Some fb_format =>
              copy_image_tlb fb_format region ;;;
              calls <- v3dv_CmdCopyImage_regions copy_image_tlb dst src
                         dst_format src_format compat_format rest ;;
              Done ((fb_format, region) :: calls)
          | None => Undefined_behaviour
          end
        else Assert_failure
      else Assert_failure
  end.

Definition v3dv_CmdCopyImage
  (copy_image_tlb : VkFormat -> VkImageCopy -> outcome unit)
  (dst src : v3dv_image) (dst_format src_format : v3dv_format)
  (pRegions : list VkImageCopy) : outcome (list (VkFormat * VkImageCopy)) :=
  v3dv_CmdCopyImage_regions copy_image_tlb dst src dst_format src_format None
    pRegions.

(** The format [can_use_tlb] writes for an image it accepts. *)
Definition tlb_format_of (image : v3dv_image) (image_format : v3dv_format)
  : VkFormat :=
  if is_tlb_supported image_format then image_vk_format image
  else get_compatible_tlb_format (image_vk_format image).

(** A region of an image copy starts at x = 0, y = 0 in both images. *)
Definition copy_from_origin (region : VkImageCopy) : Prop :=
  offset_x (copy_srcOffset region) = 0 /\ offset_y (copy_srcOffset region) = 0
  /\ offset_x (copy_dstOffset region) = 0
  /\ offset_y (copy_dstOffset region) = 0.

(** A red-only source and a four-channel destination, both supported by
    the tile buffer. *)
Definition example_r8_image : v3dv_image :=
  {| image_type := VK_IMAGE_TYPE_2D;
     image_vk_format := VK_FORMAT_R8_UINT;
     image_extent_depth := 1; image_cpp := 1; image_samples := 1;
     image_slices := [example_slice];
     image_bo := {| bo_handle := 11; bo_size := 65536 |} |}.

Definition example_copy_image_tlb (fb_format : VkFormat) (region : VkImageCopy)
  : outcome unit := Done tt.


(** * Properties *)

(** ** Tiling geometry *)

(** Drops the driver helpers from the context of a goal that does not
    mention them. *)
Ltac forget_helpers :=
  try clear align; try clear v3d_utile_height;
  try clear v3dv_zs_buffer_from_aspect_bits; try clear v3dv_layer_offset;
  try clear v3dv_get_format_swizzle; try clear v3dv_get_format.

Lemma to_uint32_small (z : Z) : 0 <= z < 2 ^ 32 -> to_uint32 z = z.
Proof. intros H. unfold to_uint32. apply Z.mod_small. exact H. Qed.

Lemma pow2_pos (j : Z) : 0 <= j -> 0 < 2 ^ j.
Proof. intros H. apply Z.pow_pos_nonneg; lia. Qed.

Lemma pow2_succ (j : Z) : 0 <= j -> 2 ^ (j + 1) = 2 * 2 ^ j.
Proof. intros H. rewrite Z.pow_add_r by lia. lia. Qed.

Lemma pow2_le_4096 (j : Z) : 0 <= j <= 12 -> 1 <= 2 ^ j <= 4096.
Proof.
  intros H. split.
  - pose proof (pow2_pos j). lia.
  - change 4096 with (2 ^ 12). apply Z.pow_le_mono_r; lia.
Qed.

Lemma size_loop_cond_true (w h : Z) :
  0 <= h <= 4096 -> size_loop_cond w h = true <-> keeps_halving w h.
Proof.
  intros Hh. unfold size_loop_cond, keeps_halving, max_dim_pixels.
  rewrite to_uint32_small by lia.
  rewrite orb_true_iff, andb_true_iff, !Z.ltb_lt, Z.eqb_eq. reflexivity.
Qed.

Lemma size_loop_cond_false (w h : Z) :
  0 <= h <= 4096 -> size_loop_cond w h = false <-> ~ keeps_halving w h.
Proof.
  intros Hh. rewrite <- (size_loop_cond_true w h Hh).
  destruct (size_loop_cond w h); split; congruence.
Qed.

(** A turn is taken only while fewer than twelve have been: the product
    [w * h] never exceeds the pixel count. *)
Lemma keeps_halving_bound (N j : Z) :
  0 < N <= 2 ^ 24 -> 0 <= j <= 12 ->
  keeps_halving (N / 2 ^ j) (2 ^ j) -> j <= 11.
Proof.
  intros HN Hj Hk.
  destruct (Z.eq_dec j 12) as [->|]; [exfalso|lia].
  change (2 ^ 24) with 16777216 in HN. change (2 ^ 12) with 4096 in Hk.
  destruct Hk as [Hk|[_ Hk]].
  - assert (N / 4096 <= 4096) by (apply Z.div_le_upper_bound; lia). lia.
  - assert (N / 4096 <= 4096) by (apply Z.div_le_upper_bound; lia). lia.
Qed.

Lemma halve_step (N j : Z) :
  0 <= N -> 0 <= j -> Z.shiftr (N / 2 ^ j) 1 = N / 2 ^ (j + 1).
Proof.
  intros HN Hj. rewrite Z.shiftr_div_pow2 by lia.
  rewrite Z.div_div by (try apply pow2_pos; lia).
  rewrite pow2_succ by lia. f_equal. lia.
Qed.

Lemma double_step (j : Z) :
  0 <= j <= 11 -> to_uint32 (Z.shiftl (2 ^ j) 1) = 2 ^ (j + 1).
Proof.
  intros Hj. rewrite Z.shiftl_mul_pow2 by lia.
  pose proof (pow2_le_4096 (j + 1)). rewrite pow2_succ in * by lia.
  rewrite to_uint32_small; lia.
Qed.

(** The loop, started after [j] turns with at least [13 - j] turns of
    budget left, stops after [k] turns in all, where [k] is the first
    index at which the guard fails. *)
Lemma size_loop_run (N : Z) (fuel : nat) :
  0 < N <= 2 ^ 24 ->
  forall j, 0 <= j <= 12 -> 13 <= j + Z.of_nat fuel ->
  (forall i, 0 <= i < j -> keeps_halving (N / 2 ^ i) (2 ^ i)) ->
  exists k, j <= k <= 12
    /\ size_loop fuel (N / 2 ^ j) (2 ^ j) = Done (N / 2 ^ k, 2 ^ k)
    /\ ~ keeps_halving (N / 2 ^ k) (2 ^ k)
    /\ (forall i, 0 <= i < k -> keeps_halving (N / 2 ^ i) (2 ^ i)).
Proof.
  intros HN. induction fuel as [|fuel IH]; intros j Hj Hfuel Hprev.
  - lia.
  - pose proof (pow2_le_4096 j Hj) as Hp.
    cbn [size_loop].
    destruct (size_loop_cond (N / 2 ^ j) (2 ^ j)) eqn:Hc.
    + apply size_loop_cond_true in Hc; [|lia].
      pose proof (keeps_halving_bound N j HN Hj Hc) as Hj11.
      rewrite halve_step, double_step by lia.
      destruct (IH (j + 1)) as (k & Hk & Hrun & Hstop & Hall); try lia.
      * intros i Hi. destruct (Z.eq_dec i j) as [->|]; [exact Hc|].
        apply Hprev. lia.
      * exists k. repeat split; try lia; assumption.
    + apply size_loop_cond_false in Hc; [|lia].
      exists j. repeat split; try lia; assumption.
Qed.

Lemma halved_width_positive (N k : Z) :
  0 < N -> 0 <= k ->
  (forall i, 0 <= i < k -> keeps_halving (N / 2 ^ i) (2 ^ i)) ->
  0 < N / 2 ^ k.
Proof.
  intros HN Hk Hall.
  destruct (Z.eq_dec k 0) as [->|Hk0].
  - change (2 ^ 0) with 1. rewrite Z.div_1_r. exact HN.
  - assert (Hprev : keeps_halving (N / 2 ^ (k - 1)) (2 ^ (k - 1))) by (apply Hall; lia).
    replace k with ((k - 1) + 1) by lia.
    rewrite <- halve_step by lia.
    rewrite Z.shiftr_div_pow2 by lia. change (2 ^ 1) with 2.
    pose proof (pow2_pos (k - 1)) as Hp.
    destruct Hprev as [H|[_ H]].
    + apply Z.div_str_pos. lia.
    + apply Z.div_str_pos. lia.
Qed.

(** What the function returns, with the turn count [k] of its loop. *)
Lemma framebuffer_size_for_pixel_count_run (N : Z) :
  0 < N < 2 ^ 32 ->
  (N <= 4096 * 4096 ->
   exists w h k,
     framebuffer_size_for_pixel_count N = Done (w, h)
     /\ w * h <= N /\ w <= 4096 /\ h <= 4096 /\ 0 < w /\ 0 < h
     /\ 0 <= k /\ h = 2 ^ k /\ w = N / 2 ^ k
     /\ ~ keeps_halving w h
     /\ (forall j, 0 <= j < k -> keeps_halving (N / 2 ^ j) (2 ^ j))
     /\ (forall w', w' * h <= N -> w' <= w))
  /\ (4096 * 4096 < N ->
      framebuffer_size_for_pixel_count N = Done (4096, 4096)).
Proof.
  intros HN. split.
  - intros Hle.
    destruct (size_loop_run N 32) with (j := 0) as (k & Hk & Hrun & Hstop & Hall);
      try (change (2 ^ 24) with (4096 * 4096)); try lia.
    change (2 ^ 0) with 1 in Hrun. rewrite Z.div_1_r in Hrun.
    assert (Hp : 1 <= 2 ^ k <= 4096) by (apply pow2_le_4096; lia).
    assert (Hw : 0 < N / 2 ^ k) by (apply halved_width_positive; (lia || assumption)).
    assert (Hprod : N / 2 ^ k * 2 ^ k <= N)
      by (rewrite Z.mul_comm; apply Z.mul_div_le; lia).
    assert (Hprod0 : 0 <= N / 2 ^ k * 2 ^ k) by (apply Z.mul_nonneg_nonneg; lia).
    assert (Hwmax : N / 2 ^ k <= 4096) by (unfold keeps_halving in Hstop; lia).
    exists (N / 2 ^ k), (2 ^ k), k.
    split.
    + unfold framebuffer_size_for_pixel_count.
      replace (0 <? N) with true by (symmetry; apply Z.ltb_lt; lia).
      cbn [c_assert bind].
      replace (max_pixels <? N) with false
        by (symmetry; apply Z.ltb_ge; change max_pixels with (4096 * 4096); lia).
      rewrite Hrun. cbn [bind]. unfold max_dim_pixels.
      replace (N / 2 ^ k <=? 4096) with true by (symmetry; apply Z.leb_le; lia).
      replace (2 ^ k <=? 4096) with true by (symmetry; apply Z.leb_le; lia).
      cbn [andb c_assert bind].
      rewrite to_uint32_small by lia.
      replace (N / 2 ^ k * 2 ^ k <=? N) with true by (symmetry; apply Z.leb_le; lia).
      cbn [c_assert bind].
      replace (0 <? N / 2 ^ k) with true by (symmetry; apply Z.ltb_lt; lia).
      replace (0 <? 2 ^ k) with true by (symmetry; apply Z.ltb_lt; lia).
      reflexivity.
    + repeat split; try lia; try assumption.
      intros w' Hw'. apply Z.div_le_lower_bound; lia.
  - intros Hgt. unfold framebuffer_size_for_pixel_count.
    replace (0 <? N) with true by (symmetry; apply Z.ltb_lt; lia).
    cbn [c_assert bind].
    replace (max_pixels <? N) with true
      by (symmetry; apply Z.ltb_lt; change max_pixels with (4096 * 4096); lia).
    cbn [bind]. unfold max_dim_pixels.
    change (to_uint32 (4096 * 4096)) with (4096 * 4096).
    replace (4096 * 4096 <=? N) with true by (symmetry; apply Z.leb_le; lia).
    reflexivity.
Qed.

(** C1: for every pixel count N with 0 < N <= 4096 * 4096 the function
    returns a pair (w, h) with w * h <= N, both dimensions in 1..4096, and
    the pair is the one the near-square rule reaches: h = 2^k and
    w = N / 2^k for the first k at which the rule stops halving (w <= 4096
    and not both even and above 2 * h), so that no wider frame of that
    height fits in N pixels; for N above 4096 * 4096 it returns exactly
    (4096, 4096). *)
Theorem framebuffer_size_for_pixel_count_near_square (N : Z) :
  0 < N < 2 ^ 32 ->
  (N <= 4096 * 4096 ->
   exists w h k,
     framebuffer_size_for_pixel_count N = Done (w, h)
     /\ w * h <= N /\ w <= 4096 /\ h <= 4096 /\ 0 < w /\ 0 < h
     /\ 0 <= k /\ h = 2 ^ k /\ w = N / 2 ^ k
     /\ ~ keeps_halving w h
     /\ (forall j, 0 <= j < k -> keeps_halving (N / 2 ^ j) (2 ^ j))
     /\ (forall w', w' * h <= N -> w' <= w))
  /\ (4096 * 4096 < N ->
      framebuffer_size_for_pixel_count N = Done (4096, 4096)).
Proof. exact (framebuffer_size_for_pixel_count_run N). Qed.

(** ** Supertile coverage *)

Lemma Zseq_length (start : Z) (len : nat) : length (Zseq start len) = len.
Proof.
  revert start. induction len as [|len IH]; intros start; cbn; [reflexivity|].
  now rewrite IH.
Qed.

Lemma ceil_div_minus_one (a b : Z) : 0 < b -> ceil_div a b - 1 = (a - 1) / b.
Proof.
  intros Hb. unfold ceil_div.
  replace (a + b - 1) with ((a - 1) + 1 * b) by lia.
  rewrite Z.div_add by lia. lia.
Qed.

Lemma to_int_small (z : Z) : 0 <= z <= INT_MAX -> to_int z = z.
Proof.
  unfold to_int, INT_MAX. intros H.
  replace (z <? 2 ^ 31) with true by (symmetry; apply Z.ltb_lt; lia).
  reflexivity.
Qed.

Lemma int_is_uint32 (z : Z) : 0 <= z <= INT_MAX -> to_uint32 z = z.
Proof. unfold INT_MAX. intros H. apply to_uint32_small. lia. Qed.

(** One row: from column [x] the loop appends the columns [x .. max_x]. *)
Lemma supertile_row_run (max_x y : Z) (fuel : nat) :
  0 <= max_x < INT_MAX ->
  forall x cl,
    0 <= x <= max_x + 1 -> max_x + 1 - x <= Z.of_nat fuel ->
    supertile_row fuel x max_x y cl
    = Done (cl ++ map (fun x => SUPERTILE_COORDINATES x (to_uint32 y))
                      (Zseq x (Z.to_nat (max_x + 1 - x)))).
Proof.
  intros Hmax. induction fuel as [|fuel IH]; intros x cl Hx Hfuel.
  - assert (x = max_x + 1) as -> by lia. cbn [supertile_row].
    rewrite int_is_uint32 by lia.
    replace (max_x + 1 <=? max_x) with false by (symmetry; apply Z.leb_gt; lia).
    replace (max_x + 1 - (max_x + 1)) with 0 by lia. cbn. now rewrite app_nil_r.
  - cbn [supertile_row]. rewrite int_is_uint32 by lia.
    destruct (x <=? max_x) eqn:Hguard.
    + apply Z.leb_le in Hguard.
      replace (x =? INT_MAX) with false by (symmetry; apply Z.eqb_neq; lia).
      rewrite IH by lia. unfold cl_emit. rewrite <- app_assoc. cbn [app].
      replace (Z.to_nat (max_x + 1 - x)) with (S (Z.to_nat (max_x + 1 - (x + 1))))
        by lia.
      reflexivity.
    + apply Z.leb_gt in Hguard.
      replace (max_x + 1 - x) with 0 by lia. cbn. now rewrite app_nil_r.
Qed.

(** All rows: from row [y] the loop appends the rows [y .. max_y], each
    holding the columns [min_x .. max_x]. *)
Lemma supertile_rows_run (min_x max_x max_y : Z) (fuel_x fuel : nat) :
  0 <= max_x < INT_MAX -> 0 <= max_y < INT_MAX -> 0 <= min_x <= max_x + 1 ->
  max_x + 1 - min_x <= Z.of_nat fuel_x ->
  forall y cl,
    0 <= y <= max_y + 1 -> max_y + 1 - y <= Z.of_nat fuel ->
    supertile_rows fuel fuel_x y min_x max_x max_y cl
    = Done (cl ++ flat_map
                    (fun y => map (fun x => SUPERTILE_COORDINATES x y)
                                  (Zseq min_x (Z.to_nat (max_x - min_x + 1))))
                    (Zseq y (Z.to_nat (max_y + 1 - y)))).
Proof.
  intros Hmx Hmy Hmin Hfx. induction fuel as [|fuel IH]; intros y cl Hy Hfuel.
  - assert (y = max_y + 1) as -> by lia. cbn [supertile_rows].
    rewrite int_is_uint32 by lia.
    replace (max_y + 1 <=? max_y) with false by (symmetry; apply Z.leb_gt; lia).
    replace (max_y + 1 - (max_y + 1)) with 0 by lia. cbn. now rewrite app_nil_r.
  - cbn [supertile_rows]. rewrite int_is_uint32 by lia.
    destruct (y <=? max_y) eqn:Hguard.
    + apply Z.leb_le in Hguard.
      rewrite to_int_small by lia.
      rewrite supertile_row_run by lia. cbn [bind].
      replace (y =? INT_MAX) with false by (symmetry; apply Z.eqb_neq; lia).
      rewrite IH by lia. rewrite <- app_assoc.
      replace (Z.to_nat (max_y + 1 - y)) with (S (Z.to_nat (max_y + 1 - (y + 1))))
        by lia.
      cbn [Zseq flat_map]. rewrite int_is_uint32 by lia.
      replace (max_x + 1 - min_x) with (max_x - min_x + 1) by lia.
      reflexivity.
    + apply Z.leb_gt in Hguard.
      replace (max_y + 1 - y) with 0 by lia. cbn. now rewrite app_nil_r.
Qed.

Lemma row_major_coordinates_length (min_x max_x min_y max_y : Z) :
  min_x <= max_x + 1 -> min_y <= max_y + 1 ->
  Z.of_nat (length (row_major_coordinates min_x max_x min_y max_y))
  = (max_x - min_x + 1) * (max_y - min_y + 1).
Proof.
  intros Hx Hy. unfold row_major_coordinates.
  assert (Hrows : forall rows start,
    length (flat_map
              (fun y => map (fun x => SUPERTILE_COORDINATES x y)
                            (Zseq min_x (Z.to_nat (max_x - min_x + 1))))
              (Zseq start rows))
    = (Z.to_nat (max_x - min_x + 1) * rows)%nat).
  { induction rows as [|rows IH]; intros start; cbn [Zseq flat_map].
    - cbn. lia.
    - rewrite length_app, length_map, Zseq_length, IH. lia. }
  rewrite Hrows, Nat2Z.inj_mul, !Z2Nat.id by lia. reflexivity.
Qed.

(** C2: for a frame tiling with positive pixel width and height and
    positive supertile pixel spans, coverage starts at supertile (0,0),
    the last supertile of each axis is ceil(dimension / span) - 1, and the
    emitter appends to the render control list exactly the
    SUPERTILE_COORDINATES records of that rectangle in row-major order
    (y outer, x inner) from (min_x, min_y): (max_x - min_x + 1) *
    (max_y - min_y + 1) of them.  The loop counters are C ints, so the
    dimensions are taken representable as int, which the 4096 limit of a
    frame tiling guarantees. *)
Theorem supertile_coverage_row_major
  (fuel : nat) (vkf : VkFormat) (it : internal_type) (job : v3dv_job) :
  let t := frame_tiling job in
  0 < width t <= INT_MAX -> 0 < height t <= INT_MAX ->
  0 < supertile_w_in_pixels t -> 0 < supertile_h_in_pixels t ->
  width t <= Z.of_nat fuel -> height t <= Z.of_nat fuel ->
  exists fb job',
    setup_framebuffer_data vkf it t = Done fb
    /\ min_x_supertile fb = 0 /\ min_y_supertile fb = 0
    /\ max_x_supertile fb = ceil_div (width t) (supertile_w_in_pixels t) - 1
    /\ max_y_supertile fb = ceil_div (height t) (supertile_h_in_pixels t) - 1
    /\ emit_supertile_coordinates fuel job fb = Done job'
    /\ indirect job' = indirect job
    /\ rcl job' = rcl job ++ row_major_coordinates
                               (min_x_supertile fb) (max_x_supertile fb)
                               (min_y_supertile fb) (max_y_supertile fb)
    /\ Z.of_nat (length (row_major_coordinates
                           (min_x_supertile fb) (max_x_supertile fb)
                           (min_y_supertile fb) (max_y_supertile fb)))
       = (max_x_supertile fb - min_x_supertile fb + 1)
         * (max_y_supertile fb - min_y_supertile fb + 1).
Proof.
  intros t Hw Hh Hsw Hsh Hfw Hfh.
  unfold setup_framebuffer_data.
  replace (supertile_w_in_pixels t =? 0) with false
    by (symmetry; apply Z.eqb_neq; lia).
  replace (supertile_h_in_pixels t =? 0) with false
    by (symmetry; apply Z.eqb_neq; lia).
  cbn [orb]. rewrite !int_is_uint32 by lia.
  set (max_x := (width t - 1) / supertile_w_in_pixels t).
  set (max_y := (height t - 1) / supertile_h_in_pixels t).
  assert (Hmx : 0 <= max_x <= width t - 1).
  { split; [apply Z.div_pos; lia|].
    apply Z.div_le_upper_bound; [lia|]. nia. }
  assert (Hmy : 0 <= max_y <= height t - 1).
  { split; [apply Z.div_pos; lia|].
    apply Z.div_le_upper_bound; [lia|]. nia. }
  eexists. eexists. split; [reflexivity|]. cbn [min_x_supertile min_y_supertile
    max_x_supertile max_y_supertile].
  rewrite !ceil_div_minus_one by lia. fold max_x max_y.
  split; [reflexivity|]. split; [reflexivity|].
  split; [reflexivity|]. split; [reflexivity|].
  unfold emit_supertile_coordinates.
  cbn [min_x_supertile min_y_supertile max_x_supertile max_y_supertile].
  change (to_int 0) with 0.
  rewrite supertile_rows_run by lia. cbn [bind].
  split; [reflexivity|].
  split; [reflexivity|].
  split.
  - cbn [rcl set_rcl]. unfold row_major_coordinates.
    replace (max_y + 1 - 0) with (max_y - 0 + 1) by lia. reflexivity.
  - apply row_major_coordinates_length; lia.
Qed.

(** ** Clear colours in the prologue *)

Lemma part3_records_app (a b : v3dv_cl) :
  part3_records (a ++ b) = part3_records a ++ part3_records b.
Proof. unfold part3_records. apply filter_app. Qed.

Lemma implicit_padded_height_range (tiling : v3dv_frame_tiling)
  (image : v3dv_image) (implicit : Z) :
  implicit_padded_height tiling image = Done implicit -> 0 <= implicit < 2 ^ 32.
Proof.
  unfold implicit_padded_height.
  destruct (_ =? 0); [discriminate|].
  intros [= <-]. unfold to_uint32. apply Z.mod_pos_bound. lia.
Qed.

(** C3 (as the code has it): in the prologue of a colour-aspect clear of a
    UIF-tiled slice, when the slice's padded height in UIF blocks exceeds
    the implicitly computed padded height by 15 blocks or more, exactly one
    third clear-colour record is emitted, whatever the internal bpp, and
    its uif_padded_height_in_uif_blocks field carries the slice's padded
    height itself; when the excess is between 0 and 14 and the internal
    bpp is below 128, no third clear-colour record is emitted. *)
Theorem prologue_third_clear_color_carries_padded_height
  (job : v3dv_job) (it : internal_type) (info : rcl_clear_info)
  (image : v3dv_image) (slice : v3d_resource_slice) (implicit : Z) :
  let padded := padded_height_of_output_image_in_uif_blocks slice in
  has_aspect (clear_aspects info) VK_IMAGE_ASPECT_COLOR_BIT = true ->
  clear_image info = Some image ->
  slice_at image (clear_level info) = Done slice ->
  is_uif (slice_tiling slice) = true ->
  implicit_padded_height (frame_tiling job) image = Done implicit ->
  0 <= padded < 2 ^ 32 ->
  exists job',
    emit_rcl_prologue job it (Some info) = Done job'
    /\ (implicit + 15 <= padded ->
        part3_records (rcl job')
        = part3_records (rcl job)
          ++ [TILE_RENDERING_MODE_CFG_CLEAR_COLORS_PART3
                padded (Z.shiftr (color3 (clear_value info)) 16) 0])
    /\ (implicit <= padded < implicit + 15 ->
        internal_bpp (frame_tiling job) < V3D_INTERNAL_BPP_128 ->
        part3_records (rcl job') = part3_records (rcl job)).
Proof.
  intros padded Hcolor Himage Hslice Huif Himplicit Hpadded.
  pose proof (implicit_padded_height_range _ _ _ Himplicit) as Hrange.
  unfold emit_rcl_prologue, emit_clear_colors, compute_clear_pad.
  rewrite Hcolor, Himage, Hslice. cbn [bind]. rewrite Huif, Himplicit. cbn [bind].
  fold padded.
  destruct (15 <=? to_uint32 (padded - implicit)) eqn:Hexcess; cbn [bind];
    eexists; (split; [reflexivity|]); cbn [rcl set_rcl]; unfold cl_emit.
  - split.
    + intros Hge.
      replace (padded =? 0) with false by (symmetry; apply Z.eqb_neq; lia).
      rewrite orb_true_r.
      destruct (V3D_INTERNAL_BPP_64 <=? internal_bpp (frame_tiling job));
        rewrite !part3_records_app; cbn; rewrite !app_nil_r; reflexivity.
    + intros Hlt _. apply Z.leb_le in Hexcess.
      rewrite to_uint32_small in Hexcess by lia. lia.
  - split.
    + intros Hge. apply Z.leb_gt in Hexcess.
      rewrite to_uint32_small in Hexcess by lia. lia.
    + intros _ Hbpp.
      replace (V3D_INTERNAL_BPP_128 <=? internal_bpp (frame_tiling job)) with false
        by (symmetry; apply Z.leb_gt; lia).
      cbn [orb negb Z.eqb].
      destruct (V3D_INTERNAL_BPP_64 <=? internal_bpp (frame_tiling job));
        rewrite !part3_records_app; cbn; rewrite !app_nil_r; reflexivity.
Qed.

(** ** TLB formats and channel fix-ups *)

(** [emit_image_load] appends exactly one load packet, whose fields are
    the following. *)
Lemma emit_image_load_done (cl : v3dv_cl) (fb : framebuffer_data)
  (image : v3dv_image) (aspect layer mip : Z) (to_buffer from_buffer : bool)
  (slice : v3d_resource_slice) (fmt : output_image_format) :
  slice_at image mip = Done slice ->
  choose_tlb_format fb aspect false to_buffer from_buffer = Done fmt ->
  emit_image_load cl fb image aspect layer mip to_buffer from_buffer
  = Done (cl ++ [LOAD_TILE_BUFFER_GENERAL
      {| buffer_to_load :=
           if to_buffer || from_buffer || (aspect =? VK_IMAGE_ASPECT_COLOR_BIT)
           then RENDER_TARGET_0 else v3dv_zs_buffer_from_aspect_bits aspect;
         load_address := {| addr_bo := image_bo image;
                            addr_offset := v3dv_layer_offset image mip layer |};
         input_image_format := fmt;
         load_memory_format := slice_tiling slice;
         load_height_in_ub_or_stride := height_or_stride slice;
         load_decimate_mode := decimate_for image;
         load_r_b_swap :=
           if to_buffer && is_d24_depth_copy fb aspect then true
           else if negb from_buffer && negb to_buffer
                   && has_aspect aspect VK_IMAGE_ASPECT_COLOR_BIT
                then format_needs_rb_swap (vk_format fb) else false;
         load_channel_reverse := to_buffer && is_d24_depth_copy fb aspect |}]).
Proof.
  intros Hslice Hfmt. unfold emit_image_load. rewrite Hslice, Hfmt. cbn [bind].
  unfold cl_emit.
  destruct (to_buffer && is_d24_depth_copy fb aspect); [reflexivity|].
  destruct (negb from_buffer && negb to_buffer
            && has_aspect aspect VK_IMAGE_ASPECT_COLOR_BIT); reflexivity.
Qed.

(** [emit_image_store] appends exactly one store packet. *)
Lemma emit_image_store_done (cl : v3dv_cl) (fb : framebuffer_data)
  (image : v3dv_image) (aspect layer mip : Z) (to_buffer from_buffer : bool)
  (slice : v3d_resource_slice) (fmt : output_image_format) :
  slice_at image mip = Done slice ->
  choose_tlb_format fb aspect true to_buffer from_buffer = Done fmt ->
  emit_image_store cl fb image aspect layer mip to_buffer from_buffer
  = Done (cl ++ [STORE_TILE_BUFFER_GENERAL
      {| buffer_to_store :=
           if to_buffer || from_buffer || (aspect =? VK_IMAGE_ASPECT_COLOR_BIT)
           then RENDER_TARGET_0 else v3dv_zs_buffer_from_aspect_bits aspect;
         store_address := {| addr_bo := image_bo image;
                             addr_offset := v3dv_layer_offset image mip layer |};
         clear_buffer_being_stored := false;
         output_image_format_ := fmt;
         store_memory_format := slice_tiling slice;
         store_height_in_ub_or_stride := height_or_stride slice;
         store_decimate_mode := decimate_for image;
         store_r_b_swap :=
           if from_buffer && is_d24_depth_copy fb aspect then true
           else if negb from_buffer && negb to_buffer
                   && has_aspect aspect VK_IMAGE_ASPECT_COLOR_BIT
                then format_needs_rb_swap (vk_format fb) else false;
         store_channel_reverse := from_buffer && is_d24_depth_copy fb aspect |}]).
Proof.
  intros Hslice Hfmt. unfold emit_image_store. rewrite Hslice. cbn [bind].
  unfold cl_emit.
  destruct (from_buffer && is_d24_depth_copy fb aspect).
  - rewrite Hfmt. reflexivity.
  - destruct (negb from_buffer && negb to_buffer
              && has_aspect aspect VK_IMAGE_ASPECT_COLOR_BIT);
      rewrite Hfmt; reflexivity.
Qed.

(** Outside the four depth formats the table's render-target type is
    chosen, whatever the direction. *)
Lemma choose_tlb_format_color (fb : framebuffer_data) (aspect : Z)
  (for_store to_buffer from_buffer : bool) :
  vk_format_is_depth_or_stencil (vk_format fb) = false ->
  choose_tlb_format fb aspect for_store to_buffer from_buffer
  = Done (rt_type (format fb)).
Proof.
  unfold vk_format_is_depth_or_stencil, choose_tlb_format.
  intros H. repeat (apply orb_false_iff in H; destruct H as [H ?]).
  destruct (to_buffer || from_buffer); [|reflexivity].
  repeat match goal with
         | E : (?a =? ?b) = false |- context [?a =? ?b] => rewrite E
         end.
  reflexivity.
Qed.

(** A D24 depth copy always gets the four-channel integer format. *)
Lemma choose_tlb_format_d24_depth (fb : framebuffer_data) (aspect : Z)
  (for_store to_buffer from_buffer : bool) :
  is_d24_depth_copy fb aspect = true ->
  to_buffer || from_buffer = true ->
  choose_tlb_format fb aspect for_store to_buffer from_buffer
  = Done V3D_OUTPUT_IMAGE_FORMAT_RGBA8UI.
Proof.
  unfold is_d24_depth_copy, choose_tlb_format. intros H Hdir. rewrite Hdir.
  apply orb_true_iff in H. destruct H as [H|H].
  - apply Z.eqb_eq in H. rewrite H. reflexivity.
  - apply andb_true_iff in H. destruct H as [H Hd]. apply Z.eqb_eq in H.
    rewrite H, Hd. reflexivity.
Qed.

(** The body [emit_copy_layer_to_buffer_per_tile_list] writes to the
    indirect list, and the branch record it adds to the render list. *)
Lemma copy_layer_to_buffer_body (job : v3dv_job) (fb : framebuffer_data)
  (buffer : v3dv_buffer) (image : v3dv_image) (layer : Z)
  (region : VkBufferImageCopy) (slice : v3d_resource_slice)
  (fl fs : output_image_format) :
  let imgrsc := imageSubresource region in
  layer_in_range image imgrsc layer = true ->
  slice_at image (mipLevel imgrsc) = Done slice ->
  choose_tlb_format fb (aspectMask imgrsc) false true false = Done fl ->
  choose_tlb_format fb (aspectMask imgrsc) true true false = Done fs ->
  exists job' l s,
    emit_copy_layer_to_buffer_per_tile_list job fb buffer image layer region
    = Done job'
    /\ indirect job'
       = indirect job
         ++ [TILE_COORDINATES_IMPLICIT; LOAD_TILE_BUFFER_GENERAL l; END_OF_LOADS;
             BRANCH_TO_IMPLICIT_TILE_LIST; STORE_TILE_BUFFER_GENERAL s;
             END_OF_TILE_MARKER; RETURN_FROM_SUB_LIST]
    /\ rcl job'
       = rcl job ++ [START_ADDRESS_OF_GENERIC_TILE_LIST
                       (length (indirect job)) (length (indirect job) + 7)]
    /\ emit_image_load [] fb image (aspectMask imgrsc)
         (to_uint32 (baseArrayLayer imgrsc + layer)) (mipLevel imgrsc) true false
       = Done [LOAD_TILE_BUFFER_GENERAL l]
    /\ emit_linear_store [] RENDER_TARGET_0 (buffer_bo buffer)
         (region_buffer_offset image region layer)
         (region_buffer_stride image region)
         (VK_SAMPLE_COUNT_1_BIT <? image_samples image) fs
       = [STORE_TILE_BUFFER_GENERAL s].
Proof.
  intros imgrsc Hlayer Hslice Hfl Hfs.
  unfold emit_copy_layer_to_buffer_per_tile_list. fold imgrsc.
  rewrite Hlayer. cbn [c_assert bind].
  rewrite (emit_image_load_done _ _ _ _ _ _ _ _ slice fl Hslice Hfl).
  cbn [bind]. rewrite Hfs. cbn [bind].
  rewrite (emit_image_load_done _ _ _ _ _ _ _ _ slice fl Hslice Hfl).
  unfold emit_linear_store, cl_emit, v3dv_cl_get_address.
  do 3 eexists. cbn [indirect rcl app].
  split; [reflexivity|].
  split; [rewrite <- !app_assoc; reflexivity|].
  split; [|split; reflexivity].
  rewrite !length_app. cbn [length].
  replace (length (indirect job) + 1 + 1 + 1 + 1 + 1 + 1 + 1)%nat
    with (length (indirect job) + 7)%nat by lia.
  reflexivity.
Qed.

Lemma tile_buffer_operations_app (a b : v3dv_cl) :
  tile_buffer_operations (a ++ b)
  = tile_buffer_operations a ++ tile_buffer_operations b.
Proof. unfold tile_buffer_operations. apply filter_app. Qed.

(** C4: in a buffer transfer of a D24S8 image, the stencil aspect is stored
    as R8UI and loaded as RGBA8UI when copying to a buffer, loaded as R8UI
    and stored as RGBA8UI when copying from a buffer; the depth aspect uses
    RGBA8UI for loads and stores in both directions; a colour format always
    gets the render-target type of its format-table entry.  The tile list
    of a copy to a buffer carries these formats in its load and its store. *)
Theorem d24s8_buffer_transfer_formats (fb : framebuffer_data) (aspect : Z) :
  (vk_format fb = VK_FORMAT_D24_UNORM_S8_UINT ->
   (has_aspect aspect VK_IMAGE_ASPECT_STENCIL_BIT = true ->
    has_aspect aspect VK_IMAGE_ASPECT_DEPTH_BIT = false ->
    choose_tlb_format fb aspect true true false
    = Done V3D_OUTPUT_IMAGE_FORMAT_R8UI
    /\ choose_tlb_format fb aspect false true false
       = Done V3D_OUTPUT_IMAGE_FORMAT_RGBA8UI
    /\ choose_tlb_format fb aspect false false true
       = Done V3D_OUTPUT_IMAGE_FORMAT_R8UI
    /\ choose_tlb_format fb aspect true false true
       = Done V3D_OUTPUT_IMAGE_FORMAT_RGBA8UI)
   /\ (has_aspect aspect VK_IMAGE_ASPECT_DEPTH_BIT = true ->
       forall for_store to_buffer from_buffer,
         to_buffer || from_buffer = true ->
         choose_tlb_format fb aspect for_store to_buffer from_buffer
         = Done V3D_OUTPUT_IMAGE_FORMAT_RGBA8UI)
   /\ (forall job buffer image layer region slice,
         aspectMask (imageSubresource region) = aspect ->
         has_aspect aspect VK_IMAGE_ASPECT_STENCIL_BIT = true
         \/ has_aspect aspect VK_IMAGE_ASPECT_DEPTH_BIT = true ->
         layer_in_range image (imageSubresource region) layer = true ->
         slice_at image (mipLevel (imageSubresource region)) = Done slice ->
         exists job',
           emit_copy_layer_to_buffer_per_tile_list job fb buffer image layer region
           = Done job'
           /\ map image_format_of (tile_buffer_operations (indirect job'))
              = map image_format_of (tile_buffer_operations (indirect job))
                ++ [Some V3D_OUTPUT_IMAGE_FORMAT_RGBA8UI;
                    Some (if has_aspect aspect VK_IMAGE_ASPECT_DEPTH_BIT
                          then V3D_OUTPUT_IMAGE_FORMAT_RGBA8UI
                          else V3D_OUTPUT_IMAGE_FORMAT_R8UI)]))
  /\ (vk_format_is_depth_or_stencil (vk_format fb) = false ->
      forall for_store to_buffer from_buffer,
        choose_tlb_format fb aspect for_store to_buffer from_buffer
        = Done (rt_type (format fb))).
Proof.
  split.
  - intros Hfmt.
    assert (Hstencil :
      has_aspect aspect VK_IMAGE_ASPECT_STENCIL_BIT = true ->
      has_aspect aspect VK_IMAGE_ASPECT_DEPTH_BIT = false ->
      forall for_store,
        choose_tlb_format fb aspect for_store true false
        = Done (if for_store then V3D_OUTPUT_IMAGE_FORMAT_R8UI
                else V3D_OUTPUT_IMAGE_FORMAT_RGBA8UI)
        /\ choose_tlb_format fb aspect for_store false true
           = Done (if for_store then V3D_OUTPUT_IMAGE_FORMAT_RGBA8UI
                   else V3D_OUTPUT_IMAGE_FORMAT_R8UI)).
    { intros Hs Hd for_store. unfold choose_tlb_format.
      rewrite Hfmt, Hs, Hd. split; reflexivity. }
    assert (Hdepth :
      has_aspect aspect VK_IMAGE_ASPECT_DEPTH_BIT = true ->
      forall for_store to_buffer from_buffer,
        to_buffer || from_buffer = true ->
        choose_tlb_format fb aspect for_store to_buffer from_buffer
        = Done V3D_OUTPUT_IMAGE_FORMAT_RGBA8UI).
    { intros Hd for_store to_buffer from_buffer Hdir.
      unfold choose_tlb_format. rewrite Hdir, Hfmt, Hd. reflexivity. }
    split; [|split].
    + intros Hs Hd.
      destruct (Hstencil Hs Hd true) as [H1 H2].
      destruct (Hstencil Hs Hd false) as [H3 H4]. auto.
    + exact Hdepth.
    + intros job buffer image layer region slice Hmask Haspects Hlayer Hslice.
      destruct (has_aspect aspect VK_IMAGE_ASPECT_DEPTH_BIT) eqn:Hd.
      * destruct (copy_layer_to_buffer_body job fb buffer image layer region slice
                    V3D_OUTPUT_IMAGE_FORMAT_RGBA8UI V3D_OUTPUT_IMAGE_FORMAT_RGBA8UI)
          as (job' & l & s & Hrun & Hind & _ & Hl & Hs); try assumption;
          try (rewrite Hmask; apply Hdepth; reflexivity).
        exists job'. split; [exact Hrun|]. rewrite Hind.
        rewrite tile_buffer_operations_app, map_app. f_equal.
        rewrite (emit_image_load_done _ _ _ _ _ _ _ _ slice
                   V3D_OUTPUT_IMAGE_FORMAT_RGBA8UI) in Hl;
          try assumption; try (rewrite Hmask; apply Hdepth; reflexivity).
        injection Hl as <-. injection Hs as <-. reflexivity.
      * destruct Haspects as [Hs|Hs]; [|discriminate].
        destruct (Hstencil Hs eq_refl true) as [H1 _].
        destruct (Hstencil Hs eq_refl false) as [H3 _].
        destruct (copy_layer_to_buffer_body job fb buffer image layer region slice
                    V3D_OUTPUT_IMAGE_FORMAT_RGBA8UI V3D_OUTPUT_IMAGE_FORMAT_R8UI)
          as (job' & l & s & Hrun & Hind & _ & Hl & Hst); try assumption;
          try (rewrite Hmask; assumption).
        exists job'. split; [exact Hrun|]. rewrite Hind.
        rewrite tile_buffer_operations_app, map_app. f_equal.
        rewrite (emit_image_load_done _ _ _ _ _ _ _ _ slice
                   V3D_OUTPUT_IMAGE_FORMAT_RGBA8UI) in Hl;
          try assumption; try (rewrite Hmask; assumption).
        injection Hl as <-. injection Hst as <-. reflexivity.
  - intros Hcolor for_store to_buffer from_buffer.
    apply choose_tlb_format_color. exact Hcolor.
Qed.

(** Without a buffer on either side the table's render-target type is
    chosen. *)
Lemma choose_tlb_format_no_buffer (fb : framebuffer_data) (aspect : Z)
  (for_store : bool) :
  choose_tlb_format fb aspect for_store false false = Done (rt_type (format fb)).
Proof. reflexivity. Qed.

(** Only a D24S8 framebuffer with neither depth nor stencil requested can
    trip the assertions of [choose_tlb_format]. *)
Lemma choose_tlb_format_returns (fb : framebuffer_data) (aspect : Z)
  (for_store to_buffer from_buffer : bool) :
  vk_format fb <> VK_FORMAT_D24_UNORM_S8_UINT
  \/ has_aspect aspect VK_IMAGE_ASPECT_DEPTH_BIT = true
  \/ has_aspect aspect VK_IMAGE_ASPECT_STENCIL_BIT = true ->
  exists fmt,
    choose_tlb_format fb aspect for_store to_buffer from_buffer = Done fmt.
Proof.
  intros H. unfold choose_tlb_format.
  destruct (to_buffer || from_buffer) eqn:Hdir; [|eauto].
  destruct (vk_format fb =? VK_FORMAT_D16_UNORM); [eauto|].
  destruct (vk_format fb =? VK_FORMAT_D32_SFLOAT); [eauto|].
  destruct (vk_format fb =? VK_FORMAT_X8_D24_UNORM_PACK32); [eauto|].
  destruct (vk_format fb =? VK_FORMAT_D24_UNORM_S8_UINT) eqn:Hf; [|eauto].
  apply Z.eqb_eq in Hf.
  destruct (has_aspect aspect VK_IMAGE_ASPECT_DEPTH_BIT); [eauto|].
  destruct H as [H|[H|H]]; [congruence|discriminate|].
  rewrite H. cbn [c_assert bind].
  destruct to_buffer; [eauto|]. cbn [orb] in Hdir. rewrite Hdir.
  cbn [c_assert bind]. eauto.
Qed.

(** The body of an upload into a D24S8 image: the buffer load, the load of
    the other aspect, the store of the uploaded aspect and the store that
    writes the other aspect back. *)
Lemma copy_buffer_to_layer_body_d24s8 (job : v3dv_job) (fb : framebuffer_data)
  (image : v3dv_image) (buffer : v3dv_buffer) (layer : Z)
  (region : VkBufferImageCopy) (slice : v3d_resource_slice) :
  let imgrsc := imageSubresource region in
  let aspect := aspectMask imgrsc in
  let layer' := to_uint32 (baseArrayLayer imgrsc + layer) in
  vk_format fb = VK_FORMAT_D24_UNORM_S8_UINT ->
  has_aspect aspect VK_IMAGE_ASPECT_DEPTH_BIT = true
  \/ has_aspect aspect VK_IMAGE_ASPECT_STENCIL_BIT = true ->
  layer_in_range image imgrsc layer = true ->
  slice_at image (mipLevel imgrsc) = Done slice ->
  exists job' fmt lin lo su so,
    emit_copy_buffer_to_layer_per_tile_list job fb image buffer layer region
    = Done job'
    /\ indirect job'
       = indirect job
         ++ [TILE_COORDINATES_IMPLICIT; LOAD_TILE_BUFFER_GENERAL lin;
             LOAD_TILE_BUFFER_GENERAL lo; END_OF_LOADS;
             BRANCH_TO_IMPLICIT_TILE_LIST; STORE_TILE_BUFFER_GENERAL su;
             STORE_TILE_BUFFER_GENERAL so; END_OF_TILE_MARKER;
             RETURN_FROM_SUB_LIST]
    /\ choose_tlb_format fb aspect false false true = Done fmt
    /\ emit_linear_load [] RENDER_TARGET_0 (buffer_bo buffer)
         (region_buffer_offset image region layer)
         (region_buffer_stride image region) fmt
       = [LOAD_TILE_BUFFER_GENERAL lin]
    /\ emit_image_load [] fb image (other_aspect aspect) layer' (mipLevel imgrsc)
         false false
       = Done [LOAD_TILE_BUFFER_GENERAL lo]
    /\ emit_image_store [] fb image aspect layer' (mipLevel imgrsc) false true
       = Done [STORE_TILE_BUFFER_GENERAL su]
    /\ emit_image_store [] fb image (other_aspect aspect) layer' (mipLevel imgrsc)
         false false
       = Done [STORE_TILE_BUFFER_GENERAL so].
Proof.
  intros imgrsc aspect layer' Hfmt Haspect Hlayer Hslice.
  destruct (choose_tlb_format_returns fb aspect false false true) as [fl Hfl];
    [forget_helpers; tauto|].
  destruct (choose_tlb_format_returns fb aspect true false true) as [fs Hfs];
    [forget_helpers; tauto|].
  unfold emit_copy_buffer_to_layer_per_tile_list.
  fold imgrsc. fold aspect. fold layer'.
  rewrite Hlayer. cbn [c_assert bind]. rewrite Hfl. cbn [bind].
  replace (vk_format fb =? VK_FORMAT_D24_UNORM_S8_UINT) with true
    by (symmetry; apply Z.eqb_eq; exact Hfmt).
  assert (Hother_load : forall cl,
    (if has_aspect aspect VK_IMAGE_ASPECT_DEPTH_BIT
     then emit_image_load cl fb image VK_IMAGE_ASPECT_STENCIL_BIT layer'
            (mipLevel imgrsc) false false
     else c_assert (has_aspect aspect VK_IMAGE_ASPECT_STENCIL_BIT) ;;;
          emit_image_load cl fb image VK_IMAGE_ASPECT_DEPTH_BIT layer'
            (mipLevel imgrsc) false false)
    = emit_image_load cl fb image (other_aspect aspect) layer' (mipLevel imgrsc)
        false false).
  { intros cl. unfold other_aspect.
    destruct (has_aspect aspect VK_IMAGE_ASPECT_DEPTH_BIT); [reflexivity|].
    destruct Haspect as [H|H]; [discriminate|]. rewrite H. reflexivity. }
  assert (Hother_store : forall cl,
    (if has_aspect aspect VK_IMAGE_ASPECT_DEPTH_BIT
     then emit_image_store cl fb image VK_IMAGE_ASPECT_STENCIL_BIT layer'
            (mipLevel imgrsc) false false
     else c_assert (has_aspect aspect VK_IMAGE_ASPECT_STENCIL_BIT) ;;;
          emit_image_store cl fb image VK_IMAGE_ASPECT_DEPTH_BIT layer'
            (mipLevel imgrsc) false false)
    = emit_image_store cl fb image (other_aspect aspect) layer' (mipLevel imgrsc)
        false false).
  { intros cl. unfold other_aspect.
    destruct (has_aspect aspect VK_IMAGE_ASPECT_DEPTH_BIT); [reflexivity|].
    destruct Haspect as [H|H]; [discriminate|]. rewrite H. reflexivity. }
  rewrite Hother_load.
  rewrite (emit_image_load_done _ _ _ _ _ _ _ _ slice _ Hslice
             (choose_tlb_format_no_buffer fb (other_aspect aspect) false)).
  cbn [bind].
  rewrite (emit_image_store_done _ _ _ _ _ _ _ _ slice fs Hslice Hfs).
  cbn [bind]. rewrite Hother_store.
  rewrite (emit_image_store_done _ _ _ _ _ _ _ _ slice _ Hslice
             (choose_tlb_format_no_buffer fb (other_aspect aspect) true)).
  cbn [bind].
  rewrite (emit_image_load_done [] _ _ _ _ _ _ _ slice _ Hslice
             (choose_tlb_format_no_buffer fb (other_aspect aspect) false)).
  rewrite (emit_image_store_done [] _ _ _ _ _ _ _ slice fs Hslice Hfs).
  rewrite (emit_image_store_done [] _ _ _ _ _ _ _ slice _ Hslice
             (choose_tlb_format_no_buffer fb (other_aspect aspect) true)).
  unfold emit_linear_load, cl_emit.
  do 6 eexists. cbn [indirect app].
  split; [reflexivity|].
  split; [rewrite <- !app_assoc; reflexivity|].
  repeat split; reflexivity.
Qed.

(** The body of an upload into an image of any other format: the buffer
    load and a single store. *)
Lemma copy_buffer_to_layer_body_plain (job : v3dv_job) (fb : framebuffer_data)
  (image : v3dv_image) (buffer : v3dv_buffer) (layer : Z)
  (region : VkBufferImageCopy) (slice : v3d_resource_slice) :
  let imgrsc := imageSubresource region in
  let aspect := aspectMask imgrsc in
  let layer' := to_uint32 (baseArrayLayer imgrsc + layer) in
  vk_format fb <> VK_FORMAT_D24_UNORM_S8_UINT ->
  layer_in_range image imgrsc layer = true ->
  slice_at image (mipLevel imgrsc) = Done slice ->
  exists job' fmt lin su,
    emit_copy_buffer_to_layer_per_tile_list job fb image buffer layer region
    = Done job'
    /\ indirect job'
       = indirect job
         ++ [TILE_COORDINATES_IMPLICIT; LOAD_TILE_BUFFER_GENERAL lin;
             END_OF_LOADS; BRANCH_TO_IMPLICIT_TILE_LIST;
             STORE_TILE_BUFFER_GENERAL su; END_OF_TILE_MARKER;
             RETURN_FROM_SUB_LIST]
    /\ choose_tlb_format fb aspect false false true = Done fmt
    /\ emit_linear_load [] RENDER_TARGET_0 (buffer_bo buffer)
         (region_buffer_offset image region layer)
         (region_buffer_stride image region) fmt
       = [LOAD_TILE_BUFFER_GENERAL lin]
    /\ emit_image_store [] fb image aspect layer' (mipLevel imgrsc) false true
       = Done [STORE_TILE_BUFFER_GENERAL su].
Proof.
  intros imgrsc aspect layer' Hfmt Hlayer Hslice.
  destruct (choose_tlb_format_returns fb aspect false false true) as [fl Hfl];
    [forget_helpers; tauto|].
  destruct (choose_tlb_format_returns fb aspect true false true) as [fs Hfs];
    [forget_helpers; tauto|].
  unfold emit_copy_buffer_to_layer_per_tile_list.
  fold imgrsc. fold aspect. fold layer'.
  rewrite Hlayer. cbn [c_assert bind]. rewrite Hfl. cbn [bind].
  replace (vk_format fb =? VK_FORMAT_D24_UNORM_S8_UINT) with false
    by (symmetry; apply Z.eqb_neq; exact Hfmt).
  cbn [bind].
  rewrite (emit_image_store_done _ _ _ _ _ _ _ _ slice fs Hslice Hfs).
  cbn [bind].
  rewrite (emit_image_store_done [] _ _ _ _ _ _ _ slice fs Hslice Hfs).
  unfold emit_linear_load, cl_emit.
  do 4 eexists. cbn [indirect app].
  split; [reflexivity|].
  split; [rewrite <- !app_assoc; reflexivity|].
  repeat split; reflexivity.
Qed.

Lemma image_load_flags (fb : framebuffer_data) (image : v3dv_image)
  (aspect layer mip : Z) (to_buffer from_buffer : bool)
  (l : load_tile_buffer_general) :
  emit_image_load [] fb image aspect layer mip to_buffer from_buffer
  = Done [LOAD_TILE_BUFFER_GENERAL l] ->
  fixup_flags (LOAD_TILE_BUFFER_GENERAL l)
  = if to_buffer && is_d24_depth_copy fb aspect then (true, true)
    else if negb from_buffer && negb to_buffer
            && has_aspect aspect VK_IMAGE_ASPECT_COLOR_BIT
         then (format_needs_rb_swap (vk_format fb), false)
         else (false, false).
Proof.
  unfold emit_image_load.
  destruct (slice_at image mip); try discriminate. cbn [bind].
  destruct (choose_tlb_format fb aspect false to_buffer from_buffer);
    try discriminate. cbn [bind].
  destruct (to_buffer && is_d24_depth_copy fb aspect);
    [|destruct (negb from_buffer && negb to_buffer
                && has_aspect aspect VK_IMAGE_ASPECT_COLOR_BIT)];
    intros [= <-]; reflexivity.
Qed.

Lemma image_store_flags (fb : framebuffer_data) (image : v3dv_image)
  (aspect layer mip : Z) (to_buffer from_buffer : bool)
  (s : store_tile_buffer_general) :
  emit_image_store [] fb image aspect layer mip to_buffer from_buffer
  = Done [STORE_TILE_BUFFER_GENERAL s] ->
  fixup_flags (STORE_TILE_BUFFER_GENERAL s)
  = if from_buffer && is_d24_depth_copy fb aspect then (true, true)
    else if negb from_buffer && negb to_buffer
            && has_aspect aspect VK_IMAGE_ASPECT_COLOR_BIT
         then (format_needs_rb_swap (vk_format fb), false)
         else (false, false).
Proof.
  unfold emit_image_store.
  destruct (slice_at image mip); try discriminate. cbn [bind].
  destruct (from_buffer && is_d24_depth_copy fb aspect);
    [|destruct (negb from_buffer && negb to_buffer
                && has_aspect aspect VK_IMAGE_ASPECT_COLOR_BIT)];
    (destruct (choose_tlb_format fb aspect true to_buffer from_buffer);
     try discriminate; cbn [bind]; intros [= <-]; reflexivity).
Qed.

Lemma linear_load_flags (bo : v3dv_bo) (offset stride : Z)
  (fmt : output_image_format) (l : load_tile_buffer_general) :
  emit_linear_load [] RENDER_TARGET_0 bo offset stride fmt
  = [LOAD_TILE_BUFFER_GENERAL l] ->
  fixup_flags (LOAD_TILE_BUFFER_GENERAL l) = (false, false).
Proof. intros [= <-]. reflexivity. Qed.

Lemma linear_store_flags (bo : v3dv_bo) (offset stride : Z) (msaa : bool)
  (fmt : output_image_format) (s : store_tile_buffer_general) :
  emit_linear_store [] RENDER_TARGET_0 bo offset stride msaa fmt
  = [STORE_TILE_BUFFER_GENERAL s] ->
  fixup_flags (STORE_TILE_BUFFER_GENERAL s) = (false, false).
Proof. intros [= <-]. reflexivity. Qed.

Lemma d24s8_depth_copy_has_depth (fb : framebuffer_data) (aspect : Z) :
  is_d24_depth_copy fb aspect = true ->
  vk_format fb = VK_FORMAT_D24_UNORM_S8_UINT ->
  has_aspect aspect VK_IMAGE_ASPECT_DEPTH_BIT = true.
Proof.
  unfold is_d24_depth_copy. intros H Hf. rewrite Hf in H.
  cbn [Z.eqb VK_FORMAT_D24_UNORM_S8_UINT VK_FORMAT_X8_D24_UNORM_PACK32] in H.
  exact H.
Qed.

(** C5 (as the code has it): when the depth aspect of a 24-bit depth
    format (X8_D24, or D24S8 with the depth aspect) is copied to or from a
    linear buffer, channel-reverse and red-blue swap are both set on the
    image-side record only: on the load for a copy to a buffer, on the
    store of the uploaded aspect for a copy from a buffer; the buffer-side
    record of the same copy, and the records that preserve the stencil of
    a D24S8 image, carry neither flag.  In loads and stores that are not
    to or from a buffer and have the colour aspect, red-blue swap is set
    exactly when the format's swizzle maps the first channel to blue, and
    channel-reverse is not set. *)
Theorem d24_depth_fixup_flags_on_image_side (fb : framebuffer_data) (aspect : Z) :
  (is_d24_depth_copy fb aspect = true ->
   forall job buffer image layer region slice,
     aspectMask (imageSubresource region) = aspect ->
     layer_in_range image (imageSubresource region) layer = true ->
     slice_at image (mipLevel (imageSubresource region)) = Done slice ->
     (exists job' body,
        emit_copy_layer_to_buffer_per_tile_list job fb buffer image layer region
        = Done job'
        /\ indirect job' = indirect job ++ body
        /\ map fixup_flags (tile_buffer_operations body)
           = [(true, true); (false, false)])
     /\ (exists job' body,
           emit_copy_buffer_to_layer_per_tile_list job fb image buffer layer region
           = Done job'
           /\ indirect job' = indirect job ++ body
           /\ map fixup_flags (tile_buffer_operations body)
              = if vk_format fb =? VK_FORMAT_D24_UNORM_S8_UINT
                then [(false, false); (false, false); (true, true); (false, false)]
                else [(false, false); (true, true)]))
  /\ (has_aspect aspect VK_IMAGE_ASPECT_COLOR_BIT = true ->
      forall cl image layer mip slice,
        slice_at image mip = Done slice ->
        exists l s,
          emit_image_load cl fb image aspect layer mip false false
          = Done (cl ++ [LOAD_TILE_BUFFER_GENERAL l])
          /\ emit_image_store cl fb image aspect layer mip false false
             = Done (cl ++ [STORE_TILE_BUFFER_GENERAL s])
          /\ load_channel_reverse l = false /\ store_channel_reverse s = false
          /\ load_r_b_swap l = store_r_b_swap s
          /\ (load_r_b_swap l = true
              <-> v3dv_get_format_swizzle (vk_format fb) 0%nat = PIPE_SWIZZLE_Z)).
Proof.
  split.
  - intros Hd24 job buffer image layer region slice Hmask Hlayer Hslice.
    subst aspect. split.
    + destruct (copy_layer_to_buffer_body job fb buffer image layer region slice
                  V3D_OUTPUT_IMAGE_FORMAT_RGBA8UI V3D_OUTPUT_IMAGE_FORMAT_RGBA8UI)
        as (job' & l & s & Hrun & Hind & _ & Hl & Hs); try assumption;
        try (apply choose_tlb_format_d24_depth; [assumption|reflexivity]).
      exists job'. eexists. split; [exact Hrun|]. split; [exact Hind|].
      cbn [tile_buffer_operations filter map].
      rewrite (image_load_flags _ _ _ _ _ _ _ _ Hl).
      rewrite (linear_store_flags _ _ _ _ _ _ Hs).
      rewrite Hd24. reflexivity.
    + destruct (vk_format fb =? VK_FORMAT_D24_UNORM_S8_UINT) eqn:Hf.
      * apply Z.eqb_eq in Hf.
        pose proof (d24s8_depth_copy_has_depth _ _ Hd24 Hf) as Hdepth.
        destruct (copy_buffer_to_layer_body_d24s8 job fb image buffer layer region
                    slice)
          as (job' & fmt & lin & lo & su & so & Hrun & Hind & _ & Hlin & Hlo
              & Hsu & Hso); try assumption; [left; exact Hdepth|].
        exists job'. eexists. split; [exact Hrun|]. split; [exact Hind|].
        cbn [tile_buffer_operations filter map].
        rewrite (linear_load_flags _ _ _ _ _ Hlin).
        rewrite (image_load_flags _ _ _ _ _ _ _ _ Hlo).
        rewrite (image_store_flags _ _ _ _ _ _ _ _ Hsu).
        rewrite (image_store_flags _ _ _ _ _ _ _ _ Hso).
        rewrite Hd24. unfold other_aspect. rewrite Hdepth. reflexivity.
      * apply Z.eqb_neq in Hf.
        destruct (copy_buffer_to_layer_body_plain job fb image buffer layer region
                    slice)
          as (job' & fmt & lin & su & Hrun & Hind & _ & Hlin & Hsu);
          try assumption.
        exists job'. eexists. split; [exact Hrun|]. split; [exact Hind|].
        cbn [tile_buffer_operations filter map].
        rewrite (linear_load_flags _ _ _ _ _ Hlin).
        rewrite (image_store_flags _ _ _ _ _ _ _ _ Hsu).
        rewrite Hd24. reflexivity.
  - intros Hcolor cl image layer mip slice Hslice.
    do 2 eexists.
    split; [apply (emit_image_load_done _ _ _ _ _ _ _ _ slice _ Hslice
                     (choose_tlb_format_no_buffer fb aspect false))|].
    split; [apply (emit_image_store_done _ _ _ _ _ _ _ _ slice _ Hslice
                     (choose_tlb_format_no_buffer fb aspect true))|].
    cbn. rewrite Hcolor. repeat split; try reflexivity.
    + unfold format_needs_rb_swap.
      destruct (v3dv_get_format_swizzle (vk_format fb) 0%nat);
        cbn; congruence.
    + unfold format_needs_rb_swap. intros ->. reflexivity.
Qed.

(** ** Single-aspect uploads into a combined depth/stencil image *)

Lemma image_load_buffer (fb : framebuffer_data) (image : v3dv_image)
  (aspect layer mip : Z) (to_buffer from_buffer : bool) (p : cl_packet) :
  emit_image_load [] fb image aspect layer mip to_buffer from_buffer = Done [p] ->
  tlb_buffer_of p
  = Some (if to_buffer || from_buffer || (aspect =? VK_IMAGE_ASPECT_COLOR_BIT)
          then RENDER_TARGET_0 else v3dv_zs_buffer_from_aspect_bits aspect).
Proof.
  unfold emit_image_load.
  destruct (slice_at image mip); try discriminate. cbn [bind].
  destruct (choose_tlb_format fb aspect false to_buffer from_buffer);
    try discriminate. cbn [bind].
  destruct (to_buffer && is_d24_depth_copy fb aspect);
    [|destruct (negb from_buffer && negb to_buffer
                && has_aspect aspect VK_IMAGE_ASPECT_COLOR_BIT)];
    intros [= <-]; reflexivity.
Qed.

Lemma image_store_buffer (fb : framebuffer_data) (image : v3dv_image)
  (aspect layer mip : Z) (to_buffer from_buffer : bool) (p : cl_packet) :
  emit_image_store [] fb image aspect layer mip to_buffer from_buffer = Done [p] ->
  tlb_buffer_of p
  = Some (if to_buffer || from_buffer || (aspect =? VK_IMAGE_ASPECT_COLOR_BIT)
          then RENDER_TARGET_0 else v3dv_zs_buffer_from_aspect_bits aspect).
Proof.
  unfold emit_image_store.
  destruct (slice_at image mip); try discriminate. cbn [bind].
  destruct (from_buffer && is_d24_depth_copy fb aspect);
    [|destruct (negb from_buffer && negb to_buffer
                && has_aspect aspect VK_IMAGE_ASPECT_COLOR_BIT)];
    (destruct (choose_tlb_format fb aspect true to_buffer from_buffer);
     try discriminate; cbn [bind]; intros [= <-]; reflexivity).
Qed.

Lemma other_aspect_not_color (aspect : Z) :
  (other_aspect aspect =? VK_IMAGE_ASPECT_COLOR_BIT) = false.
Proof.
  unfold other_aspect.
  destruct (has_aspect aspect VK_IMAGE_ASPECT_DEPTH_BIT); reflexivity.
Qed.

Lemma other_aspect_single (aspect : Z) :
  (aspect = VK_IMAGE_ASPECT_DEPTH_BIT ->
   other_aspect aspect = VK_IMAGE_ASPECT_STENCIL_BIT)
  /\ (aspect = VK_IMAGE_ASPECT_STENCIL_BIT ->
      other_aspect aspect = VK_IMAGE_ASPECT_DEPTH_BIT).
Proof. split; intros ->; reflexivity. Qed.


(** ** Buffer copies *)

(** For every 32-bit pixel count the frame size is returned, within the
    frame limit and within the count. *)
Lemma framebuffer_size_for_pixel_count_returns (N : Z) :
  0 < N < 2 ^ 32 ->
  exists w h,
    framebuffer_size_for_pixel_count N = Done (w, h)
    /\ 0 < w <= 4096 /\ 0 < h <= 4096 /\ w * h <= N.
Proof.
  intros HN.
  destruct (framebuffer_size_for_pixel_count_run N HN) as [Hsmall Hbig].
  destruct (Z_le_gt_dec N (4096 * 4096)) as [Hle|Hgt].
  - destruct (Hsmall Hle) as (w & h & k & Hrun & H). exists w, h.
    split; [exact Hrun|]. lia.
  - exists 4096, 4096. split; [apply Hbig; lia|]. lia.
Qed.

Lemma to_uint32_add_l (a b : Z) : to_uint32 (to_uint32 a + b) = to_uint32 (a + b).
Proof. unfold to_uint32. apply Z.add_mod_idemp_l. lia. Qed.

Lemma to_uint32_add_r (a b : Z) : to_uint32 (a + to_uint32 b) = to_uint32 (a + b).
Proof. unfold to_uint32. apply Z.add_mod_idemp_r. lia. Qed.

Lemma to_uint32_mul_l (a b : Z) : to_uint32 (to_uint32 a * b) = to_uint32 (a * b).
Proof. unfold to_uint32. apply Z.mul_mod_idemp_l. lia. Qed.

Lemma to_uint32_idem (a : Z) : to_uint32 (to_uint32 a) = to_uint32 a.
Proof. unfold to_uint32. apply Z.mod_mod. lia. Qed.

Lemma to_uint32_range (a : Z) : 0 <= to_uint32 a < 2 ^ 32.
Proof. unfold to_uint32. apply Z.mod_pos_bound. lia. Qed.

(** The job loop, given a job whenever it asks for one and a budget of at
    least one turn per item, covers every item and leaves the offsets
    advanced by the bytes copied. *)
Lemma copy_buffer_loop_run (job_ok : nat -> bool) (item_size : Z)
  (format : output_image_format) (vkf : VkFormat) (fuel : nat) :
  (forall n, job_ok n = true) ->
  forall n num_items src dst jobs,
    0 <= num_items < 2 ^ 32 -> 0 <= src < 2 ^ 32 -> 0 <= dst < 2 ^ 32 ->
    num_items <= Z.of_nat fuel ->
    exists new,
      copy_buffer_loop fuel job_ok n item_size format vkf num_items src dst jobs
      = Done (jobs ++ new,
              to_uint32 (src + num_items * item_size),
              to_uint32 (dst + num_items * item_size))
      /\ items_covered new = num_items
      /\ offsets_advance item_size src dst new
      /\ Forall (copy_job_ok format) new.
Proof.
  intros Hjobs. induction fuel as [|fuel IH];
    intros n num_items src dst jobs Hn Hsrc Hdst Hfuel.
  - assert (num_items = 0) as -> by lia. exists []. cbn.
    rewrite app_nil_r, !Z.add_0_r, !to_uint32_small by lia. auto.
  - destruct (Z.eq_dec num_items 0) as [->|Hpos].
    + exists []. cbn. rewrite app_nil_r, !Z.add_0_r, !to_uint32_small by lia. auto.
    + cbn [copy_buffer_loop].
      replace (0 <? num_items) with true by (symmetry; apply Z.ltb_lt; lia).
      rewrite Hjobs. cbn [negb].
      destruct (framebuffer_size_for_pixel_count_returns num_items)
        as (w & h & Hrun & Hw & Hh & Hprod); [lia|].
      rewrite Hrun. cbn [bind].
      assert (Hwh : 0 < w * h) by nia.
      rewrite (to_uint32_small (w * h)) by lia.
      rewrite (to_uint32_small (num_items - w * h)) by lia.
      rewrite !to_uint32_add_r.
      set (job := {| copy_width := w; copy_height := h;
                     copy_internal_bpp := V3D_INTERNAL_BPP_32;
                     copy_vk_format := vkf;
                     copy_internal_type := V3D_INTERNAL_TYPE_8UI;
                     copy_dst_offset := dst; copy_src_offset := src;
                     copy_format := format |}).
      destruct (IH (S n) (num_items - w * h)
                  (to_uint32 (src + w * h * item_size))
                  (to_uint32 (dst + w * h * item_size))
                  (jobs ++ [job]))
        as (new & Hloop & Hcov & Hadv & Hall);
        try apply to_uint32_range; try lia.
      exists (job :: new). rewrite Hloop.
      rewrite !to_uint32_add_l, <- app_assoc. cbn [app].
      split; [|split; [|split]].
      * replace (src + w * h * item_size + (num_items - w * h) * item_size)
          with (src + num_items * item_size) by ring.
        replace (dst + w * h * item_size + (num_items - w * h) * item_size)
          with (dst + num_items * item_size) by ring.
        reflexivity.
      * cbn [items_covered fold_right]. fold (items_covered new).
        rewrite Hcov. subst job. cbn [copy_width copy_height]. lia.
      * cbn [offsets_advance]. repeat split; try reflexivity. exact Hadv.
      * constructor; [|exact Hall]. unfold copy_job_ok. cbn.
        repeat split; try reflexivity; lia.
Qed.

Lemma copy_item_choice_cases (L : Z) :
  exists item_size format vk_format,
    copy_item_choice (L mod 4) = Done (item_size, format, vk_format)
    /\ (L mod 4 = 0 ->
        item_size = 4 /\ format = V3D_OUTPUT_IMAGE_FORMAT_RGBA8UI)
    /\ (L mod 4 = 2 ->
        item_size = 2 /\ format = V3D_OUTPUT_IMAGE_FORMAT_RG8UI)
    /\ (L mod 4 = 1 \/ L mod 4 = 3 ->
        item_size = 1 /\ format = V3D_OUTPUT_IMAGE_FORMAT_R8UI)
    /\ 0 < item_size /\ L mod item_size = 0.
Proof.
  forget_helpers.
  assert (Hcase : L mod 4 = 0 \/ L mod 4 = 1 \/ L mod 4 = 2 \/ L mod 4 = 3)
    by (pose proof (Z.mod_pos_bound L 4); lia).
  assert (H2 : L mod 4 = 2 -> L mod 2 = 0)
    by (intros; Z.to_euclidean_division_equations; lia).
  unfold copy_item_choice.
  destruct Hcase as [H|[H|[H|H]]]; rewrite H; cbn [Z.eqb orb Pos.eqb];
    do 3 eexists; (split; [reflexivity|]);
    repeat split; intros; try reflexivity; try lia; try apply Z.mod_1_r;
    auto.
Qed.

(** C7 (as the code has it): the item size of a buffer copy of L > 0 bytes
    depends on L mod 4 only: 4-byte items (RGBA8UI) for remainder 0, 2-byte
    items (RG8UI) for remainder 2, 1-byte items (R8UI) for remainders 1 and
    3; L is an exact multiple of the item size.  The item count is held in
    32 bits: whenever L / item_size is below 2^32 and every job is
    obtained, the loop runs jobs that cover exactly L / item_size items,
    each job starting at the source and destination offsets advanced by
    items_copied * item_size past the previous one, and it ends with both
    offsets advanced by L. *)
Theorem copy_buffer_item_size_and_coverage
  (region : VkBufferCopy) (fuel : nat) (job_ok : nat -> bool) :
  let L := size region in
  0 < L ->
  exists item_size format vk_format,
    copy_item_choice (L mod 4) = Done (item_size, format, vk_format)
    /\ (L mod 4 = 0 ->
        item_size = 4 /\ format = V3D_OUTPUT_IMAGE_FORMAT_RGBA8UI)
    /\ (L mod 4 = 2 ->
        item_size = 2 /\ format = V3D_OUTPUT_IMAGE_FORMAT_RG8UI)
    /\ (L mod 4 = 1 \/ L mod 4 = 3 ->
        item_size = 1 /\ format = V3D_OUTPUT_IMAGE_FORMAT_R8UI)
    /\ L mod item_size = 0
    /\ L / item_size * item_size = L
    /\ (L / item_size < 2 ^ 32 ->
        (forall n, job_ok n = true) ->
        L / item_size <= Z.of_nat fuel ->
        exists jobs,
          copy_buffer fuel job_ok region
          = Done (jobs,
                  to_uint32 (srcOffset region + L),
                  to_uint32 (dstOffset region + L))
          /\ items_covered jobs = L / item_size
          /\ offsets_advance item_size
               (to_uint32 (srcOffset region)) (to_uint32 (dstOffset region)) jobs
          /\ Forall (copy_job_ok format) jobs).
Proof.
  intros L HL.
  destruct (copy_item_choice_cases L)
    as (item_size & format & vkf & Hchoice & H0 & H2 & H13 & Hpos & Hdiv).
  exists item_size, format, vkf.
  assert (Hexact : L / item_size * item_size = L).
  { pose proof (Z.div_mod L item_size ltac:(lia)). lia. }
  assert (Hitems : 0 < L / item_size).
  { apply Z.div_str_pos. split; [lia|].
    destruct (Z_le_gt_dec item_size L); [assumption|].
    rewrite Z.mod_small in Hdiv by lia. lia. }
  repeat (split; [assumption|]).
  intros Hfits Hjobs Hfuel.
  unfold copy_buffer. fold L. rewrite Hchoice. cbn [bind].
  rewrite Hdiv. cbn [Z.eqb c_assert bind].
  rewrite (to_uint32_small (L / item_size)) by lia.
  replace (0 <? L / item_size) with true by (symmetry; apply Z.ltb_lt; lia).
  cbn [c_assert bind].
  destruct (copy_buffer_loop_run job_ok item_size format vkf fuel Hjobs 0%nat
              (L / item_size) (to_uint32 (srcOffset region))
              (to_uint32 (dstOffset region)) [])
    as (jobs & Hloop & Hcov & Hadv & Hall);
    try apply to_uint32_range; try lia.
  exists jobs. rewrite Hloop, !to_uint32_add_l, Hexact. cbn [app]. auto.
Qed.

(** ** Buffer fills *)

Lemma fill_buffer_loop_run (job_ok : nat -> bool) (data : Z) (fuel : nat) :
  (forall n, job_ok n = true) ->
  forall n num_items offset jobs,
    0 <= num_items < 2 ^ 32 -> num_items <= Z.of_nat fuel ->
    exists new,
      fill_buffer_loop fuel job_ok n data num_items offset jobs
      = Done (jobs ++ new).
Proof.
  intros Hjobs. induction fuel as [|fuel IH];
    intros n num_items offset jobs Hn Hfuel.
  - assert (num_items = 0) as -> by lia. exists []. cbn. now rewrite app_nil_r.
  - destruct (Z.eq_dec num_items 0) as [->|Hpos].
    + exists []. cbn. now rewrite app_nil_r.
    + cbn [fill_buffer_loop].
      replace (0 <? num_items) with true by (symmetry; apply Z.ltb_lt; lia).
      rewrite Hjobs. cbn [negb].
      destruct (framebuffer_size_for_pixel_count_returns num_items)
        as (w & h & Hrun & Hw & Hh & Hprod); [lia|].
      rewrite Hrun. cbn [bind].
      assert (Hwh : 0 < w * h) by nia.
      rewrite (to_uint32_small (w * h)) by lia.
      rewrite (to_uint32_small (num_items - w * h)) by lia.
      match goal with
      | |- context [fill_buffer_loop fuel job_ok (S n) data _ ?o (jobs ++ [?j])] =>
          destruct (IH (S n) (num_items - w * h) o (jobs ++ [j])) as (new & Hloop);
          try lia; exists (j :: new); rewrite Hloop, <- app_assoc; reflexivity
      end.
Qed.

Lemma to_uint32_mod_4 (z : Z) : to_uint32 z mod 4 = z mod 4.
Proof.
  unfold to_uint32.
  apply Z.mod_mod_divide. exists (2 ^ 30). reflexivity.
Qed.

(** ** Further properties of the tiling geometry *)

Lemma div_pow2_succ (N k : Z) :
  0 <= N -> 0 <= k -> N / 2 ^ (k + 1) = N / 2 ^ k / 2.
Proof.
  intros HN Hk. rewrite pow2_succ by exact Hk.
  pose proof (pow2_pos k Hk) as Hp.
  rewrite (Z.mul_comm 2), Z.div_div by lia. reflexivity.
Qed.

Lemma div_pow2_le (N k : Z) : 0 <= N -> 0 <= k -> N / 2 ^ k <= N.
Proof.
  intros HN Hk. pose proof (pow2_pos k Hk) as Hp.
  apply Z.div_le_upper_bound; [lia|]. nia.
Qed.

(** While the width is at most 4096 the loop only halves even widths, so
    width times height stays the pixel count. *)
Lemma halving_exact (N : Z) :
  0 < N <= 4096 ->
  forall k, 0 <= k ->
    (forall j, 0 <= j < k -> keeps_halving (N / 2 ^ j) (2 ^ j)) ->
    N / 2 ^ k * 2 ^ k = N.
Proof.
  intros HN k Hk. pattern k. apply natlike_ind; [| |exact Hk]; clear k Hk.
  - intros _. rewrite Z.pow_0_r, Z.div_1_r. lia.
  - intros k Hk IH Hall.
    assert (Hk' : N / 2 ^ k * 2 ^ k = N) by (apply IH; intros j Hj; apply Hall; lia).
    destruct (Hall k ltac:(lia)) as [Hbig | [Heven _]].
    + pose proof (div_pow2_le N k ltac:(lia) Hk). lia.
    + replace (Z.succ k) with (k + 1) by lia.
      rewrite div_pow2_succ by lia. rewrite pow2_succ by exact Hk.
      pose proof (Z.div_mod (N / 2 ^ k) 2 ltac:(lia)) as Hdm.
      rewrite Heven in Hdm. nia.
Qed.

Lemma framebuffer_size_for_pixel_count_shape (N : Z) :
  0 < N <= 4096 * 4096 ->
  exists w h,
    framebuffer_size_for_pixel_count N = Done (w, h)
    /\ 0 < w <= 4096 /\ 0 < h <= 4096
    /\ 0 <= N - w * h < h
    /\ (N <= 4096 -> w * h = N)
    /\ h <= 2 * w
    /\ (w <= 2 * h \/ w mod 2 = 1).
Proof.
  intros HN.
  destruct (framebuffer_size_for_pixel_count_run N ltac:(lia)) as [Hsmall _].
  destruct (Hsmall ltac:(lia))
    as (w & h & k & Hrun & Hle & Hw & Hh & Hw0 & Hh0 & Hk & Hhk & Hwk & Hstop
        & Hall & _).
  exists w, h. split; [exact Hrun|].
  pose proof (pow2_pos k Hk) as Hp.
  split; [lia|]. split; [lia|]. split; [|split; [|split]].
  - subst w h. pose proof (Z.div_mod N (2 ^ k) ltac:(lia)) as Hdm.
    pose proof (Z.mod_pos_bound N (2 ^ k) Hp). nia.
  - intros H4096. subst w h. apply halving_exact; [lia|exact Hk|exact Hall].
  - destruct (Z.eq_dec k 0) as [-> | Hk0].
    + subst h. rewrite Z.pow_0_r. lia.
    + assert (Hprev : keeps_halving (N / 2 ^ (k - 1)) (2 ^ (k - 1)))
        by (apply Hall; lia).
      assert (Hwp : w = N / 2 ^ (k - 1) / 2).
      { rewrite Hwk. replace k with (k - 1 + 1) at 1 by lia.
        apply div_pow2_succ; lia. }
      assert (Hhp : h = 2 * 2 ^ (k - 1)).
      { rewrite Hhk. replace k with (k - 1 + 1) at 1 by lia.
        apply pow2_succ; lia. }
      destruct Hprev as [Hbig | [Heven Hwide]].
      * assert (2048 <= w) by (rewrite Hwp; apply Z.div_le_lower_bound; lia).
        lia.
      * pose proof (Z.div_mod (N / 2 ^ (k - 1)) 2 ltac:(lia)) as Hdm.
        rewrite Heven in Hdm. lia.
  - unfold keeps_halving in Hstop.
    destruct (Z.le_gt_cases w (2 * h)) as [Hc | Hc]; [left; exact Hc|].
    right. pose proof (Z.mod_pos_bound w 2 ltac:(lia)).
    destruct (Z.eq_dec (w mod 2) 0) as [He | He]; [|lia].
    exfalso. apply Hstop. right. split; [exact He|lia].
Qed.

(** X1: for a pixel count within one job, the frame leaves fewer pixels
    over than one of its rows holds, and none at all when the count is at
    most 4096. *)
Theorem framebuffer_size_for_pixel_count_leftover (N : Z) :
  0 < N <= 4096 * 4096 ->
  exists w h,
    framebuffer_size_for_pixel_count N = Done (w, h)
    /\ 0 <= N - w * h < h
    /\ h <= 4096
    /\ (N <= 4096 -> w * h = N).
Proof.
  intros HN.
  destruct (framebuffer_size_for_pixel_count_shape N HN)
    as (w & h & Hrun & _ & Hh & Hleft & Hexact & _).
  exists w, h. repeat split; try assumption; lia.
Qed.

(** X2: the frame is near-square from both sides: the height is at most
    twice the width, and the width is at most twice the height unless it
    is odd and cannot be halved. *)
Theorem framebuffer_size_for_pixel_count_aspect (N : Z) :
  0 < N < 2 ^ 32 ->
  exists w h,
    framebuffer_size_for_pixel_count N = Done (w, h)
    /\ h <= 2 * w
    /\ (w <= 2 * h \/ w mod 2 = 1).
Proof.
  intros HN.
  destruct (Z.le_gt_cases N (4096 * 4096)) as [Hs | Hb].
  - destruct (framebuffer_size_for_pixel_count_shape N ltac:(lia))
      as (w & h & Hrun & _ & _ & _ & _ & Hhw & Hwh).
    exists w, h. repeat split; assumption.
  - destruct (framebuffer_size_for_pixel_count_run N HN) as [_ Hbig].
    exists 4096, 4096. split; [apply Hbig; lia|]. split; [lia|left; lia].
Qed.

(** ** Job counts of buffer copies and fills *)

Lemma jobs_bound_nonneg (N : Z) : 0 <= jobs_bound N.
Proof.
  forget_helpers. unfold jobs_bound.
  destruct (N <=? 0) eqn:H0; [lia|]. destruct (N <=? 4096) eqn:H1; [lia|].
  apply Z.leb_gt in H1. assert (0 <= (N - 1) / (4096 * 4096)).
  { apply Z.div_pos; lia. }
  lia.
Qed.

Lemma jobs_bound_positive (N : Z) : 0 < N -> 1 <= jobs_bound N.
Proof.
  forget_helpers. intros HN. unfold jobs_bound.
  destruct (N <=? 0) eqn:H0; [apply Z.leb_le in H0; lia|].
  destruct (N <=? 4096) eqn:H1; [lia|].
  apply Z.leb_gt in H1. assert (0 <= (N - 1) / (4096 * 4096)).
  { apply Z.div_pos; lia. }
  lia.
Qed.

(** What one turn of the loops leaves to do costs one job less. *)
Lemma jobs_bound_step (N w h : Z) :
  0 < N < 2 ^ 32 ->
  framebuffer_size_for_pixel_count N = Done (w, h) ->
  0 < w * h <= N /\ w * h <= 4096 * 4096
  /\ 0 < w <= 4096 /\ 0 < h <= 4096
  /\ jobs_bound (N - w * h) + 1 <= jobs_bound N.
Proof.
  forget_helpers. intros HN Hrun.
  destruct (Z.le_gt_cases N (4096 * 4096)) as [Hs | Hb].
  - destruct (framebuffer_size_for_pixel_count_shape N ltac:(lia))
      as (w' & h' & Hrun' & Hw & Hh & Hleft & Hexact & _).
    rewrite Hrun in Hrun'. injection Hrun' as <- <-.
    assert (0 < w * h) by nia.
    repeat split; try lia; try nia.
    unfold jobs_bound.
    destruct (N <=? 0) eqn:H0; [apply Z.leb_le in H0; lia|].
    destruct (N <=? 4096) eqn:H1.
    + apply Z.leb_le in H1. rewrite (Hexact H1).
      replace (N - N) with 0 by lia. reflexivity.
    + apply Z.leb_gt in H1.
      assert (Hq : (N - 1) / (4096 * 4096) = 0) by (apply Z.div_small; lia).
      rewrite Hq.
      destruct (N - w * h <=? 0) eqn:H2; [lia|].
      destruct (N - w * h <=? 4096) eqn:H3; [lia|].
      apply Z.leb_gt in H3. lia.
  - destruct (framebuffer_size_for_pixel_count_run N HN) as [_ Hbig].
    rewrite (Hbig Hb) in Hrun. injection Hrun as <- <-.
    repeat split; try lia.
    unfold jobs_bound.
    destruct (N <=? 0) eqn:H0; [apply Z.leb_le in H0; lia|].
    destruct (N <=? 4096) eqn:H1; [apply Z.leb_le in H1; lia|].
    assert (Hq : (N - 4096 * 4096 - 1) / (4096 * 4096)
                 = (N - 1) / (4096 * 4096) - 1).
    { replace (N - 4096 * 4096 - 1) with (N - 1 + (-1) * (4096 * 4096)) by lia.
      rewrite Z.div_add by lia. lia. }
    assert (0 <= (N - 4096 * 4096 - 1) / (4096 * 4096)).
    { apply Z.div_pos; lia. }
    destruct (N - 4096 * 4096 <=? 0) eqn:H2; [apply Z.leb_le in H2; lia|].
    destruct (N - 4096 * 4096 <=? 4096) eqn:H3; lia.
Qed.

Lemma items_covered_bound (format : output_image_format) (jobs : list copy_job) :
  Forall (copy_job_ok format) jobs ->
  items_covered jobs <= 4096 * 4096 * Z.of_nat (length jobs).
Proof.
  forget_helpers. induction 1 as [|j rest [_ [Hw Hh]] _ IH].
  - simpl. lia.
  - cbn [items_covered fold_right length]. fold (items_covered rest).
    rewrite Nat2Z.inj_succ. nia.
Qed.

Lemma copy_buffer_loop_jobs (job_ok : nat -> bool) (item_size : Z)
  (format : output_image_format) (vkf : VkFormat) (fuel : nat) :
  (forall n, job_ok n = true) ->
  forall n num_items src dst jobs,
    0 <= num_items < 2 ^ 32 ->
    jobs_bound num_items <= Z.of_nat fuel ->
    exists new s d,
      copy_buffer_loop fuel job_ok n item_size format vkf num_items src dst jobs
      = Done (jobs ++ new, s, d)
      /\ items_covered new = num_items
      /\ Forall (copy_job_ok format) new
      /\ Z.of_nat (length new) <= jobs_bound num_items.
Proof.
  forget_helpers. intros Hok.
  induction fuel as [|fuel IH]; intros n N src dst jobs HN Hfuel.
  - assert (N = 0).
    { destruct (Z.eq_dec N 0) as [|Hne]; [assumption|].
      pose proof (jobs_bound_positive N ltac:(lia)). lia. }
    subst N. exists [], src, dst. cbn. rewrite app_nil_r.
    repeat split; [constructor|lia].
  - cbn [copy_buffer_loop].
    destruct (0 <? N) eqn:Hpos.
    + apply Z.ltb_lt in Hpos. rewrite Hok. cbn [negb].
      destruct (framebuffer_size_for_pixel_count_returns N ltac:(lia))
        as (w & h & Hrun & _).
      destruct (jobs_bound_step N w h ltac:(lia) Hrun)
        as (Hwh & Hmax & Hw & Hh & Hstep).
      rewrite Hrun. cbn [bind].
      assert (Hitems : to_uint32 (w * h) = w * h)
        by (apply to_uint32_small; lia).
      rewrite Hitems.
      assert (Hrest : to_uint32 (N - w * h) = N - w * h)
        by (apply to_uint32_small; lia).
      rewrite Hrest.
      match goal with
      | |- context [copy_buffer_loop fuel job_ok (S n) item_size format vkf
                      (N - w * h) ?s ?d (jobs ++ [?j])] =>
          destruct (IH (S n) (N - w * h) s d (jobs ++ [j])
                      ltac:(lia) ltac:(rewrite Nat2Z.inj_succ in Hfuel; lia))
            as (new & s' & d' & Hloop & Hcov & Hall & Hlen);
          exists (j :: new), s', d'
      end.
      rewrite Hloop, <- app_assoc. split; [reflexivity|].
      split; [|split].
      * cbn [items_covered fold_right copy_width copy_height].
        fold (items_covered new). lia.
      * constructor; [|exact Hall].
        unfold copy_job_ok. cbn. repeat split; lia.
      * cbn [length]. rewrite Nat2Z.inj_succ. lia.
    + apply Z.ltb_ge in Hpos. assert (N = 0) by lia. subst N.
      exists [], src, dst. rewrite app_nil_r. repeat split.
      * constructor.
      * cbn. lia.
Qed.

Lemma item_size_of_choice (L : Z) :
  exists format vk_format,
    copy_item_choice (L mod 4) = Done (item_size_of L, format, vk_format)
    /\ 0 < item_size_of L /\ L mod item_size_of L = 0.
Proof.
  forget_helpers.
  destruct (copy_item_choice_cases L)
    as (isz & format & vkf & Hchoice & H0 & H2 & H13 & Hpos & Hdiv).
  assert (His : item_size_of L = isz).
  { unfold item_size_of.
    pose proof (Z.mod_pos_bound L 4 ltac:(lia)) as Hr.
    destruct (L mod 4 =? 0) eqn:E0.
    - apply Z.eqb_eq in E0. destruct (H0 E0) as [-> _]. reflexivity.
    - apply Z.eqb_neq in E0. destruct (L mod 4 =? 2) eqn:E2.
      + apply Z.eqb_eq in E2. destruct (H2 E2) as [-> _]. reflexivity.
      + apply Z.eqb_neq in E2.
        destruct (H13 ltac:(lia)) as [-> _]. reflexivity. }
  exists format, vkf. rewrite His. repeat split; assumption.
Qed.

(** X3: a buffer copy of [n] items takes one job per started block of
    4096 x 4096 items and at most one more, a single job when [n] is at
    most 4096; a loop budget of that many turns is enough. *)
Theorem copy_buffer_job_count
  (region : VkBufferCopy) (fuel : nat) (job_ok : nat -> bool) :
  let n := size region / item_size_of (size region) in
  0 < size region -> n < 2 ^ 32 ->
  (forall k, job_ok k = true) ->
  (n - 1) / (4096 * 4096) + 2 <= Z.of_nat fuel ->
  exists jobs s d,
    copy_buffer fuel job_ok region = Done (jobs, s, d)
    /\ (n - 1) / (4096 * 4096) + 1 <= Z.of_nat (length jobs)
       <= (n - 1) / (4096 * 4096) + 2
    /\ (n <= 4096 -> length jobs = 1%nat).
Proof.
  forget_helpers. intros n HL Hn Hok Hfuel.
  destruct (item_size_of_choice (size region))
    as (format & vkf & Hchoice & Hpos & Hdiv).
  assert (Hn1 : 1 <= n).
  { unfold n.
    pose proof (Z.div_mod (size region) (item_size_of (size region)) ltac:(lia))
      as Hdm.
    rewrite Hdiv in Hdm.
    assert (0 <= size region / item_size_of (size region))
      by (apply Z.div_pos; lia).
    nia. }
  assert (Hq : 0 <= (n - 1) / (4096 * 4096)) by (apply Z.div_pos; lia).
  assert (Hbound : jobs_bound n <= (n - 1) / (4096 * 4096) + 2).
  { unfold jobs_bound. destruct (n <=? 0); [lia|]. destruct (n <=? 4096); lia. }
  destruct (copy_buffer_loop_jobs job_ok (item_size_of (size region)) format vkf
              fuel Hok 0%nat n (to_uint32 (srcOffset region))
              (to_uint32 (dstOffset region)) [] ltac:(lia) ltac:(lia))
    as (jobs & s & d & Hloop & Hcov & Hall & Hlen).
  exists jobs, s, d.
  assert (Hrun : copy_buffer fuel job_ok region = Done (jobs, s, d)).
  { unfold copy_buffer. rewrite Hchoice. cbn [bind].
    rewrite Hdiv, Z.eqb_refl. cbn [c_assert bind].
    fold n. rewrite (to_uint32_small n) by lia.
    assert (Hlt : (0 <? n) = true) by (apply Z.ltb_lt; lia).
    rewrite Hlt. cbn [c_assert bind]. exact Hloop. }
  split; [exact Hrun|].
  pose proof (items_covered_bound format jobs Hall) as Hup.
  rewrite Hcov in Hup.
  assert (Hlow : (n - 1) / (4096 * 4096) + 1 <= Z.of_nat (length jobs)).
  { assert ((n - 1) / (4096 * 4096) < Z.of_nat (length jobs)); [|lia].
    apply Z.div_lt_upper_bound; lia. }
  split; [lia|].
  intros Hsmall. unfold jobs_bound in Hlen.
  destruct (n <=? 0) eqn:E0; [apply Z.leb_le in E0; lia|].
  destruct (n <=? 4096) eqn:E1; [|apply Z.leb_gt in E1; lia].
  assert (Hq0 : (n - 1) / (4096 * 4096) = 0) by (apply Z.div_small; lia).
  lia.
Qed.

Lemma fill_items_covered_bound (data : Z) (jobs : list fill_job) :
  Forall (fill_job_ok data) jobs ->
  fill_items_covered jobs <= 4096 * 4096 * Z.of_nat (length jobs).
Proof.
  forget_helpers. induction 1 as [|j rest [_ [Hw Hh]] _ IH].
  - simpl. lia.
  - cbn [fill_items_covered fold_right length]. fold (fill_items_covered rest).
    rewrite Nat2Z.inj_succ. nia.
Qed.

Lemma fill_buffer_loop_jobs (job_ok : nat -> bool) (data : Z) (fuel : nat) :
  (forall n, job_ok n = true) ->
  forall n num_items offset jobs,
    0 <= num_items < 2 ^ 32 ->
    jobs_bound num_items <= Z.of_nat fuel ->
    exists new,
      fill_buffer_loop fuel job_ok n data num_items offset jobs
      = Done (jobs ++ new)
      /\ fill_items_covered new = num_items
      /\ fill_offsets_advance offset new
      /\ Forall (fill_job_ok data) new
      /\ Z.of_nat (length new) <= jobs_bound num_items.
Proof.
  forget_helpers. intros Hok.
  induction fuel as [|fuel IH]; intros n N offset jobs HN Hfuel.
  - assert (N = 0).
    { destruct (Z.eq_dec N 0) as [|Hne]; [assumption|].
      pose proof (jobs_bound_positive N ltac:(lia)). lia. }
    subst N. exists []. cbn. rewrite app_nil_r.
    repeat split; [constructor|lia].
  - cbn [fill_buffer_loop].
    destruct (0 <? N) eqn:Hpos.
    + apply Z.ltb_lt in Hpos. rewrite Hok. cbn [negb].
      destruct (framebuffer_size_for_pixel_count_returns N ltac:(lia))
        as (w & h & Hrun & _).
      destruct (jobs_bound_step N w h ltac:(lia) Hrun)
        as (Hwh & Hmax & Hw & Hh & Hstep).
      rewrite Hrun. cbn [bind].
      assert (Hitems : to_uint32 (w * h) = w * h)
        by (apply to_uint32_small; lia).
      rewrite Hitems.
      assert (Hrest : to_uint32 (N - w * h) = N - w * h)
        by (apply to_uint32_small; lia).
      rewrite Hrest.
      match goal with
      | |- context [fill_buffer_loop fuel job_ok (S n) data
                      (N - w * h) ?o (jobs ++ [?j])] =>
          destruct (IH (S n) (N - w * h) o (jobs ++ [j])
                      ltac:(lia) ltac:(rewrite Nat2Z.inj_succ in Hfuel; lia))
            as (new & Hloop & Hcov & Hadv & Hall & Hlen);
          exists (j :: new)
      end.
      rewrite Hloop, <- app_assoc. split; [reflexivity|].
      split; [|split; [|split]].
      * cbn [fill_items_covered fold_right fill_width fill_height].
        fold (fill_items_covered new). lia.
      * cbn [fill_offsets_advance fill_offset fill_width fill_height].
        split; [reflexivity|].
        rewrite to_uint32_add_r in Hadv. exact Hadv.
      * constructor; [|exact Hall].
        unfold fill_job_ok. cbn. repeat split; lia.
      * cbn [length]. rewrite Nat2Z.inj_succ. lia.
    + apply Z.ltb_ge in Hpos. assert (N = 0) by lia. subst N.
      exists []. rewrite app_nil_r. repeat split.
      * constructor.
      * cbn. lia.
Qed.

(** X4: a fill of [size] bytes, a positive multiple of four inside the
    buffer object, is split into jobs that together cover [size / 4]
    words, each starting where the previous one stopped and each writing
    [data]; it takes at most one job more than the started blocks of
    4096 x 4096 words. *)
Theorem fill_buffer_covers_range
  (fuel : nat) (job_ok : nat -> bool) (bo : v3dv_bo) (offset size data : Z) :
  let n := size / 4 in
  0 < size < 2 ^ 32 -> size mod 4 = 0 ->
  to_uint32 (offset + size) <= bo_size bo ->
  (forall k, job_ok k = true) ->
  (n - 1) / (4096 * 4096) + 2 <= Z.of_nat fuel ->
  exists jobs,
    fill_buffer fuel job_ok bo offset size data = Done jobs
    /\ 4 * fill_items_covered jobs = size
    /\ fill_offsets_advance offset jobs
    /\ Forall (fill_job_ok data) jobs
    /\ (n - 1) / (4096 * 4096) + 1 <= Z.of_nat (length jobs)
       <= (n - 1) / (4096 * 4096) + 2.
Proof.
  forget_helpers. intros n Hsize Hmod Hfit Hok Hfuel.
  assert (Hn : size = 4 * n).
  { unfold n. pose proof (Z.div_mod size 4 ltac:(lia)). lia. }
  assert (Hq : 0 <= (n - 1) / (4096 * 4096)) by (apply Z.div_pos; lia).
  assert (Hbound : jobs_bound n <= (n - 1) / (4096 * 4096) + 2).
  { unfold jobs_bound. destruct (n <=? 0); [lia|]. destruct (n <=? 4096); lia. }
  destruct (fill_buffer_loop_jobs job_ok data fuel Hok 0%nat n offset []
              ltac:(lia) ltac:(lia))
    as (jobs & Hloop & Hcov & Hadv & Hall & Hlen).
  exists jobs. split.
  - unfold fill_buffer.
    assert (H1 : (0 <? size) && (size mod 4 =? 0) = true).
    { apply andb_true_intro. split; [apply Z.ltb_lt; lia|apply Z.eqb_eq; exact Hmod]. }
    rewrite H1. cbn [c_assert bind].
    assert (H2 : (to_uint32 (offset + size) <=? bo_size bo) = true)
      by (apply Z.leb_le; exact Hfit).
    rewrite H2. cbn [c_assert bind]. exact Hloop.
  - split; [lia|]. split; [exact Hadv|]. split; [exact Hall|].
    pose proof (fill_items_covered_bound data jobs Hall) as Hup.
    rewrite Hcov in Hup.
    assert ((n - 1) / (4096 * 4096) < Z.of_nat (length jobs)); [|lia].
    apply Z.div_lt_upper_bound; lia.
Qed.

(** A fill of a positive multiple of four bytes inside the object is
    carried out: the jobs cover the bytes from [offset] on. *)
Lemma fill_buffer_fills (fuel : nat) (job_ok : nat -> bool) (bo : v3dv_bo)
  (offset size data : Z) :
  0 < size < 2 ^ 32 -> size mod 4 = 0 ->
  to_uint32 (offset + size) <= bo_size bo ->
  (forall n, job_ok n = true) ->
  (size / 4 - 1) / (4096 * 4096) + 2 <= Z.of_nat fuel ->
  exists jobs,
    fill_buffer fuel job_ok bo offset size data = Done jobs
    /\ jobs <> []
    /\ 4 * fill_items_covered jobs = size
    /\ fill_offsets_advance offset jobs
    /\ Forall (fill_job_ok data) jobs.
Proof.
  forget_helpers. intros Hsize Hmod Hfit Hok Hfuel.
  pose proof (Z.div_mod size 4 ltac:(lia)) as Hdm.
  assert (Hq : 0 <= (size / 4 - 1) / (4096 * 4096)) by (apply Z.div_pos; lia).
  assert (Hbound : jobs_bound (size / 4)
                   <= (size / 4 - 1) / (4096 * 4096) + 2).
  { unfold jobs_bound. destruct (size / 4 <=? 0); [lia|].
    destruct (size / 4 <=? 4096); lia. }
  destruct (fill_buffer_loop_jobs job_ok data fuel Hok 0%nat (size / 4) offset []
              ltac:(lia) ltac:(lia))
    as (jobs & Hloop & Hcov & Hadv & Hall & _).
  exists jobs. split.
  - unfold fill_buffer.
    replace (0 <? size) with true by (symmetry; apply Z.ltb_lt; lia).
    rewrite Hmod. cbn [Z.eqb andb c_assert bind].
    replace (to_uint32 (offset + size) <=? bo_size bo) with true
      by (symmetry; apply Z.leb_le; exact Hfit).
    cbn [c_assert bind]. exact Hloop.
  - split; [|split; [lia|split; assumption]].
    intros ->. cbn in Hcov. lia.
Qed.

(** A fill of no byte, or of bytes that end outside the object, fails an
    assertion. *)
Lemma fill_buffer_refuses (fuel : nat) (job_ok : nat -> bool) (bo : v3dv_bo)
  (offset size data : Z) :
  size = 0 \/ bo_size bo < to_uint32 (offset + size) ->
  fill_buffer fuel job_ok bo offset size data = Assert_failure.
Proof.
  forget_helpers. intros [-> | Hout]; unfold fill_buffer.
  - reflexivity.
  - destruct ((0 <? size) && (size mod 4 =? 0)); [|reflexivity].
    cbn [c_assert bind].
    replace (to_uint32 (offset + size) <=? bo_size bo) with false
      by (symmetry; apply Z.leb_gt; exact Hout).
    reflexivity.
Qed.

(** C10: on the VK_WHOLE_SIZE path [v3dv_CmdFillBuffer] forwards the
    buffer size remaining past dstOffset rounded down to the nearest
    multiple of 4, and the 32-bit size [fill_buffer] receives is a multiple
    of 4, so that the alignment part of its assertion holds: the command
    fails an assertion only when the size received is zero or the range
    leaves the buffer object, and otherwise, with its jobs obtained, fills
    exactly the bytes received, from dstOffset on.  An explicit size is
    forwarded as it is: one that is not a multiple of 4 fails the
    assertion, and a multiple of 4 is filled under the same conditions. *)
Theorem fill_buffer_whole_size_is_aligned
  (dst_buffer : v3dv_buffer) (dstOffset size data : Z)
  (fuel : nat) (job_ok : nat -> bool) :
  let remaining := to_uint64 (buffer_size dst_buffer - dstOffset) in
  let forwarded := fill_size dst_buffer dstOffset size in
  let received := to_uint32 forwarded in
  let run := v3dv_CmdFillBuffer fuel job_ok dst_buffer dstOffset size data in
  let in_object :=
    to_uint32 (to_uint32 dstOffset + received)
    <= bo_size (buffer_bo dst_buffer) in
  let filled :=
    exists jobs,
      run = Done jobs
      /\ jobs <> []
      /\ 4 * fill_items_covered jobs = received
      /\ fill_offsets_advance (to_uint32 dstOffset) jobs
      /\ Forall (fill_job_ok data) jobs in
  (size = VK_WHOLE_SIZE ->
   forwarded = 4 * (remaining / 4)
   /\ remaining - 4 < forwarded <= remaining
   /\ received mod 4 = 0
   /\ (remaining < 2 ^ 32 -> received = forwarded)
   /\ (received = 0 -> run = Assert_failure)
   /\ (~ in_object -> run = Assert_failure)
   /\ (0 < received -> in_object ->
       (forall n, job_ok n = true) ->
       (received / 4 - 1) / (4096 * 4096) + 2 <= Z.of_nat fuel ->
       filled))
  /\ (size <> VK_WHOLE_SIZE ->
      forwarded = size
      /\ received mod 4 = size mod 4
      /\ (size mod 4 <> 0 -> run = Assert_failure)
      /\ (size mod 4 = 0 -> 0 < received -> in_object ->
          (forall n, job_ok n = true) ->
          (received / 4 - 1) / (4096 * 4096) + 2 <= Z.of_nat fuel ->
          filled)).
Proof.
  forget_helpers.
  intros remaining forwarded received run in_object filled.
  assert (Hrem : 0 <= remaining < 2 ^ 64)
    by (unfold remaining, to_uint64; apply Z.mod_pos_bound; lia).
  pose proof (to_uint32_range forwarded) as Hr. fold received in Hr.
  assert (Hrefuses : received = 0 \/ ~ in_object -> run = Assert_failure).
  { intros Hbad. apply fill_buffer_refuses. fold forwarded. fold received.
    destruct Hbad as [H0 | Hout]; [left; exact H0|right].
    unfold in_object in Hout. lia. }
  assert (Hfills : received mod 4 = 0 -> 0 < received -> in_object ->
                   (forall n, job_ok n = true) ->
                   (received / 4 - 1) / (4096 * 4096) + 2 <= Z.of_nat fuel ->
                   filled).
  { intros Haligned Hpos Hin Hjobs Hfuel.
    apply fill_buffer_fills; try assumption. fold forwarded. fold received. lia. }
  split.
  - intros Hwhole.
    assert (Hfwd : forwarded = 4 * (remaining / 4)).
    { unfold forwarded, fill_size. rewrite Hwhole, Z.eqb_refl. fold remaining.
      pose proof (Z.div_mod remaining 4 ltac:(lia)) as Hdm.
      pose proof (Z.mod_pos_bound remaining 4 ltac:(lia)) as Hm.
      unfold to_uint64. rewrite Z.mod_small; lia. }
    pose proof (Z.div_mod remaining 4 ltac:(lia)) as Hdm.
    pose proof (Z.mod_pos_bound remaining 4 ltac:(lia)) as Hm.
    assert (Haligned : received mod 4 = 0).
    { unfold received. rewrite to_uint32_mod_4, Hfwd, Z.mul_comm.
      apply Z.mod_mul. lia. }
    split; [exact Hfwd|]. split; [lia|]. split; [exact Haligned|].
    split; [intros Hsmall; apply to_uint32_small; lia|].
    split; [intros H0; apply Hrefuses; left; exact H0|].
    split; [intros Hout; apply Hrefuses; right; exact Hout|].
    exact (Hfills Haligned).
  - intros Hexplicit.
    assert (Hfwd : forwarded = size).
    { unfold forwarded, fill_size.
      replace (size =? VK_WHOLE_SIZE) with false
        by (symmetry; apply Z.eqb_neq; exact Hexplicit).
      reflexivity. }
    assert (Hmod : received mod 4 = size mod 4)
      by (unfold received; rewrite Hfwd; apply to_uint32_mod_4).
    split; [exact Hfwd|]. split; [exact Hmod|]. split.
    + intros Hodd. unfold run, v3dv_CmdFillBuffer, fill_buffer.
      fold forwarded. fold received.
      replace (received mod 4 =? 0) with false
        by (symmetry; apply Z.eqb_neq; rewrite Hmod; exact Hodd).
      rewrite andb_false_r. reflexivity.
    + intros Heven. apply Hfills. rewrite Hmod. exact Heven.
Qed.

(** ** Supertile iteration over any rectangle *)

(** One row from any starting column: nothing is appended when the column
    is already past [max_x]. *)
Lemma supertile_row_any (max_x y : Z) (fuel : nat) :
  0 <= max_x < INT_MAX ->
  forall x cl,
    0 <= x <= INT_MAX -> max_x + 1 - x <= Z.of_nat fuel ->
    supertile_row fuel x max_x y cl
    = Done (cl ++ map (fun x => SUPERTILE_COORDINATES x (to_uint32 y))
                      (Zseq x (Z.to_nat (max_x + 1 - x)))).
Proof.
  forget_helpers.
  intros Hmax. induction fuel as [|fuel IH]; intros x cl Hx Hfuel.
  - cbn [supertile_row]. rewrite int_is_uint32 by lia.
    replace (x <=? max_x) with false by (symmetry; apply Z.leb_gt; lia).
    replace (Z.to_nat (max_x + 1 - x)) with 0%nat by lia.
    cbn. now rewrite app_nil_r.
  - cbn [supertile_row]. rewrite int_is_uint32 by lia.
    destruct (x <=? max_x) eqn:Hguard.
    + apply Z.leb_le in Hguard.
      replace (x =? INT_MAX) with false by (symmetry; apply Z.eqb_neq; lia).
      rewrite IH by lia. unfold cl_emit. rewrite <- app_assoc. cbn [app].
      replace (Z.to_nat (max_x + 1 - x)) with (S (Z.to_nat (max_x + 1 - (x + 1))))
        by lia.
      reflexivity.
    + apply Z.leb_gt in Hguard.
      replace (Z.to_nat (max_x + 1 - x)) with 0%nat by lia.
      cbn. now rewrite app_nil_r.
Qed.

Lemma supertile_rows_any (min_x max_x max_y : Z) (fuel_x fuel : nat) :
  0 <= max_x < INT_MAX -> 0 <= max_y < INT_MAX -> 0 <= min_x <= INT_MAX ->
  max_x + 1 - min_x <= Z.of_nat fuel_x ->
  forall y cl,
    0 <= y <= INT_MAX -> max_y + 1 - y <= Z.of_nat fuel ->
    supertile_rows fuel fuel_x y min_x max_x max_y cl
    = Done (cl ++ flat_map
                    (fun y => map (fun x => SUPERTILE_COORDINATES x y)
                                  (Zseq min_x (Z.to_nat (max_x - min_x + 1))))
                    (Zseq y (Z.to_nat (max_y + 1 - y)))).
Proof.
  forget_helpers.
  intros Hmx Hmy Hmin Hfx. induction fuel as [|fuel IH]; intros y cl Hy Hfuel.
  - cbn [supertile_rows]. rewrite int_is_uint32 by lia.
    replace (y <=? max_y) with false by (symmetry; apply Z.leb_gt; lia).
    replace (Z.to_nat (max_y + 1 - y)) with 0%nat by lia.
    cbn. now rewrite app_nil_r.
  - cbn [supertile_rows]. rewrite int_is_uint32 by lia.
    destruct (y <=? max_y) eqn:Hguard.
    + apply Z.leb_le in Hguard.
      rewrite to_int_small by lia.
      rewrite supertile_row_any by lia. cbn [bind].
      replace (y =? INT_MAX) with false by (symmetry; apply Z.eqb_neq; lia).
      rewrite IH by lia. rewrite <- app_assoc.
      replace (Z.to_nat (max_y + 1 - y)) with (S (Z.to_nat (max_y + 1 - (y + 1))))
        by lia.
      cbn [Zseq flat_map]. rewrite int_is_uint32 by lia.
      replace (max_x + 1 - min_x) with (max_x - min_x + 1) by lia.
      reflexivity.
    + apply Z.leb_gt in Hguard.
      replace (Z.to_nat (max_y + 1 - y)) with 0%nat by lia.
      cbn. now rewrite app_nil_r.
Qed.

Lemma flat_map_nil_body {A B : Type} (l : list A) :
  flat_map (fun _ : A => @nil B) l = [].
Proof. induction l as [|a l IH]; [reflexivity|exact IH]. Qed.

Lemma supertile_rectangle_run
  (fuel : nat) (job : v3dv_job) (fb : framebuffer_data) :
  let min_x := min_x_supertile fb in
  let max_x := max_x_supertile fb in
  let min_y := min_y_supertile fb in
  let max_y := max_y_supertile fb in
  0 <= min_x <= INT_MAX -> 0 <= min_y <= INT_MAX ->
  0 <= max_x < INT_MAX -> 0 <= max_y < INT_MAX ->
  max_x + 1 - min_x <= Z.of_nat fuel -> max_y + 1 - min_y <= Z.of_nat fuel ->
  exists job',
    emit_supertile_coordinates fuel job fb = Done job'
    /\ frame_tiling job' = frame_tiling job
    /\ indirect job' = indirect job
    /\ rcl job' = rcl job ++ row_major_coordinates min_x max_x min_y max_y
    /\ (max_x < min_x \/ max_y < min_y -> rcl job' = rcl job)
    /\ (min_x <= max_x + 1 -> min_y <= max_y + 1 ->
        Z.of_nat (length (rcl job'))
        = Z.of_nat (length (rcl job))
          + (max_x - min_x + 1) * (max_y - min_y + 1)).
Proof.
  forget_helpers.
  intros min_x max_x min_y max_y Hminx Hminy Hmaxx Hmaxy Hfx Hfy.
  unfold emit_supertile_coordinates.
  fold min_x max_x min_y max_y.
  rewrite to_int_small by lia.
  rewrite (supertile_rows_any min_x max_x max_y fuel fuel) by lia.
  cbn [bind]. eexists. split; [reflexivity|].
  cbn [set_rcl frame_tiling indirect rcl].
  replace (max_y + 1 - min_y) with (max_y - min_y + 1) by lia.
  fold (row_major_coordinates min_x max_x min_y max_y).
  repeat split.
  - intros [Hx | Hy]; unfold row_major_coordinates.
    + replace (Z.to_nat (max_x - min_x + 1)) with 0%nat by lia.
      cbn [Zseq map]. rewrite flat_map_nil_body. apply app_nil_r.
    + replace (Z.to_nat (max_y - min_y + 1)) with 0%nat by lia.
      cbn. apply app_nil_r.
  - intros Hx Hy. rewrite length_app, Nat2Z.inj_add.
    rewrite row_major_coordinates_length by lia. reflexivity.
Qed.

(** X5: for any supertile rectangle whose corners are representable as
    [int], the emitter appends the rectangle in row-major order from
    (min_x, min_y) and leaves the rest of the job alone; a rectangle with
    min above max in either axis adds nothing. *)
Theorem emit_supertile_coordinates_any_rectangle
  (fuel : nat) (job : v3dv_job) (fb : framebuffer_data) :
  let min_x := min_x_supertile fb in
  let max_x := max_x_supertile fb in
  let min_y := min_y_supertile fb in
  let max_y := max_y_supertile fb in
  0 <= min_x <= INT_MAX -> 0 <= min_y <= INT_MAX ->
  0 <= max_x < INT_MAX -> 0 <= max_y < INT_MAX ->
  max_x + 1 - min_x <= Z.of_nat fuel -> max_y + 1 - min_y <= Z.of_nat fuel ->
  exists job',
    emit_supertile_coordinates fuel job fb = Done job'
    /\ frame_tiling job' = frame_tiling job
    /\ indirect job' = indirect job
    /\ rcl job' = rcl job ++ row_major_coordinates min_x max_x min_y max_y
    /\ (max_x < min_x \/ max_y < min_y -> rcl job' = rcl job)
    /\ (min_x <= max_x + 1 -> min_y <= max_y + 1 ->
        Z.of_nat (length (rcl job'))
        = Z.of_nat (length (rcl job))
          + (max_x - min_x + 1) * (max_y - min_y + 1)).
Proof. exact (supertile_rectangle_run fuel job fb). Qed.

(** The column counter is an [int]: once the last column is [INT_MAX] or
    more, the increment after it overflows. *)
Lemma supertile_row_overflow (max_x y : Z) (fuel : nat) :
  INT_MAX <= max_x ->
  forall x cl,
    0 <= x <= INT_MAX -> INT_MAX + 1 - x <= Z.of_nat fuel ->
    supertile_row fuel x max_x y cl = Undefined_behaviour.
Proof.
  forget_helpers.
  intros Hmax. induction fuel as [|fuel IH]; intros x cl Hx Hfuel.
  - change (Z.of_nat 0) with 0 in Hfuel. lia.
  - cbn [supertile_row]. rewrite int_is_uint32 by lia.
    replace (x <=? max_x) with true by (symmetry; apply Z.leb_le; lia).
    destruct (x =? INT_MAX) eqn:Hlast; [reflexivity|].
    apply Z.eqb_neq in Hlast. apply IH; lia.
Qed.

(** X6: a rectangle whose last column is [INT_MAX] or beyond cannot be
    emitted: with at least one row, and however large the loop budget, the
    [int] column counter is incremented past [INT_MAX]. *)
Theorem emit_supertile_coordinates_column_overflow
  (fuel : nat) (job : v3dv_job) (fb : framebuffer_data) :
  INT_MAX <= max_x_supertile fb ->
  0 <= min_x_supertile fb <= INT_MAX ->
  0 <= min_y_supertile fb <= INT_MAX ->
  min_y_supertile fb <= max_y_supertile fb ->
  INT_MAX + 1 <= Z.of_nat fuel ->
  emit_supertile_coordinates fuel job fb = Undefined_behaviour.
Proof.
  forget_helpers.
  intros Hmax Hminx Hminy Hrow Hfuel.
  unfold emit_supertile_coordinates.
  rewrite (to_int_small (min_y_supertile fb)) by lia.
  destruct fuel as [|fuel'];
    [change (Z.of_nat 0) with 0 in Hfuel; unfold INT_MAX in Hfuel; lia|].
  cbn [supertile_rows]. rewrite int_is_uint32 by lia.
  replace (min_y_supertile fb <=? max_y_supertile fb) with true
    by (symmetry; apply Z.leb_le; lia).
  rewrite to_int_small by lia.
  rewrite supertile_row_overflow by lia. reflexivity.
Qed.

(** X7: the supertile coverage computed for a frame covers it and wastes
    nothing: in each axis the last supertile starts inside the frame and
    the supertiles up to it reach the frame's edge. *)
Theorem setup_framebuffer_data_covers_frame
  (vkf : VkFormat) (it : internal_type) (t : v3dv_frame_tiling) :
  0 < width t < 2 ^ 32 -> 0 < height t < 2 ^ 32 ->
  0 < supertile_w_in_pixels t -> 0 < supertile_h_in_pixels t ->
  exists fb,
    setup_framebuffer_data vkf it t = Done fb
    /\ max_x_supertile fb * supertile_w_in_pixels t < width t
       <= (max_x_supertile fb + 1) * supertile_w_in_pixels t
    /\ max_y_supertile fb * supertile_h_in_pixels t < height t
       <= (max_y_supertile fb + 1) * supertile_h_in_pixels t
    /\ 0 <= max_x_supertile fb < width t
    /\ 0 <= max_y_supertile fb < height t.
Proof.
  intros Hw Hh Hsw Hsh. unfold setup_framebuffer_data.
  replace (supertile_w_in_pixels t =? 0) with false
    by (symmetry; apply Z.eqb_neq; lia).
  replace (supertile_h_in_pixels t =? 0) with false
    by (symmetry; apply Z.eqb_neq; lia).
  cbn [orb]. eexists. split; [reflexivity|].
  cbn [max_x_supertile max_y_supertile].
  rewrite !to_uint32_small by lia.
  forget_helpers.
  pose proof (Z.div_mod (width t - 1) (supertile_w_in_pixels t) ltac:(lia)) as Hx.
  pose proof (Z.mod_pos_bound (width t - 1) (supertile_w_in_pixels t) Hsw) as Hxr.
  pose proof (Z.div_mod (height t - 1) (supertile_h_in_pixels t) ltac:(lia)) as Hy.
  pose proof (Z.mod_pos_bound (height t - 1) (supertile_h_in_pixels t) Hsh) as Hyr.
  assert (0 <= (width t - 1) / supertile_w_in_pixels t) by (apply Z.div_pos; lia).
  assert (0 <= (height t - 1) / supertile_h_in_pixels t) by (apply Z.div_pos; lia).
  repeat split; nia.
Qed.

(** ** The clear colour across the three records *)

(** Or-ing a value below [2 ^ k] with a multiple of [2 ^ k] adds them. *)
Lemma lor_disjoint (lo hi k : Z) :
  0 <= k -> 0 <= lo < 2 ^ k -> Z.lor lo (hi * 2 ^ k) = lo + hi * 2 ^ k.
Proof.
  forget_helpers. intros Hk Hlo.
  rewrite <- Z.add_lor_land.
  assert (Hland : Z.land lo (hi * 2 ^ k) = 0).
  { apply Z.bits_inj'. intros n Hn.
    rewrite Z.land_spec, Z.bits_0.
    destruct (Z.lt_ge_cases n k) as [Hlt | Hge].
    - rewrite Z.mul_pow2_bits_low by lia. apply andb_false_r.
    - rewrite <- (Z.mod_small lo (2 ^ k)) by lia.
      rewrite Z.mod_pow2_bits_high by lia. reflexivity. }
  rewrite Hland. lia.
Qed.

Lemma shifted_word_wraps (c : Z) :
  0 <= c < 2 ^ 32 -> to_uint32 (Z.shiftl c 8) = c mod 2 ^ 24 * 2 ^ 8.
Proof.
  forget_helpers. intros Hc. unfold to_uint32.
  rewrite Z.shiftl_mul_pow2 by lia.
  change (2 ^ 32) with (2 ^ 24 * 2 ^ 8).
  rewrite Z.mul_mod_distr_r by lia. reflexivity.
Qed.

(** X8: at 128 bits per pixel the three clear-colour records hold the
    four 32-bit colour words without loss: their five colour fields, of
    32, 24, 32, 24 and 16 bits, concatenated from the low end, are the
    four words concatenated. *)
Theorem prologue_clear_color_fields_hold_all_words
  (job : v3dv_job) (it : internal_type) (info : rcl_clear_info) (pad : Z) :
  let c := clear_value info in
  let tiling := frame_tiling job in
  0 <= color0 c < 2 ^ 32 -> 0 <= color1 c < 2 ^ 32 ->
  0 <= color2 c < 2 ^ 32 -> 0 <= color3 c < 2 ^ 32 ->
  has_aspect (clear_aspects info) VK_IMAGE_ASPECT_COLOR_BIT = true ->
  V3D_INTERNAL_BPP_128 <= internal_bpp tiling ->
  compute_clear_pad tiling info = Done pad ->
  exists low next mid_low mid_high high,
    emit_rcl_prologue job it (Some info)
    = Done (set_rcl job
        (rcl job
         ++ [TILE_RENDERING_MODE_CFG_COMMON true (width tiling) (height tiling)
               1 false (internal_bpp tiling);
             TILE_RENDERING_MODE_CFG_CLEAR_COLORS_PART1 low next 0;
             TILE_RENDERING_MODE_CFG_CLEAR_COLORS_PART2 mid_low mid_high 0;
             TILE_RENDERING_MODE_CFG_CLEAR_COLORS_PART3 pad high 0;
             TILE_RENDERING_MODE_CFG_COLOR (internal_bpp tiling) it
               V3D_RENDER_TARGET_CLAMP_NONE;
             TILE_RENDERING_MODE_CFG_ZS_CLEAR_VALUES
               (clear_value_z c) (clear_value_s c);
             TILE_LIST_INITIAL_BLOCK_SIZE true TILE_ALLOCATION_BLOCK_SIZE_64B]))
    /\ 0 <= low < 2 ^ 32 /\ 0 <= next < 2 ^ 24 /\ 0 <= mid_low < 2 ^ 32
    /\ 0 <= mid_high < 2 ^ 24 /\ 0 <= high < 2 ^ 16
    /\ low + 2 ^ 32 * next + 2 ^ 56 * mid_low + 2 ^ 88 * mid_high
       + 2 ^ 112 * high
       = color0 c + 2 ^ 32 * color1 c + 2 ^ 64 * color2 c + 2 ^ 96 * color3 c.
Proof.
  intros c tiling H0 H1 H2 H3 Hcolor Hbpp Hpad.
  unfold emit_rcl_prologue. fold tiling. rewrite Hcolor.
  unfold emit_clear_colors. rewrite Hpad. cbn [bind].
  assert (Hb64 : (V3D_INTERNAL_BPP_64 <=? internal_bpp tiling) = true).
  { apply Z.leb_le. unfold V3D_INTERNAL_BPP_64, V3D_INTERNAL_BPP_128 in *. lia. }
  assert (Hb128 : (V3D_INTERNAL_BPP_128 <=? internal_bpp tiling) = true)
    by (apply Z.leb_le; exact Hbpp).
  rewrite Hb64, Hb128. cbn [orb]. fold c.
  do 5 eexists. split.
  { unfold cl_emit. rewrite <- !app_assoc. cbn [app]. reflexivity. }
  forget_helpers. clear Hpad Hcolor Hb64 Hb128 Hbpp.
  change 16777215 with (Z.ones 24). change 65535 with (Z.ones 16).
  rewrite !Z.land_ones by lia.
  rewrite !Z.shiftr_div_pow2 by lia.
  rewrite shifted_word_wraps by exact H2.
  assert (Hhi : to_uint32 (Z.shiftl (color3 c mod 2 ^ 16) 8)
                = color3 c mod 2 ^ 16 * 2 ^ 8).
  { rewrite Z.shiftl_mul_pow2 by lia.
    pose proof (Z.mod_pos_bound (color3 c) (2 ^ 16) ltac:(lia)).
    apply to_uint32_small. lia. }
  rewrite Hhi.
  pose proof (Z.mod_pos_bound (color1 c) (2 ^ 24) ltac:(lia)) as B1.
  pose proof (Z.mod_pos_bound (color2 c) (2 ^ 24) ltac:(lia)) as B2.
  pose proof (Z.mod_pos_bound (color3 c) (2 ^ 16) ltac:(lia)) as B3.
  pose proof (Z.div_mod (color1 c) (2 ^ 24) ltac:(lia)) as D1.
  pose proof (Z.div_mod (color2 c) (2 ^ 24) ltac:(lia)) as D2.
  pose proof (Z.div_mod (color3 c) (2 ^ 16) ltac:(lia)) as D3.
  assert (Q1 : 0 <= color1 c / 2 ^ 24 < 2 ^ 8).
  { split; [apply Z.div_pos; lia|apply Z.div_lt_upper_bound; lia]. }
  assert (Q2 : 0 <= color2 c / 2 ^ 24 < 2 ^ 8).
  { split; [apply Z.div_pos; lia|apply Z.div_lt_upper_bound; lia]. }
  assert (Q3 : 0 <= color3 c / 2 ^ 16 < 2 ^ 16).
  { split; [apply Z.div_pos; lia|apply Z.div_lt_upper_bound; lia]. }
  rewrite !lor_disjoint by lia.
  repeat split; lia.
Qed.

(** ** Internal type and TLB compatibility of a format *)

Lemma has_aspect_depth_or_stencil (mask : Z) :
  has_aspect mask (Z.lor VK_IMAGE_ASPECT_DEPTH_BIT VK_IMAGE_ASPECT_STENCIL_BIT)
  = has_aspect mask VK_IMAGE_ASPECT_DEPTH_BIT
    || has_aspect mask VK_IMAGE_ASPECT_STENCIL_BIT.
Proof.
  forget_helpers. unfold has_aspect. rewrite Z.land_lor_distr_r.
  destruct (Z.eqb_spec (Z.land mask VK_IMAGE_ASPECT_DEPTH_BIT) 0) as [Hd | Hd];
    destruct (Z.eqb_spec (Z.land mask VK_IMAGE_ASPECT_STENCIL_BIT) 0) as [Hs | Hs];
    cbn [negb orb];
    match goal with
    | |- negb (?x =? 0) = _ => destruct (Z.eqb_spec x 0) as [H0 | H0]
    end; try reflexivity; exfalso.
  - apply H0. apply Z.lor_eq_0_iff. split; assumption.
  - apply Z.lor_eq_0_iff in H0. destruct H0. contradiction.
  - apply Z.lor_eq_0_iff in H0. destruct H0. contradiction.
  - apply Z.lor_eq_0_iff in H0. destruct H0. contradiction.
Qed.

(** X9: for a depth or stencil aspect the internal type and size are
    fixed by the format alone, without the format table: 16-bit depth is
    16UI at 64 bpp, 32-bit float depth is 32F at 128 bpp, the two 24-bit
    depth formats are 8UI at 32 bpp; every other format, the stencil-only
    and the other combined formats and all colour formats among them,
    trips the assertion. *)
Theorem internal_type_bpp_of_depth_stencil_aspects
  (for_output_format : output_image_format -> internal_type * Z)
  (vkf : VkFormat) (mask : VkImageAspectFlags) :
  has_aspect mask VK_IMAGE_ASPECT_DEPTH_BIT = true
  \/ has_aspect mask VK_IMAGE_ASPECT_STENCIL_BIT = true ->
  let r := get_internal_type_bpp_for_image_aspects for_output_format vkf mask in
  (vkf = VK_FORMAT_D16_UNORM ->
   r = Done (V3D_INTERNAL_TYPE_16UI, V3D_INTERNAL_BPP_64))
  /\ (vkf = VK_FORMAT_D32_SFLOAT ->
      r = Done (V3D_INTERNAL_TYPE_32F, V3D_INTERNAL_BPP_128))
  /\ (vkf = VK_FORMAT_X8_D24_UNORM_PACK32 \/ vkf = VK_FORMAT_D24_UNORM_S8_UINT ->
      r = Done (V3D_INTERNAL_TYPE_8UI, V3D_INTERNAL_BPP_32))
  /\ (vkf <> VK_FORMAT_D16_UNORM -> vkf <> VK_FORMAT_D32_SFLOAT ->
      vkf <> VK_FORMAT_X8_D24_UNORM_PACK32 ->
      vkf <> VK_FORMAT_D24_UNORM_S8_UINT ->
      r = Assert_failure)
  /\ (vk_format_is_depth_or_stencil vkf = false -> r = Assert_failure).
Proof.
  intros Hds r.
  assert (Hmask : has_aspect mask
                    (Z.lor VK_IMAGE_ASPECT_DEPTH_BIT VK_IMAGE_ASPECT_STENCIL_BIT)
                  = true).
  { rewrite has_aspect_depth_or_stencil. destruct Hds as [-> | ->];
      [reflexivity|apply orb_true_r]. }
  subst r. unfold get_internal_type_bpp_for_image_aspects. rewrite Hmask.
  forget_helpers. clear Hds Hmask.
  assert (Hother : vkf <> VK_FORMAT_D16_UNORM -> vkf <> VK_FORMAT_D32_SFLOAT ->
                   vkf <> VK_FORMAT_X8_D24_UNORM_PACK32 ->
                   vkf <> VK_FORMAT_D24_UNORM_S8_UINT ->
                   (if vkf =? VK_FORMAT_D16_UNORM
                    then Done (V3D_INTERNAL_TYPE_16UI, V3D_INTERNAL_BPP_64)
                    else if vkf =? VK_FORMAT_D32_SFLOAT
                    then Done (V3D_INTERNAL_TYPE_32F, V3D_INTERNAL_BPP_128)
                    else if (vkf =? VK_FORMAT_X8_D24_UNORM_PACK32)
                            || (vkf =? VK_FORMAT_D24_UNORM_S8_UINT)
                    then Done (V3D_INTERNAL_TYPE_8UI, V3D_INTERNAL_BPP_32)
                    else Assert_failure) = Assert_failure).
  { intros H1 H2 H3 H4.
    apply Z.eqb_neq in H1, H2, H3, H4. rewrite H1, H2, H3, H4. reflexivity. }
  split; [intros ->; reflexivity|].
  split; [intros ->; reflexivity|].
  split; [intros [-> | ->]; reflexivity|].
  split; [exact Hother|].
  intros Hcolor. unfold vk_format_is_depth_or_stencil in Hcolor.
  repeat (apply orb_false_elim in Hcolor; destruct Hcolor as [Hcolor ?]).
  apply Hother; apply Z.eqb_neq; assumption.
Qed.

(** Decides the next test of a format against a constant. *)
Ltac format_case f c :=
  destruct (Z.eqb_spec f c) as [-> | ?];
  [vm_compute; repeat split; intros; congruence|].

Lemma compatible_format_facts (f : VkFormat) :
  get_compatible_tlb_format (get_compatible_tlb_format f) = VK_FORMAT_UNDEFINED
  /\ (f <> VK_FORMAT_UNDEFINED -> get_compatible_tlb_format f <> f)
  /\ vk_format_is_depth_or_stencil (get_compatible_tlb_format f) = false.
Proof.
  forget_helpers.
  format_case f VK_FORMAT_R8G8B8A8_SNORM.
  format_case f VK_FORMAT_R8G8_SNORM.
  format_case f VK_FORMAT_R8_SNORM.
  format_case f VK_FORMAT_A8B8G8R8_SNORM_PACK32.
  format_case f VK_FORMAT_R16_UNORM.
  format_case f VK_FORMAT_R16_SNORM.
  format_case f VK_FORMAT_R16G16_UNORM.
  format_case f VK_FORMAT_R16G16_SNORM.
  format_case f VK_FORMAT_R16G16B16A16_UNORM.
  format_case f VK_FORMAT_R16G16B16A16_SNORM.
  format_case f VK_FORMAT_E5B9G9R9_UFLOAT_PACK32.
  assert (Hf : get_compatible_tlb_format f = VK_FORMAT_UNDEFINED).
  { unfold get_compatible_tlb_format.
    repeat match goal with
           | H : f <> ?c |- _ => apply Z.eqb_neq in H; rewrite H; clear H
           end.
    reflexivity. }
  rewrite Hf. repeat split. congruence.
Qed.

(** X10: the compatible TLB format of a format has no compatible format
    of its own, differs from the format, and is never a depth or stencil
    format: one step of the table always ends. *)
Theorem get_compatible_tlb_format_one_step (f : VkFormat) :
  get_compatible_tlb_format (get_compatible_tlb_format f) = VK_FORMAT_UNDEFINED
  /\ (f <> VK_FORMAT_UNDEFINED -> get_compatible_tlb_format f <> f)
  /\ vk_format_is_depth_or_stencil (get_compatible_tlb_format f) = false.
Proof. exact (compatible_format_facts f). Qed.

(** X11: [can_use_tlb] refuses every region that does not start at x = 0,
    y = 0 and then writes nothing; it accepts a TLB-supported image with
    its own format and an unsupported one only through a pointer and a
    compatible format, which is then defined and differs from the image
    format; without a pointer only TLB-supported images are accepted. *)
Theorem can_use_tlb_cases (image : v3dv_image) (image_format : v3dv_format)
  (offset : VkOffset3D) (compat_format : bool) :
  let r := can_use_tlb image image_format offset compat_format in
  (offset_x offset <> 0 \/ offset_y offset <> 0 -> r = (false, None))
  /\ (fst r = true ->
      offset_x offset = 0 /\ offset_y offset = 0
      /\ (is_tlb_supported image_format = true
          \/ (compat_format = true
              /\ get_compatible_tlb_format (image_vk_format image)
                 <> VK_FORMAT_UNDEFINED)))
  /\ (forall f, r = (true, Some f) ->
      (is_tlb_supported image_format = true /\ f = image_vk_format image)
      \/ (is_tlb_supported image_format = false
          /\ f = get_compatible_tlb_format (image_vk_format image)
          /\ f <> VK_FORMAT_UNDEFINED /\ f <> image_vk_format image
          /\ get_compatible_tlb_format f = VK_FORMAT_UNDEFINED))
  /\ (compat_format = false ->
      snd r = None
      /\ (fst r = true <->
          offset_x offset = 0 /\ offset_y offset = 0
          /\ is_tlb_supported image_format = true))
  /\ (compat_format = true -> fst r = false ->
      offset_x offset = 0 -> offset_y offset = 0 ->
      snd r = Some VK_FORMAT_UNDEFINED).
Proof.
  forget_helpers. intros r. subst r. unfold can_use_tlb.
  destruct (compatible_format_facts (image_vk_format image))
    as (Hstep & Hdiff & _).
  destruct (Z.eqb_spec (offset_x offset) 0) as [Hx | Hx];
    destruct (Z.eqb_spec (offset_y offset) 0) as [Hy | Hy]; cbn [negb orb].
  2-4: repeat split; try discriminate; try (intros; lia);
       try (intros [? [? ?]]; contradiction).
  destruct (is_tlb_supported image_format) eqn:Hsup.
  - destruct compat_format; cbn [fst snd]; repeat split;
      try discriminate; try (intros [? | ?]; contradiction); try assumption;
      try (left; reflexivity).
    intros f [= <-]. left. split; reflexivity.
  - destruct compat_format; cbn [fst snd].
    + destruct (Z.eqb_spec (get_compatible_tlb_format (image_vk_format image))
                  VK_FORMAT_UNDEFINED) as [Hu | Hu]; cbn [negb fst snd].
      * repeat split; try discriminate; try (intros [? | ?]; contradiction);
          try assumption.
        intros _ _ _. rewrite Hu. reflexivity.
      * repeat split; try discriminate; try (intros [? | ?]; contradiction);
          try assumption.
        -- right. split; [reflexivity|exact Hu].
        -- intros f [= <-]. right. repeat split; try assumption.
           apply Hdiff. intros Heq. apply Hu. rewrite Heq. reflexivity.
    + repeat split; try discriminate; try (intros [? | ?]; contradiction);
        try assumption.
      intros (_ & _ & Hfalse). discriminate.
Qed.

(** ** The shape of the tile lists *)

Lemma tile_list_with_one_load_one_store (l s : cl_packet) :
  is_load l = true -> is_store s = true ->
  tile_list_well_formed
    [TILE_COORDINATES_IMPLICIT; l; END_OF_LOADS; BRANCH_TO_IMPLICIT_TILE_LIST; s;
     END_OF_TILE_MARKER; RETURN_FROM_SUB_LIST].
Proof.
  forget_helpers. intros Hl Hs. exists [l], [s]. cbn. rewrite Hl, Hs.
  repeat split. discriminate.
Qed.

Lemma tile_list_with_one_store (s : cl_packet) :
  is_store s = true ->
  tile_list_well_formed
    [TILE_COORDINATES_IMPLICIT; END_OF_LOADS; BRANCH_TO_IMPLICIT_TILE_LIST; s;
     END_OF_TILE_MARKER; RETURN_FROM_SUB_LIST].
Proof.
  forget_helpers. intros Hs. exists [], [s]. cbn. rewrite Hs.
  repeat split. discriminate.
Qed.

(** Unfolds the binds of a run that is known to return. *)
Ltac run_binds H :=
  repeat match type of H with
         | bind ?m _ = Done _ => destruct m; cbn [bind] in H; try discriminate
         end.

Lemma copy_layer_to_buffer_branch (job job' : v3dv_job) (fb : framebuffer_data)
  (buffer : v3dv_buffer) (image : v3dv_image) (layer : Z)
  (region : VkBufferImageCopy) :
  emit_copy_layer_to_buffer_per_tile_list job fb buffer image layer region
  = Done job' ->
  frame_tiling job' = frame_tiling job
  /\ rcl job' = rcl job ++ [START_ADDRESS_OF_GENERIC_TILE_LIST
                              (length (indirect job)) (length (indirect job'))].
Proof.
  intros Hrun. unfold emit_copy_layer_to_buffer_per_tile_list in Hrun.
  run_binds Hrun. injection Hrun as <-. split; reflexivity.
Qed.

Lemma copy_buffer_to_layer_branch (job job' : v3dv_job) (fb : framebuffer_data)
  (image : v3dv_image) (buffer : v3dv_buffer) (layer : Z)
  (region : VkBufferImageCopy) :
  emit_copy_buffer_to_layer_per_tile_list job fb image buffer layer region
  = Done job' ->
  frame_tiling job' = frame_tiling job
  /\ rcl job' = rcl job ++ [START_ADDRESS_OF_GENERIC_TILE_LIST
                              (length (indirect job)) (length (indirect job'))].
Proof.
  intros Hrun. unfold emit_copy_buffer_to_layer_per_tile_list in Hrun.
  run_binds Hrun. injection Hrun as <-. split; reflexivity.
Qed.

(** X12: the tile lists of the copies between an image and a buffer are
    well formed, in both directions and also with the extra load and
    store of a combined depth/stencil image: loads before the end of
    loads, stores after the branch, and a branch record in the render
    list that bounds exactly the packets just written. *)
Theorem image_buffer_copy_tile_lists_well_formed
  (job : v3dv_job) (fb : framebuffer_data) (image : v3dv_image)
  (buffer : v3dv_buffer) (layer : Z) (region : VkBufferImageCopy)
  (slice : v3d_resource_slice) :
  let imgrsc := imageSubresource region in
  layer_in_range image imgrsc layer = true ->
  slice_at image (mipLevel imgrsc) = Done slice ->
  vk_format fb <> VK_FORMAT_D24_UNORM_S8_UINT
  \/ has_aspect (aspectMask imgrsc) VK_IMAGE_ASPECT_DEPTH_BIT = true
  \/ has_aspect (aspectMask imgrsc) VK_IMAGE_ASPECT_STENCIL_BIT = true ->
  (exists job' body,
     emit_copy_layer_to_buffer_per_tile_list job fb buffer image layer region
     = Done job'
     /\ tile_list_appended job job' body /\ length body = 7%nat)
  /\ (exists job' body,
        emit_copy_buffer_to_layer_per_tile_list job fb image buffer layer region
        = Done job'
        /\ tile_list_appended job job' body
        /\ length body = (if vk_format fb =? VK_FORMAT_D24_UNORM_S8_UINT
                          then 9%nat else 7%nat)).
Proof.
  intros imgrsc Hlayer Hslice Haspect. split.
  - destruct (choose_tlb_format_returns fb (aspectMask imgrsc) false true false
                Haspect) as [fl Hfl].
    destruct (choose_tlb_format_returns fb (aspectMask imgrsc) true true false
                Haspect) as [fs Hfs].
    destruct (copy_layer_to_buffer_body job fb buffer image layer region slice
                fl fs Hlayer Hslice Hfl Hfs)
      as (job' & l & s & Hrun & Hind & _).
    destruct (copy_layer_to_buffer_branch _ _ _ _ _ _ _ Hrun) as [Hft Hrcl].
    exists job', [TILE_COORDINATES_IMPLICIT; LOAD_TILE_BUFFER_GENERAL l;
                  END_OF_LOADS; BRANCH_TO_IMPLICIT_TILE_LIST;
                  STORE_TILE_BUFFER_GENERAL s; END_OF_TILE_MARKER;
                  RETURN_FROM_SUB_LIST].
    split; [exact Hrun|]. split; [|reflexivity].
    unfold tile_list_appended. repeat split; try assumption.
    apply tile_list_with_one_load_one_store; reflexivity.
  - destruct (Z.eq_dec (vk_format fb) VK_FORMAT_D24_UNORM_S8_UINT) as [Hd | Hd].
    + assert (Hasp : has_aspect (aspectMask imgrsc) VK_IMAGE_ASPECT_DEPTH_BIT = true
                     \/ has_aspect (aspectMask imgrsc) VK_IMAGE_ASPECT_STENCIL_BIT
                        = true)
        by (destruct Haspect as [H | H]; [contradiction|exact H]).
      destruct (copy_buffer_to_layer_body_d24s8 job fb image buffer layer region
                  slice Hd Hasp Hlayer Hslice)
        as (job' & fmt & lin & lo & su & so & Hrun & Hind & _).
      destruct (copy_buffer_to_layer_branch _ _ _ _ _ _ _ Hrun) as [Hft Hrcl].
      exists job', [TILE_COORDINATES_IMPLICIT; LOAD_TILE_BUFFER_GENERAL lin;
                    LOAD_TILE_BUFFER_GENERAL lo; END_OF_LOADS;
                    BRANCH_TO_IMPLICIT_TILE_LIST; STORE_TILE_BUFFER_GENERAL su;
                    STORE_TILE_BUFFER_GENERAL so; END_OF_TILE_MARKER;
                    RETURN_FROM_SUB_LIST].
      split; [exact Hrun|].
      rewrite Hd, Z.eqb_refl. split; [|reflexivity].
      unfold tile_list_appended. repeat split; try assumption.
      exists [LOAD_TILE_BUFFER_GENERAL lin; LOAD_TILE_BUFFER_GENERAL lo],
             [STORE_TILE_BUFFER_GENERAL su; STORE_TILE_BUFFER_GENERAL so].
      repeat split. discriminate.
    + destruct (copy_buffer_to_layer_body_plain job fb image buffer layer region
                  slice Hd Hlayer Hslice)
        as (job' & fmt & lin & su & Hrun & Hind & _).
      destruct (copy_buffer_to_layer_branch _ _ _ _ _ _ _ Hrun) as [Hft Hrcl].
      exists job', [TILE_COORDINATES_IMPLICIT; LOAD_TILE_BUFFER_GENERAL lin;
                    END_OF_LOADS; BRANCH_TO_IMPLICIT_TILE_LIST;
                    STORE_TILE_BUFFER_GENERAL su; END_OF_TILE_MARKER;
                    RETURN_FROM_SUB_LIST].
      split; [exact Hrun|].
      replace (vk_format fb =? VK_FORMAT_D24_UNORM_S8_UINT) with false
        by (symmetry; apply Z.eqb_neq; exact Hd).
      split; [|reflexivity].
      unfold tile_list_appended. repeat split; try assumption.
      apply tile_list_with_one_load_one_store; reflexivity.
Qed.

(** X13: the tile list of an image-to-image copy of one layer loads the
    source layer and stores the destination layer through the same tile
    buffer format, the render target type of the framebuffer format;
    neither side reverses channels, and when the two aspect masks agree
    both sides use the same tile buffer and the same red-blue swap, so
    the copy keeps the channel order. *)
Theorem image_copy_tile_list_is_symmetric
  (job : v3dv_job) (fb : framebuffer_data) (dst src : v3dv_image)
  (layer : Z) (region : VkImageCopy) (sslice dslice : v3d_resource_slice) :
  let srcrsc := copy_srcSubresource region in
  let dstrsc := copy_dstSubresource region in
  layer_in_range src srcrsc layer = true ->
  layer_in_range dst dstrsc layer = true ->
  slice_at src (mipLevel srcrsc) = Done sslice ->
  slice_at dst (mipLevel dstrsc) = Done dslice ->
  exists job' l s,
    emit_copy_image_layer_per_tile_list job fb dst src layer region = Done job'
    /\ tile_list_appended job job'
         [TILE_COORDINATES_IMPLICIT; LOAD_TILE_BUFFER_GENERAL l; END_OF_LOADS;
          BRANCH_TO_IMPLICIT_TILE_LIST; STORE_TILE_BUFFER_GENERAL s;
          END_OF_TILE_MARKER; RETURN_FROM_SUB_LIST]
    /\ input_image_format l = rt_type (format fb)
    /\ output_image_format_ s = rt_type (format fb)
    /\ load_address l
       = {| addr_bo := image_bo src;
            addr_offset := v3dv_layer_offset src (mipLevel srcrsc)
                             (to_uint32 (baseArrayLayer srcrsc + layer)) |}
    /\ store_address s
       = {| addr_bo := image_bo dst;
            addr_offset := v3dv_layer_offset dst (mipLevel dstrsc)
                             (to_uint32 (baseArrayLayer dstrsc + layer)) |}
    /\ load_memory_format l = slice_tiling sslice
    /\ store_memory_format s = slice_tiling dslice
    /\ load_channel_reverse l = false /\ store_channel_reverse s = false
    /\ (aspectMask srcrsc = aspectMask dstrsc ->
        buffer_to_load l = buffer_to_store s
        /\ load_r_b_swap l = store_r_b_swap s).
Proof.
  intros srcrsc dstrsc Hsl Hdl Hss Hds.
  unfold emit_copy_image_layer_per_tile_list. fold srcrsc dstrsc.
  rewrite Hsl. cbn [c_assert bind].
  rewrite (emit_image_load_done _ fb src _ _ _ false false sslice
             (rt_type (format fb)) Hss (choose_tlb_format_no_buffer _ _ _)).
  cbn [bind]. rewrite Hdl. cbn [c_assert bind].
  rewrite (emit_image_store_done _ fb dst _ _ _ false false dslice
             (rt_type (format fb)) Hds (choose_tlb_format_no_buffer _ _ _)).
  cbn [bind]. do 3 eexists. split; [reflexivity|].
  split.
  { unfold tile_list_appended. cbn [frame_tiling indirect rcl].
    unfold cl_emit, v3dv_cl_get_address. rewrite <- !app_assoc. cbn [app].
    repeat split.
    apply tile_list_with_one_load_one_store; reflexivity. }
  cbn [input_image_format output_image_format_ load_address store_address
       load_memory_format store_memory_format load_channel_reverse
       store_channel_reverse buffer_to_load buffer_to_store load_r_b_swap
       store_r_b_swap andb orb negb].
  repeat split. all: rewrite H; reflexivity.
Qed.


(** X15: a buffer copy job loads from the source object at the source
    offset and stores to the destination object at the destination
    offset as raster data of one format and one stride, four bytes per
    pixel of the frame width, with no channel fix-up; the render list
    gets the branch record of the tile list and then the supertile
    coordinates of the frame in row-major order. *)
Theorem emit_copy_buffer_is_raw_copy
  (fuel : nat) (job : v3dv_job) (dst src : v3dv_bo) (dst_offset src_offset : Z)
  (fb : framebuffer_data) (format : output_image_format) :
  let min_x := min_x_supertile fb in
  let max_x := max_x_supertile fb in
  let min_y := min_y_supertile fb in
  let max_y := max_y_supertile fb in
  let stride := to_uint32 (width (frame_tiling job) * 4) in
  0 <= min_x <= INT_MAX -> 0 <= min_y <= INT_MAX ->
  0 <= max_x < INT_MAX -> 0 <= max_y < INT_MAX ->
  max_x + 1 - min_x <= Z.of_nat fuel -> max_y + 1 - min_y <= Z.of_nat fuel ->
  exists job' l s,
    emit_copy_buffer fuel job dst src dst_offset src_offset fb format = Done job'
    /\ frame_tiling job' = frame_tiling job
    /\ indirect job'
       = indirect job
         ++ [TILE_COORDINATES_IMPLICIT; LOAD_TILE_BUFFER_GENERAL l; END_OF_LOADS;
             BRANCH_TO_IMPLICIT_TILE_LIST; STORE_TILE_BUFFER_GENERAL s;
             END_OF_TILE_MARKER; RETURN_FROM_SUB_LIST]
    /\ rcl job'
       = rcl job
         ++ START_ADDRESS_OF_GENERIC_TILE_LIST
              (length (indirect job)) (length (indirect job'))
            :: row_major_coordinates min_x max_x min_y max_y
    /\ load_address l = {| addr_bo := src; addr_offset := src_offset |}
    /\ store_address s = {| addr_bo := dst; addr_offset := dst_offset |}
    /\ input_image_format l = format /\ output_image_format_ s = format
    /\ load_height_in_ub_or_stride l = stride
    /\ store_height_in_ub_or_stride s = stride
    /\ load_memory_format l = VC5_TILING_RASTER
    /\ store_memory_format s = VC5_TILING_RASTER
    /\ fixup_flags (LOAD_TILE_BUFFER_GENERAL l) = (false, false)
    /\ fixup_flags (STORE_TILE_BUFFER_GENERAL s) = (false, false).
Proof.
  intros min_x max_x min_y max_y stride Hminx Hminy Hmaxx Hmaxy Hfx Hfy.
  unfold emit_copy_buffer. fold stride.
  destruct (supertile_rectangle_run fuel
              (emit_copy_buffer_per_tile_list job dst src dst_offset src_offset
                 stride format) fb Hminx Hminy Hmaxx Hmaxy Hfx Hfy)
    as (job' & Hrun & Hft & Hind & Hrcl & _).
  exists job'. do 2 eexists. split; [exact Hrun|].
  rewrite Hft, Hind, Hrcl. fold min_x max_x min_y max_y.
  unfold emit_copy_buffer_per_tile_list, emit_linear_load, emit_linear_store.
  cbn [frame_tiling indirect rcl].
  unfold cl_emit, v3dv_cl_get_address. rewrite <- !app_assoc. cbn [app].
  repeat split.
Qed.

(** ** Emitters only append to the render list *)

Lemma supertile_row_appends (fuel : nat) :
  forall x max_x y cl,
    supertile_row fuel x max_x y cl
    = (new <- supertile_row fuel x max_x y [] ;; Done (cl ++ new)).
Proof.
  forget_helpers.
  induction fuel as [|fuel IH]; intros x max_x y cl; cbn [supertile_row].
  - destruct (to_uint32 x <=? max_x); cbn [bind]; [reflexivity|].
    now rewrite app_nil_r.
  - destruct (to_uint32 x <=? max_x); cbn [bind]; [|now rewrite app_nil_r].
    destruct (x =? INT_MAX); [reflexivity|].
    rewrite (IH _ _ _ (cl_emit cl _)), (IH _ _ _ (cl_emit [] _)).
    destruct (supertile_row fuel (x + 1) max_x y []); cbn [bind]; try reflexivity.
    unfold cl_emit. now rewrite <- app_assoc.
Qed.

Lemma supertile_rows_appends (fuel fuel_x : nat) :
  forall y min_x max_x max_y cl,
    supertile_rows fuel fuel_x y min_x max_x max_y cl
    = (new <- supertile_rows fuel fuel_x y min_x max_x max_y [] ;;
       Done (cl ++ new)).
Proof.
  forget_helpers.
  induction fuel as [|fuel IH]; intros y min_x max_x max_y cl;
    cbn [supertile_rows].
  - destruct (to_uint32 y <=? max_y); cbn [bind]; [reflexivity|].
    now rewrite app_nil_r.
  - destruct (to_uint32 y <=? max_y); cbn [bind]; [|now rewrite app_nil_r].
    rewrite (supertile_row_appends fuel_x _ _ _ cl).
    destruct (supertile_row fuel_x (to_int min_x) max_x y []) as [row| | | |];
      cbn [bind]; try reflexivity.
    destruct (y =? INT_MAX); [reflexivity|].
    rewrite (IH _ _ _ _ (cl ++ row)), (IH _ _ _ _ row).
    destruct (supertile_rows fuel fuel_x (y + 1) min_x max_x max_y []);
      cbn [bind]; try reflexivity.
    now rewrite <- app_assoc.
Qed.

Lemma emit_clear_colors_appends (tiling : v3dv_frame_tiling)
  (info : rcl_clear_info) (cl : v3dv_cl) :
  emit_clear_colors tiling info cl
  = (new <- emit_clear_colors tiling info [] ;; Done (cl ++ new)).
Proof.
  unfold emit_clear_colors.
  destruct (compute_clear_pad tiling info) as [pad| | | |]; cbn [bind];
    try reflexivity.
  unfold cl_emit.
  destruct (V3D_INTERNAL_BPP_64 <=? internal_bpp tiling);
    destruct ((V3D_INTERNAL_BPP_128 <=? internal_bpp tiling) || negb (pad =? 0));
    cbn [app]; rewrite <- ?app_assoc; reflexivity.
Qed.

Lemma emit_rcl_prologue_appends (it : internal_type)
  (clear_info : option rcl_clear_info) :
  appends_to_rcl (fun j => emit_rcl_prologue j it clear_info).
Proof.
  intros job. unfold emit_rcl_prologue.
  cbn [set_rcl frame_tiling rcl indirect].
  destruct clear_info as [info|].
  - destruct (has_aspect (clear_aspects info) VK_IMAGE_ASPECT_COLOR_BIT).
    + rewrite (emit_clear_colors_appends _ _ (cl_emit (rcl job) _)),
        (emit_clear_colors_appends _ _ (cl_emit [] _)).
      destruct (emit_clear_colors (frame_tiling job) info []); cbn [bind];
        try reflexivity.
      unfold cl_emit, set_rcl. cbn [frame_tiling rcl indirect app].
      rewrite <- !app_assoc. reflexivity.
    + cbn [bind]. unfold cl_emit, set_rcl. cbn [frame_tiling rcl indirect app].
      rewrite <- !app_assoc. reflexivity.
  - cbn [bind]. unfold cl_emit, set_rcl. cbn [frame_tiling rcl indirect app].
    rewrite <- !app_assoc. reflexivity.
Qed.

Lemma emit_supertile_coordinates_appends (fuel : nat) (fb : framebuffer_data) :
  appends_to_rcl (fun j => emit_supertile_coordinates fuel j fb).
Proof.
  forget_helpers.
  intros job. unfold emit_supertile_coordinates.
  cbn [set_rcl frame_tiling rcl indirect].
  rewrite (supertile_rows_appends _ _ _ _ _ _ (rcl job)).
  destruct (supertile_rows fuel fuel _ _ _ _ []); reflexivity.
Qed.

(** Settles [appends_to_rcl] for an emitter that writes its tile list to
    the indirect list and one record to the render list. *)
Ltac tile_list_appends :=
  intros job; cbn [set_rcl frame_tiling rcl indirect];
  repeat match goal with
         | |- bind ?m _ = _ => destruct m; cbn [bind]; try reflexivity
         end.

Lemma copy_layer_to_buffer_appends (fb : framebuffer_data)
  (buffer : v3dv_buffer) (image : v3dv_image) (layer : Z)
  (region : VkBufferImageCopy) :
  appends_to_rcl (fun j =>
    emit_copy_layer_to_buffer_per_tile_list j fb buffer image layer region).
Proof. unfold emit_copy_layer_to_buffer_per_tile_list. tile_list_appends. Qed.

Lemma copy_buffer_to_layer_appends (fb : framebuffer_data)
  (image : v3dv_image) (buffer : v3dv_buffer) (layer : Z)
  (region : VkBufferImageCopy) :
  appends_to_rcl (fun j =>
    emit_copy_buffer_to_layer_per_tile_list j fb image buffer layer region).
Proof. unfold emit_copy_buffer_to_layer_per_tile_list. tile_list_appends. Qed.

Lemma copy_image_layer_appends (fb : framebuffer_data) (dst src : v3dv_image)
  (layer : Z) (region : VkImageCopy) :
  appends_to_rcl (fun j =>
    emit_copy_image_layer_per_tile_list j fb dst src layer region).
Proof. unfold emit_copy_image_layer_per_tile_list. tile_list_appends. Qed.

Lemma clear_image_appends (fuel : nat) (image : v3dv_image)
  (fb : framebuffer_data) (aspects layer level : Z) :
  appends_to_rcl (fun j => emit_clear_image fuel j image fb aspects layer level).
Proof.
  intros job. unfold emit_clear_image, emit_clear_image_per_tile_list.
  cbn [set_rcl frame_tiling rcl indirect].
  destruct (emit_image_store _ _ _ _ _ _ _ _); cbn [bind]; try reflexivity.
  match goal with
  | |- emit_supertile_coordinates fuel ?j fb = _ =>
      rewrite (emit_supertile_coordinates_appends fuel fb j)
  end.
  match goal with
  | |- _ = bind (emit_supertile_coordinates fuel ?j fb) _ =>
      rewrite (emit_supertile_coordinates_appends fuel fb j)
  end.
  cbn [set_rcl frame_tiling rcl indirect].
  destruct (emit_supertile_coordinates _ _ _); cbn [bind]; try reflexivity.
  unfold cl_emit. cbn [frame_tiling rcl indirect app].
  rewrite <- !app_assoc. reflexivity.
Qed.

Lemma copy_buffer_appends (fuel : nat) (dst src : v3dv_bo)
  (dst_offset src_offset : Z) (fb : framebuffer_data)
  (format : output_image_format) :
  appends_to_rcl (fun j =>
    emit_copy_buffer fuel j dst src dst_offset src_offset fb format).
Proof.
  forget_helpers.
  intros job. unfold emit_copy_buffer, emit_copy_buffer_per_tile_list.
  cbn [set_rcl frame_tiling rcl indirect].
  match goal with
  | |- emit_supertile_coordinates fuel ?j fb = _ =>
      rewrite (emit_supertile_coordinates_appends fuel fb j)
  end.
  match goal with
  | |- _ = bind (emit_supertile_coordinates fuel ?j fb) _ =>
      rewrite (emit_supertile_coordinates_appends fuel fb j)
  end.
  cbn [set_rcl frame_tiling rcl indirect].
  destruct (emit_supertile_coordinates _ _ _); cbn [bind]; try reflexivity.
  unfold cl_emit. cbn [frame_tiling rcl indirect app].
  rewrite <- !app_assoc. reflexivity.
Qed.

Lemma fill_buffer_appends (fuel : nat) (bo : v3dv_bo) (offset : Z)
  (fb : framebuffer_data) :
  appends_to_rcl (fun j => emit_fill_buffer fuel j bo offset fb).
Proof.
  forget_helpers.
  intros job. unfold emit_fill_buffer, emit_fill_buffer_per_tile_list.
  cbn [set_rcl frame_tiling rcl indirect].
  match goal with
  | |- emit_supertile_coordinates fuel ?j fb = _ =>
      rewrite (emit_supertile_coordinates_appends fuel fb j)
  end.
  match goal with
  | |- _ = bind (emit_supertile_coordinates fuel ?j fb) _ =>
      rewrite (emit_supertile_coordinates_appends fuel fb j)
  end.
  cbn [set_rcl frame_tiling rcl indirect].
  destruct (emit_supertile_coordinates _ _ _); cbn [bind]; try reflexivity.
  unfold cl_emit. cbn [frame_tiling rcl indirect app].
  rewrite <- !app_assoc. reflexivity.
Qed.

(** ** Whole render control lists *)

Lemma emit_frame_setup_packets (job : v3dv_render_job) (layer : Z)
  (clear_value : option v3dv_clear_value) :
  emit_frame_setup job layer clear_value
  = rcl_emit job
      (frame_setup_packets (render_frame_tiling job) (render_frame_draw job)
         (tile_alloc job) layer
         (match clear_value with Some _ => true | None => false end)).
Proof.
  forget_helpers.
  unfold emit_frame_setup, rcl_emit, frame_setup_packets.
  destruct clear_value; cbn [for_upto frame_setup_round Z.eqb Z.add app];
    rewrite <- !app_assoc; reflexivity.
Qed.

Lemma with_encoder_supertiles (fuel : nat) (fb : framebuffer_data)
  (t : v3dv_frame_tiling) (d : v3dv_frame_tiling_draw) (b : v3dv_bo)
  (r : list rcl_packet) (i : v3dv_cl) :
  rectangle_fits fb fuel ->
  with_encoder {| render_frame_tiling := t; render_frame_draw := d;
                  tile_alloc := b; render_rcl := r; render_indirect := i |}
    (fun j => emit_supertile_coordinates fuel j fb)
  = Done {| render_frame_tiling := t; render_frame_draw := d; tile_alloc := b;
            render_rcl := r ++ map CL (row_major_coordinates
                                         (min_x_supertile fb) (max_x_supertile fb)
                                         (min_y_supertile fb) (max_y_supertile fb));
            render_indirect := i |}.
Proof.
  forget_helpers.
  intros (Hminx & Hminy & Hmaxx & Hmaxy & Hfx & Hfy).
  unfold with_encoder. cbn [render_frame_tiling render_indirect render_rcl
                            render_frame_draw tile_alloc].
  destruct (supertile_rectangle_run fuel
              {| frame_tiling := t; rcl := []; indirect := i |} fb
              Hminx Hminy Hmaxx Hmaxy Hfx Hfy)
    as (job' & Hrun & Hft & Hind & Hrcl & _).
  rewrite Hrun. cbn [bind]. rewrite Hft, Hind, Hrcl. reflexivity.
Qed.

(** What the hypothesis on a tile-list emitter says: on every job with
    the frame tiling [t] it returns, appends its tile list of [len]
    packets to the indirect list and the branch record of that list to
    the render list. *)
Lemma with_encoder_tile_list (emit : v3dv_job -> outcome v3dv_job) (len : nat)
  (t : v3dv_frame_tiling) (d : v3dv_frame_tiling_draw) (b : v3dv_bo)
  (r : list rcl_packet) (i : v3dv_cl) :
  (forall j, frame_tiling j = t ->
     exists j', emit j = Done j'
       /\ frame_tiling j' = t
       /\ indirect j' = indirect j ++ tile_list_body emit t
       /\ rcl j' = rcl j ++ [START_ADDRESS_OF_GENERIC_TILE_LIST
                               (length (indirect j)) (length (indirect j'))]) ->
  length (tile_list_body emit t) = len ->
  with_encoder {| render_frame_tiling := t; render_frame_draw := d;
                  tile_alloc := b; render_rcl := r; render_indirect := i |} emit
  = Done {| render_frame_tiling := t; render_frame_draw := d; tile_alloc := b;
            render_rcl := r ++ [CL (START_ADDRESS_OF_GENERIC_TILE_LIST
                                      (length i) (length i + len))];
            render_indirect := i ++ tile_list_body emit t |}.
Proof.
  forget_helpers.
  intros Hemit Hlen. unfold with_encoder.
  cbn [render_frame_tiling render_indirect render_rcl render_frame_draw
       tile_alloc].
  destruct (Hemit {| frame_tiling := t; rcl := []; indirect := i |} eq_refl)
    as (j' & Hrun & Hft & Hind & Hrcl).
  rewrite Hrun. cbn [bind]. rewrite Hft, Hrcl, Hind.
  cbn [rcl indirect app map]. rewrite length_app, Hlen. reflexivity.
Qed.

(** The loop over the layers of a copy: each turn adds the packets of its
    layer to the render list and its tile list to the indirect list. *)
Lemma layers_loop_run (fuel_x : nat) (fb : framebuffer_data)
  (emit : Z -> v3dv_job -> outcome v3dv_job) (len : nat)
  (t : v3dv_frame_tiling) (d : v3dv_frame_tiling_draw) (b : v3dv_bo)
  (start : nat) :
  0 <= layers t <= INT_MAX ->
  rectangle_fits fb fuel_x ->
  (forall layer, 0 <= layer < layers t ->
     (forall j, frame_tiling j = t ->
        exists j', emit layer j = Done j'
          /\ frame_tiling j' = t
          /\ indirect j' = indirect j ++ tile_list_body (emit layer) t
          /\ rcl j' = rcl j ++ [START_ADDRESS_OF_GENERIC_TILE_LIST
                                  (length (indirect j)) (length (indirect j'))])
     /\ length (tile_list_body (emit layer) t) = len) ->
  forall (fuel : nat) (layer : Z) (r : list rcl_packet) (i : v3dv_cl),
    0 <= layer <= layers t ->
    layers t - layer <= Z.of_nat fuel ->
    length i = (start + len * Z.to_nat layer)%nat ->
    layers_loop fuel layer
      (fun layer job =>
         job <- with_encoder (emit_frame_setup job layer None) (emit layer) ;;
         with_encoder job (fun j => emit_supertile_coordinates fuel_x j fb))
      {| render_frame_tiling := t; render_frame_draw := d; tile_alloc := b;
         render_rcl := r; render_indirect := i |}
    = Done {| render_frame_tiling := t; render_frame_draw := d; tile_alloc := b;
              render_rcl :=
                r ++ flat_map (layer_packets t d b fb start len)
                       (Zseq layer (Z.to_nat (layers t - layer)));
              render_indirect :=
                i ++ flat_map (fun layer => tile_list_body (emit layer) t)
                       (Zseq layer (Z.to_nat (layers t - layer))) |}.
Proof.
  forget_helpers.
  intros HL Hrect Hemit.
  induction fuel as [|fuel IH]; intros layer r i Hlayer Hfuel Hlen.
  - change (Z.of_nat 0) with 0 in Hfuel.
    assert (layer = layers t) as -> by lia.
    cbn [layers_loop render_frame_tiling].
    rewrite int_is_uint32 by lia. rewrite Z.ltb_irrefl.
    replace (layers t - layers t) with 0 by lia. cbn [Z.to_nat Zseq flat_map].
    rewrite !app_nil_r. reflexivity.
  - cbn [layers_loop render_frame_tiling]. rewrite int_is_uint32 by lia.
    destruct (layer <? layers t) eqn:Hguard.
    + apply Z.ltb_lt in Hguard.
      destruct (Hemit layer ltac:(lia)) as [Hrun Hbody].
      rewrite emit_frame_setup_packets. unfold rcl_emit.
      cbn [render_frame_tiling render_frame_draw tile_alloc render_rcl
           render_indirect].
      rewrite (with_encoder_tile_list (emit layer) len t d b _ i Hrun Hbody).
      cbn [bind].
      rewrite (with_encoder_supertiles fuel_x fb t d b _ _ Hrect).
      cbn [bind].
      replace (layer =? INT_MAX) with false by (symmetry; apply Z.eqb_neq; lia).
      rewrite IH.
      * replace (Z.to_nat (layers t - layer))
          with (S (Z.to_nat (layers t - (layer + 1)))) by lia.
        cbn [Zseq flat_map]. unfold layer_packets at 2.
        rewrite Hlen. rewrite <- !app_assoc. cbn [app]. reflexivity.
      * lia.
      * lia.
      * rewrite length_app, Hbody, Hlen.
        replace (Z.to_nat (layer + 1)) with (S (Z.to_nat layer)) by lia. lia.
    + apply Z.ltb_ge in Hguard. assert (layer = layers t) as -> by lia.
      replace (layers t - layers t) with 0 by lia. cbn [Z.to_nat Zseq flat_map].
      rewrite !app_nil_r. reflexivity.
Qed.

Lemma with_encoder_prologue (it : internal_type)
  (t : v3dv_frame_tiling) (d : v3dv_frame_tiling_draw) (b : v3dv_bo)
  (r : list rcl_packet) (i : v3dv_cl) :
  with_encoder {| render_frame_tiling := t; render_frame_draw := d;
                  tile_alloc := b; render_rcl := r; render_indirect := i |}
    (fun j => emit_rcl_prologue j it None)
  = Done {| render_frame_tiling := t; render_frame_draw := d; tile_alloc := b;
            render_rcl := r ++ map CL (prologue_packets t it float_one_bits 0);
            render_indirect := i |}.
Proof. reflexivity. Qed.

(** A copy job: the prologue, the layers, the end of rendering. *)
Lemma copy_rcl_run (fuel : nat) (fb : framebuffer_data)
  (emit : Z -> v3dv_job -> outcome v3dv_job) (len : nat)
  (job : v3dv_render_job) :
  let t := render_frame_tiling job in
  let d := render_frame_draw job in
  let b := tile_alloc job in
  0 <= layers t <= INT_MAX ->
  layers t <= Z.of_nat fuel ->
  rectangle_fits fb fuel ->
  (forall layer, 0 <= layer < layers t ->
     (forall j, frame_tiling j = t ->
        exists j', emit layer j = Done j'
          /\ frame_tiling j' = t
          /\ indirect j' = indirect j ++ tile_list_body (emit layer) t
          /\ rcl j' = rcl j ++ [START_ADDRESS_OF_GENERIC_TILE_LIST
                                  (length (indirect j)) (length (indirect j'))])
     /\ length (tile_list_body (emit layer) t) = len) ->
  (job <- with_encoder job (fun j =>
            emit_rcl_prologue j (fb_internal_type fb) None) ;;
   job <- layers_loop fuel 0
            (fun layer job =>
               job <- with_encoder (emit_frame_setup job layer None)
                        (emit layer) ;;
               with_encoder job (fun j =>
                 emit_supertile_coordinates fuel j fb)) job ;;
   Done (rcl_emit job [END_OF_RENDERING]))
  = Done {| render_frame_tiling := t; render_frame_draw := d; tile_alloc := b;
            render_rcl :=
              render_rcl job
              ++ map CL (prologue_packets t (fb_internal_type fb)
                           float_one_bits 0)
              ++ flat_map (layer_packets t d b fb
                             (length (render_indirect job)) len)
                   (Zseq 0 (Z.to_nat (layers t)))
              ++ [END_OF_RENDERING];
            render_indirect :=
              render_indirect job
              ++ flat_map (fun layer => tile_list_body (emit layer) t)
                   (Zseq 0 (Z.to_nat (layers t))) |}.
Proof.
  forget_helpers.
  intros t d b HL Hfuel Hrect Hemit.
  destruct job as [t0 d0 b0 r i]. cbn in t, d, b. subst t d b.
  rewrite with_encoder_prologue. cbn [bind].
  rewrite (layers_loop_run fuel fb emit len t0 d0 b0 (length i) HL Hrect Hemit
             fuel 0 _ i ltac:(lia) ltac:(lia) ltac:(cbn; lia)).
  cbn [bind]. unfold rcl_emit.
  cbn [render_frame_tiling render_frame_draw tile_alloc render_rcl
       render_indirect].
  replace (layers t0 - 0) with (layers t0) by lia.
  rewrite <- !app_assoc. reflexivity.
Qed.

Lemma flat_map_constant_length {A B : Type} (f : A -> list B) (len : nat)
  (l : list A) :
  (forall a, In a l -> length (f a) = len) ->
  length (flat_map f l) = (len * length l)%nat.
Proof.
  induction l as [|a l IH]; intros Hlen; cbn [flat_map length].
  - lia.
  - rewrite length_app, (Hlen a (or_introl eq_refl)), IH.
    + lia.
    + intros a' Ha'. apply Hlen. right. exact Ha'.
Qed.

Lemma Zseq_members (len : nat) :
  forall start x, In x (Zseq start len) -> start <= x < start + Z.of_nat len.
Proof.
  forget_helpers.
  induction len as [|len IH]; intros start x Hin; cbn [Zseq] in Hin.
  - contradiction.
  - destruct Hin as [<- | Hin]; [lia|]. apply IH in Hin. lia.
Qed.

(** The tile list of a copy of an image layer to a buffer does not depend
    on the job it is written to. *)
Lemma copy_layer_to_buffer_tile_list (fb : framebuffer_data)
  (buffer : v3dv_buffer) (image : v3dv_image) (layer : Z)
  (region : VkBufferImageCopy) (slice : v3d_resource_slice)
  (t : v3dv_frame_tiling) :
  let imgrsc := imageSubresource region in
  let emit := fun j =>
    emit_copy_layer_to_buffer_per_tile_list j fb buffer image layer region in
  layer_in_range image imgrsc layer = true ->
  slice_at image (mipLevel imgrsc) = Done slice ->
  vk_format fb <> VK_FORMAT_D24_UNORM_S8_UINT
  \/ has_aspect (aspectMask imgrsc) VK_IMAGE_ASPECT_DEPTH_BIT = true
  \/ has_aspect (aspectMask imgrsc) VK_IMAGE_ASPECT_STENCIL_BIT = true ->
  (forall j, frame_tiling j = t ->
     exists j', emit j = Done j'
       /\ frame_tiling j' = t
       /\ indirect j' = indirect j ++ tile_list_body emit t
       /\ rcl j' = rcl j ++ [START_ADDRESS_OF_GENERIC_TILE_LIST
                               (length (indirect j)) (length (indirect j'))])
  /\ length (tile_list_body emit t) = 7%nat
  /\ tile_list_well_formed (tile_list_body emit t).
Proof.
  intros imgrsc emit Hlayer Hslice Haspect.
  destruct (choose_tlb_format_returns fb (aspectMask imgrsc) false true false
              Haspect) as [fl Hfl].
  destruct (choose_tlb_format_returns fb (aspectMask imgrsc) true true false
              Haspect) as [fs Hfs].
  pose proof (fun j => copy_layer_to_buffer_body j fb buffer image layer region
                         slice fl fs Hlayer Hslice Hfl Hfs) as Hbody.
  destruct (Hbody {| frame_tiling := t; rcl := []; indirect := [] |})
    as (j0 & l0 & s0 & Hrun0 & Hind0 & _ & Hl0 & Hs0).
  assert (Hlist : tile_list_body emit t
                  = [TILE_COORDINATES_IMPLICIT; LOAD_TILE_BUFFER_GENERAL l0;
                     END_OF_LOADS; BRANCH_TO_IMPLICIT_TILE_LIST;
                     STORE_TILE_BUFFER_GENERAL s0; END_OF_TILE_MARKER;
                     RETURN_FROM_SUB_LIST]).
  { unfold tile_list_body, emit. rewrite Hrun0. exact Hind0. }
  rewrite Hlist. split; [|split; [reflexivity|]].
  - intros j Hj.
    destruct (Hbody j) as (j' & l & s & Hrun & Hind & _ & Hl & Hs).
    destruct (copy_layer_to_buffer_branch _ _ _ _ _ _ _ Hrun) as [Hft Hrcl].
    fold imgrsc in Hl, Hl0, Hs, Hs0.
    rewrite Hl0 in Hl. injection Hl as <-.
    rewrite Hs0 in Hs. injection Hs as <-.
    exists j'. unfold emit. repeat split; try assumption. congruence.
  - apply tile_list_with_one_load_one_store; reflexivity.
Qed.

(** X17: the render list of a copy of an image to a buffer is the
    four-record prologue without clear colours, then for each layer of the
    frame, in order, the frame setup with its tile list base 64 bytes per
    tile and layer into the tile allocation object, the branch record of
    the layer's tile list and the supertile coordinates of the frame, and
    last the end of rendering; the tile lists of the layers, seven packets
    each, lie one after the other in the indirect list. *)
Theorem copy_image_to_buffer_render_list
  (fuel : nat) (job : v3dv_render_job) (buffer : v3dv_buffer)
  (image : v3dv_image) (fb : framebuffer_data) (region : VkBufferImageCopy)
  (slice : v3d_resource_slice) :
  let t := render_frame_tiling job in
  let d := render_frame_draw job in
  let b := tile_alloc job in
  let imgrsc := imageSubresource region in
  let tile_list := fun layer =>
    tile_list_body
      (fun j => emit_copy_layer_to_buffer_per_tile_list j fb buffer image layer
                  region) t in
  0 <= layers t <= INT_MAX ->
  layers t <= Z.of_nat fuel ->
  rectangle_fits fb fuel ->
  (forall layer, 0 <= layer < layers t ->
     layer_in_range image imgrsc layer = true) ->
  slice_at image (mipLevel imgrsc) = Done slice ->
  vk_format fb <> VK_FORMAT_D24_UNORM_S8_UINT
  \/ has_aspect (aspectMask imgrsc) VK_IMAGE_ASPECT_DEPTH_BIT = true
  \/ has_aspect (aspectMask imgrsc) VK_IMAGE_ASPECT_STENCIL_BIT = true ->
  exists job',
    emit_copy_image_to_buffer_rcl fuel job buffer image fb region = Done job'
    /\ render_frame_tiling job' = t
    /\ render_rcl job'
       = render_rcl job
         ++ map CL (prologue_packets t (fb_internal_type fb) float_one_bits 0)
         ++ flat_map (layer_packets t d b fb (length (render_indirect job)) 7)
              (Zseq 0 (Z.to_nat (layers t)))
         ++ [END_OF_RENDERING]
    /\ render_indirect job'
       = render_indirect job
         ++ flat_map tile_list (Zseq 0 (Z.to_nat (layers t)))
    /\ (forall layer, 0 <= layer < layers t ->
        length (tile_list layer) = 7%nat
        /\ tile_list_well_formed (tile_list layer))
    /\ length (render_indirect job')
       = (length (render_indirect job) + 7 * Z.to_nat (layers t))%nat.
Proof.
  intros t d b imgrsc tile_list HL Hfuel Hrect Hlayers Hslice Haspect.
  assert (Hemit : forall layer, 0 <= layer < layers t ->
            (forall j, frame_tiling j = t ->
               exists j',
                 emit_copy_layer_to_buffer_per_tile_list j fb buffer image layer
                   region = Done j'
                 /\ frame_tiling j' = t
                 /\ indirect j' = indirect j ++ tile_list layer
                 /\ rcl j' = rcl j ++ [START_ADDRESS_OF_GENERIC_TILE_LIST
                                         (length (indirect j))
                                         (length (indirect j'))])
            /\ length (tile_list layer) = 7%nat).
  { intros layer Hl.
    destruct (copy_layer_to_buffer_tile_list fb buffer image layer region slice
                t (Hlayers layer Hl) Hslice Haspect) as (H1 & H2 & _).
    split; assumption. }
  eexists. split.
  { exact (copy_rcl_run fuel fb
             (fun layer j =>
                emit_copy_layer_to_buffer_per_tile_list j fb buffer image layer
                  region) 7 job HL Hfuel Hrect Hemit). }
  cbn [render_frame_tiling render_rcl render_indirect].
  split; [reflexivity|]. split; [reflexivity|]. split; [reflexivity|].
  split.
  - intros layer Hl.
    destruct (copy_layer_to_buffer_tile_list fb buffer image layer region slice
                t (Hlayers layer Hl) Hslice Haspect) as (_ & H2 & H3).
    split; assumption.
  - rewrite length_app. f_equal.
    rewrite (flat_map_constant_length _ 7).
    + rewrite Zseq_length. reflexivity.
    + intros layer Hin. apply Zseq_members in Hin.
      apply Hemit. unfold t in *. lia.
Qed.

(** The tile list of a copy of a buffer to an image layer does not depend
    on the job it is written to. *)
Lemma copy_buffer_to_layer_tile_list (fb : framebuffer_data)
  (image : v3dv_image) (buffer : v3dv_buffer) (layer : Z)
  (region : VkBufferImageCopy) (slice : v3d_resource_slice)
  (t : v3dv_frame_tiling) :
  let imgrsc := imageSubresource region in
  let emit := fun j =>
    emit_copy_buffer_to_layer_per_tile_list j fb image buffer layer region in
  layer_in_range image imgrsc layer = true ->
  slice_at image (mipLevel imgrsc) = Done slice ->
  vk_format fb <> VK_FORMAT_D24_UNORM_S8_UINT
  \/ has_aspect (aspectMask imgrsc) VK_IMAGE_ASPECT_DEPTH_BIT = true
  \/ has_aspect (aspectMask imgrsc) VK_IMAGE_ASPECT_STENCIL_BIT = true ->
  (forall j, frame_tiling j = t ->
     exists j', emit j = Done j'
       /\ frame_tiling j' = t
       /\ indirect j' = indirect j ++ tile_list_body emit t
       /\ rcl j' = rcl j ++ [START_ADDRESS_OF_GENERIC_TILE_LIST
                               (length (indirect j)) (length (indirect j'))])
  /\ length (tile_list_body emit t)
     = (if vk_format fb =? VK_FORMAT_D24_UNORM_S8_UINT then 9%nat else 7%nat)
  /\ tile_list_well_formed (tile_list_body emit t).
Proof.
  intros imgrsc emit Hlayer Hslice Haspect.
  destruct (Z.eq_dec (vk_format fb) VK_FORMAT_D24_UNORM_S8_UINT) as [Hd | Hd].
  - assert (Hasp : has_aspect (aspectMask imgrsc) VK_IMAGE_ASPECT_DEPTH_BIT = true
                   \/ has_aspect (aspectMask imgrsc) VK_IMAGE_ASPECT_STENCIL_BIT
                      = true)
      by (destruct Haspect as [H | H]; [contradiction|exact H]).
    pose proof (fun j => copy_buffer_to_layer_body_d24s8 j fb image buffer layer
                           region slice Hd Hasp Hlayer Hslice) as Hbody.
    destruct (Hbody {| frame_tiling := t; rcl := []; indirect := [] |})
      as (j0 & fmt0 & lin0 & lo0 & su0 & so0 & Hrun0 & Hind0 & Hf0 & Hlin0
          & Hlo0 & Hsu0 & Hso0).
    assert (Hlist : tile_list_body emit t
                    = [TILE_COORDINATES_IMPLICIT; LOAD_TILE_BUFFER_GENERAL lin0;
                       LOAD_TILE_BUFFER_GENERAL lo0; END_OF_LOADS;
                       BRANCH_TO_IMPLICIT_TILE_LIST;
                       STORE_TILE_BUFFER_GENERAL su0;
                       STORE_TILE_BUFFER_GENERAL so0; END_OF_TILE_MARKER;
                       RETURN_FROM_SUB_LIST]).
    { unfold tile_list_body, emit. rewrite Hrun0. exact Hind0. }
    rewrite Hlist, Hd, Z.eqb_refl. split; [|split; [reflexivity|]].
    + intros j Hj.
      destruct (Hbody j)
        as (j' & fmt & lin & lo & su & so & Hrun & Hind & Hf & Hlin & Hlo
            & Hsu & Hso).
      destruct (copy_buffer_to_layer_branch _ _ _ _ _ _ _ Hrun) as [Hft Hrcl].
      fold imgrsc in Hf, Hf0, Hlin, Hlin0, Hlo, Hlo0, Hsu, Hsu0, Hso, Hso0.
      rewrite Hf0 in Hf. injection Hf as <-.
      rewrite Hlin0 in Hlin. injection Hlin as <-.
      rewrite Hlo0 in Hlo. injection Hlo as <-.
      rewrite Hsu0 in Hsu. injection Hsu as <-.
      rewrite Hso0 in Hso. injection Hso as <-.
      exists j'. unfold emit. repeat split; try assumption. congruence.
    + exists [LOAD_TILE_BUFFER_GENERAL lin0; LOAD_TILE_BUFFER_GENERAL lo0],
             [STORE_TILE_BUFFER_GENERAL su0; STORE_TILE_BUFFER_GENERAL so0].
      repeat split. discriminate.
  - pose proof (fun j => copy_buffer_to_layer_body_plain j fb image buffer layer
                           region slice Hd Hlayer Hslice) as Hbody.
    destruct (Hbody {| frame_tiling := t; rcl := []; indirect := [] |})
      as (j0 & fmt0 & lin0 & su0 & Hrun0 & Hind0 & Hf0 & Hlin0 & Hsu0).
    assert (Hlist : tile_list_body emit t
                    = [TILE_COORDINATES_IMPLICIT; LOAD_TILE_BUFFER_GENERAL lin0;
                       END_OF_LOADS; BRANCH_TO_IMPLICIT_TILE_LIST;
                       STORE_TILE_BUFFER_GENERAL su0; END_OF_TILE_MARKER;
                       RETURN_FROM_SUB_LIST]).
    { unfold tile_list_body, emit. rewrite Hrun0. exact Hind0. }
    rewrite Hlist.
    replace (vk_format fb =? VK_FORMAT_D24_UNORM_S8_UINT) with false
      by (symmetry; apply Z.eqb_neq; exact Hd).
    split; [|split; [reflexivity|]].
    + intros j Hj.
      destruct (Hbody j) as (j' & fmt & lin & su & Hrun & Hind & Hf & Hlin & Hsu).
      destruct (copy_buffer_to_layer_branch _ _ _ _ _ _ _ Hrun) as [Hft Hrcl].
      fold imgrsc in Hf, Hf0, Hlin, Hlin0, Hsu, Hsu0.
      rewrite Hf0 in Hf. injection Hf as <-.
      rewrite Hlin0 in Hlin. injection Hlin as <-.
      rewrite Hsu0 in Hsu. injection Hsu as <-.
      exists j'. unfold emit. repeat split; try assumption. congruence.
    + apply tile_list_with_one_load_one_store; reflexivity.
Qed.

(** X18: the render list of a copy of a buffer to an image has the same
    build as that of the opposite copy: prologue, then per layer the
    frame setup, the branch record and the supertile coordinates, then
    the end of rendering; the tile list of a layer has nine packets for a
    combined 24-bit depth and stencil format, whose other aspect is
    loaded and stored back, and seven otherwise. *)
Theorem copy_buffer_to_image_render_list
  (fuel : nat) (job : v3dv_render_job) (image : v3dv_image)
  (buffer : v3dv_buffer) (fb : framebuffer_data) (region : VkBufferImageCopy)
  (slice : v3d_resource_slice) :
  let t := render_frame_tiling job in
  let d := render_frame_draw job in
  let b := tile_alloc job in
  let imgrsc := imageSubresource region in
  let len := if vk_format fb =? VK_FORMAT_D24_UNORM_S8_UINT
             then 9%nat else 7%nat in
  let tile_list := fun layer =>
    tile_list_body
      (fun j => emit_copy_buffer_to_layer_per_tile_list j fb image buffer layer
                  region) t in
  0 <= layers t <= INT_MAX ->
  layers t <= Z.of_nat fuel ->
  rectangle_fits fb fuel ->
  (forall layer, 0 <= layer < layers t ->
     layer_in_range image imgrsc layer = true) ->
  slice_at image (mipLevel imgrsc) = Done slice ->
  vk_format fb <> VK_FORMAT_D24_UNORM_S8_UINT
  \/ has_aspect (aspectMask imgrsc) VK_IMAGE_ASPECT_DEPTH_BIT = true
  \/ has_aspect (aspectMask imgrsc) VK_IMAGE_ASPECT_STENCIL_BIT = true ->
  exists job',
    emit_copy_buffer_to_image_rcl fuel job image buffer fb region = Done job'
    /\ render_frame_tiling job' = t
    /\ render_rcl job'
       = render_rcl job
         ++ map CL (prologue_packets t (fb_internal_type fb) float_one_bits 0)
         ++ flat_map (layer_packets t d b fb (length (render_indirect job)) len)
              (Zseq 0 (Z.to_nat (layers t)))
         ++ [END_OF_RENDERING]
    /\ render_indirect job'
       = render_indirect job
         ++ flat_map tile_list (Zseq 0 (Z.to_nat (layers t)))
    /\ (forall layer, 0 <= layer < layers t ->
        length (tile_list layer) = len
        /\ tile_list_well_formed (tile_list layer))
    /\ length (render_indirect job')
       = (length (render_indirect job) + len * Z.to_nat (layers t))%nat.
Proof.
  intros t d b imgrsc len tile_list HL Hfuel Hrect Hlayers Hslice Haspect.
  assert (Hemit : forall layer, 0 <= layer < layers t ->
            (forall j, frame_tiling j = t ->
               exists j',
                 emit_copy_buffer_to_layer_per_tile_list j fb image buffer layer
                   region = Done j'
                 /\ frame_tiling j' = t
                 /\ indirect j' = indirect j ++ tile_list layer
                 /\ rcl j' = rcl j ++ [START_ADDRESS_OF_GENERIC_TILE_LIST
                                         (length (indirect j))
                                         (length (indirect j'))])
            /\ length (tile_list layer) = len).
  { intros layer Hl.
    destruct (copy_buffer_to_layer_tile_list fb image buffer layer region slice
                t (Hlayers layer Hl) Hslice Haspect) as (H1 & H2 & _).
    split; assumption. }
  eexists. split.
  { exact (copy_rcl_run fuel fb
             (fun layer j =>
                emit_copy_buffer_to_layer_per_tile_list j fb image buffer layer
                  region) len job HL Hfuel Hrect Hemit). }
  cbn [render_frame_tiling render_rcl render_indirect].
  split; [reflexivity|]. split; [reflexivity|]. split; [reflexivity|].
  split.
  - intros layer Hl.
    destruct (copy_buffer_to_layer_tile_list fb image buffer layer region slice
                t (Hlayers layer Hl) Hslice Haspect) as (_ & H2 & H3).
    split; assumption.
  - rewrite length_app. f_equal.
    rewrite (flat_map_constant_length _ len).
    + rewrite Zseq_length. reflexivity.
    + intros layer Hin. apply Zseq_members in Hin.
      apply Hemit. unfold t in *. lia.
Qed.

(** The tile list of a copy of one image layer to another does not
    depend on the job it is written to. *)
Lemma copy_image_layer_tile_list (fb : framebuffer_data) (dst src : v3dv_image)
  (layer : Z) (region : VkImageCopy) (sslice dslice : v3d_resource_slice)
  (t : v3dv_frame_tiling) :
  let srcrsc := copy_srcSubresource region in
  let dstrsc := copy_dstSubresource region in
  let emit := fun j =>
    emit_copy_image_layer_per_tile_list j fb dst src layer region in
  layer_in_range src srcrsc layer = true ->
  layer_in_range dst dstrsc layer = true ->
  slice_at src (mipLevel srcrsc) = Done sslice ->
  slice_at dst (mipLevel dstrsc) = Done dslice ->
  (forall j, frame_tiling j = t ->
     exists j', emit j = Done j'
       /\ frame_tiling j' = t
       /\ indirect j' = indirect j ++ tile_list_body emit t
       /\ rcl j' = rcl j ++ [START_ADDRESS_OF_GENERIC_TILE_LIST
                               (length (indirect j)) (length (indirect j'))])
  /\ length (tile_list_body emit t) = 7%nat
  /\ tile_list_well_formed (tile_list_body emit t).
Proof.
  intros srcrsc dstrsc emit Hsl Hdl Hss Hds.
  assert (Hrun : forall j,
    emit j
    = Done {| frame_tiling := frame_tiling j;
              rcl := rcl j ++ [START_ADDRESS_OF_GENERIC_TILE_LIST
                                 (length (indirect j)) (length (indirect j) + 7)];
              indirect := indirect j
                ++ tile_list_body emit t |}
    /\ length (tile_list_body emit t) = 7%nat
    /\ tile_list_well_formed (tile_list_body emit t)).
  { intros j. unfold tile_list_body, emit, emit_copy_image_layer_per_tile_list.
    fold srcrsc dstrsc. rewrite Hsl, Hdl. cbn [c_assert bind].
    rewrite !(emit_image_load_done _ fb src _ _ _ false false sslice
                (rt_type (format fb)) Hss (choose_tlb_format_no_buffer _ _ _)).
    cbn [bind].
    rewrite !(emit_image_store_done _ fb dst _ _ _ false false dslice
                (rt_type (format fb)) Hds (choose_tlb_format_no_buffer _ _ _)).
    cbn [bind indirect]. unfold cl_emit, v3dv_cl_get_address.
    rewrite <- !app_assoc. cbn [app].
    split; [|split; [reflexivity|]].
    - rewrite !length_app. cbn [length].
      replace (length (indirect j) + 7)%nat
        with (length (indirect j) + 7)%nat by reflexivity.
      reflexivity.
    - apply tile_list_with_one_load_one_store; reflexivity. }
  split; [|exact (proj2 (Hrun {| frame_tiling := t; rcl := [];
                                indirect := [] |}))].
  intros j Hj. destruct (Hrun j) as (Hr & Hlen & _).
  eexists. split; [exact Hr|]. cbn [frame_tiling indirect rcl].
  repeat split; [exact Hj|]. rewrite length_app, Hlen. reflexivity.
Qed.

(** X19: the render list of a copy between images has the same build:
    prologue, then per layer the frame setup, the branch record of a tile
    list of seven packets and the supertile coordinates, then the end of
    rendering; the layer is checked against both images. *)
Theorem copy_image_render_list
  (fuel : nat) (job : v3dv_render_job) (dst src : v3dv_image)
  (fb : framebuffer_data) (region : VkImageCopy)
  (sslice dslice : v3d_resource_slice) :
  let t := render_frame_tiling job in
  let d := render_frame_draw job in
  let b := tile_alloc job in
  let srcrsc := copy_srcSubresource region in
  let dstrsc := copy_dstSubresource region in
  let tile_list := fun layer =>
    tile_list_body
      (fun j => emit_copy_image_layer_per_tile_list j fb dst src layer region)
      t in
  0 <= layers t <= INT_MAX ->
  layers t <= Z.of_nat fuel ->
  rectangle_fits fb fuel ->
  (forall layer, 0 <= layer < layers t ->
     layer_in_range src srcrsc layer = true
     /\ layer_in_range dst dstrsc layer = true) ->
  slice_at src (mipLevel srcrsc) = Done sslice ->
  slice_at dst (mipLevel dstrsc) = Done dslice ->
  exists job',
    emit_copy_image_rcl fuel job dst src fb region = Done job'
    /\ render_frame_tiling job' = t
    /\ render_rcl job'
       = render_rcl job
         ++ map CL (prologue_packets t (fb_internal_type fb) float_one_bits 0)
         ++ flat_map (layer_packets t d b fb (length (render_indirect job)) 7)
              (Zseq 0 (Z.to_nat (layers t)))
         ++ [END_OF_RENDERING]
    /\ render_indirect job'
       = render_indirect job
         ++ flat_map tile_list (Zseq 0 (Z.to_nat (layers t)))
    /\ (forall layer, 0 <= layer < layers t ->
        length (tile_list layer) = 7%nat
        /\ tile_list_well_formed (tile_list layer))
    /\ length (render_indirect job')
       = (length (render_indirect job) + 7 * Z.to_nat (layers t))%nat.
Proof.
  intros t d b srcrsc dstrsc tile_list HL Hfuel Hrect Hlayers Hss Hds.
  assert (Hemit : forall layer, 0 <= layer < layers t ->
            (forall j, frame_tiling j = t ->
               exists j',
                 emit_copy_image_layer_per_tile_list j fb dst src layer region
                 = Done j'
                 /\ frame_tiling j' = t
                 /\ indirect j' = indirect j ++ tile_list layer
                 /\ rcl j' = rcl j ++ [START_ADDRESS_OF_GENERIC_TILE_LIST
                                         (length (indirect j))
                                         (length (indirect j'))])
            /\ length (tile_list layer) = 7%nat).
  { intros layer Hl. destruct (Hlayers layer Hl) as [Hs Hd].
    destruct (copy_image_layer_tile_list fb dst src layer region sslice dslice
                t Hs Hd Hss Hds) as (H1 & H2 & _).
    split; assumption. }
  eexists. split.
  { exact (copy_rcl_run fuel fb
             (fun layer j =>
                emit_copy_image_layer_per_tile_list j fb dst src layer region)
             7 job HL Hfuel Hrect Hemit). }
  cbn [render_frame_tiling render_rcl render_indirect].
  split; [reflexivity|]. split; [reflexivity|]. split; [reflexivity|].
  split.
  - intros layer Hl. destruct (Hlayers layer Hl) as [Hs Hd].
    destruct (copy_image_layer_tile_list fb dst src layer region sslice dslice
                t Hs Hd Hss Hds) as (_ & H2 & H3).
    split; assumption.
  - rewrite length_app. f_equal.
    rewrite (flat_map_constant_length _ 7).
    + rewrite Zseq_length. reflexivity.
    + intros layer Hin. apply Zseq_members in Hin.
      apply Hemit. unfold t in *. lia.
Qed.

Lemma with_encoder_fill_buffer (fuel : nat) (bo : v3dv_bo) (offset : Z)
  (fb : framebuffer_data)
  (t : v3dv_frame_tiling) (d : v3dv_frame_tiling_draw) (b : v3dv_bo)
  (r : list rcl_packet) (i : v3dv_cl) :
  rectangle_fits fb fuel ->
  with_encoder {| render_frame_tiling := t; render_frame_draw := d;
                  tile_alloc := b; render_rcl := r; render_indirect := i |}
    (fun j => emit_fill_buffer fuel j bo offset fb)
  = Done {| render_frame_tiling := t; render_frame_draw := d; tile_alloc := b;
            render_rcl :=
              r ++ CL (START_ADDRESS_OF_GENERIC_TILE_LIST
                         (length i) (length i + 6))
                :: map CL (row_major_coordinates
                             (min_x_supertile fb) (max_x_supertile fb)
                             (min_y_supertile fb) (max_y_supertile fb));
            render_indirect :=
              i ++ [TILE_COORDINATES_IMPLICIT; END_OF_LOADS;
                    BRANCH_TO_IMPLICIT_TILE_LIST;
                    STORE_TILE_BUFFER_GENERAL
                      {| buffer_to_store := RENDER_TARGET_0;
                         store_address := {| addr_bo := bo;
                                             addr_offset := offset |};
                         clear_buffer_being_stored := false;
                         output_image_format_ := V3D_OUTPUT_IMAGE_FORMAT_RGBA8UI;
                         store_memory_format := VC5_TILING_RASTER;
                         store_height_in_ub_or_stride := to_uint32 (width t * 4);
                         store_decimate_mode := V3D_DECIMATE_MODE_SAMPLE_0;
                         store_r_b_swap := false;
                         store_channel_reverse := false |};
                    END_OF_TILE_MARKER; RETURN_FROM_SUB_LIST] |}.
Proof.
  forget_helpers.
  intros (Hminx & Hminy & Hmaxx & Hmaxy & Hfx & Hfy).
  unfold with_encoder, emit_fill_buffer.
  cbn [render_frame_tiling render_indirect render_rcl render_frame_draw
       tile_alloc frame_tiling].
  match goal with
  | |- context [emit_supertile_coordinates fuel ?j fb] =>
      destruct (supertile_rectangle_run fuel j fb
                  Hminx Hminy Hmaxx Hmaxy Hfx Hfy)
        as (job' & Hrun & Hft & Hind & Hrcl & _)
  end.
  rewrite Hrun. cbn [bind]. rewrite Hft, Hind, Hrcl.
  unfold emit_fill_buffer_per_tile_list, emit_linear_store.
  cbn [frame_tiling indirect rcl]. unfold cl_emit, v3dv_cl_get_address.
  rewrite <- !app_assoc. cbn [app map]. rewrite !length_app. cbn [length].
  reflexivity.
Qed.

Lemma with_encoder_copy_buffer (fuel : nat) (dst src : v3dv_bo)
  (dst_offset src_offset : Z) (fb : framebuffer_data)
  (format : output_image_format)
  (t : v3dv_frame_tiling) (d : v3dv_frame_tiling_draw) (b : v3dv_bo)
  (r : list rcl_packet) (i : v3dv_cl) :
  rectangle_fits fb fuel ->
  with_encoder {| render_frame_tiling := t; render_frame_draw := d;
                  tile_alloc := b; render_rcl := r; render_indirect := i |}
    (fun j => emit_copy_buffer fuel j dst src dst_offset src_offset fb format)
  = Done {| render_frame_tiling := t; render_frame_draw := d; tile_alloc := b;
            render_rcl :=
              r ++ CL (START_ADDRESS_OF_GENERIC_TILE_LIST
                         (length i) (length i + 7))
                :: map CL (row_major_coordinates
                             (min_x_supertile fb) (max_x_supertile fb)
                             (min_y_supertile fb) (max_y_supertile fb));
            render_indirect :=
              i ++ [TILE_COORDINATES_IMPLICIT;
                    LOAD_TILE_BUFFER_GENERAL
                      {| buffer_to_load := RENDER_TARGET_0;
                         load_address := {| addr_bo := src;
                                            addr_offset := src_offset |};
                         input_image_format := format;
                         load_memory_format := VC5_TILING_RASTER;
                         load_height_in_ub_or_stride := to_uint32 (width t * 4);
                         load_decimate_mode := V3D_DECIMATE_MODE_SAMPLE_0;
                         load_r_b_swap := false;
                         load_channel_reverse := false |};
                    END_OF_LOADS; BRANCH_TO_IMPLICIT_TILE_LIST;
                    STORE_TILE_BUFFER_GENERAL
                      {| buffer_to_store := RENDER_TARGET_0;
                         store_address := {| addr_bo := dst;
                                             addr_offset := dst_offset |};
                         clear_buffer_being_stored := false;
                         output_image_format_ := format;
                         store_memory_format := VC5_TILING_RASTER;
                         store_height_in_ub_or_stride := to_uint32 (width t * 4);
                         store_decimate_mode := V3D_DECIMATE_MODE_SAMPLE_0;
                         store_r_b_swap := false;
                         store_channel_reverse := false |};
                    END_OF_TILE_MARKER; RETURN_FROM_SUB_LIST] |}.
Proof.
  forget_helpers.
  intros (Hminx & Hminy & Hmaxx & Hmaxy & Hfx & Hfy).
  unfold with_encoder, emit_copy_buffer.
  cbn [render_frame_tiling render_indirect render_rcl render_frame_draw
       tile_alloc frame_tiling].
  match goal with
  | |- context [emit_supertile_coordinates fuel ?j fb] =>
      destruct (supertile_rectangle_run fuel j fb
                  Hminx Hminy Hmaxx Hmaxy Hfx Hfy)
        as (job' & Hrun & Hft & Hind & Hrcl & _)
  end.
  rewrite Hrun. cbn [bind]. rewrite Hft, Hind, Hrcl.
  unfold emit_copy_buffer_per_tile_list, emit_linear_store, emit_linear_load.
  cbn [frame_tiling indirect rcl]. unfold cl_emit, v3dv_cl_get_address.
  rewrite <- !app_assoc. cbn [app map]. rewrite !length_app. cbn [length].
  reflexivity.
Qed.

(** X20: the render list of a buffer fill job at 32 bits per pixel: the
    prologue carries the fill word as the low 32 bits of the clear colour
    and no second or third clear-colour record, the frame setup of layer 0
    clears the tile buffers once, and the tile list stores the cleared
    tile as raster RGBA8UI to the buffer object, four bytes per pixel of
    the frame width apart, without loading anything. *)
Theorem fill_buffer_render_list
  (fuel : nat) (job : v3dv_render_job) (bo : v3dv_bo) (offset : Z)
  (fb : framebuffer_data) (data : Z) :
  let t := render_frame_tiling job in
  let d := render_frame_draw job in
  let b := tile_alloc job in
  let start := length (render_indirect job) in
  internal_bpp t < V3D_INTERNAL_BPP_64 ->
  rectangle_fits fb fuel ->
  exists job',
    emit_fill_buffer_rcl fuel job bo offset fb data = Done job'
    /\ render_frame_tiling job' = t
    /\ render_rcl job'
       = render_rcl job
         ++ map CL
              [TILE_RENDERING_MODE_CFG_COMMON true (width t) (height t) 1 false
                 (internal_bpp t);
               TILE_RENDERING_MODE_CFG_CLEAR_COLORS_PART1 data 0 0;
               TILE_RENDERING_MODE_CFG_COLOR (internal_bpp t)
                 (fb_internal_type fb) V3D_RENDER_TARGET_CLAMP_NONE;
               TILE_RENDERING_MODE_CFG_ZS_CLEAR_VALUES data 0;
               TILE_LIST_INITIAL_BLOCK_SIZE true TILE_ALLOCATION_BLOCK_SIZE_64B]
         ++ frame_setup_packets t d b 0 true
         ++ CL (START_ADDRESS_OF_GENERIC_TILE_LIST start (start + 6))
            :: map CL (row_major_coordinates
                         (min_x_supertile fb) (max_x_supertile fb)
                         (min_y_supertile fb) (max_y_supertile fb))
         ++ [END_OF_RENDERING]
    /\ render_indirect job'
       = render_indirect job
         ++ [TILE_COORDINATES_IMPLICIT; END_OF_LOADS;
             BRANCH_TO_IMPLICIT_TILE_LIST;
             STORE_TILE_BUFFER_GENERAL
               {| buffer_to_store := RENDER_TARGET_0;
                  store_address := {| addr_bo := bo; addr_offset := offset |};
                  clear_buffer_being_stored := false;
                  output_image_format_ := V3D_OUTPUT_IMAGE_FORMAT_RGBA8UI;
                  store_memory_format := VC5_TILING_RASTER;
                  store_height_in_ub_or_stride := to_uint32 (width t * 4);
                  store_decimate_mode := V3D_DECIMATE_MODE_SAMPLE_0;
                  store_r_b_swap := false;
                  store_channel_reverse := false |};
             END_OF_TILE_MARKER; RETURN_FROM_SUB_LIST].
Proof.
  intros t d b start Hbpp Hrect.
  destruct job as [t0 d0 b0 r i]. cbn in t, d, b, start. subst t d b start.
  unfold emit_fill_buffer_rcl.
  assert (Hprologue :
    with_encoder
      {| render_frame_tiling := t0; render_frame_draw := d0; tile_alloc := b0;
         render_rcl := r; render_indirect := i |}
      (fun j => emit_rcl_prologue j (fb_internal_type fb)
         (Some {| clear_value := {| color0 := data; color1 := 0; color2 := 0;
                                    color3 := 0 |};
                  clear_image := None;
                  clear_aspects := VK_IMAGE_ASPECT_COLOR_BIT;
                  clear_layer := 0; clear_level := 0 |}))
    = Done {| render_frame_tiling := t0; render_frame_draw := d0;
              tile_alloc := b0;
              render_rcl := r ++ map CL
                [TILE_RENDERING_MODE_CFG_COMMON true (width t0) (height t0) 1
                   false (internal_bpp t0);
                 TILE_RENDERING_MODE_CFG_CLEAR_COLORS_PART1 data 0 0;
                 TILE_RENDERING_MODE_CFG_COLOR (internal_bpp t0)
                   (fb_internal_type fb) V3D_RENDER_TARGET_CLAMP_NONE;
                 TILE_RENDERING_MODE_CFG_ZS_CLEAR_VALUES data 0;
                 TILE_LIST_INITIAL_BLOCK_SIZE true
                   TILE_ALLOCATION_BLOCK_SIZE_64B];
              render_indirect := i |}).
  { unfold with_encoder, emit_rcl_prologue, emit_clear_colors, compute_clear_pad.
    cbn [render_frame_tiling render_indirect render_rcl render_frame_draw
         tile_alloc frame_tiling rcl indirect clear_aspects clear_image
         clear_value color0 color1 color2 color3 bind].
    change (has_aspect VK_IMAGE_ASPECT_COLOR_BIT VK_IMAGE_ASPECT_COLOR_BIT)
      with true. cbn iota. cbn [bind].
    replace (V3D_INTERNAL_BPP_64 <=? internal_bpp t0) with false
      by (symmetry; apply Z.leb_gt; exact Hbpp).
    replace (V3D_INTERNAL_BPP_128 <=? internal_bpp t0) with false
      by (symmetry; apply Z.leb_gt;
          unfold V3D_INTERNAL_BPP_128, V3D_INTERNAL_BPP_64 in *; lia).
    reflexivity. }
  rewrite Hprologue. cbn [bind].
  rewrite emit_frame_setup_packets. unfold rcl_emit.
  cbn [render_frame_tiling render_frame_draw tile_alloc render_rcl
       render_indirect].
  rewrite (with_encoder_fill_buffer fuel bo offset fb t0 d0 b0 _ i Hrect).
  cbn [bind]. eexists. split; [reflexivity|].
  cbn [render_frame_tiling render_rcl render_indirect].
  split; [reflexivity|]. split.
  - rewrite <- !app_assoc. reflexivity.
  - reflexivity.
Qed.

(** X21: the render list of a buffer copy job: the prologue without
    clear colours, the frame setup of layer 0 without a clear, the branch
    record of a tile list of seven packets, the supertile coordinates and
    the end of rendering; the tile list loads from the source and stores
    to the destination with one format and one stride. *)
Theorem copy_buffer_render_list
  (fuel : nat) (job : v3dv_render_job) (dst src : v3dv_bo)
  (dst_offset src_offset : Z) (fb : framebuffer_data)
  (format : output_image_format) :
  let t := render_frame_tiling job in
  let d := render_frame_draw job in
  let b := tile_alloc job in
  let start := length (render_indirect job) in
  let stride := to_uint32 (width t * 4) in
  rectangle_fits fb fuel ->
  exists job',
    emit_copy_buffer_rcl fuel job dst src dst_offset src_offset fb format
    = Done job'
    /\ render_frame_tiling job' = t
    /\ render_rcl job'
       = render_rcl job
         ++ map CL (prologue_packets t (fb_internal_type fb) float_one_bits 0)
         ++ frame_setup_packets t d b 0 false
         ++ CL (START_ADDRESS_OF_GENERIC_TILE_LIST start (start + 7))
            :: map CL (row_major_coordinates
                         (min_x_supertile fb) (max_x_supertile fb)
                         (min_y_supertile fb) (max_y_supertile fb))
         ++ [END_OF_RENDERING]
    /\ render_indirect job'
       = render_indirect job
         ++ [TILE_COORDINATES_IMPLICIT;
             LOAD_TILE_BUFFER_GENERAL
               {| buffer_to_load := RENDER_TARGET_0;
                  load_address := {| addr_bo := src;
                                     addr_offset := src_offset |};
                  input_image_format := format;
                  load_memory_format := VC5_TILING_RASTER;
                  load_height_in_ub_or_stride := stride;
                  load_decimate_mode := V3D_DECIMATE_MODE_SAMPLE_0;
                  load_r_b_swap := false;
                  load_channel_reverse := false |};
             END_OF_LOADS; BRANCH_TO_IMPLICIT_TILE_LIST;
             STORE_TILE_BUFFER_GENERAL
               {| buffer_to_store := RENDER_TARGET_0;
                  store_address := {| addr_bo := dst;
                                      addr_offset := dst_offset |};
                  clear_buffer_being_stored := false;
                  output_image_format_ := format;
                  store_memory_format := VC5_TILING_RASTER;
                  store_height_in_ub_or_stride := stride;
                  store_decimate_mode := V3D_DECIMATE_MODE_SAMPLE_0;
                  store_r_b_swap := false;
                  store_channel_reverse := false |};
             END_OF_TILE_MARKER; RETURN_FROM_SUB_LIST].
Proof.
  intros t d b start stride Hrect.
  destruct job as [t0 d0 b0 r i]. cbn in t, d, b, start, stride.
  subst t d b start stride.
  unfold emit_copy_buffer_rcl.
  rewrite with_encoder_prologue. cbn [bind].
  rewrite emit_frame_setup_packets. unfold rcl_emit.
  cbn [render_frame_tiling render_frame_draw tile_alloc render_rcl
       render_indirect].
  rewrite (with_encoder_copy_buffer fuel dst src dst_offset src_offset fb format
             t0 d0 b0 _ i Hrect).
  cbn [bind]. eexists. split; [reflexivity|].
  cbn [render_frame_tiling render_rcl render_indirect].
  split; [reflexivity|]. split.
  - rewrite <- !app_assoc. reflexivity.
  - reflexivity.
Qed.

Lemma emit_clear_colors_run (tiling : v3dv_frame_tiling)
  (info : rcl_clear_info) (cl : v3dv_cl) (pad : Z) :
  compute_clear_pad tiling info = Done pad ->
  emit_clear_colors tiling info cl
  = Done (cl ++ clear_color_packets tiling (clear_value info) pad).
Proof.
  intros Hpad. unfold emit_clear_colors, clear_color_packets.
  rewrite Hpad. cbn [bind]. unfold cl_emit.
  destruct (V3D_INTERNAL_BPP_64 <=? internal_bpp tiling);
    destruct ((V3D_INTERNAL_BPP_128 <=? internal_bpp tiling) || negb (pad =? 0));
    cbn [app]; rewrite <- ?app_assoc; reflexivity.
Qed.

Lemma with_encoder_clear_image (fuel : nat) (image : v3dv_image)
  (fb : framebuffer_data) (aspects layer level : Z)
  (slice : v3d_resource_slice)
  (t : v3dv_frame_tiling) (d : v3dv_frame_tiling_draw) (b : v3dv_bo)
  (r : list rcl_packet) (i : v3dv_cl) :
  slice_at image level = Done slice ->
  rectangle_fits fb fuel ->
  with_encoder {| render_frame_tiling := t; render_frame_draw := d;
                  tile_alloc := b; render_rcl := r; render_indirect := i |}
    (fun j => emit_clear_image fuel j image fb aspects layer level)
  = Done {| render_frame_tiling := t; render_frame_draw := d; tile_alloc := b;
            render_rcl :=
              r ++ CL (START_ADDRESS_OF_GENERIC_TILE_LIST
                         (length i) (length i + 6))
                :: map CL (row_major_coordinates
                             (min_x_supertile fb) (max_x_supertile fb)
                             (min_y_supertile fb) (max_y_supertile fb));
            render_indirect :=
              i ++ [TILE_COORDINATES_IMPLICIT; END_OF_LOADS;
                    BRANCH_TO_IMPLICIT_TILE_LIST;
                    STORE_TILE_BUFFER_GENERAL
                      {| buffer_to_store :=
                           if aspects =? VK_IMAGE_ASPECT_COLOR_BIT
                           then RENDER_TARGET_0
                           else v3dv_zs_buffer_from_aspect_bits aspects;
                         store_address :=
                           {| addr_bo := image_bo image;
                              addr_offset :=
                                v3dv_layer_offset image level layer |};
                         clear_buffer_being_stored := false;
                         output_image_format_ := rt_type (format fb);
                         store_memory_format := slice_tiling slice;
                         store_height_in_ub_or_stride := height_or_stride slice;
                         store_decimate_mode := decimate_for image;
                         store_r_b_swap :=
                           if has_aspect aspects VK_IMAGE_ASPECT_COLOR_BIT
                           then format_needs_rb_swap (vk_format fb) else false;
                         store_channel_reverse := false |};
                    END_OF_TILE_MARKER; RETURN_FROM_SUB_LIST] |}.
Proof.
  intros Hslice (Hminx & Hminy & Hmaxx & Hmaxy & Hfx & Hfy).
  unfold with_encoder, emit_clear_image, emit_clear_image_per_tile_list.
  cbn [render_frame_tiling render_indirect render_rcl render_frame_draw
       tile_alloc frame_tiling indirect rcl].
  rewrite (emit_image_store_done _ fb image _ _ _ false false slice
             (rt_type (format fb)) Hslice (choose_tlb_format_no_buffer _ _ _)).
  cbn [bind].
  match goal with
  | |- context [emit_supertile_coordinates fuel ?j fb] =>
      destruct (supertile_rectangle_run fuel j fb
                  Hminx Hminy Hmaxx Hmaxy Hfx Hfy)
        as (job' & Hrun & Hft & Hind & Hrcl & _)
  end.
  rewrite Hrun. cbn [bind]. rewrite Hft, Hind, Hrcl.
  cbn [frame_tiling indirect rcl andb orb negb].
  unfold cl_emit, v3dv_cl_get_address.
  rewrite <- !app_assoc. cbn [app map]. rewrite !length_app. cbn [length].
  reflexivity.
Qed.

(** X22: the render list of a job that clears one layer of one mip
    level of an image: the prologue, with the depth and stencil clear
    values and, for the colour aspect only, the clear-colour records;
    the frame setup, always of layer 0 and with the one clear of the tile
    buffers; then the branch record, the supertile coordinates and the
    end of rendering.  The tile list loads nothing and stores the layer
    from the render target for the colour aspect and from the depth and
    stencil buffer of the aspects otherwise. *)
Theorem clear_image_render_list
  (fuel : nat) (job : v3dv_render_job) (image : v3dv_image)
  (fb : framebuffer_data) (cv : v3dv_clear_value)
  (aspects layer level : Z) (slice : v3d_resource_slice) :
  let t := render_frame_tiling job in
  let d := render_frame_draw job in
  let b := tile_alloc job in
  let start := length (render_indirect job) in
  let info := {| clear_value := cv; clear_image := Some image;
                 clear_aspects := aspects; clear_layer := layer;
                 clear_level := level |} in
  let it := fb_internal_type fb in
  slice_at image level = Done slice ->
  rectangle_fits fb fuel ->
  (has_aspect aspects VK_IMAGE_ASPECT_COLOR_BIT = true ->
   exists pad, compute_clear_pad t info = Done pad) ->
  exists job' pro s,
    emit_clear_image_rcl fuel job image fb cv aspects layer level = Done job'
    /\ render_frame_tiling job' = t
    /\ render_rcl job' = render_rcl job ++ clear_render_list t d b fb start pro
    /\ render_indirect job'
       = render_indirect job
         ++ [TILE_COORDINATES_IMPLICIT; END_OF_LOADS;
             BRANCH_TO_IMPLICIT_TILE_LIST; STORE_TILE_BUFFER_GENERAL s;
             END_OF_TILE_MARKER; RETURN_FROM_SUB_LIST]
    /\ (has_aspect aspects VK_IMAGE_ASPECT_COLOR_BIT = false ->
        pro = prologue_packets t it (clear_value_z cv) (clear_value_s cv))
    /\ (forall pad, has_aspect aspects VK_IMAGE_ASPECT_COLOR_BIT = true ->
        compute_clear_pad t info = Done pad ->
        pro = TILE_RENDERING_MODE_CFG_COMMON true (width t) (height t) 1 false
                (internal_bpp t)
              :: clear_color_packets t cv pad
              ++ [TILE_RENDERING_MODE_CFG_COLOR (internal_bpp t) it
                    V3D_RENDER_TARGET_CLAMP_NONE;
                  TILE_RENDERING_MODE_CFG_ZS_CLEAR_VALUES
                    (clear_value_z cv) (clear_value_s cv);
                  TILE_LIST_INITIAL_BLOCK_SIZE true
                    TILE_ALLOCATION_BLOCK_SIZE_64B])
    /\ buffer_to_store s
       = (if aspects =? VK_IMAGE_ASPECT_COLOR_BIT then RENDER_TARGET_0
          else v3dv_zs_buffer_from_aspect_bits aspects)
    /\ store_address s
       = {| addr_bo := image_bo image;
            addr_offset := v3dv_layer_offset image level layer |}
    /\ output_image_format_ s = rt_type (format fb)
    /\ clear_buffer_being_stored s = false.
Proof.
  intros t d b start info it Hslice Hrect Hpad.
  destruct job as [t0 d0 b0 r i]. cbn in t, d, b, start.
  subst t d b start.
  unfold emit_clear_image_rcl. fold info. fold it.
  assert (Hprologue : exists pro,
    with_encoder
      {| render_frame_tiling := t0; render_frame_draw := d0; tile_alloc := b0;
         render_rcl := r; render_indirect := i |}
      (fun j => emit_rcl_prologue j it (Some info))
    = Done {| render_frame_tiling := t0; render_frame_draw := d0;
              tile_alloc := b0; render_rcl := r ++ map CL pro;
              render_indirect := i |}
    /\ (has_aspect aspects VK_IMAGE_ASPECT_COLOR_BIT = false ->
        pro = prologue_packets t0 it (clear_value_z cv) (clear_value_s cv))
    /\ (forall pad, has_aspect aspects VK_IMAGE_ASPECT_COLOR_BIT = true ->
        compute_clear_pad t0 info = Done pad ->
        pro = TILE_RENDERING_MODE_CFG_COMMON true (width t0) (height t0) 1 false
                (internal_bpp t0)
              :: clear_color_packets t0 cv pad
              ++ [TILE_RENDERING_MODE_CFG_COLOR (internal_bpp t0) it
                    V3D_RENDER_TARGET_CLAMP_NONE;
                  TILE_RENDERING_MODE_CFG_ZS_CLEAR_VALUES
                    (clear_value_z cv) (clear_value_s cv);
                  TILE_LIST_INITIAL_BLOCK_SIZE true
                    TILE_ALLOCATION_BLOCK_SIZE_64B])).
  { unfold with_encoder, emit_rcl_prologue.
    cbn [render_frame_tiling render_indirect render_rcl render_frame_draw
         tile_alloc frame_tiling rcl indirect].
    change (clear_aspects info) with aspects.
    change (clear_value info) with cv.
    destruct (has_aspect aspects VK_IMAGE_ASPECT_COLOR_BIT) eqn:Hcolor.
    - destruct (Hpad eq_refl) as [pad Hp].
      rewrite (emit_clear_colors_run t0 info _ pad Hp). cbn [bind].
      eexists. split.
      + cbn [set_rcl frame_tiling rcl indirect]. unfold cl_emit.
        rewrite <- !app_assoc. cbn [app]. reflexivity.
      + split; [discriminate|].
        intros pad' _ Hp'. rewrite Hp in Hp'. injection Hp' as <-.
        change (clear_value info) with cv. reflexivity.
    - cbn [bind]. eexists. split.
      + cbn [set_rcl frame_tiling rcl indirect]. unfold cl_emit.
        cbn [app]. reflexivity.
      + split; [reflexivity|discriminate]. }
  destruct Hprologue as (pro & Hrun & Hnocolor & Hcolor).
  rewrite Hrun. cbn [bind].
  rewrite emit_frame_setup_packets. unfold rcl_emit.
  cbn [render_frame_tiling render_frame_draw tile_alloc render_rcl
       render_indirect].
  rewrite (with_encoder_clear_image fuel image fb aspects layer level slice
             t0 d0 b0 _ i Hslice Hrect).
  cbn [bind]. do 3 eexists. split; [reflexivity|].
  cbn [render_frame_tiling render_rcl render_indirect].
  split; [reflexivity|]. split.
  { unfold clear_render_list. rewrite <- !app_assoc. reflexivity. }
  split; [reflexivity|].
  split; [exact Hnocolor|]. split; [exact Hcolor|].
  repeat split.
Qed.

(** ** The box of a blit *)

Lemma int_result_small (z : Z) : 0 <= z < 2 ^ 31 -> int_result z = Done z.
Proof.
  forget_helpers. intros Hz. unfold int_result, INT_MAX.
  replace (- 2 ^ 31 <=? z) with true by (symmetry; apply Z.leb_le; lia).
  replace (z <=? 2 ^ 31 - 1) with true by (symmetry; apply Z.leb_le; lia).
  reflexivity.
Qed.

(** One axis from its nearer end [lo] to its farther end [hi]. *)
Lemma compute_blit_axis_ordered (MIN2 : Z -> Z -> Z) (lo hi size : Z) :
  is_minimum MIN2 ->
  0 < size < 2 ^ 31 -> 0 <= lo <= hi -> hi < 2 ^ 31 -> lo <= size ->
  exists x w,
    compute_blit_axis MIN2 lo hi size = Done (false, x, w)
    /\ (lo < hi -> compute_blit_axis MIN2 hi lo size = Done (true, x, w))
    /\ x = Z.min lo (size - 1)
    /\ w = Z.min (hi - lo) (size - lo)
    /\ 0 <= w /\ x + w <= size.
Proof.
  forget_helpers. intros Hmin Hsize Hlo Hhi Hin.
  exists (Z.min lo (size - 1)), (Z.min (hi - lo) (size - lo)).
  assert (Hx : MIN2 (to_uint32 lo) (to_uint32 (size - 1)) = Z.min lo (size - 1)).
  { rewrite Hmin, !to_uint32_small by lia.
    destruct (lo <? size - 1) eqn:E;
      [apply Z.ltb_lt in E|apply Z.ltb_ge in E]; lia. }
  assert (Hw : MIN2 (to_uint32 (hi - lo)) (to_uint32 (size - to_uint32 lo))
               = Z.min (hi - lo) (size - lo)).
  { rewrite Hmin, (to_uint32_small lo) by lia.
    rewrite !to_uint32_small by lia.
    destruct (hi - lo <? size - lo) eqn:E;
      [apply Z.ltb_lt in E|apply Z.ltb_ge in E]; lia. }
  split; [|split; [|split; [reflexivity|split; [reflexivity|split]]]].
  - unfold compute_blit_axis.
    replace (lo <=? hi) with true by (symmetry; apply Z.leb_le; lia).
    rewrite int_result_small by lia. cbn [bind]. rewrite Hx, Hw. reflexivity.
  - intros Hlt. unfold compute_blit_axis.
    replace (hi <=? lo) with false by (symmetry; apply Z.leb_gt; lia).
    rewrite int_result_small by lia. cbn [bind]. rewrite Hx, Hw. reflexivity.
  - lia.
  - lia.
Qed.

Lemma compute_blit_axis_run (MIN2 : Z -> Z -> Z) (near far size : Z) :
  is_minimum MIN2 ->
  0 < size < 2 ^ 31 ->
  0 <= near < 2 ^ 31 -> 0 <= far < 2 ^ 31 ->
  Z.min near far <= size ->
  exists x w,
    compute_blit_axis MIN2 near far size = Done (far <? near, x, w)
    /\ compute_blit_axis MIN2 far near size = Done (near <? far, x, w)
    /\ x = Z.min (Z.min near far) (size - 1)
    /\ 0 <= w /\ x + w <= size
    /\ (near <= size -> far <= size -> w = Z.abs (far - near)).
Proof.
  forget_helpers. intros Hmin Hsize Hnear Hfar Hlo.
  destruct (Z.lt_total near far) as [Hlt | [Heq | Hgt]].
  - destruct (compute_blit_axis_ordered MIN2 near far size Hmin Hsize
                ltac:(lia) ltac:(lia) ltac:(lia))
      as (x & w & Hfwd & Hback & Hx & Hw & Hw0 & Hxw).
    exists x, w.
    replace (far <? near) with false by (symmetry; apply Z.ltb_ge; lia).
    replace (near <? far) with true by (symmetry; apply Z.ltb_lt; lia).
    split; [exact Hfwd|]. split; [exact (Hback Hlt)|].
    split; [rewrite Hx; f_equal; lia|]. split; [exact Hw0|].
    split; [exact Hxw|]. intros _ Hf. rewrite Hw. lia.
  - subst far.
    destruct (compute_blit_axis_ordered MIN2 near near size Hmin Hsize
                ltac:(lia) ltac:(lia) ltac:(lia))
      as (x & w & Hfwd & _ & Hx & Hw & Hw0 & Hxw).
    exists x, w. rewrite Z.ltb_irrefl.
    split; [exact Hfwd|]. split; [exact Hfwd|].
    split; [rewrite Hx; f_equal; lia|]. split; [exact Hw0|].
    split; [exact Hxw|]. intros _ Hf. rewrite Hw. lia.
  - destruct (compute_blit_axis_ordered MIN2 far near size Hmin Hsize
                ltac:(lia) ltac:(lia) ltac:(lia))
      as (x & w & Hfwd & Hback & Hx & Hw & Hw0 & Hxw).
    exists x, w.
    replace (far <? near) with true by (symmetry; apply Z.ltb_lt; lia).
    replace (near <? far) with false by (symmetry; apply Z.ltb_ge; lia).
    split; [exact (Hback Hgt)|]. split; [exact Hfwd|].
    split; [rewrite Hx; f_equal; lia|]. split; [exact Hw0|].
    split; [exact Hxw|]. intros Hn _. rewrite Hw. lia.
Qed.

(** X23: for two corners with non-negative coordinates, the nearer of
    which lies inside the image in each axis, the blit box starts at the
    nearer corner, is as wide and high as the corners are apart, cut at
    the edge of the image, and never reaches past the image; an axis is
    mirrored exactly when its second offset is below the first, so
    swapping the two offsets gives the same box. *)
Theorem compute_blit_box_stays_in_image
  (MIN2 : Z -> Z -> Z) (o0 o1 : VkOffset3D) (extent : VkExtent3D) :
  let W := extent_width extent in
  let H := extent_height extent in
  is_minimum MIN2 ->
  0 < W < 2 ^ 31 -> 0 < H < 2 ^ 31 ->
  0 <= offset_x o0 < 2 ^ 31 -> 0 <= offset_x o1 < 2 ^ 31 ->
  0 <= offset_y o0 < 2 ^ 31 -> 0 <= offset_y o1 < 2 ^ 31 ->
  Z.min (offset_x o0) (offset_x o1) <= W ->
  Z.min (offset_y o0) (offset_y o1) <= H ->
  exists box swapped,
    compute_blit_box MIN2 (o0, o1) extent = Done box
    /\ compute_blit_box MIN2 (o1, o0) extent = Done swapped
    /\ box_mirror_x box = (offset_x o1 <? offset_x o0)
    /\ box_mirror_y box = (offset_y o1 <? offset_y o0)
    /\ box_x box = Z.min (Z.min (offset_x o0) (offset_x o1)) (W - 1)
    /\ box_y box = Z.min (Z.min (offset_y o0) (offset_y o1)) (H - 1)
    /\ 0 <= box_w box /\ 0 <= box_h box
    /\ box_x box + box_w box <= W /\ box_y box + box_h box <= H
    /\ (offset_x o0 <= W -> offset_x o1 <= W ->
        box_w box = Z.abs (offset_x o1 - offset_x o0))
    /\ (offset_y o0 <= H -> offset_y o1 <= H ->
        box_h box = Z.abs (offset_y o1 - offset_y o0))
    /\ box_x swapped = box_x box /\ box_y swapped = box_y box
    /\ box_w swapped = box_w box /\ box_h swapped = box_h box.
Proof.
  forget_helpers.
  intros W H Hmin HW HH Hx0 Hx1 Hy0 Hy1 Hlox Hloy.
  destruct (compute_blit_axis_run MIN2 (offset_x o0) (offset_x o1) W
              Hmin HW Hx0 Hx1 Hlox)
    as (x & w & Hax & Hax' & Hx & Hw0 & Hxw & Hwfull).
  destruct (compute_blit_axis_run MIN2 (offset_y o0) (offset_y o1) H
              Hmin HH Hy0 Hy1 Hloy)
    as (y & h & Hay & Hay' & Hy & Hh0 & Hyh & Hhfull).
  unfold compute_blit_box. fold W H.
  rewrite Hax, Hay, Hax', Hay'. cbn [bind].
  do 2 eexists. split; [reflexivity|]. split; [reflexivity|].
  cbn [box_x box_y box_w box_h box_mirror_x box_mirror_y].
  split; [reflexivity|]. split; [reflexivity|].
  split; [exact Hx|]. split; [exact Hy|].
  split; [exact Hw0|]. split; [exact Hh0|].
  split; [exact Hxw|]. split; [exact Hyh|].
  split; [exact Hwfull|]. split; [exact Hhfull|].
  repeat split.
Qed.

(** ** The objects of a shader blit *)

Lemma created_app (a b : list blit_call) :
  created (a ++ b) = created a ++ created b.
Proof. unfold created. apply flat_map_app. Qed.

Lemma destroyed_app (a b : list blit_call) :
  destroyed (a ++ b) = destroyed a ++ destroyed b.
Proof. unfold destroyed. apply flat_map_app. Qed.

(** Enumerates the ways an iteration can end. *)
Ltac layer_cases succeeds i :=
  unfold blit_layer;
  destruct (succeeds create_dst_image_view i);
  [destruct (succeeds create_framebuffer i);
   [destruct (succeeds allocate_descriptor_set i);
    [destruct (succeeds create_sampler i);
     [destruct (succeeds create_src_image_view i);
      [destruct (succeeds begin_render_pass i)|]|]|]|]|];
  cbn [negb andb].

(** An iteration that does not fail to create its source view returns,
    destroys what it created and nothing else, and is complete exactly
    when all its steps succeed. *)
Lemma blit_layer_run (succeeds : blit_step -> Z -> bool) (box : blit_box)
  (i : Z) :
  (reaches_src_image_view succeeds i = true ->
   succeeds create_src_image_view i = true) ->
  exists calls e,
    blit_layer succeeds box i = Done (calls, e)
    /\ (forall o, In o (created calls) <-> In o (destroyed calls))
    /\ (e = layer_drawn -> layer_succeeds succeeds i = true)
    /\ (e <> layer_drawn -> layer_succeeds succeeds i = false).
Proof.
  forget_helpers. unfold reaches_src_image_view, layer_succeeds.
  intros Hsrc. layer_cases succeeds i;
    try (specialize (Hsrc eq_refl); discriminate Hsrc);
    (do 2 eexists; split; [reflexivity|]; split;
     [intros o; cbn; intuition congruence
     |split; intros He; solve [reflexivity | discriminate He
                              | exfalso; apply He; reflexivity]]).
Qed.

(** An iteration whose source view cannot be created reads the
    variable that was never written. *)
Lemma blit_layer_undefined (succeeds : blit_step -> Z -> bool) (box : blit_box)
  (i : Z) :
  reaches_src_image_view succeeds i = true ->
  succeeds create_src_image_view i = false ->
  blit_layer succeeds box i = Undefined_behaviour.
Proof.
  forget_helpers. unfold reaches_src_image_view. intros Hreach Hsrc.
  apply andb_true_iff in Hreach. destruct Hreach as [Hreach H4].
  apply andb_true_iff in Hreach. destruct Hreach as [Hreach H3].
  apply andb_true_iff in Hreach. destruct Hreach as [H1 H2].
  unfold blit_layer. rewrite H1, H2, H3, H4, Hsrc. reflexivity.
Qed.

(** An iteration whose destination view is created does not leave the
    loop. *)
Lemma blit_layer_stays (succeeds : blit_step -> Z -> bool) (box : blit_box)
  (i : Z) (calls : list blit_call) (e : layer_end) :
  succeeds create_dst_image_view i = true ->
  blit_layer succeeds box i = Done (calls, e) -> e <> loop_left.
Proof.
  forget_helpers. intros Hdst. unfold blit_layer. rewrite Hdst. cbn [negb].
  destruct (succeeds create_framebuffer i);
    destruct (succeeds allocate_descriptor_set i);
    destruct (succeeds create_sampler i);
    destruct (succeeds create_src_image_view i);
    destruct (succeeds begin_render_pass i); cbn [negb];
    intros Hrun; inversion Hrun; discriminate.
Qed.

(** The loop returns when no layer fails to create its source view; it
    returns [true] only when it was entered with [true] and every step of
    every layer succeeded, and it destroys what it created. *)
Lemma blit_layers_run (succeeds : blit_step -> Z -> bool) (box : blit_box)
  (layers : list Z) :
  (forall i, In i layers -> reaches_src_image_view succeeds i = true ->
             succeeds create_src_image_view i = true) ->
  forall ok dirty,
    exists calls ok' dirty',
      blit_layers succeeds box layers ok dirty = Done (calls, ok', dirty')
      /\ ok' = ok && forallb (layer_succeeds succeeds) layers
      /\ (forall o, In o (created calls) <-> In o (destroyed calls)).
Proof.
  forget_helpers.
  induction layers as [|i rest IH]; intros Hsrc ok dirty;
    cbn [blit_layers forallb].
  - exists [], ok, dirty. split; [reflexivity|].
    split; [now rewrite andb_true_r|]. intros o. cbn. tauto.
  - destruct (blit_layer_run succeeds box i)
      as (calls & e & Hrun & Hbal & Hdrawn & Hnot);
      [apply Hsrc; left; reflexivity|].
    rewrite Hrun. cbn [bind].
    assert (Hrest : forall j, In j rest ->
                      reaches_src_image_view succeeds j = true ->
                      succeeds create_src_image_view j = true)
      by (intros j Hj; apply Hsrc; right; exact Hj).
    destruct e.
    + destruct (IH Hrest ok dirty_viewport_scissor)
        as (later & ok' & dirty' & Hloop & Hok & Hlater).
      rewrite Hloop. cbn [bind]. exists (calls ++ later), ok', dirty'.
      split; [reflexivity|]. split.
      * rewrite (Hdrawn eq_refl). exact Hok.
      * intros o. rewrite created_app, destroyed_app, !in_app_iff.
        rewrite (Hbal o), (Hlater o). tauto.
    + destruct (IH Hrest false dirty)
        as (later & ok' & dirty' & Hloop & Hok & Hlater).
      rewrite Hloop. cbn [bind]. exists (calls ++ later), ok', dirty'.
      split; [reflexivity|]. split.
      * rewrite Hnot by discriminate. rewrite Hok.
        cbn [andb]. now rewrite andb_false_r.
      * intros o. rewrite created_app, destroyed_app, !in_app_iff.
        rewrite (Hbal o), (Hlater o). tauto.
    + exists calls, false, dirty. split; [reflexivity|]. split.
      * rewrite Hnot by discriminate. cbn [andb]. now rewrite andb_false_r.
      * exact Hbal.
Qed.

(** The loop reaches every layer before which no destination view
    failed to be created; a source view that cannot be created there
    makes the whole run undefined. *)
Lemma blit_layers_undefined (succeeds : blit_step -> Z -> bool) (box : blit_box)
  (i : Z) (post : list Z) :
  reaches_src_image_view succeeds i = true ->
  succeeds create_src_image_view i = false ->
  forall (pre : list Z) ok dirty,
    (forall j, In j pre -> succeeds create_dst_image_view j = true) ->
    blit_layers succeeds box (pre ++ i :: post) ok dirty = Undefined_behaviour.
Proof.
  forget_helpers. intros Hreach Hsrc.
  induction pre as [|j pre IH]; intros ok dirty Hdst; cbn [app blit_layers].
  - rewrite (blit_layer_undefined succeeds box i Hreach Hsrc). reflexivity.
  - assert (Hj : succeeds create_dst_image_view j = true)
      by (apply Hdst; left; reflexivity).
    assert (Hpre : forall k, In k pre -> succeeds create_dst_image_view k = true)
      by (intros k Hk; apply Hdst; right; exact Hk).
    destruct (blit_layer succeeds box j) as [[calls e]| | | |] eqn:Hrun;
      try reflexivity.
    + pose proof (blit_layer_stays succeeds box j calls e Hj Hrun) as Hstay.
      cbn [bind]. destruct e; [| |contradiction].
      * rewrite (IH ok dirty_viewport_scissor Hpre). reflexivity.
      * rewrite (IH false dirty Hpre). reflexivity.
    + exfalso. revert Hrun. unfold blit_layer.
      destruct (succeeds create_dst_image_view j);
        destruct (succeeds create_framebuffer j);
        destruct (succeeds allocate_descriptor_set j);
        destruct (succeeds create_sampler j);
        destruct (succeeds create_src_image_view j);
        destruct (succeeds begin_render_pass j); cbn [negb]; discriminate.
    + exfalso. revert Hrun. unfold blit_layer.
      destruct (succeeds create_dst_image_view j);
        destruct (succeeds create_framebuffer j);
        destruct (succeeds allocate_descriptor_set j);
        destruct (succeeds create_sampler j);
        destruct (succeeds create_src_image_view j);
        destruct (succeeds begin_render_pass j); cbn [negb]; discriminate.
    + exfalso. revert Hrun. unfold blit_layer.
      destruct (succeeds create_dst_image_view j);
        destruct (succeeds create_framebuffer j);
        destruct (succeeds allocate_descriptor_set j);
        destruct (succeeds create_sampler j);
        destruct (succeeds create_src_image_view j);
        destruct (succeeds begin_render_pass j); cbn [negb]; discriminate.
Qed.

Lemma Zseq_app (a b : nat) :
  forall start,
    Zseq start (a + b) = Zseq start a ++ Zseq (start + Z.of_nat a) b.
Proof.
  forget_helpers.
  induction a as [|a IH]; intros start.
  - cbn [Nat.add Zseq app]. change (Z.of_nat 0) with 0.
    now rewrite Z.add_0_r.
  - cbn [Nat.add Zseq app]. rewrite IH.
    replace (start + Z.of_nat (S a)) with (start + 1 + Z.of_nat a) by lia.
    reflexivity.
Qed.

Lemma Zseq_split (n : nat) (i : Z) :
  0 <= i < Z.of_nat n ->
  Zseq 0 n = Zseq 0 (Z.to_nat i) ++ i :: Zseq (i + 1) (n - Z.to_nat i - 1)
  /\ ~ In i (Zseq 0 (Z.to_nat i))
  /\ ~ In i (Zseq (i + 1) (n - Z.to_nat i - 1)).
Proof.
  forget_helpers. intros Hi. split; [|split].
  - replace n with (Z.to_nat i + S (n - Z.to_nat i - 1))%nat at 1 by lia.
    rewrite Zseq_app. cbn [Zseq]. rewrite Z2Nat.id by lia.
    rewrite Z.add_0_l. reflexivity.
  - intros Hin. apply Zseq_members in Hin. lia.
  - intros Hin. apply Zseq_members in Hin. lia.
Qed.

Lemma Zseq_contains (len : nat) :
  forall start x, start <= x < start + Z.of_nat len -> In x (Zseq start len).
Proof.
  forget_helpers.
  induction len as [|len IH]; intros start x Hx; cbn [Zseq].
  - lia.
  - destruct (Z.eq_dec x start) as [-> | Hne]; [left; reflexivity|].
    right. apply IH. lia.
Qed.


(** ** The transfer-unit blit *)

Lemma blit_tfu_layers_jobs (u_minify : Z -> Z -> Z) (dst src : v3dv_image)
  (region : VkImageBlit) (layer_count dst_width dst_height : Z)
  (turns : list Z) :
  forall jobs result,
    blit_tfu_layers u_minify dst src region layer_count dst_width dst_height
      turns jobs = Done result ->
    exists new,
      result = jobs ++ new
      /\ length new = length turns
      /\ Forall (fun j =>
                   tfu_width j = dst_width /\ tfu_height j = dst_height
                   /\ tfu_dst_mip_level j = mipLevel (blit_dstSubresource region)
                   /\ tfu_src_mip_level j = mipLevel (blit_srcSubresource region))
           new.
Proof.
  forget_helpers.
  induction turns as [|i rest IH]; intros jobs result Hrun;
    cbn [blit_tfu_layers] in Hrun.
  - injection Hrun as <-. exists []. rewrite app_nil_r.
    repeat split. constructor.
  - destruct (tfu_layer u_minify src _ layer_count i) as [sl| | | |];
      cbn [bind] in Hrun; try discriminate.
    destruct (tfu_layer u_minify dst _ layer_count i) as [dl| | | |];
      cbn [bind] in Hrun; try discriminate.
    destruct (IH _ _ Hrun) as (new & Hres & Hlen & Hall).
    eexists (_ :: new). rewrite Hres, <- app_assoc. cbn [app length].
    split; [reflexivity|]. split; [now rewrite Hlen|].
    constructor; [cbn; repeat split|exact Hall].
Qed.

Lemma blit_tfu_layers_plain (u_minify : Z -> Z -> Z) (dst src : v3dv_image)
  (dst_extent : VkExtent3D) (region : VkImageBlit) (layer_count : Z)
  (turns : list Z) :
  image_type dst <> VK_IMAGE_TYPE_3D -> image_type src <> VK_IMAGE_TYPE_3D ->
  forall jobs,
    blit_tfu_layers u_minify dst src region layer_count
      (u_minify (extent_width dst_extent) (mipLevel (blit_dstSubresource region)))
      (u_minify (extent_height dst_extent) (mipLevel (blit_dstSubresource region)))
      turns jobs
    = Done (jobs ++ map (tfu_job_of u_minify dst_extent region) turns).
Proof.
  forget_helpers. intros Hdst Hsrc.
  induction turns as [|i rest IH]; intros jobs; cbn [blit_tfu_layers map].
  - now rewrite app_nil_r.
  - unfold tfu_layer.
    destruct (image_type dst); try contradiction;
      destruct (image_type src); try contradiction;
      cbn [bind]; rewrite IH, <- app_assoc; reflexivity.
Qed.

(** Peels the tests of [blit_tfu] off a run that is known to accept. *)
Ltac tfu_test H :=
  match type of H with
  | (if ?c then _ else _) = _ =>
      let E := fresh "E" in
      destruct c eqn:E; [discriminate H|]
  end.

(** X25: the transfer unit takes a blit all or nothing.  When it refuses
    it has emitted no job.  When it accepts, the filter is nearest, the
    two formats are equal, supported for texturing and not depth or
    stencil, the destination level is not raster, both regions start at
    x = 0, y = 0, the destination region reaches the last column and row
    of the level and the two regions end at the same point; it then
    emits one job per layer of the region, each of the size of the
    destination level.  Under these conditions a blit between images
    that are not 3D is accepted, with the jobs of the layers in order. *)
Theorem blit_tfu_all_or_nothing
  (supports : Z -> bool) (u_minify : Z -> Z -> Z) (dst src : v3dv_image)
  (dst_extent : VkExtent3D) (dst_tex_type : Z)
  (region : VkImageBlit) (filter : VkFilter) :
  let level := mipLevel (blit_dstSubresource region) in
  let n := layerCount (blit_dstSubresource region) in
  (forall jobs,
     blit_tfu supports u_minify dst src dst_extent dst_tex_type region filter
     = Done (false, jobs) -> jobs = [])
  /\ (forall jobs,
        blit_tfu supports u_minify dst src dst_extent dst_tex_type region filter
        = Done (true, jobs) ->
        (exists slice,
           tfu_takes supports u_minify dst src dst_extent dst_tex_type region
             filter slice)
        /\ n = layerCount (blit_srcSubresource region)
        /\ length jobs = Z.to_nat n
        /\ Forall (fun j =>
                     tfu_width j = u_minify (extent_width dst_extent) level
                     /\ tfu_height j = u_minify (extent_height dst_extent) level
                     /\ tfu_dst_mip_level j = level
                     /\ tfu_src_mip_level j
                        = mipLevel (blit_srcSubresource region))
             jobs)
  /\ (forall slice,
        tfu_takes supports u_minify dst src dst_extent dst_tex_type region
          filter slice ->
        n = layerCount (blit_srcSubresource region) ->
        image_type dst <> VK_IMAGE_TYPE_3D ->
        image_type src <> VK_IMAGE_TYPE_3D ->
        blit_tfu supports u_minify dst src dst_extent dst_tex_type region filter
        = Done (true, map (tfu_job_of u_minify dst_extent region)
                        (Zseq 0 (Z.to_nat n)))).
Proof.
  forget_helpers. intros level n. split; [|split].
  - intros jobs Hrun. unfold blit_tfu in Hrun.
    destruct filter; [|injection Hrun as <-; reflexivity].
    repeat match type of Hrun with
           | (if ?c then _ else _) = _ =>
               destruct c; [injection Hrun as <-; reflexivity|]
           | bind ?m _ = _ => destruct m; cbn [bind] in Hrun; try discriminate
           | match slice_tiling ?s with _ => _ end = _ =>
               destruct (slice_tiling s);
               try (injection Hrun as <-; reflexivity)
           end.
  - intros jobs Hrun. unfold blit_tfu in Hrun.
    destruct filter; [|discriminate].
    tfu_test Hrun. tfu_test Hrun. tfu_test Hrun.
    fold level in Hrun.
    destruct (slice_at dst level) as [slice| | | |] eqn:Hslice;
      cbn [bind] in Hrun; try discriminate.
    assert (Hrest :
      slice_tiling slice <> VC5_TILING_RASTER
      /\ (if negb (offset_x (fst (blit_srcOffsets region)) =? 0)
             || negb (offset_y (fst (blit_srcOffsets region)) =? 0)
          then Done (false, [])
          else if negb (offset_x (fst (blit_dstOffsets region)) =? 0)
                  || negb (offset_y (fst (blit_dstOffsets region)) =? 0)
          then Done (false, [])
          else if (to_uint32 (offset_x (snd (blit_dstOffsets region)))
                   <? to_uint32 (u_minify (extent_width dst_extent) level - 1))
                  || (to_uint32 (offset_y (snd (blit_dstOffsets region)))
                      <? to_uint32 (u_minify (extent_height dst_extent) level
                                    - 1))
          then Done (false, [])
          else if negb (offset_x (snd (blit_srcOffsets region))
                        =? offset_x (snd (blit_dstOffsets region)))
                  || negb (offset_y (snd (blit_srcOffsets region))
                           =? offset_y (snd (blit_dstOffsets region)))
          then Done (false, [])
          else
            c_assert (n =? layerCount (blit_srcSubresource region)) ;;;
            jobs <- blit_tfu_layers u_minify dst src region n
                      (u_minify (extent_width dst_extent) level)
                      (u_minify (extent_height dst_extent) level)
                      (Zseq 0 (Z.to_nat n)) [] ;;
            Done (true, jobs)) = Done (true, jobs)).
    { destruct (slice_tiling slice); try discriminate; split;
        try discriminate; exact Hrun. }
    clear Hrun. destruct Hrest as [Htiling Hrun].
    tfu_test Hrun. tfu_test Hrun. tfu_test Hrun. tfu_test Hrun.
    destruct (n =? layerCount (blit_srcSubresource region)) eqn:Hcount;
      cbn [c_assert bind] in Hrun; try discriminate.
    destruct (blit_tfu_layers u_minify dst src region n _ _ _ [])
      as [result| | | |] eqn:Hloop; cbn [bind] in Hrun; try discriminate.
    injection Hrun as <-.
    destruct (blit_tfu_layers_jobs _ _ _ _ _ _ _ _ _ _ Hloop)
      as (new & -> & Hlen & Hall).
    cbn [app]. rewrite Zseq_length in Hlen.
    apply negb_false_iff in E, E0.
    apply Z.eqb_eq in E. apply Z.eqb_eq in Hcount.
    apply orb_false_elim in E2, E3, E4, E5.
    destruct E2 as [A1 A2], E3 as [B1 B2], E4 as [C1 C2], E5 as [D1 D2].
    apply negb_false_iff in A1, A2, B1, B2, D1, D2.
    apply Z.eqb_eq in A1, A2, B1, B2, D1, D2.
    apply Z.ltb_ge in C1, C2.
    split; [|split; [exact Hcount|split; [exact Hlen|exact Hall]]].
    exists slice. unfold tfu_takes. fold level.
    repeat split; assumption.
  - intros slice Htakes Hcount Hdst Hsrc.
    destruct Htakes as (Hf & Hfmt & Hsup & Hcol & Hslice & Htiling & A1 & A2
                        & B1 & B2 & C1 & C2 & D1 & D2).
    fold level in Hslice, C1, C2.
    unfold blit_tfu. rewrite Hf, Hfmt, Z.eqb_refl, Hsup, Hcol. cbn [negb].
    fold level. rewrite Hslice. cbn [bind].
    rewrite A1, A2, B1, B2, D1, D2, !Z.eqb_refl. cbn [negb orb].
    replace (to_uint32 (offset_x (snd (blit_dstOffsets region)))
             <? to_uint32 (u_minify (extent_width dst_extent) level - 1))
      with false by (symmetry; apply Z.ltb_ge; exact C1).
    replace (to_uint32 (offset_y (snd (blit_dstOffsets region)))
             <? to_uint32 (u_minify (extent_height dst_extent) level - 1))
      with false by (symmetry; apply Z.ltb_ge; exact C2).
    cbn [orb]. fold n. rewrite <- Hcount, Z.eqb_refl. cbn [c_assert bind].
    rewrite (blit_tfu_layers_plain u_minify dst src dst_extent region n _
               Hdst Hsrc).
    cbn [bind app].
    destruct (slice_tiling slice); try contradiction; reflexivity.
Qed.

(** *** Image clears: one job per level and layer *)

Lemma clear_layers_loop_run (job_ok : nat -> bool) (job_of : Z -> clear_job) :
  forall (k fuel : nat) (layer : Z) (n : nat) (jobs : list clear_job),
    (k <= fuel)%nat ->
    0 <= layer -> layer + Z.of_nat k < 2 ^ 32 ->
    (forall i, (n <= i < n + k)%nat -> job_ok i = true) ->
    clear_layers_loop fuel job_ok true job_of layer (layer + Z.of_nat k) n jobs
    = Done (jobs ++ map job_of (Zseq layer k), (n + k)%nat).
Proof.
  forget_helpers.
  induction k as [|k IH]; intros fuel layer n jobs Hfuel Hlo Hhi Hjobs.
  - replace (layer + Z.of_nat 0) with layer by lia.
    destruct fuel; cbn [clear_layers_loop]; rewrite Z.ltb_irrefl;
      now rewrite app_nil_r, Nat.add_0_r.
  - destruct fuel as [|fuel]; [lia|].
    cbn [clear_layers_loop].
    replace (layer <? layer + Z.of_nat (S k)) with true
      by (symmetry; apply Z.ltb_lt; lia).
    rewrite (Hjobs n) by lia. cbn [negb c_assert bind].
    assert (Hwrap : to_uint32 (layer + 1) = layer + 1)
      by (unfold to_uint32; apply Z.mod_small; lia).
    rewrite Hwrap.
    replace (layer + Z.of_nat (S k)) with (layer + 1 + Z.of_nat k) by lia.
    rewrite IH; [|lia|lia|lia|intros i Hi; apply Hjobs; lia].
    cbn [Zseq map]. rewrite <- app_assoc. cbn [app].
    f_equal. f_equal. lia.
Qed.

Lemma clear_levels_loop_run (job_ok : nat -> bool) (job_of : Z -> Z -> clear_job)
  (min_layer : Z) (max_layer_of : Z -> Z) (fuel_layers : nat) :
  0 <= min_layer ->
  forall (k fuel : nat) (level : Z) (n : nat) (jobs : list clear_job),
    (k <= fuel)%nat ->
    0 <= level -> level + Z.of_nat k < 2 ^ 32 ->
    (forall l, level <= l < level + Z.of_nat k ->
       min_layer <= max_layer_of l < 2 ^ 32 /\
       (Z.to_nat (max_layer_of l - min_layer) <= fuel_layers)%nat) ->
    let result :=
      flat_map (fun l => map (job_of l)
                           (Zseq min_layer (Z.to_nat (max_layer_of l - min_layer))))
        (Zseq level k) in
    (forall i, (n <= i < n + length result)%nat -> job_ok i = true) ->
    clear_levels_loop fuel fuel_layers job_ok true job_of min_layer max_layer_of
      level (level + Z.of_nat k) n jobs
    = Done (jobs ++ result, (n + length result)%nat).
Proof.
  forget_helpers.
  intros Hmin.
  induction k as [|k IH]; intros fuel level n jobs Hfuel Hlo Hhi Hlayers result Hjobs.
  - replace (level + Z.of_nat 0) with level by lia.
    destruct fuel; cbn [clear_levels_loop]; rewrite Z.ltb_irrefl;
      subst result; cbn; now rewrite app_nil_r, Nat.add_0_r.
  - destruct fuel as [|fuel]; [lia|].
    cbn [clear_levels_loop].
    replace (level <? level + Z.of_nat (S k)) with true
      by (symmetry; apply Z.ltb_lt; lia).
    destruct (Hlayers level) as [Hrange Hfl]; [lia|].
    subst result. cbn [Zseq flat_map] in *.
    rewrite length_app, length_map in Hjobs.
    set (K := Z.to_nat (max_layer_of level - min_layer)) in *.
    replace (max_layer_of level) with (min_layer + Z.of_nat K)
      by (unfold K; lia).
    rewrite clear_layers_loop_run;
      [|exact Hfl|lia|unfold K; lia
       |intros i Hi; apply Hjobs; rewrite Zseq_length; lia].
    cbn [bind].
    assert (Hwrap : to_uint32 (level + 1) = level + 1)
      by (unfold to_uint32; apply Z.mod_small; lia).
    rewrite Hwrap.
    replace (level + Z.of_nat (S k)) with (level + 1 + Z.of_nat k) by lia.
    rewrite IH;
      [|lia|lia|lia|intros l Hl; apply Hlayers; lia
       |intros i Hi; apply Hjobs; rewrite Zseq_length in *; lia].
    rewrite length_app, length_map, Zseq_length, <- app_assoc.
    replace (min_layer + Z.of_nat K) with (max_layer_of level)
      by (unfold K; lia).
    fold K. f_equal. f_equal. lia.
Qed.

(** X27: a clear of a subresource range starts one
    job for every level of the range and every layer of that level, level
    by level: the layers of the range for an image that is not 3D, all the
    depth slices of the level for a 3D image, whatever the range says of
    layers.  Each job has the level's minified width and height and the
    one clear value built before the loops.  [VK_REMAINING_MIP_LEVELS] and
    [VK_REMAINING_ARRAY_LAYERS] stand for what the image has beyond the
    base. *)
Theorem clear_image_tlb_one_job_per_level_and_layer
  (for_output_format : output_image_format -> internal_type * Z)
  (hw_color : VkClearValue -> internal_type -> Z -> v3dv_clear_value)
  (pack_color : VkClearValue -> VkFormat -> list Z)
  (u_minify : Z -> Z -> Z) (fuel : nat) (job_ok : nat -> bool)
  (image : v3dv_image) (layout : v3dv_image_layout) (fb_format : VkFormat)
  (clear_value : VkClearValue) (range : VkImageSubresourceRange)
  (it : internal_type) (bpp : Z) (hw : v3dv_clear_value) :
  get_internal_type_bpp_for_image_aspects for_output_format fb_format
    (range_aspectMask range) = Done (it, bpp) ->
  hw_clear_value_of_range hw_color pack_color image fb_format clear_value
    range it bpp = Done hw ->
  has_aspect (range_aspectMask range) (layout_aspects layout) = true ->
  0 <= range_baseMipLevel range <= layout_levels layout ->
  0 <= range_baseArrayLayer range <= layout_array_size layout ->
  0 <= range_levelCount range < 2 ^ 32 ->
  0 <= range_layerCount range < 2 ^ 32 ->
  layout_levels layout < 2 ^ 32 -> layout_array_size layout < 2 ^ 32 ->
  (range_levelCount range <> VK_REMAINING_MIP_LEVELS ->
   range_baseMipLevel range + range_levelCount range < 2 ^ 32) ->
  (range_layerCount range <> VK_REMAINING_ARRAY_LAYERS ->
   range_baseArrayLayer range + range_layerCount range < 2 ^ 32) ->
  let levels :=
    Zseq (range_baseMipLevel range)
      (Z.to_nat (clear_level_count layout range)) in
  (image_type image = VK_IMAGE_TYPE_3D ->
   forall level, In level levels ->
     0 <= u_minify (image_extent_depth image) level < 2 ^ 32) ->
  let jobs :=
    flat_map (fun level =>
                map (clear_job_of u_minify layout fb_format range it bpp hw level)
                  (clear_layers_of u_minify image layout range level))
      levels in
  (length levels <= fuel)%nat ->
  (forall level, In level levels ->
     (length (clear_layers_of u_minify image layout range level) <= fuel)%nat) ->
  (forall i, (i < length jobs)%nat -> job_ok i = true) ->
  clear_image_tlb for_output_format hw_color pack_color u_minify fuel job_ok
    image layout fb_format clear_value range
  = Done jobs.
Proof.
  forget_helpers.
  intros Hbpp Hhw Haspects Hlevel Hlayer Hlc Hyc Hlv Has Hlsum Hysum levels
    Hdepth jobs Hfuel Hfuel_layers Hjobs.
  unfold clear_image_tlb. rewrite Hbpp. cbn [bind]. rewrite Hhw. cbn [bind].
  rewrite Haspects.
  set (level_count := if range_levelCount range =? VK_REMAINING_MIP_LEVELS
                      then _ else _).
  set (layer_count := if range_layerCount range =? VK_REMAINING_ARRAY_LAYERS
                      then _ else _).
  assert (Hlevels : level_count = clear_level_count layout range /\
                    0 <= level_count /\
                    range_baseMipLevel range + level_count < 2 ^ 32).
  { unfold level_count, clear_level_count.
    destruct (range_levelCount range =? VK_REMAINING_MIP_LEVELS) eqn:E.
    - unfold to_uint32. rewrite Z.mod_small by lia. lia.
    - apply Z.eqb_neq in E. lia. }
  destruct Hlevels as (Hlevels & Hlevels0 & Hlevels1).
  assert (Hlayers : layer_count
                    = (if range_layerCount range =? VK_REMAINING_ARRAY_LAYERS
                       then layout_array_size layout - range_baseArrayLayer range
                       else range_layerCount range) /\
                    0 <= layer_count /\
                    range_baseArrayLayer range + layer_count < 2 ^ 32).
  { unfold layer_count.
    destruct (range_layerCount range =? VK_REMAINING_ARRAY_LAYERS) eqn:E.
    - unfold to_uint32. rewrite Z.mod_small by lia. lia.
    - apply Z.eqb_neq in E. lia. }
  destruct Hlayers as (Hlayers & Hlayers0 & Hlayers1).
  assert (Hmax : to_uint32 (range_baseMipLevel range + level_count)
                 = range_baseMipLevel range
                   + Z.of_nat (Z.to_nat (clear_level_count layout range))).
  { unfold to_uint32. rewrite Z.mod_small by lia. lia. }
  rewrite Hmax.
  assert (Hsame : forall level,
            Zseq (match image_type image with
                  | VK_IMAGE_TYPE_3D => 0
                  | _ => range_baseArrayLayer range
                  end)
              (Z.to_nat
                 ((match image_type image with
                   | VK_IMAGE_TYPE_3D => u_minify (image_extent_depth image) level
                   | _ => to_uint32 (range_baseArrayLayer range + layer_count)
                   end)
                  - (match image_type image with
                     | VK_IMAGE_TYPE_3D => 0
                     | _ => range_baseArrayLayer range
                     end)))
            = clear_layers_of u_minify image layout range level).
  { intros level. unfold clear_layers_of. rewrite <- Hlayers.
    unfold to_uint32. rewrite (Z.mod_small (_ + layer_count)) by lia.
    destruct (image_type image); f_equal; lia. }
  assert (Hresult :
            flat_map
              (fun l =>
                 map (clear_job_of u_minify layout fb_format range it bpp hw l)
                   (Zseq (match image_type image with
                          | VK_IMAGE_TYPE_3D => 0
                          | _ => range_baseArrayLayer range
                          end)
                      (Z.to_nat
                         ((match image_type image with
                           | VK_IMAGE_TYPE_3D =>
                               u_minify (image_extent_depth image) l
                           | _ => to_uint32 (range_baseArrayLayer range
                                             + layer_count)
                           end)
                          - (match image_type image with
                             | VK_IMAGE_TYPE_3D => 0
                             | _ => range_baseArrayLayer range
                             end)))))
              levels
            = jobs).
  { unfold jobs. clear - Hsame. induction levels as [|l ls IH]; [reflexivity|].
    cbn [flat_map]. now rewrite IH, Hsame. }
  rewrite clear_levels_loop_run.
  - cbn [bind fst]. fold levels. rewrite Hresult. reflexivity.
  - destruct (image_type image); lia.
  - fold levels in Hfuel. unfold levels in Hfuel. rewrite Zseq_length in Hfuel.
    exact Hfuel.
  - lia.
  - lia.
  - intros l Hl. split.
    + unfold to_uint32. rewrite (Z.mod_small (_ + layer_count)) by lia.
      destruct (image_type image) eqn:Etype; [lia|lia|].
      specialize (Hdepth eq_refl l (Zseq_contains _ _ _ Hl)). lia.
    + specialize (Hfuel_layers l). rewrite <- Hsame in Hfuel_layers.
      rewrite Zseq_length in Hfuel_layers. apply Hfuel_layers.
      apply Zseq_contains. lia.
  - fold levels. rewrite Hresult. intros i Hi. apply Hjobs. lia.
Qed.


(** *** The image copy command takes the format of the destination *)

Lemma can_use_tlb_with_pointer (image : v3dv_image) (image_format : v3dv_format)
  (offset : VkOffset3D) :
  let r := can_use_tlb image image_format offset true in
  (fst r = true ->
   offset_x offset = 0 /\ offset_y offset = 0
   /\ snd r = Some (tlb_format_of image image_format)
   /\ (is_tlb_supported image_format = true
       \/ get_compatible_tlb_format (image_vk_format image)
          <> VK_FORMAT_UNDEFINED))
  /\ (offset_x offset = 0 -> offset_y offset = 0 ->
      is_tlb_supported image_format = true
      \/ get_compatible_tlb_format (image_vk_format image)
         <> VK_FORMAT_UNDEFINED ->
      r = (true, Some (tlb_format_of image image_format)))
  /\ (offset_x offset <> 0 \/ offset_y offset <> 0 -> r = (false, None)).
Proof.
  forget_helpers.
  unfold can_use_tlb, tlb_format_of. cbv zeta.
  destruct (offset_x offset =? 0) eqn:Ex;
    [apply Z.eqb_eq in Ex|apply Z.eqb_neq in Ex];
    (destruct (offset_y offset =? 0) eqn:Ey;
     [apply Z.eqb_eq in Ey|apply Z.eqb_neq in Ey]);
    cbn [negb orb fst snd];
    try (split; [intros H; discriminate H|];
         split; [intros H0 H1; congruence|reflexivity]).
  destruct (is_tlb_supported image_format) eqn:Es; cbn [fst snd].
  - split; [intros _; repeat split; solve [assumption | left; reflexivity]|].
    split; [reflexivity|]. intros [H|H]; congruence.
  - destruct (get_compatible_tlb_format (image_vk_format image)
              =? VK_FORMAT_UNDEFINED) eqn:Ec; cbn [negb fst snd];
      [apply Z.eqb_eq in Ec|apply Z.eqb_neq in Ec].
    + split; [intros H; discriminate H|].
      split; [intros _ _ [H|H]; congruence|]. intros [H|H]; congruence.
    + split; [intros _; repeat split; solve [assumption | right; assumption]|].
      split; [reflexivity|]. intros [H|H]; congruence.
Qed.

Lemma v3dv_CmdCopyImage_regions_made
  (copy_image_tlb : VkFormat -> VkImageCopy -> outcome unit)
  (dst src : v3dv_image) (dst_format src_format : v3dv_format) :
  forall (pRegions : list VkImageCopy) (compat_format : option VkFormat)
         (calls : list (VkFormat * VkImageCopy)),
    v3dv_CmdCopyImage_regions copy_image_tlb dst src dst_format src_format
      compat_format pRegions = Done calls ->
    calls = map (fun region => (tlb_format_of dst dst_format, region)) pRegions
    /\ Forall (fun region =>
                 copy_from_origin region
                 /\ copy_image_tlb (tlb_format_of dst dst_format) region
                    = Done tt) pRegions
    /\ (pRegions <> [] ->
        (is_tlb_supported dst_format = true
         \/ get_compatible_tlb_format (image_vk_format dst)
            <> VK_FORMAT_UNDEFINED)
        /\ (is_tlb_supported src_format = true
            \/ get_compatible_tlb_format (image_vk_format src)
               <> VK_FORMAT_UNDEFINED)).
Proof.
  forget_helpers.
  induction pRegions as [|region rest IH]; intros compat_format calls Hrun.
  - cbn in Hrun. injection Hrun as <-.
    repeat split; [constructor|congruence|congruence].
  - cbn [v3dv_CmdCopyImage_regions] in Hrun.
    destruct (can_use_tlb_with_pointer src src_format (copy_srcOffset region))
      as (Hsrc & _ & _).
    destruct (can_use_tlb_with_pointer dst dst_format (copy_dstOffset region))
      as (Hdst & _ & _).
    cbv zeta in Hsrc, Hdst.
    destruct (fst (can_use_tlb src src_format (copy_srcOffset region) true));
      [|discriminate].
    destruct (fst (can_use_tlb dst dst_format (copy_dstOffset region) true));
      [|discriminate].
    destruct (Hsrc eq_refl) as (Hsx & Hsy & _ & Hsok).
    destruct (Hdst eq_refl) as (Hdx & Hdy & Hwritten & Hdok).
    unfold after_can_use_tlb at 1 2 in Hrun. rewrite Hwritten in Hrun.
    unfold after_can_use_tlb at 1 in Hrun. rewrite Hwritten in Hrun.
    destruct (copy_image_tlb (tlb_format_of dst dst_format) region)
      as [[]| | | |] eqn:Hcall; try discriminate.
    cbn [bind] in Hrun.
    destruct (v3dv_CmdCopyImage_regions copy_image_tlb dst src dst_format
                src_format (Some (tlb_format_of dst dst_format)) rest)
      as [more| | | |] eqn:Hrest; try discriminate.
    cbn [bind] in Hrun. injection Hrun as <-.
    destruct (IH _ _ Hrest) as (Hmore & Hall & _).
    repeat split; try assumption.
    + cbn [map]. now rewrite Hmore.
    + constructor; [|exact Hall]. repeat split; assumption.
Qed.

Lemma v3dv_CmdCopyImage_regions_run
  (copy_image_tlb : VkFormat -> VkImageCopy -> outcome unit)
  (dst src : v3dv_image) (dst_format src_format : v3dv_format) :
  is_tlb_supported dst_format = true
  \/ get_compatible_tlb_format (image_vk_format dst) <> VK_FORMAT_UNDEFINED ->
  is_tlb_supported src_format = true
  \/ get_compatible_tlb_format (image_vk_format src) <> VK_FORMAT_UNDEFINED ->
  forall (pRegions : list VkImageCopy) (compat_format : option VkFormat),
    Forall (fun region =>
              copy_from_origin region
              /\ copy_image_tlb (tlb_format_of dst dst_format) region = Done tt)
      pRegions ->
    v3dv_CmdCopyImage_regions copy_image_tlb dst src dst_format src_format
      compat_format pRegions
    = Done (map (fun region => (tlb_format_of dst dst_format, region)) pRegions).
Proof.
  forget_helpers.
  intros Hdok Hsok.
  induction pRegions as [|region rest IH]; intros compat_format Hall;
    [reflexivity|].
  inversion Hall as [|r l ((Hsx & Hsy & Hdx & Hdy) & Hcall) Hrest]; subst.
  cbn [v3dv_CmdCopyImage_regions map].
  destruct (can_use_tlb_with_pointer src src_format (copy_srcOffset region))
    as (_ & Hsrc & _).
  destruct (can_use_tlb_with_pointer dst dst_format (copy_dstOffset region))
    as (_ & Hdst & _).
  cbv zeta in Hsrc, Hdst.
  rewrite (Hsrc Hsx Hsy Hsok), (Hdst Hdx Hdy Hdok).
  cbn [fst snd after_can_use_tlb]. rewrite Hcall. cbn [bind].
  rewrite (IH _ Hrest). reflexivity.
Qed.

(** X28: the image copy command hands every region to [copy_image_tlb]
    with one framebuffer format, that of the destination image (its own
    format when the tile buffer supports it, its compatible format
    otherwise): the format of the source image decides only whether the
    command goes through.  It goes through exactly when both images are
    supported or have a compatible format, every region starts at x = 0,
    y = 0 in both images and every call returns; a first region that
    starts elsewhere trips the assertion of the missing fallback. *)
Theorem copy_image_command_uses_destination_format
  (copy_image_tlb : VkFormat -> VkImageCopy -> outcome unit)
  (dst src : v3dv_image) (dst_format src_format : v3dv_format)
  (pRegions : list VkImageCopy) :
  let fb_format := tlb_format_of dst dst_format in
  let accepted (region : VkImageCopy) :=
    copy_from_origin region /\ copy_image_tlb fb_format region = Done tt in
  let usable :=
    (is_tlb_supported dst_format = true
     \/ get_compatible_tlb_format (image_vk_format dst) <> VK_FORMAT_UNDEFINED)
    /\ (is_tlb_supported src_format = true
        \/ get_compatible_tlb_format (image_vk_format src)
           <> VK_FORMAT_UNDEFINED) in
  (forall calls,
     v3dv_CmdCopyImage copy_image_tlb dst src dst_format src_format pRegions
     = Done calls ->
     calls = map (fun region => (fb_format, region)) pRegions
     /\ Forall accepted pRegions
     /\ (pRegions <> [] -> usable))
  /\ (usable -> Forall accepted pRegions ->
      v3dv_CmdCopyImage copy_image_tlb dst src dst_format src_format pRegions
      = Done (map (fun region => (fb_format, region)) pRegions))
  /\ (forall region rest,
        pRegions = region :: rest -> ~ copy_from_origin region ->
        v3dv_CmdCopyImage copy_image_tlb dst src dst_format src_format pRegions
        = Assert_failure).
Proof.
  forget_helpers.
  intros fb_format accepted usable. split; [|split].
  - intros calls Hrun.
    exact (v3dv_CmdCopyImage_regions_made _ _ _ _ _ _ _ _ Hrun).
  - intros [Hdok Hsok] Hall.
    apply v3dv_CmdCopyImage_regions_run; assumption.
  - intros region rest -> Hnot.
    unfold v3dv_CmdCopyImage. cbn [v3dv_CmdCopyImage_regions].
    destruct (can_use_tlb_with_pointer src src_format (copy_srcOffset region))
      as (Hsrc & _ & _).
    destruct (can_use_tlb_with_pointer dst dst_format (copy_dstOffset region))
      as (Hdst & _ & _).
    cbv zeta in Hsrc, Hdst.
    destruct (fst (can_use_tlb src src_format (copy_srcOffset region) true));
      [|reflexivity].
    destruct (fst (can_use_tlb dst dst_format (copy_dstOffset region) true));
      [|reflexivity].
    exfalso. apply Hnot.
    destruct (Hsrc eq_refl) as (Hsx & Hsy & _).
    destruct (Hdst eq_refl) as (Hdx & Hdy & _).
    repeat split; assumption.
Qed.


End Encoder.

(** ** The sweep helpers *)

Lemma for_upto_S {S : Type} (n : nat) (i : Z) (body : Z -> S -> S) (s : S) :
  for_upto (Datatypes.S n) i body s = for_upto n (i + 1) body (body i s).
Proof. reflexivity. Qed.

Lemma tested_app (a b : list sweep_event) : tested (a ++ b) = tested a ++ tested b.
Proof. unfold tested. apply flat_map_app. Qed.

(** One turn of the inner loop of [bit_fmod_helper]: whatever the verdict,
    the combination is handed to [bit_test_single] unless it is skipped. *)
Lemma fmod_body_step (bit_test_single : bi_instruction -> bool -> bool)
  (c : bi_class) (size : Z) (fma : bool)
  (om im o i : Z) (log : list sweep_event) :
  let r := fmod_body bit_test_single size fma om im
             (fmod_combination c size o i, log) in
  fst r = fmod_combination c size om im
  /\ tested (snd r)
     = tested log
       ++ (if fmod_skipped size fma im then []
           else [(fmod_combination c size om im, fma)]).
Proof.
  unfold fmod_body, fmod_skipped.
  cbn [set_outmod set_src_abs set_src_neg fmod_combination array_set nth
       src_abs src_neg outmod ins_type ins_src ins_src_types ins_dest
       ins_dest_type].
  destruct (fma && (size =? 16) && mask_set im 1 && mask_set im 2).
  - cbn. now rewrite app_nil_r.
  - destruct (bit_test_single _ fma); cbn [negb fst snd];
      rewrite tested_app; split; reflexivity.
Qed.

(** The inner loop from [im] on, [n] turns. *)
Lemma fmod_inner_loop (bit_test_single : bi_instruction -> bool -> bool)
  (c : bi_class) (size : Z) (fma : bool) (om : Z) (n : nat) :
  forall im o i log,
    let r := for_upto n im (fmod_body bit_test_single size fma om)
               (fmod_combination c size o i, log) in
    (exists o' i', fst r = fmod_combination c size o' i')
    /\ tested (snd r)
       = tested log
         ++ flat_map
              (fun im => if fmod_skipped size fma im then []
                         else [(fmod_combination c size om im, fma)])
              (Zseq im n).
Proof.
  induction n as [|n IH]; intros im o i log; cbv zeta;
    cbn [for_upto Zseq flat_map fst snd].
  - split; [eauto|]. now rewrite app_nil_r.
  - destruct (fmod_body_step bit_test_single c size fma om im o i log) as [Hins Hlog].
    destruct (fmod_body bit_test_single size fma om im
                (fmod_combination c size o i, log)) as [ins' log'].
    cbn [fst snd] in Hins, Hlog. subst ins'.
    destruct (IH (im + 1) om im log') as [Hshape Htested].
    split; [exact Hshape|]. rewrite Htested, Hlog, <- app_assoc. reflexivity.
Qed.

(** The outer loop from [om] on, [n] turns of sixteen. *)
Lemma fmod_outer_loop (bit_test_single : bi_instruction -> bool -> bool)
  (c : bi_class) (size : Z) (fma : bool) (n : nat) :
  forall om o i log,
    let r := for_upto n om
               (fun om st => for_upto 16 0 (fmod_body bit_test_single size fma om) st)
               (fmod_combination c size o i, log) in
    tested (snd r)
    = tested log
      ++ flat_map
           (fun om =>
              flat_map
                (fun im => if fmod_skipped size fma im then []
                           else [(fmod_combination c size om im, fma)])
                (Zseq 0 16))
           (Zseq om n).
Proof.
  induction n as [|n IH]; intros om o i log; cbv zeta.
  - cbn [for_upto Zseq flat_map fst snd]. now rewrite app_nil_r.
  - rewrite for_upto_S. cbn [Zseq flat_map].
    destruct (fmod_inner_loop bit_test_single c size fma om 16 0 o i log)
      as [(o' & i' & Hshape) Htested].
    destruct (for_upto 16 0 (fmod_body bit_test_single size fma om)
                (fmod_combination c size o i, log)) as [ins' log'].
    cbn [fst snd] in Hshape, Htested. subst ins'.
    rewrite IH, Htested, <- app_assoc. reflexivity.
Qed.

Lemma fma_body_step (bit_test_single : bi_instruction -> bool -> bool)
  (size om im o i : Z) (log : list sweep_event) :
  let r := fma_body bit_test_single om im (fma_combination size o i, log) in
  fst r = fma_combination size om im
  /\ tested (snd r) = tested log ++ [(fma_combination size om im, true)].
Proof.
  unfold fma_body.
  cbn [set_outmod set_src_neg fma_combination array_set
       src_abs src_neg outmod ins_type ins_src ins_src_types ins_dest
       ins_dest_type].
  destruct (bit_test_single _ true); cbn [negb fst snd];
    rewrite tested_app; split; reflexivity.
Qed.

Lemma fma_inner_loop (bit_test_single : bi_instruction -> bool -> bool)
  (size om : Z) (n : nat) :
  forall im o i log,
    let r := for_upto n im (fma_body bit_test_single om)
               (fma_combination size o i, log) in
    (exists o' i', fst r = fma_combination size o' i')
    /\ tested (snd r)
       = tested log
         ++ map (fun im => (fma_combination size om im, true)) (Zseq im n).
Proof.
  induction n as [|n IH]; intros im o i log; cbv zeta;
    cbn [for_upto Zseq map fst snd].
  - split; [eauto|]. now rewrite app_nil_r.
  - destruct (fma_body_step bit_test_single size om im o i log) as [Hins Hlog].
    destruct (fma_body bit_test_single om im (fma_combination size o i, log))
      as [ins' log'].
    cbn [fst snd] in Hins, Hlog. subst ins'.
    destruct (IH (im + 1) om im log') as [Hshape Htested].
    split; [exact Hshape|]. rewrite Htested, Hlog, <- app_assoc. reflexivity.
Qed.

Lemma fma_outer_loop (bit_test_single : bi_instruction -> bool -> bool)
  (size : Z) (n : nat) :
  forall om o i log,
    let r := for_upto n om
               (fun om st => for_upto 8 0 (fma_body bit_test_single om) st)
               (fma_combination size o i, log) in
    tested (snd r)
    = tested log
      ++ flat_map
           (fun om => map (fun im => (fma_combination size om im, true)) (Zseq 0 8))
           (Zseq om n).
Proof.
  induction n as [|n IH]; intros om o i log; cbv zeta.
  - cbn [for_upto Zseq flat_map fst snd]. now rewrite app_nil_r.
  - rewrite for_upto_S. cbn [Zseq flat_map].
    destruct (fma_inner_loop bit_test_single size om 8 0 o i log) as [(o' & i' & Hshape) Htested].
    destruct (for_upto 8 0 (fma_body bit_test_single om)
                (fma_combination size o i, log)) as [ins' log'].
    cbn [fst snd] in Hshape, Htested. subst ins'.
    rewrite IH, Htested, <- app_assoc. reflexivity.
Qed.

Lemma In_Zseq (x : Z) (len : nat) :
  forall start, In x (Zseq start len) <-> start <= x < start + Z.of_nat len.
Proof.
  induction len as [|len IH]; intros start; cbn [Zseq In].
  - lia.
  - rewrite IH. lia.
Qed.

(** C9 (as the code has it): [bit_fmod_helper] hands to [bit_test_single]
    the 4 x 16 = 64 combinations of output modifier and negate /
    absolute-value settings of a two-source operation, in order, leaving
    out exactly those with absolute value on both sources when the
    operation runs on the FMA unit at 16-bit precision (16 of the 64);
    [bit_fma_helper] hands over the 4 x 8 = 32 combinations of output
    modifier and negate settings of the three-source fused multiply-add
    and leaves none out. *)
Theorem sweep_helpers_enumerate_modifier_combinations
  (bit_test_single : bi_instruction -> bool -> bool)
  (c : bi_class) (size : Z) (fma : bool) :
  tested (bit_fmod_helper bit_test_single c size fma) = fmod_sweep c size fma
  /\ length (fmod_sweep c size fma)
     = (if fma && (size =? 16) then 48%nat else 64%nat)
  /\ (forall om im,
        0 <= om < 4 -> 0 <= im < 16 ->
        (In (fmod_combination c size om im, fma) (fmod_sweep c size fma)
         <-> fmod_skipped size fma im = false))
  /\ (forall im,
        fmod_skipped size fma im = true
        <-> fma = true /\ size = 16
            /\ mask_set im 1 = true /\ mask_set im 2 = true)
  /\ tested (bit_fma_helper bit_test_single size) = fma_sweep size
  /\ length (fma_sweep size) = 32%nat
  /\ (forall om im,
        0 <= om < 4 -> 0 <= im < 8 ->
        In (fma_combination size om im, true) (fma_sweep size)).
Proof.
  split; [|split; [|split; [|split; [|split; [|split]]]]].
  - unfold bit_fmod_helper.
    replace (fmod_initial_ins c size) with (fmod_combination c size 0 0)
      by reflexivity.
    rewrite fmod_outer_loop. reflexivity.
  - unfold fmod_sweep, fmod_skipped.
    destruct (fma && (size =? 16)); reflexivity.
  - intros om im Hom Him. unfold fmod_sweep. rewrite in_flat_map. split.
    + intros (om' & _ & Hin). rewrite in_flat_map in Hin.
      destruct Hin as (im' & _ & Hin).
      destruct (fmod_skipped size fma im') eqn:Hskip; [destruct Hin|].
      destruct Hin as [Heq|[]]. injection Heq as _ H1 H2 _ _.
      unfold fmod_skipped in *. rewrite <- H1, <- H2. exact Hskip.
    + intros Hskip. exists om. split; [apply In_Zseq; lia|].
      rewrite in_flat_map. exists im. split; [apply In_Zseq; lia|].
      rewrite Hskip. left. reflexivity.
  - intros im. unfold fmod_skipped.
    rewrite !andb_true_iff, Z.eqb_eq. tauto.
  - unfold bit_fma_helper.
    replace (fma_initial_ins size) with (fma_combination size 0 0) by reflexivity.
    rewrite fma_outer_loop. reflexivity.
  - reflexivity.
  - intros om im Hom Him. unfold fma_sweep. rewrite in_flat_map.
    exists om. split; [apply In_Zseq; lia|].
    rewrite in_map_iff. exists im. split; [reflexivity|apply In_Zseq; lia].
Qed.


(** ** The two sweeps of the packing tests *)

Lemma bit_fmod_helper_tested (bit_test_single : bi_instruction -> bool -> bool)
  (c : bi_class) (size : Z) (fma : bool) :
  tested (bit_fmod_helper bit_test_single c size fma) = fmod_sweep c size fma.
Proof.
  unfold bit_fmod_helper.
  replace (fmod_initial_ins c size) with (fmod_combination c size 0 0)
    by reflexivity.
  rewrite fmod_outer_loop. reflexivity.
Qed.

Lemma bit_fma_helper_tested (bit_test_single : bi_instruction -> bool -> bool)
  (size : Z) :
  tested (bit_fma_helper bit_test_single size) = fma_sweep size.
Proof.
  unfold bit_fma_helper.
  replace (fma_initial_ins size) with (fma_combination size 0 0) by reflexivity.
  rewrite fma_outer_loop. reflexivity.
Qed.

(** The loop over the sizes calls its body for 16 and for 32. *)
Lemma sweep_sizes_run (fuel : nat) (body : Z -> list sweep_event) :
  (2 <= fuel)%nat ->
  sweep_sizes fuel 16 body [] = Done (body 16 ++ body 32).
Proof.
  intros Hfuel. destruct fuel as [|[|fuel]]; try lia.
  cbn [sweep_sizes].
  change (16 <=? 32) with true. cbn iota.
  change (to_uint32 (16 * 2)) with 32.
  change (32 <=? 32) with true. cbn iota.
  change (to_uint32 (32 * 2)) with 64.
  assert (H64 : (64 <=? 32) = false) by reflexivity.
  destruct fuel; cbn [sweep_sizes]; rewrite H64; reflexivity.
Qed.

Lemma sweep_sizes_short (fuel : nat) (body : Z -> list sweep_event) :
  (fuel < 2)%nat -> sweep_sizes fuel 16 body [] = Out_of_fuel.
Proof.
  intros Hfuel. destruct fuel as [|[|fuel]]; try lia; reflexivity.
Qed.

(** X26: the two-source sweep runs the helper for 16 and then for 32
    bits, each on the input vector of its size: 48 and 64 instructions
    of class ADD, every one of them on the FMA port and none on the ADD
    port.  The fused multiply-add sweep runs its helper for the same two
    sizes, 32 instructions each.  Two turns of the loop over the sizes
    are needed and enough. *)
Theorem bit_sweeps_cover_both_sizes
  (fuel : nat) (bit_test_single : list Z -> bi_instruction -> bool -> bool)
  (input16 input32 : list Z) :
  (2 <= fuel)%nat ->
  (exists log,
     bit_fmod fuel bit_test_single input16 input32 = Done log
     /\ log = bit_fmod_helper (bit_test_single input16) BI_ADD 16 true
              ++ bit_fmod_helper (bit_test_single input32) BI_ADD 32 true
     /\ tested log = fmod_sweep BI_ADD 16 true ++ fmod_sweep BI_ADD 32 true
     /\ length (tested log) = 112%nat
     /\ (forall ins fma, In (ins, fma) (tested log) ->
         fma = true /\ ins_type ins = BI_ADD))
  /\ (exists log,
        bit_fma fuel bit_test_single input16 input32 = Done log
        /\ log = bit_fma_helper (bit_test_single input16) 16
                 ++ bit_fma_helper (bit_test_single input32) 32
        /\ tested log = fma_sweep 16 ++ fma_sweep 32
        /\ length (tested log) = 64%nat
        /\ (forall ins fma, In (ins, fma) (tested log) ->
            fma = true /\ ins_type ins = BI_FMA))
  /\ bit_fmod 1 bit_test_single input16 input32 = Out_of_fuel
  /\ bit_fma 1 bit_test_single input16 input32 = Out_of_fuel.
Proof.
  intros Hfuel. split; [|split; [|split; reflexivity]].
  - eexists. split.
    { unfold bit_fmod. rewrite sweep_sizes_run by exact Hfuel. reflexivity. }
    change (16 =? 16) with true. change (32 =? 16) with false. cbn iota.
    split; [reflexivity|].
    assert (Ht : tested (bit_fmod_helper (bit_test_single input16) BI_ADD 16 true
                         ++ bit_fmod_helper (bit_test_single input32) BI_ADD 32
                              true)
                 = fmod_sweep BI_ADD 16 true ++ fmod_sweep BI_ADD 32 true).
    { rewrite tested_app, !bit_fmod_helper_tested. reflexivity. }
    rewrite Ht. split; [reflexivity|]. split; [reflexivity|].
    intros ins fma Hin. apply in_app_or in Hin.
    destruct Hin as [Hin | Hin]; unfold fmod_sweep in Hin;
      apply in_flat_map in Hin; destruct Hin as (om & _ & Hin);
      apply in_flat_map in Hin; destruct Hin as (im & _ & Hin);
      destruct (fmod_skipped _ true im); try contradiction;
      destruct Hin as [Heq | []]; injection Heq as <- <-;
      split; reflexivity.
  - eexists. split.
    { unfold bit_fma. rewrite sweep_sizes_run by exact Hfuel. reflexivity. }
    change (16 =? 16) with true. change (32 =? 16) with false. cbn iota.
    split; [reflexivity|].
    assert (Ht : tested (bit_fma_helper (bit_test_single input16) 16
                         ++ bit_fma_helper (bit_test_single input32) 32)
                 = fma_sweep 16 ++ fma_sweep 32).
    { rewrite tested_app, !bit_fma_helper_tested. reflexivity. }
    rewrite Ht. split; [reflexivity|]. split; [reflexivity|].
    intros ins fma Hin. apply in_app_or in Hin.
    destruct Hin as [Hin | Hin]; unfold fma_sweep in Hin;
      apply in_flat_map in Hin; destruct Hin as (om & _ & Hin);
      apply in_map_iff in Hin; destruct Hin as (im & Heq & _);
      injection Heq as <- <-; split; reflexivity.
Qed.


(** * The properties on the example inputs *)

(** C1 at 4097 pixels. *)
Lemma framebuffer_size_for_pixel_count_near_square_witness :
  0 < 4097 < 2 ^ 32
  /\ exists w h,
       framebuffer_size_for_pixel_count 4097 = Done (w, h)
       /\ w * h <= 4097 /\ w <= 4096 /\ h <= 4096 /\ 0 < w /\ 0 < h
       /\ (forall w', w' * h <= 4097 -> w' <= w).
Proof.
  split; [lia|].
  destruct (framebuffer_size_for_pixel_count_near_square 4097 ltac:(lia))
    as [Hsmall _].
  destruct (Hsmall ltac:(lia))
    as (w & h & k & Hrun & Hprod & Hw & Hh & Hw0 & Hh0 & _ & _ & _ & _ & _ & Hmax).
  exists w, h. repeat split; assumption.
Defined.

(** C2 on a 100 x 80 frame of 64 x 64 supertiles: two by two records. *)
Lemma supertile_coverage_row_major_witness :
  (0 < width example_tiling <= INT_MAX)
  /\ (0 < height example_tiling <= INT_MAX)
  /\ 0 < supertile_w_in_pixels example_tiling
  /\ 0 < supertile_h_in_pixels example_tiling
  /\ exists fb job',
       setup_framebuffer_data example_get_format VK_FORMAT_R8G8B8A8_UINT
         V3D_INTERNAL_TYPE_8UI example_tiling = Done fb
       /\ emit_supertile_coordinates 100 example_job fb = Done job'
       /\ rcl job'
          = rcl example_job
            ++ row_major_coordinates (min_x_supertile fb) (max_x_supertile fb)
                 (min_y_supertile fb) (max_y_supertile fb).
Proof.
  assert (H1 : 0 < width example_tiling <= INT_MAX) by (vm_compute; intuition congruence).
  assert (H2 : 0 < height example_tiling <= INT_MAX) by (vm_compute; intuition congruence).
  assert (H3 : 0 < supertile_w_in_pixels example_tiling) by reflexivity.
  assert (H4 : 0 < supertile_h_in_pixels example_tiling) by reflexivity.
  repeat (split; [assumption|]).
  destruct (supertile_coverage_row_major example_get_format 100
              VK_FORMAT_R8G8B8A8_UINT V3D_INTERNAL_TYPE_8UI example_job
              H1 H2 H3 H4)
    as (fb & job' & Hsetup & _ & _ & _ & _ & Hemit & _ & Hrcl & _);
    [vm_compute; congruence|vm_compute; congruence|].
  exists fb, job'. repeat split; assumption.
Defined.

(** C3 on a slice padded to 30 blocks under a frame that needs 10. *)
Lemma prologue_third_clear_color_carries_padded_height_witness :
  has_aspect (clear_aspects example_clear_info) VK_IMAGE_ASPECT_COLOR_BIT = true
  /\ implicit_padded_height example_utile_height example_align
       example_tiling example_color_image = Done 10
  /\ exists job',
       emit_rcl_prologue example_utile_height example_align example_job
         V3D_INTERNAL_TYPE_8UI (Some example_clear_info) = Done job'
       /\ part3_records (rcl job')
          = [TILE_RENDERING_MODE_CFG_CLEAR_COLORS_PART3 30 5 0].
Proof.
  split; [reflexivity|]. split; [reflexivity|].
  destruct (prologue_third_clear_color_carries_padded_height
              example_utile_height example_align example_job
              V3D_INTERNAL_TYPE_8UI example_clear_info example_color_image
              example_slice 10 eq_refl eq_refl eq_refl eq_refl eq_refl)
    as (job' & Hrun & Hge & _); [vm_compute; intuition congruence|].
  exists job'. split; [exact Hrun|]. apply Hge. vm_compute. congruence.
Defined.

(** C3 as stated fails there: the excess is 20 blocks and the record
    carries 30. *)
Lemma prologue_third_clear_color_is_not_the_excess :
  exists job',
    emit_rcl_prologue example_utile_height example_align example_job
      V3D_INTERNAL_TYPE_8UI (Some example_clear_info) = Done job'
    /\ implicit_padded_height example_utile_height example_align
         example_tiling example_color_image = Done 10
    /\ padded_height_of_output_image_in_uif_blocks example_slice - 10 = 20
    /\ internal_bpp example_tiling < V3D_INTERNAL_BPP_128
    /\ part3_records (rcl job')
       = [TILE_RENDERING_MODE_CFG_CLEAR_COLORS_PART3 30 5 0]
    /\ part3_records (rcl job')
       <> [TILE_RENDERING_MODE_CFG_CLEAR_COLORS_PART3 20 5 0].
Proof.
  eexists. split; [reflexivity|]. repeat split; try reflexivity.
  cbn. discriminate.
Qed.

(** C4 on the stencil aspect of the example D24S8 image. *)
Lemma d24s8_buffer_transfer_formats_witness :
  vk_format (example_framebuffer VK_FORMAT_D24_UNORM_S8_UINT)
  = VK_FORMAT_D24_UNORM_S8_UINT
  /\ has_aspect VK_IMAGE_ASPECT_STENCIL_BIT VK_IMAGE_ASPECT_STENCIL_BIT = true
  /\ has_aspect VK_IMAGE_ASPECT_STENCIL_BIT VK_IMAGE_ASPECT_DEPTH_BIT = false
  /\ choose_tlb_format (example_framebuffer VK_FORMAT_D24_UNORM_S8_UINT)
       VK_IMAGE_ASPECT_STENCIL_BIT true true false
     = Done V3D_OUTPUT_IMAGE_FORMAT_R8UI
  /\ choose_tlb_format (example_framebuffer VK_FORMAT_D24_UNORM_S8_UINT)
       VK_IMAGE_ASPECT_STENCIL_BIT false true false
     = Done V3D_OUTPUT_IMAGE_FORMAT_RGBA8UI
  /\ exists job',
       emit_copy_layer_to_buffer_per_tile_list example_get_format_swizzle
         example_layer_offset example_zs_buffer_from_aspect_bits example_job
         (example_framebuffer VK_FORMAT_D24_UNORM_S8_UINT) example_buffer
         example_d24s8_image 0 (example_region VK_IMAGE_ASPECT_STENCIL_BIT)
       = Done job'
       /\ map image_format_of (tile_buffer_operations (indirect job'))
          = [Some V3D_OUTPUT_IMAGE_FORMAT_RGBA8UI;
             Some V3D_OUTPUT_IMAGE_FORMAT_R8UI].
Proof.
  destruct (d24s8_buffer_transfer_formats example_get_format_swizzle
              example_layer_offset example_zs_buffer_from_aspect_bits
              (example_framebuffer VK_FORMAT_D24_UNORM_S8_UINT)
              VK_IMAGE_ASPECT_STENCIL_BIT) as [Hd24s8 _].
  destruct (Hd24s8 eq_refl) as (Hstencil & _ & Hbody).
  destruct (Hstencil eq_refl eq_refl) as (Hstore & Hload & _).
  destruct (Hbody example_job example_buffer example_d24s8_image 0
              (example_region VK_IMAGE_ASPECT_STENCIL_BIT) example_slice
              eq_refl (or_introl eq_refl) eq_refl eq_refl)
    as (job' & Hrun & Hformats).
  repeat (split; [reflexivity || assumption|]).
  exists job'. split; [exact Hrun|exact Hformats].
Defined.

(** C5 on the depth aspect of the example D24S8 image, both directions. *)
Lemma d24_depth_fixup_flags_on_image_side_witness :
  is_d24_depth_copy (example_framebuffer VK_FORMAT_D24_UNORM_S8_UINT)
    VK_IMAGE_ASPECT_DEPTH_BIT = true
  /\ (exists job' body,
        emit_copy_layer_to_buffer_per_tile_list example_get_format_swizzle
          example_layer_offset example_zs_buffer_from_aspect_bits example_job
          (example_framebuffer VK_FORMAT_D24_UNORM_S8_UINT) example_buffer
          example_d24s8_image 0 (example_region VK_IMAGE_ASPECT_DEPTH_BIT)
        = Done job'
        /\ indirect job' = indirect example_job ++ body
        /\ map fixup_flags (tile_buffer_operations body)
           = [(true, true); (false, false)])
  /\ (exists job' body,
        emit_copy_buffer_to_layer_per_tile_list example_get_format_swizzle
          example_layer_offset example_zs_buffer_from_aspect_bits example_job
          (example_framebuffer VK_FORMAT_D24_UNORM_S8_UINT)
          example_d24s8_image example_buffer 0
          (example_region VK_IMAGE_ASPECT_DEPTH_BIT)
        = Done job'
        /\ indirect job' = indirect example_job ++ body
        /\ map fixup_flags (tile_buffer_operations body)
           = [(false, false); (false, false); (true, true); (false, false)]).
Proof.
  destruct (d24_depth_fixup_flags_on_image_side example_get_format_swizzle
              example_layer_offset example_zs_buffer_from_aspect_bits
              (example_framebuffer VK_FORMAT_D24_UNORM_S8_UINT)
              VK_IMAGE_ASPECT_DEPTH_BIT) as [Hdepth _].
  destruct (Hdepth eq_refl example_job example_buffer example_d24s8_image 0
              (example_region VK_IMAGE_ASPECT_DEPTH_BIT) example_slice
              eq_refl eq_refl eq_refl) as [Hto Hfrom].
  split; [reflexivity|]. split; [exact Hto|exact Hfrom].
Defined.

(** C5 as stated fails in a copy of that depth aspect to a buffer: the
    flags are on the load and not on the store. *)
Lemma copy_to_buffer_store_has_no_fixup_flags :
  exists job',
    emit_copy_layer_to_buffer_per_tile_list example_get_format_swizzle
      example_layer_offset example_zs_buffer_from_aspect_bits example_job
      (example_framebuffer VK_FORMAT_D24_UNORM_S8_UINT) example_buffer
      example_d24s8_image 0 (example_region VK_IMAGE_ASPECT_DEPTH_BIT)
    = Done job'
    /\ map fixup_flags (tile_buffer_operations (indirect job'))
       = [(true, true); (false, false)]
    /\ ~ (forall p, In p (tile_buffer_operations (indirect job')) ->
                    fixup_flags p = (true, true)).
Proof.
  eexists. split; [reflexivity|]. split; [reflexivity|].
  intros Hall. cbn in Hall.
  match type of Hall with
  | forall p, ?a = p \/ ?b = p \/ False -> _ =>
      specialize (Hall b (or_intror (or_introl eq_refl)))
  end.
  discriminate Hall.
Qed.


(** C7 on a copy of 4100 bytes: 1025 four-byte items. *)
Lemma copy_buffer_item_size_and_coverage_witness :
  0 < 4100
  /\ exists jobs,
       copy_buffer 2000 always_job
         {| srcOffset := 16; dstOffset := 32; size := 4100 |}
       = Done (jobs, 4116, 4132)
       /\ items_covered jobs = 1025
       /\ offsets_advance 4 16 32 jobs
       /\ Forall (copy_job_ok V3D_OUTPUT_IMAGE_FORMAT_RGBA8UI) jobs.
Proof.
  split; [lia|].
  destruct (copy_buffer_item_size_and_coverage
              {| srcOffset := 16; dstOffset := 32; size := 4100 |}
              2000 always_job ltac:(cbn; lia))
    as (item_size & format & vkf & Hchoice & _ & _ & _ & _ & _ & Hloop).
  injection Hchoice as <- <- <-.
  destruct Hloop as (jobs & Hrun & Hcov & Hadv & Hall);
    [vm_compute; congruence|reflexivity|vm_compute; congruence|].
  exists jobs. repeat split; assumption.
Defined.

(** C7 as stated fails on a length whose item count does not fit 32 bits:
    of the 2^32 + 1 items of a copy of 2^34 + 4 bytes one is copied. *)
Lemma copy_buffer_item_count_is_32_bit :
  exists jobs src' dst',
    copy_buffer 8 always_job
      {| srcOffset := 0; dstOffset := 0; size := 2 ^ 34 + 4 |}
    = Done (jobs, src', dst')
    /\ (2 ^ 34 + 4) mod 4 = 0
    /\ (2 ^ 34 + 4) / 4 = 2 ^ 32 + 1
    /\ items_covered jobs = 1
    /\ items_covered jobs <> (2 ^ 34 + 4) / 4.
Proof.
  do 3 eexists. split; [vm_compute; reflexivity|].
  repeat split; try reflexivity. vm_compute. discriminate.
Qed.

(** C9 on the two-source addition at 16 bits on the FMA unit, and on the
    32-bit fused multiply-add. *)
Lemma sweep_helpers_enumerate_modifier_combinations_witness :
  length (tested (bit_fmod_helper always_pass BI_ADD 16 true)) = 48%nat
  /\ length (tested (bit_fmod_helper always_pass BI_ADD 32 true)) = 64%nat
  /\ length (tested (bit_fma_helper always_pass 32)) = 32%nat
  /\ (0 <= 2 < 4 -> 0 <= 3 < 16 ->
      ~ In (fmod_combination BI_ADD 16 2 3, true)
          (tested (bit_fmod_helper always_pass BI_ADD 16 true))).
Proof.
  destruct (sweep_helpers_enumerate_modifier_combinations always_pass BI_ADD 16 true)
    as (H16 & Hlen16 & Hin16 & _).
  destruct (sweep_helpers_enumerate_modifier_combinations always_pass BI_ADD 32 true)
    as (H32 & Hlen32 & _ & _ & Hfma & Hlenfma & _).
  split; [rewrite H16; exact Hlen16|].
  split; [rewrite H32; exact Hlen32|].
  split; [rewrite Hfma; exact Hlenfma|].
  intros Hom Him Hin. rewrite H16 in Hin.
  apply (Hin16 2 3 Hom Him) in Hin. discriminate Hin.
Defined.

(** C9 as stated fails on the fused multiply-add: the helper tests 32
    combinations, not 8. *)
Lemma fma_sweep_is_not_eight_combinations :
  length (tested (bit_fma_helper always_pass 32)) = 32%nat
  /\ length (tested (bit_fma_helper always_pass 32)) <> 8%nat.
Proof. split; [reflexivity|]. vm_compute. discriminate. Qed.

(** C10 on the example buffer of 4103 bytes: the whole size from offset 0
    is forwarded as 4100 and filled, and an explicit 4101 fails the
    assertion. *)
Lemma fill_buffer_whole_size_is_aligned_witness :
  fill_size example_buffer 0 VK_WHOLE_SIZE = 4100
  /\ to_uint32 (fill_size example_buffer 0 VK_WHOLE_SIZE) mod 4 = 0
  /\ (exists jobs,
        v3dv_CmdFillBuffer 8 always_job example_buffer 0 VK_WHOLE_SIZE
          0xAABBCCDD = Done jobs
        /\ 4 * fill_items_covered jobs = 4100)
  /\ 4101 <> VK_WHOLE_SIZE
  /\ 4101 mod 4 <> 0
  /\ v3dv_CmdFillBuffer 8 always_job example_buffer 0 4101 0xAABBCCDD
     = Assert_failure.
Proof.
  destruct (fill_buffer_whole_size_is_aligned example_buffer 0 VK_WHOLE_SIZE
              0xAABBCCDD 8 always_job) as [Hwhole _].
  destruct (Hwhole eq_refl) as (Hfwd & _ & Haligned & _ & _ & _ & Hfilled).
  destruct Hfilled as (jobs & Hrun & _ & Hcovered & _);
    [reflexivity|vm_compute; congruence|intros n; reflexivity
    |vm_compute; congruence|].
  assert (Hexplicit : 4101 <> VK_WHOLE_SIZE) by (vm_compute; discriminate).
  assert (Hodd : 4101 mod 4 <> 0) by (vm_compute; discriminate).
  destruct (fill_buffer_whole_size_is_aligned example_buffer 0 4101
              0xAABBCCDD 8 always_job) as [_ Hsized].
  destruct (Hsized Hexplicit) as (_ & _ & Hfail & _).
  split; [rewrite Hfwd; reflexivity|]. split; [exact Haligned|].
  split; [exists jobs; split; [exact Hrun|exact Hcovered]|].
  split; [exact Hexplicit|]. split; [exact Hodd|]. exact (Hfail Hodd).
Defined.


(** X1 at 4097 pixels. *)
Lemma framebuffer_size_for_pixel_count_leftover_witness :
  0 < 4097 <= 4096 * 4096
  /\ exists w h,
       framebuffer_size_for_pixel_count 4097 = Done (w, h)
       /\ 0 <= 4097 - w * h < h.
Proof.
  split; [lia|].
  destruct (framebuffer_size_for_pixel_count_leftover 4097 ltac:(lia))
    as (w & h & Hrun & Hleft & _).
  exists w, h. split; assumption.
Defined.

(** X2 at 4097 pixels. *)
Lemma framebuffer_size_for_pixel_count_aspect_witness :
  0 < 4097 < 2 ^ 32
  /\ exists w h,
       framebuffer_size_for_pixel_count 4097 = Done (w, h) /\ h <= 2 * w.
Proof.
  split; [lia|].
  destruct (framebuffer_size_for_pixel_count_aspect 4097 ltac:(lia))
    as (w & h & Hrun & Hh & _).
  exists w, h. split; assumption.
Defined.

(** X3 on a copy of 4103 bytes: 4103 items of one byte. *)
Lemma copy_buffer_job_count_witness :
  exists jobs s d,
    copy_buffer 3 always_job {| srcOffset := 0; dstOffset := 16; size := 4103 |}
    = Done (jobs, s, d)
    /\ 1 <= Z.of_nat (length jobs) <= 2.
Proof.
  destruct (copy_buffer_job_count
              {| srcOffset := 0; dstOffset := 16; size := 4103 |} 3 always_job
              ltac:(reflexivity) ltac:(reflexivity)
              ltac:(intros k; reflexivity) ltac:(vm_compute; congruence))
    as (jobs & s & d & Hrun & Hlen & _).
  exists jobs, s, d. split; [exact Hrun|exact Hlen].
Defined.

(** X4 on a fill of 64 bytes at offset 16. *)
Lemma fill_buffer_covers_range_witness :
  exists jobs,
    fill_buffer 3 always_job {| bo_handle := 9; bo_size := 65536 |} 16 64 255
    = Done jobs
    /\ 4 * fill_items_covered jobs = 64
    /\ Forall (fill_job_ok 255) jobs.
Proof.
  destruct (fill_buffer_covers_range 3 always_job
              {| bo_handle := 9; bo_size := 65536 |} 16 64 255
              ltac:(lia) ltac:(reflexivity) ltac:(vm_compute; congruence)
              ltac:(intros k; reflexivity) ltac:(vm_compute; congruence))
    as (jobs & Hrun & Hcov & _ & Hall & _).
  exists jobs. repeat split; assumption.
Defined.

(** X5 on the two by two rectangle of [example_framebuffer]. *)
Lemma emit_supertile_coordinates_any_rectangle_witness :
  exists job',
    emit_supertile_coordinates 2 example_job
      (example_framebuffer VK_FORMAT_R8G8B8A8_UINT) = Done job'
    /\ rcl job' = rcl example_job ++ row_major_coordinates 0 1 0 1.
Proof.
  destruct (emit_supertile_coordinates_any_rectangle 2 example_job
              (example_framebuffer VK_FORMAT_R8G8B8A8_UINT))
    as (job' & Hrun & _ & _ & Hrcl & _);
    try (vm_compute; intuition congruence).
  exists job'. split; [exact Hrun|exact Hrcl].
Defined.

(** X6 on a single row that ends at column [INT_MAX]. *)
Lemma emit_supertile_coordinates_column_overflow_witness :
  emit_supertile_coordinates (Z.to_nat (2 ^ 31)) example_job
    {| fb_internal_type := V3D_INTERNAL_TYPE_8UI;
       min_x_supertile := 2147483647; min_y_supertile := 0;
       max_x_supertile := 2147483647; max_y_supertile := 0;
       vk_format := VK_FORMAT_R8G8B8A8_UINT;
       format := example_get_format VK_FORMAT_R8G8B8A8_UINT |}
  = Undefined_behaviour.
Proof.
  apply emit_supertile_coordinates_column_overflow;
    cbn [max_x_supertile min_x_supertile min_y_supertile max_y_supertile];
    unfold INT_MAX; lia.
Defined.

(** X7 on the 100 x 80 frame of 64 x 64 supertiles. *)
Lemma setup_framebuffer_data_covers_frame_witness :
  exists fb,
    setup_framebuffer_data example_get_format VK_FORMAT_R8G8B8A8_UINT
      V3D_INTERNAL_TYPE_8UI example_tiling = Done fb
    /\ max_x_supertile fb * 64 < 100 <= (max_x_supertile fb + 1) * 64
    /\ max_y_supertile fb * 64 < 80 <= (max_y_supertile fb + 1) * 64.
Proof.
  destruct (setup_framebuffer_data_covers_frame example_get_format
              VK_FORMAT_R8G8B8A8_UINT V3D_INTERNAL_TYPE_8UI example_tiling)
    as (fb & Hrun & Hx & Hy & _);
    try (vm_compute; intuition congruence).
  exists fb. repeat split; solve [exact Hrun | apply Hx | apply Hy].
Defined.

(** X8 on the clear colour (1, 2, 3, 0x50000) at 128 bits per pixel. *)
Lemma prologue_clear_color_fields_hold_all_words_witness :
  V3D_INTERNAL_BPP_128 <= internal_bpp (frame_tiling example_job_128)
  /\ exists job' low next mid_low mid_high high,
       emit_rcl_prologue example_utile_height example_align example_job_128
         V3D_INTERNAL_TYPE_8UI (Some example_clear_info) = Done job'
       /\ low + 2 ^ 32 * next + 2 ^ 56 * mid_low + 2 ^ 88 * mid_high
          + 2 ^ 112 * high
          = 1 + 2 ^ 32 * 2 + 2 ^ 64 * 3 + 2 ^ 96 * 0x50000.
Proof.
  split; [vm_compute; congruence|].
  destruct (prologue_clear_color_fields_hold_all_words
              example_utile_height example_align example_job_128
              V3D_INTERNAL_TYPE_8UI example_clear_info 30)
    as (low & next & mid_low & mid_high & high & Hrun & _ & _ & _ & _ & _ & Hsum);
    try (vm_compute; intuition congruence).
  eexists; exists low, next, mid_low, mid_high, high.
  split; [exact Hrun|exact Hsum].
Defined.

(** X9 on the depth aspect of 16-bit depth. *)
Lemma internal_type_bpp_of_depth_stencil_aspects_witness :
  has_aspect VK_IMAGE_ASPECT_DEPTH_BIT VK_IMAGE_ASPECT_DEPTH_BIT = true
  /\ get_internal_type_bpp_for_image_aspects example_get_format
       example_for_output_format VK_FORMAT_D16_UNORM VK_IMAGE_ASPECT_DEPTH_BIT
     = Done (V3D_INTERNAL_TYPE_16UI, V3D_INTERNAL_BPP_64).
Proof.
  split; [reflexivity|].
  destruct (internal_type_bpp_of_depth_stencil_aspects example_get_format
              example_for_output_format VK_FORMAT_D16_UNORM
              VK_IMAGE_ASPECT_DEPTH_BIT (or_introl eq_refl))
    as [H16 _].
  exact (H16 eq_refl).
Defined.
(** X10 on the signed normalised RGBA8 format. *)
Lemma get_compatible_tlb_format_one_step_witness :
  get_compatible_tlb_format VK_FORMAT_R8G8B8A8_SNORM <> VK_FORMAT_R8G8B8A8_SNORM
  /\ get_compatible_tlb_format (get_compatible_tlb_format VK_FORMAT_R8G8B8A8_SNORM)
     = VK_FORMAT_UNDEFINED.
Proof.
  destruct (get_compatible_tlb_format_one_step VK_FORMAT_R8G8B8A8_SNORM)
    as (Htwice & Hmoves & _).
  split; [apply Hmoves; vm_compute; congruence|exact Htwice].
Defined.

(** X11 on a region that starts at x = 1. *)
Lemma can_use_tlb_cases_witness :
  can_use_tlb example_color_image (example_get_format VK_FORMAT_R8G8B8A8_UINT)
    {| offset_x := 1; offset_y := 0; offset_z := 0 |} true
  = (false, None).
Proof.
  destruct (can_use_tlb_cases example_color_image
              (example_get_format VK_FORMAT_R8G8B8A8_UINT)
              {| offset_x := 1; offset_y := 0; offset_z := 0 |} true)
    as (Hoffset & _).
  apply Hoffset. left. vm_compute. congruence.
Defined.

(** X12 on a colour copy of layer 0 of [example_color_image]. *)
Lemma image_buffer_copy_tile_lists_well_formed_witness :
  exists job' body,
    emit_copy_layer_to_buffer_per_tile_list example_get_format_swizzle
      example_layer_offset example_zs_buffer_from_aspect_bits example_job
      (example_framebuffer VK_FORMAT_R8G8B8A8_UINT) example_buffer
      example_color_image 0 (example_region VK_IMAGE_ASPECT_COLOR_BIT)
    = Done job'
    /\ tile_list_appended example_job job' body /\ length body = 7%nat.
Proof.
  destruct (image_buffer_copy_tile_lists_well_formed example_get_format_swizzle
              example_layer_offset example_zs_buffer_from_aspect_bits
              example_job (example_framebuffer VK_FORMAT_R8G8B8A8_UINT)
              example_color_image example_buffer 0
              (example_region VK_IMAGE_ASPECT_COLOR_BIT) example_slice
              eq_refl eq_refl ltac:(left; vm_compute; congruence))
    as [Hto _].
  exact Hto.
Defined.

(** X13 on a colour copy of layer 0 of [example_color_image] to itself. *)
Lemma image_copy_tile_list_is_symmetric_witness :
  exists job' l s,
    emit_copy_image_layer_per_tile_list example_get_format_swizzle
      example_layer_offset example_zs_buffer_from_aspect_bits example_job
      (example_framebuffer VK_FORMAT_R8G8B8A8_UINT) example_color_image
      example_color_image 0 example_image_copy
    = Done job'
    /\ input_image_format l = output_image_format_ s
    /\ buffer_to_load l = buffer_to_store s.
Proof.
  destruct (image_copy_tile_list_is_symmetric example_get_format_swizzle
              example_layer_offset example_zs_buffer_from_aspect_bits
              example_job (example_framebuffer VK_FORMAT_R8G8B8A8_UINT)
              example_color_image example_color_image 0 example_image_copy
              example_slice example_slice eq_refl eq_refl eq_refl eq_refl)
    as (job' & l & s & Hrun & _ & Hin & Hout & _ & _ & _ & _ & _ & _ & Hsame).
  exists job', l, s. split; [exact Hrun|]. split; [congruence|].
  apply (Hsame eq_refl).
Defined.


(** X15 on a copy between two buffer objects over the two by two
    rectangle. *)
Lemma emit_copy_buffer_is_raw_copy_witness :
  exists job' l s,
    emit_copy_buffer 2 example_job {| bo_handle := 5; bo_size := 65536 |}
      {| bo_handle := 6; bo_size := 65536 |} 64 128
      (example_framebuffer VK_FORMAT_R8G8B8A8_UINT)
      V3D_OUTPUT_IMAGE_FORMAT_RGBA8UI
    = Done job'
    /\ load_height_in_ub_or_stride l = 400
    /\ store_height_in_ub_or_stride s = 400.
Proof.
  destruct (emit_copy_buffer_is_raw_copy 2 example_job
              {| bo_handle := 5; bo_size := 65536 |}
              {| bo_handle := 6; bo_size := 65536 |} 64 128
              (example_framebuffer VK_FORMAT_R8G8B8A8_UINT)
              V3D_OUTPUT_IMAGE_FORMAT_RGBA8UI)
    as (job' & l & s & Hrun & _ & _ & _ & _ & _ & _ & _ & Hl & Hs & _);
    try (vm_compute; intuition congruence).
  exists job', l, s. repeat split; assumption.
Defined.
(** X17 on a colour copy of the one layer of [example_color_image]. *)
Lemma copy_image_to_buffer_render_list_witness :
  rectangle_fits (example_framebuffer VK_FORMAT_R8G8B8A8_UINT) 2
  /\ exists job',
       emit_copy_image_to_buffer_rcl example_get_format_swizzle
         example_layer_offset example_zs_buffer_from_aspect_bits
         example_utile_height example_align 2 example_render_job
         example_buffer example_color_image
         (example_framebuffer VK_FORMAT_R8G8B8A8_UINT)
         (example_region VK_IMAGE_ASPECT_COLOR_BIT)
       = Done job'
       /\ length (render_indirect job') = 7%nat.
Proof.
  assert (Hfits : rectangle_fits (example_framebuffer VK_FORMAT_R8G8B8A8_UINT) 2)
    by (vm_compute; intuition congruence).
  split; [exact Hfits|].
  destruct (copy_image_to_buffer_render_list example_get_format_swizzle
              example_layer_offset example_zs_buffer_from_aspect_bits
              example_utile_height example_align 2 example_render_job
              example_buffer example_color_image
              (example_framebuffer VK_FORMAT_R8G8B8A8_UINT)
              (example_region VK_IMAGE_ASPECT_COLOR_BIT) example_slice
              ltac:(vm_compute; intuition congruence)
              ltac:(vm_compute; congruence) Hfits
              ltac:(intros layer [_ Hl]; apply orb_true_iff; left;
                    apply Z.ltb_lt; exact Hl)
              eq_refl ltac:(left; vm_compute; congruence))
    as (job' & Hrun & _ & _ & _ & _ & Hlen).
  exists job'. split; [exact Hrun|exact Hlen].
Defined.

(** X18 on a colour upload to the one layer of [example_color_image]. *)
Lemma copy_buffer_to_image_render_list_witness :
  rectangle_fits (example_framebuffer VK_FORMAT_R8G8B8A8_UINT) 2
  /\ exists job',
       emit_copy_buffer_to_image_rcl example_get_format_swizzle
         example_layer_offset example_zs_buffer_from_aspect_bits
         example_utile_height example_align 2 example_render_job
         example_color_image example_buffer
         (example_framebuffer VK_FORMAT_R8G8B8A8_UINT)
         (example_region VK_IMAGE_ASPECT_COLOR_BIT)
       = Done job'
       /\ length (render_indirect job') = 7%nat.
Proof.
  assert (Hfits : rectangle_fits (example_framebuffer VK_FORMAT_R8G8B8A8_UINT) 2)
    by (vm_compute; intuition congruence).
  split; [exact Hfits|].
  destruct (copy_buffer_to_image_render_list example_get_format_swizzle
              example_layer_offset example_zs_buffer_from_aspect_bits
              example_utile_height example_align 2 example_render_job
              example_color_image example_buffer
              (example_framebuffer VK_FORMAT_R8G8B8A8_UINT)
              (example_region VK_IMAGE_ASPECT_COLOR_BIT) example_slice
              ltac:(vm_compute; intuition congruence)
              ltac:(vm_compute; congruence) Hfits
              ltac:(intros layer [_ Hl]; apply orb_true_iff; left;
                    apply Z.ltb_lt; exact Hl)
              eq_refl ltac:(left; vm_compute; congruence))
    as (job' & Hrun & _ & _ & _ & _ & Hlen).
  exists job'. split; [exact Hrun|exact Hlen].
Defined.

(** X19 on a colour copy of the one layer of [example_color_image] to
    itself. *)
Lemma copy_image_render_list_witness :
  rectangle_fits (example_framebuffer VK_FORMAT_R8G8B8A8_UINT) 2
  /\ exists job',
       emit_copy_image_rcl example_get_format_swizzle
         example_layer_offset example_zs_buffer_from_aspect_bits
         example_utile_height example_align 2 example_render_job
         example_color_image example_color_image
         (example_framebuffer VK_FORMAT_R8G8B8A8_UINT) example_image_copy
       = Done job'
       /\ length (render_indirect job') = 7%nat.
Proof.
  assert (Hfits : rectangle_fits (example_framebuffer VK_FORMAT_R8G8B8A8_UINT) 2)
    by (vm_compute; intuition congruence).
  split; [exact Hfits|].
  destruct (copy_image_render_list example_get_format_swizzle
              example_layer_offset example_zs_buffer_from_aspect_bits
              example_utile_height example_align 2 example_render_job
              example_color_image example_color_image
              (example_framebuffer VK_FORMAT_R8G8B8A8_UINT) example_image_copy
              example_slice example_slice
              ltac:(vm_compute; intuition congruence)
              ltac:(vm_compute; congruence) Hfits
              ltac:(intros layer [_ Hl]; split; apply orb_true_iff; left;
                    apply Z.ltb_lt; exact Hl)
              eq_refl eq_refl)
    as (job' & Hrun & _ & _ & _ & _ & Hlen).
  exists job'. split; [exact Hrun|exact Hlen].
Defined.

(** X20 on a fill with the word 255 at offset 16. *)
Lemma fill_buffer_render_list_witness :
  internal_bpp (render_frame_tiling example_render_job) < V3D_INTERNAL_BPP_64
  /\ exists job',
       emit_fill_buffer_rcl example_utile_height example_align 2
         example_render_job {| bo_handle := 9; bo_size := 65536 |} 16
         (example_framebuffer VK_FORMAT_R8G8B8A8_UINT) 255
       = Done job'
       /\ length (render_indirect job') = 6%nat.
Proof.
  assert (Hbpp : internal_bpp (render_frame_tiling example_render_job)
                 < V3D_INTERNAL_BPP_64) by reflexivity.
  split; [exact Hbpp|].
  destruct (fill_buffer_render_list example_utile_height example_align 2
              example_render_job {| bo_handle := 9; bo_size := 65536 |} 16
              (example_framebuffer VK_FORMAT_R8G8B8A8_UINT) 255 Hbpp
              ltac:(vm_compute; intuition congruence))
    as (job' & Hrun & _ & _ & Hind).
  exists job'. split; [exact Hrun|]. rewrite Hind. reflexivity.
Defined.

(** X21 on a copy between two buffer objects. *)
Lemma copy_buffer_render_list_witness :
  rectangle_fits (example_framebuffer VK_FORMAT_R8G8B8A8_UINT) 2
  /\ exists job',
       emit_copy_buffer_rcl example_utile_height example_align 2
         example_render_job {| bo_handle := 5; bo_size := 65536 |}
         {| bo_handle := 6; bo_size := 65536 |} 64 128
         (example_framebuffer VK_FORMAT_R8G8B8A8_UINT)
         V3D_OUTPUT_IMAGE_FORMAT_RGBA8UI
       = Done job'
       /\ length (render_indirect job') = 7%nat.
Proof.
  assert (Hfits : rectangle_fits (example_framebuffer VK_FORMAT_R8G8B8A8_UINT) 2)
    by (vm_compute; intuition congruence).
  split; [exact Hfits|].
  destruct (copy_buffer_render_list example_utile_height example_align 2
              example_render_job {| bo_handle := 5; bo_size := 65536 |}
              {| bo_handle := 6; bo_size := 65536 |} 64 128
              (example_framebuffer VK_FORMAT_R8G8B8A8_UINT)
              V3D_OUTPUT_IMAGE_FORMAT_RGBA8UI Hfits)
    as (job' & Hrun & _ & _ & Hind).
  exists job'. split; [exact Hrun|]. rewrite Hind. reflexivity.
Defined.

(** X22 on a colour clear of layer 0, level 0 of [example_color_image]. *)
Lemma clear_image_render_list_witness :
  slice_at example_color_image 0 = Done example_slice
  /\ exists job' s,
       emit_clear_image_rcl example_get_format_swizzle example_layer_offset
         example_zs_buffer_from_aspect_bits example_utile_height example_align
         2 example_render_job example_color_image
         (example_framebuffer VK_FORMAT_R8G8B8A8_UINT)
         (clear_value example_clear_info) VK_IMAGE_ASPECT_COLOR_BIT 0 0
       = Done job'
       /\ buffer_to_store s = RENDER_TARGET_0
       /\ clear_buffer_being_stored s = false.
Proof.
  split; [reflexivity|].
  destruct (clear_image_render_list example_get_format_swizzle
              example_layer_offset example_zs_buffer_from_aspect_bits
              example_utile_height example_align 2 example_render_job
              example_color_image
              (example_framebuffer VK_FORMAT_R8G8B8A8_UINT)
              (clear_value example_clear_info) VK_IMAGE_ASPECT_COLOR_BIT 0 0
              example_slice eq_refl
              ltac:(vm_compute; intuition congruence)
              ltac:(intros _; exists 30; reflexivity))
    as (job' & pro & s & Hrun & _ & _ & _ & _ & _ & Hbuf & _ & _ & Hflag).
  exists job', s. repeat split; assumption.
Defined.

(** X23 on the corners (10, 20) and (50, 5) of a 100 x 80 image. *)
Lemma compute_blit_box_stays_in_image_witness :
  is_minimum example_MIN2
  /\ exists box,
       compute_blit_box example_MIN2
         ({| offset_x := 10; offset_y := 20; offset_z := 0 |},
          {| offset_x := 50; offset_y := 5; offset_z := 1 |}) example_extent
       = Done box
       /\ box_x box + box_w box <= 100 /\ box_y box + box_h box <= 80
       /\ box_mirror_x box = false /\ box_mirror_y box = true.
Proof.
  assert (Hmin : is_minimum example_MIN2) by (intros a b; reflexivity).
  split; [exact Hmin|].
  destruct (compute_blit_box_stays_in_image example_MIN2
              {| offset_x := 10; offset_y := 20; offset_z := 0 |}
              {| offset_x := 50; offset_y := 5; offset_z := 1 |}
              example_extent Hmin)
    as (box & swapped & Hrun & _ & Hmx & Hmy & _ & _ & _ & _ & Hx & Hy & _);
    try (vm_compute; intuition congruence).
  exists box. repeat split; assumption.
Defined.


(** X25 on a blit of the whole image, both layers. *)
Lemma blit_tfu_all_or_nothing_witness :
  tfu_takes example_tfu_supports example_u_minify example_color_image
    example_color_image example_extent 0 example_whole_blit VK_FILTER_NEAREST
    example_slice
  /\ blit_tfu example_tfu_supports example_u_minify example_color_image
       example_color_image example_extent 0 example_whole_blit
       VK_FILTER_NEAREST
     = Done (true,
             map (tfu_job_of example_u_minify example_extent example_whole_blit)
               [0; 1]).
Proof.
  assert (Htakes : tfu_takes example_tfu_supports example_u_minify
                     example_color_image example_color_image example_extent 0
                     example_whole_blit VK_FILTER_NEAREST example_slice)
    by (repeat split; vm_compute; congruence).
  split; [exact Htakes|].
  destruct (blit_tfu_all_or_nothing example_tfu_supports example_u_minify
              example_color_image example_color_image example_extent 0
              example_whole_blit VK_FILTER_NEAREST)
    as (_ & _ & Hplain).
  apply (Hplain example_slice Htakes eq_refl);
    vm_compute; congruence.
Defined.

(** X27 on the levels 1 and 2 and the two layers of a colour image. *)
Lemma clear_image_tlb_one_job_per_level_and_layer_witness :
  exists jobs,
    clear_image_tlb example_get_format example_for_output_format
      example_hw_clear_color example_pack_color example_u_minify 2 always_job
      example_color_image example_image_layout VK_FORMAT_R8G8B8A8_UINT
      example_clear_color example_range
    = Done jobs
    /\ map (fun j => (clear_job_level j, clear_job_layer j)) jobs
       = [(1, 0); (1, 1); (2, 0); (2, 1)]
    /\ map clear_job_width jobs = [50; 50; 25; 25].
Proof.
  eexists. split.
  - apply (clear_image_tlb_one_job_per_level_and_layer example_get_format
             example_for_output_format example_hw_clear_color
             example_pack_color example_u_minify 2 always_job
             example_color_image example_image_layout VK_FORMAT_R8G8B8A8_UINT
             example_clear_color example_range V3D_INTERNAL_TYPE_8UI
             V3D_INTERNAL_BPP_32
             {| color0 := 1; color1 := 2; color2 := 3; color3 := 4 |});
      try reflexivity; try (intros H; discriminate H);
      try (intros H; exfalso; apply H; reflexivity);
      vm_compute; intuition congruence.
  - split; reflexivity.
Defined.
(** X26 with every instruction passing. *)
Lemma bit_sweeps_cover_both_sizes_witness :
  (2 <= 2)%nat
  /\ exists log,
       bit_fmod 2 (fun _ => always_pass) [1; 2] [3; 4] = Done log
       /\ length (tested log) = 112%nat.
Proof.
  split; [lia|].
  destruct (bit_sweeps_cover_both_sizes 2 (fun _ => always_pass) [1; 2] [3; 4]
              ltac:(lia))
    as ((log & Hrun & _ & _ & Hlen & _) & _).
  exists log. split; assumption.
Defined.


(** X28 on a copy from a red-only image to a four-channel image. *)
Lemma copy_image_command_uses_destination_format_witness :
  v3dv_CmdCopyImage example_copy_image_tlb example_color_image
    example_r8_image (example_get_format VK_FORMAT_R8G8B8A8_UINT)
    (example_get_format VK_FORMAT_R8_UINT) [example_image_copy]
  = Done [(VK_FORMAT_R8G8B8A8_UINT, example_image_copy)].
Proof.
  destruct (copy_image_command_uses_destination_format example_copy_image_tlb
              example_color_image example_r8_image
              (example_get_format VK_FORMAT_R8G8B8A8_UINT)
              (example_get_format VK_FORMAT_R8_UINT) [example_image_copy])
    as (_ & Hruns & _).
  apply Hruns.
  - split; left; reflexivity.
  - constructor; [|constructor]. repeat split; reflexivity.
Defined.
